(** * git-wrapped: the acquisition layer, the insights engine and the search

    A shallow embedding of [src/api/github.ts] (the fetchers, the cache
    and [fetchAllGitHubData]), of [src/services/insightsEngine.ts] (the
    whole of [calculateInsights]), of [handleSearch] of [src/App.tsx] and
    of the month labels of the contribution heat map, with the properties
    of the specification and further properties of the code stated over
    it.

    Conventions.
    - A JavaScript [number] that holds a count, an index or an instant is a
      [Z]; [arr.length] is [len arr].
    - An instant (what [new Date(s).getTime()] returns) is a [Z] in
      milliseconds since the epoch; a timestamp field of the API
      ([created_at], [pushed_at]) is represented by the instant it denotes,
      and a calendar date string [YYYY-MM-DD] by its three numbers
      ([IsoDate]).  Where a function makes a [Date] of a year, a property
      that depends on it takes the instant to be one a [Date] can hold
      ([inDateRange]).
    - The parts of the JavaScript run-time that the program reads but does
      not define are gathered in [JsHost]: the local time zone (a fixed
      offset from UTC), and the two expressions evaluated in double
      precision.  The clock is an argument, [now].  The streaks are given
      a second time for a zone whose offset changes ([Zone]).
    - A loop of the program is a recursion on a number of rounds; each is
      proved to end within the rounds it is given.
    - The fetchers that [Promise.all] runs together are tasks, cut at their
      awaits; the order in which what they await settles is an argument,
      the schedule.  They are given a second time for responses whose
      bodies need not be JSON ([readable]).

    The definitions come first: the run-time, the types, the service
    layer, the engine, the vocabulary of the properties and the data of
    the examples; then the rest of the service layer, the fetchers side by
    side, the search, the heat map, the streaks in a zone with daylight
    saving, the bodies that are not JSON, and the vocabulary of the
    further properties.  The properties follow, those of the specification marked
    with their number, the further ones with an X. *)

From Stdlib Require Import ZArith Lia List String Bool.
From Stdlib Require Import Floats Uint63 Sorted.
From stdpp Require Import base list gmap strings pretty.

#[local] Set Warnings "-clear-no-such-hyp".

Open Scope string_scope.
Open Scope list_scope.
Open Scope Z_scope.

(* ================================================================== *)
(** ** The JavaScript run-time the program relies on                   *)
(* ================================================================== *)

(** [arr.length] *)
Definition len {A : Type} (l : list A) : Z := Z.of_nat (length l).

(** [x || y] on numbers: [0] is falsy. *)
Definition num_or (x y : Z) : Z := if x =? 0 then y else x.

(** [o?.f || y] on a nullable object [o] with a numeric field [f]. *)
Definition opt_num_or {A : Type} (o : option A) (f : A -> Z) (y : Z) : Z :=
  match o with
  | Some a => num_or (f a) y
  | None => y
  end.

(** Truthiness of a nullable string ([null] and the empty string are falsy). *)
Definition truthy (s : option string) : bool :=
  match s with
  | Some s => negb (String.eqb s "")
  | None => false
  end.

(** [Array.prototype.sort(cmp)]: a stable sort; [cmp a b <= 0] keeps [a]
    before [b].  Any stable sort returns the same array for a consistent
    comparator, so insertion from the right stands for the engine's. *)
Section JsSort.
Context {A : Type} (cmp : A -> A -> Z).

Fixpoint sort_insert (x : A) (l : list A) : list A :=
  match l with
  | [] => [x]
  | y :: l' => if cmp x y <=? 0 then x :: y :: l' else y :: sort_insert x l'
  end.

Definition js_sort (l : list A) : list A := foldr sort_insert [] l.
End JsSort.

(** [arr.slice(0, n)] for [n >= 0]. *)
Definition slice0 {A : Type} (n : nat) (l : list A) : list A := take n l.

(** A calendar date as written in a [YYYY-MM-DD] string; [dmonth] is 1..12. *)
Record IsoDate := mkIsoDate { dyear : Z; dmonth : Z; dday : Z }.

Module Date.

Definition msPerDay : Z := 86400000.
Definition msPerHour : Z := 3600000.

(** Days of the proleptic Gregorian calendar, counted from 1970-01-01; the
    year is cut at March 1 into eras of 400 years (146097 days). *)
Definition doe_of (yoe mp d : Z) : Z :=
  yoe * 365 + yoe / 4 - yoe / 100 + ((153 * mp + 2) / 5 + d - 1).

Definition days_from_civil (y m d : Z) : Z :=
  let y' := if m <=? 2 then y - 1 else y in
  let era := y' / 400 in
  let yoe := y' - era * 400 in
  let mp := (m + 9) mod 12 in
  era * 146097 + doe_of yoe mp d - 719468.

Definition civil_of_doe (doe : Z) : Z * Z * Z :=
  let yoe := (doe - doe / 1460 + doe / 36524 - doe / 146096) / 365 in
  let doy := doe - (365 * yoe + yoe / 4 - yoe / 100) in
  let mp := (5 * doy + 2) / 153 in
  (yoe, mp, doy - (153 * mp + 2) / 5 + 1).

Definition civil_from_days (z : Z) : IsoDate :=
  let z' := z + 719468 in
  let era := z' / 146097 in
  let '(yoe, mp, d) := civil_of_doe (z' - era * 146097) in
  let m := if mp <? 10 then mp + 3 else mp - 9 in
  mkIsoDate (yoe + era * 400 + (if m <=? 2 then 1 else 0)) m d.

(** ECMAScript's [MakeDay(year, month, date)], [month] counted from 0 and
    allowed to overflow. *)
Definition MakeDay (year month date : Z) : Z :=
  days_from_civil (year + month / 12) (month mod 12 + 1) 1 + date - 1.

Definition Day (t : Z) : Z := t / msPerDay.
Definition TimeWithinDay (t : Z) : Z := t mod msPerDay.

(** [tz] is the offset of local time from UTC in milliseconds (positive
    east of Greenwich); it is taken as constant over the year. *)
Definition LocalTime (tz t : Z) : Z := t + tz.
Definition UTC (tz t : Z) : Z := t - tz.

(** [new Date(year, monthIndex, day)]: midnight local time; a year in
    0..99 stands for 1900 + year. *)
Definition make (tz year monthIndex day : Z) : Z :=
  let y := if (0 <=? year) && (year <=? 99) then 1900 + year else year in
  UTC tz (MakeDay y monthIndex day * msPerDay).

(** [new Date("YYYY-MM-DD").getTime()]: a date-only string is midnight UTC. *)
Definition parse (d : IsoDate) : Z :=
  days_from_civil (dyear d) (dmonth d) (dday d) * msPerDay.

Definition getFullYear (tz t : Z) : Z :=
  dyear (civil_from_days (Day (LocalTime tz t))).
Definition getMonth (tz t : Z) : Z :=
  dmonth (civil_from_days (Day (LocalTime tz t))) - 1.
Definition getDate (tz t : Z) : Z :=
  dday (civil_from_days (Day (LocalTime tz t))).
Definition getDay (tz t : Z) : Z := (Day (LocalTime tz t) + 4) mod 7.
Definition getHours (tz t : Z) : Z :=
  TimeWithinDay (LocalTime tz t) / msPerHour.

(** [d.setHours(0, 0, 0, 0)], with the one offset; [setHours0In] below
    takes the offset from the zone. *)
Definition setHours0 (tz t : Z) : Z :=
  UTC tz (Day (LocalTime tz t) * msPerDay).

(** [d.setDate(date)] *)
Definition setDate (tz t date : Z) : Z :=
  let l := LocalTime tz t in
  let c := civil_from_days (Day l) in
  UTC tz (MakeDay (dyear c) (dmonth c - 1) date * msPerDay + TimeWithinDay l).

(** [d.toISOString().split('T')[0]]: the date in UTC. *)
Definition toISODate (t : Z) : IsoDate := civil_from_days (Day t).

End Date.

(** What the engine reads from its host. *)
Record JsHost := mkJsHost {
  (** offset of the local time zone, see [Date.LocalTime] *)
  tzOffset : Z;
  (** [Math.round((a / b) * 100)] on the doubles of the integers [a], [b] *)
  roundPercent : Z -> Z -> Z;
  (** sign of [bScore - aScore] for the doubles
      [score = stars + pushedMillis / 1e12], given as
      [scoreDiff aStars aPushed bStars bPushed] *)
  scoreDiff : Z -> Z -> Z -> Z -> Z;
}.

(** The one property of double-precision evaluation that the proofs use:
    over array lengths (below 2^32) the two roundings of [a / b * 100]
    perturb the quotient by less than 1e-13, so [Math.round] of it is an
    integer nearest to the exact [100 a / b]; which way an exact tie falls
    is left open. *)
Definition rounds_to_nearest (h : JsHost) : Prop :=
  forall a b : Z, 0 <= a <= b -> 0 < b < 2 ^ 32 ->
    2 * Z.abs (roundPercent h a b * b - 100 * a) <= b.

(** *** Double precision, as the kernel's binary64 *)
Module Ieee.

Definition of_Z (z : Z) : float :=
  if z <? 0 then PrimFloat.opp (PrimFloat.of_uint63 (Uint63.of_Z (- z)))
  else PrimFloat.of_uint63 (Uint63.of_Z z).

(** [Math.round] of a double: the nearest integer, a tie going up, that
    is [floor (x + 1/2)], computed on [x = n * 2^e] without rounding.  The
    engine rounds quotients with a divisor that is not 0 only, so no
    infinity or NaN comes here. *)
Definition Math_round (x : float) : Z :=
  match Prim2SF x with
  | S754_finite s m e =>
      let n := if s then Z.neg m else Z.pos m in
      (Z.shiftl n (e + 1) + 1) / 2          (* floor ((floor (2 x) + 1) / 2) *)
  | S754_zero _ => 0
  | S754_infinity _ | S754_nan => 0
  end.

Definition roundPercent (a b : Z) : Z :=
  Math_round (PrimFloat.mul (PrimFloat.div (of_Z a) (of_Z b)) (of_Z 100)).

Definition score (stars pushed : Z) : float :=
  PrimFloat.add (of_Z stars) (PrimFloat.div (of_Z pushed) (of_Z (10 ^ 12))).

Definition scoreDiff (aStars aPushed bStars bPushed : Z) : Z :=
  match PrimFloat.compare (score bStars bPushed) (score aStars aPushed) with
  | FEq => 0
  | FLt => -1
  | FGt => 1
  | FNotComparable => 0
  end.

Definition host (tz : Z) : JsHost := mkJsHost tz roundPercent scoreDiff.

End Ieee.

(** *** Exact arithmetic: the same expressions over the rationals *)
Module Exact.

Definition roundPercent (a b : Z) : Z := (200 * a + b) / (2 * b).

Definition scoreDiff (aStars aPushed bStars bPushed : Z) : Z :=
  (bStars * 10 ^ 12 + bPushed) - (aStars * 10 ^ 12 + aPushed).

Definition host (tz : Z) : JsHost := mkJsHost tz roundPercent scoreDiff.

End Exact.

(* ================================================================== *)
(** ** Types (the repository's type definitions)                       *)
(* ================================================================== *)

Record GitHubUser := mkGitHubUser {
  login : string;
  user_id : Z;
  avatar_url : string;
  user_html_url : string;
  user_name : option string;
  company : option string;
  blog : option string;
  location : option string;
  email : option string;
  bio : option string;
  twitter_username : option string;
  public_repos : Z;
  public_gists : Z;
  followers : Z;
  following : Z;
  user_created_at : Z;
}.

Record GitHubRepo := mkGitHubRepo {
  repo_id : Z;
  name : string;
  full_name : string;
  html_url : string;
  description : option string;
  fork : bool;
  created_at : Z;
  updated_at : Z;
  pushed_at : Z;
  homepage : option string;
  repo_size : Z;
  stargazers_count : Z;
  watchers_count : Z;
  language : option string;
  forks_count : Z;
  open_issues_count : Z;
  default_branch : string;
  topics : list string;
}.

Record EventActor := mkEventActor {
  actor_id : Z;
  actor_login : string;
  actor_avatar_url : string;
}.

Record EventRepo := mkEventRepo {
  event_repo_id : Z;
  event_repo_name : string;
  event_repo_url : string;
}.

(** [payload: Record<string, unknown>]; the engine reads only the length of
    its [commits] array, when there is one. *)
Record EventPayload := mkEventPayload {
  commits : option (list unit);
}.

Record GitHubEvent := mkGitHubEvent {
  event_id : string;
  type : string;
  actor : EventActor;
  repo : EventRepo;
  payload : EventPayload;
  public : bool;
  event_created_at : Z;
}.

Inductive ContributionLevel :=
  | NONE | FIRST_QUARTILE | SECOND_QUARTILE | THIRD_QUARTILE | FOURTH_QUARTILE.

Record ContributionDay := mkContributionDay {
  date : IsoDate;
  contributionCount : Z;
  contributionLevel : ContributionLevel;
}.

Record ContributionWeek := mkContributionWeek {
  contributionDays : list ContributionDay;
}.

Record ContributionCalendar := mkContributionCalendar {
  totalContributions : Z;
  weeks : list ContributionWeek;
}.

Record LanguageStat := mkLanguageStat {
  lang_name : string;
  count : Z;
  percentage : Z;
  color : string;
}.

Record RepoStat := mkRepoStat {
  rs_name : string;
  rs_fullName : string;
  rs_url : string;
  rs_stars : Z;
  rs_commits : Z;
  rs_language : option string;
  rs_description : option string;
}.

Record MonthlyActivity := mkMonthlyActivity {
  month : string;
  ma_year : Z;
  contributions : Z;
}.

Record PersonalityTrait := mkPersonalityTrait {
  trait_name : string;
  value : Z;
  label : string;
}.

Record DeveloperPersonality := mkDeveloperPersonality {
  title : string;
  emoji : string;
  pers_description : string;
  traits : list PersonalityTrait;
}.

Record WrappedInsights := mkWrappedInsights {
  (* Basic Stats *)
  wi_totalContributions : Z;
  totalCommits : Z;
  totalPRs : Z;
  totalIssues : Z;
  totalReviews : Z;
  (* Repository Stats *)
  repositoriesContributedTo : Z;
  newRepositoriesCreated : Z;
  topRepositories : list RepoStat;
  (* Language Stats *)
  topLanguages : list LanguageStat;
  totalLanguages : Z;
  (* Time-based Stats *)
  mostProductiveDay : string;
  mostProductiveHour : Z;
  peakHourRange : string;
  activityByDay : list (string * Z);
  activityByHour : list Z;
  monthlyActivity : list MonthlyActivity;
  (* Streaks *)
  longestStreak : Z;
  currentStreak : Z;
  totalActiveDays : Z;
  (* Ratios & Scores *)
  soloVsTeamScore : Z;
  bugSlayerScore : Z;
  (* Contribution Calendar *)
  contributionCalendar : ContributionCalendar;
  (* Personality *)
  personality : DeveloperPersonality;
}.

(** The colour table [LANGUAGE_COLORS], in the order it is written. *)
Definition LANGUAGE_COLORS : list (string * string) :=
  [ ("JavaScript", "#f7df1e"); ("TypeScript", "#3178c6"); ("Python", "#3572A5");
    ("Java", "#b07219"); ("C++", "#f34b7d"); ("C", "#555555"); ("C#", "#178600");
    ("Go", "#00ADD8"); ("Rust", "#dea584"); ("Ruby", "#701516"); ("PHP", "#4F5D95");
    ("Swift", "#F05138"); ("Kotlin", "#A97BFF"); ("Dart", "#00B4AB");
    ("Scala", "#c22d40"); ("Shell", "#89e051"); ("HTML", "#e34c26");
    ("CSS", "#563d7c"); ("Vue", "#41b883"); ("SCSS", "#c6538c"); ("Lua", "#000080");
    ("R", "#198CE7"); ("Perl", "#0298c3"); ("Haskell", "#5e5086");
    ("Elixir", "#6e4a7e"); ("Clojure", "#db5855"); ("Objective_C", "#438eff");
    ("Default", "#8b949e") ].

Fixpoint assoc {V : Type} (k : string) (l : list (string * V)) : option V :=
  match l with
  | [] => None
  | (k', v) :: l' => if String.eqb k k' then Some v else assoc k l'
  end.

(** [LANGUAGE_COLORS[language] || LANGUAGE_COLORS.Default] *)
Definition getLanguageColor (language : string) : string :=
  match assoc language LANGUAGE_COLORS with
  | Some c => c
  | None => "#8b949e"
  end.

(* ================================================================== *)
(** ** The GitHub API service layer                                    *)
(* ================================================================== *)

Definition GITHUB_API_BASE : string := "https://api.github.com".

Record RateLimitInfo := mkRateLimitInfo {
  remaining : Z;
  limit : Z;
  resetTime : Z;        (* the instant [new Date(reset * 1000)] *)
}.

(** The three quota headers of a response; a header that is present is
    represented by the number it spells. *)
Record Headers := mkHeaders {
  X_RateLimit_Remaining : option Z;
  X_RateLimit_Limit : option Z;
  X_RateLimit_Reset : option Z;
}.

Record Response (T : Type) := mkResponse {
  status : Z;
  statusText : string;
  headers : Headers;
  json : T;
}.
Arguments mkResponse {T}.
Arguments status {T}.
Arguments statusText {T}.
Arguments headers {T}.
Arguments json {T}.

(** [response.ok] *)
Definition ok {T : Type} (r : Response T) : bool :=
  (200 <=? status r) && (status r <=? 299).

(** What [fetch(url)] settles to: a response, or a rejection. *)
Inductive Fetched (T : Type) :=
  | Rejected
  | Responded (r : Response T).
Arguments Rejected {T}.
Arguments Responded {T}.

(** The network, seen from the client: the outcome of a GET of each URL. *)
Definition Network (T : Type) := string -> Fetched T.

(** What an operation of this layer can throw.  [OutOfFuel] is not an
    exception of the program: it marks a loop of the model that was cut
    short, and the fetchers are proved never to raise it. *)
Inductive Thrown :=
  | GitHubApiError (message : string) (st : Z) (code : option string)
  | FetchRejected
  | OutOfFuel.

(** The module-level state, and the list of the URLs requested so far
    (most recent last), which the program does not keep but its
    specification counts. *)
Record World := mkWorld {
  rateLimitInfo : option RateLimitInfo;
  requested : list string;
}.

Definition M (A : Type) : Type := World -> (Thrown + A) * World.

Definition ret {A : Type} (a : A) : M A := fun w => (inr a, w).
Definition throw {A : Type} (e : Thrown) : M A := fun w => (inl e, w).
Definition bind {A B : Type} (m : M A) (k : A -> M B) : M B :=
  fun w =>
    match m w with
    | (inl e, w') => (inl e, w')
    | (inr a, w') => k a w'
    end.
(** [try { m } catch (error) { handler }] *)
Definition try_catch {A : Type} (m : M A) (handler : Thrown -> M A) : M A :=
  fun w =>
    match m w with
    | (inl OutOfFuel, w') => (inl OutOfFuel, w')
    | (inl e, w') => handler e w'
    | (inr a, w') => (inr a, w')
    end.

Notation "'let*' x := m 'in' k" := (bind m (fun x => k))
  (at level 10, x pattern, m at level 100, k at level 200).

Definition updateRateLimit (hs : Headers) : M unit :=
  fun w =>
    match X_RateLimit_Remaining hs, X_RateLimit_Limit hs, X_RateLimit_Reset hs with
    | Some rem, Some lim, Some reset =>
        (inr tt, mkWorld (Some (mkRateLimitInfo rem lim (reset * 1000))) (requested w))
    | _, _, _ => (inr tt, w)
    end.

Definition getRateLimitInfo : M (option RateLimitInfo) :=
  fun w => (inr (rateLimitInfo w), w).

(** [await fetch(url, ...)] *)
Definition fetch {T : Type} (net : Network T) (url : string) : M (Response T) :=
  fun w =>
    let w' := mkWorld (rateLimitInfo w) (requested w ++ [url]) in
    match net url with
    | Rejected => (inl FetchRejected, w')
    | Responded r => (inr r, w')
    end.

(** [resetTime.toLocaleTimeString()], a text of the host's locale, is kept
    as the instant it renders. *)
Definition rateLimitMessage (reset : option Z) : string :=
  "API rate limit exceeded. Try again at " +:+
  match reset with
  | Some t => "<" +:+ pretty t +:+ ">"
  | None => "soon"
  end.

Definition fetchGitHub {T : Type} (net : Network T) (endpoint : string) : M T :=
  let url :=
    if String.prefix "http" endpoint then endpoint
    else GITHUB_API_BASE +:+ endpoint in
  let* response := fetch net url in
  let* _ := updateRateLimit (headers response) in
  if negb (ok response) then
    if status response =? 404 then
      throw (GitHubApiError "User not found" 404 (Some "NOT_FOUND"))
    else if status response =? 403 then
      let* info := getRateLimitInfo in
      throw (GitHubApiError (rateLimitMessage (resetTime <$> info)) 403
                            (Some "RATE_LIMITED"))
    else
      throw (GitHubApiError ("GitHub API error: " +:+ statusText response)
                            (status response) None)
  else ret (json response).

Definition fetchUserProfile (net : Network GitHubUser) (username : string)
  : M GitHubUser :=
  fetchGitHub net ("/users/" +:+ username).

Definition perPage : Z := 100.

Definition reposEndpoint (username : string) (page : Z) : string :=
  "/users/" +:+ username +:+ "/repos?per_page=" +:+ pretty perPage +:+
  "&page=" +:+ pretty page +:+ "&sort=updated&type=owner".

Definition eventsEndpoint (username : string) (page : Z) : string :=
  "/users/" +:+ username +:+ "/events?per_page=" +:+ pretty perPage +:+
  "&page=" +:+ pretty page.

Section Fetchers.
(** The fetchers do not look into the items of a page. *)
Context {Item : Type} (net : Network (list Item)) (username : string).

(** The [while] loop of [fetchUserRepos]; [repos] and [page] are its two
    variables. *)
Fixpoint fetchUserRepos_loop (fuel : nat) (maxRepos : Z)
    (repos : list Item) (page : Z) : M (list Item) :=
  if len repos <? maxRepos then
    match fuel with
    | O => throw OutOfFuel
    | S fuel' =>
        let* pageRepos := fetchGitHub net (reposEndpoint username page) in
        if len pageRepos =? 0 then ret repos
        else
          let repos := repos ++ pageRepos in
          let page := page + 1 in
          if len pageRepos <? perPage then ret repos
          else fetchUserRepos_loop fuel' maxRepos repos page
    end
  else ret repos.

Definition fetchUserRepos (maxRepos : Z) : M (list Item) :=
  let* repos := fetchUserRepos_loop (Z.to_nat maxRepos) maxRepos [] 1 in
  ret (slice0 (Z.to_nat maxRepos) repos).

(** The [while] loop of [fetchUserEvents]; a [break] in the [catch] block
    leaves the loop with the events gathered so far. *)
Fixpoint fetchUserEvents_loop (fuel : nat) (maxEvents : Z)
    (events : list Item) (page : Z) : M (list Item) :=
  if (len events <? maxEvents) && (page <=? 3) then
    match fuel with
    | O => throw OutOfFuel
    | S fuel' =>
        let* (events, page, broke) :=
          try_catch
            (let* pageEvents :=
               fetchGitHub net (eventsEndpoint username page) in
             if len pageEvents =? 0 then ret (events, page, true)
             else ret (events ++ pageEvents, page + 1, false))
            (fun _ => ret (events, page, true)) in
        if broke : bool then ret events
        else fetchUserEvents_loop fuel' maxEvents events page
    end
  else ret events.

Definition fetchUserEvents (maxEvents : Z) : M (list Item) :=
  fetchUserEvents_loop 3 maxEvents [] 1.

End Fetchers.

(** The state a page starts from. *)
Definition initialWorld : World := mkWorld None [].

(** The contribution data of the GraphQL API. *)
Record CommitRepository := mkCommitRepository {
  cr_name : string;
  nameWithOwner : string;
  cr_url : string;
  primaryLanguage : option string;       (* [{ name } | null] *)
  stargazerCount : Z;
  cr_description : option string;
}.

Record CommitContributions := mkCommitContributions {
  repository : CommitRepository;
  totalCount : Z;                        (* [contributions.totalCount] *)
}.

Record ContributionData := mkContributionData {
  totalCommitContributions : Z;
  totalPullRequestContributions : Z;
  totalIssueContributions : Z;
  totalPullRequestReviewContributions : Z;
  totalRepositoriesWithContributedCommits : Z;
  cd_contributionCalendar : ContributionCalendar;
  commitContributionsByRepository : list CommitContributions;
}.

Record AllGitHubData := mkAllGitHubData {
  user : GitHubUser;
  repos : list GitHubRepo;
  events : list GitHubEvent;
  contributionData : option ContributionData;
  data_contributionCalendar : option ContributionCalendar;
}.

(* ================================================================== *)
(** ** The insights engine                                             *)
(* ================================================================== *)

Definition DAYS : list string :=
  ["Sunday"; "Monday"; "Tuesday"; "Wednesday"; "Thursday"; "Friday"; "Saturday"].
Definition MONTHS : list string :=
  ["Jan"; "Feb"; "Mar"; "Apr"; "May"; "Jun";
   "Jul"; "Aug"; "Sep"; "Oct"; "Nov"; "Dec"].

(** [arr[i]] of an array of strings, for an index within it. *)
Definition at_index (l : list string) (i : Z) : string :=
  default "" (l !! Z.to_nat i).

(** [counts[i] += v] on a table indexed 0..n-1. *)
Definition add_at (i v : Z) (counts : list Z) : list Z :=
  alter (fun c => c + v) (Z.to_nat i) counts.

(** [counts[i]], [0] where the table has no such index. *)
Definition get_at (counts : list Z) (i : Z) : Z :=
  default 0 (counts !! Z.to_nat i).

(** *** calculateBasicStats *)

Record BasicStats := mkBasicStats {
  bs_totalContributions : Z;
  bs_commits : Z;
  bs_prs : Z;
  bs_issues : Z;
  bs_reviews : Z;
  bs_reposContributedTo : Z;
}.

(** The counters of the loop over the events. *)
Record EventTally := mkEventTally {
  t_commits : Z;
  t_prs : Z;
  t_issues : Z;
  t_reviews : Z;
  t_reposSet : gset string;
}.

(** [payload.commits?.length || 1] *)
Definition pushedCommits (e : GitHubEvent) : Z :=
  num_or (match commits (payload e) with Some cs => len cs | None => 0 end) 1.

Definition tallyEvent (t : EventTally) (event : GitHubEvent) : EventTally :=
  let reposSet := {[ event_repo_name (repo event) ]} ∪ t_reposSet t in
  if String.eqb (type event) "PushEvent" then
    mkEventTally (t_commits t + pushedCommits event)
                 (t_prs t) (t_issues t) (t_reviews t) reposSet
  else if String.eqb (type event) "PullRequestEvent" then
    mkEventTally (t_commits t) (t_prs t + 1) (t_issues t) (t_reviews t) reposSet
  else if String.eqb (type event) "IssuesEvent" then
    mkEventTally (t_commits t) (t_prs t) (t_issues t + 1) (t_reviews t) reposSet
  else if String.eqb (type event) "PullRequestReviewEvent" then
    mkEventTally (t_commits t) (t_prs t) (t_issues t) (t_reviews t + 1) reposSet
  else t.

Definition tallyEvents (events : list GitHubEvent) : EventTally :=
  fold_left tallyEvent events (mkEventTally 0 0 0 0 ∅).

(** The two nested loops that add up the day counts of a calendar. *)
Definition sumCalendar (calendar : ContributionCalendar) : Z :=
  fold_left
    (fun acc week =>
       fold_left (fun acc day => acc + contributionCount day)
                 (contributionDays week) acc)
    (weeks calendar) 0.

Definition calculateBasicStats (events : list GitHubEvent)
    (contributionData : option ContributionData)
    (contributionCalendar : option ContributionCalendar) : BasicStats :=
  let calendarCommits :=
    match contributionCalendar with
    | Some calendar => sumCalendar calendar
    | None => 0
    end in
  let t := tallyEvents events in
  match contributionData with
  | Some cd =>
      mkBasicStats
        (totalContributions (cd_contributionCalendar cd))
        (totalCommitContributions cd)
        (totalPullRequestContributions cd)
        (totalIssueContributions cd)
        (totalPullRequestReviewContributions cd)
        (totalRepositoriesWithContributedCommits cd)
  | None =>
      let finalCommits :=
        if calendarCommits >? 0 then calendarCommits else t_commits t in
      mkBasicStats
        (opt_num_or contributionCalendar totalContributions
           (finalCommits + t_prs t + t_issues t + t_reviews t))
        finalCommits (t_prs t) (t_issues t) (t_reviews t)
        (Z.of_nat (size (t_reposSet t)))
  end.

(** *** calculateLanguageStats *)

(** [languageCounts[k] = (languageCounts[k] || 0) + 1] on an object whose
    keys are kept in the order they were first set (language names are
    not array indices, which an object would list first). *)
Fixpoint countKey (k : string) (counts : list (string * Z)) : list (string * Z) :=
  match counts with
  | [] => [(k, 0 + 1)]
  | (k', v) :: counts' =>
      if String.eqb k k' then (k', num_or v 0 + 1) :: counts'
      else (k', v) :: countKey k counts'
  end.

Definition languageCounts (repos : list GitHubRepo) : list (string * Z) :=
  fold_left
    (fun counts repo =>
       match language repo with
       | Some l =>
           if truthy (language repo) && negb (fork repo) then countKey l counts
           else counts
       | None => counts
       end)
    repos [].

Record LanguageStats := mkLanguageStats {
  ls_topLanguages : list LanguageStat;
  ls_totalLanguages : Z;
}.

Definition languageEntries (h : JsHost) (repos : list GitHubRepo)
  : list LanguageStat :=
  let counts := languageCounts repos in
  let totalRepos := fold_left (fun a b => a + b) (map snd counts) 0 in
  js_sort (fun a b => count b - count a)
    (map (fun '(name, cnt) =>
            mkLanguageStat name cnt (roundPercent h cnt totalRepos)
                           (getLanguageColor name))
         counts).

Definition calculateLanguageStats (h : JsHost) (repos : list GitHubRepo)
  : LanguageStats :=
  let languages := languageEntries h repos in
  mkLanguageStats (slice0 8 languages) (len languages).

(** *** calculateTopRepos *)

Definition calculateTopRepos (h : JsHost) (repos : list GitHubRepo)
    (contributionData : option ContributionData) : list RepoStat :=
  match contributionData with
  | Some cd =>
      slice0 6
        (js_sort (fun a b => rs_commits b - rs_commits a)
           (map (fun item =>
                   mkRepoStat
                     (cr_name (repository item))
                     (nameWithOwner (repository item))
                     (cr_url (repository item))
                     (stargazerCount (repository item))
                     (totalCount item)
                     (if truthy (primaryLanguage (repository item))
                      then primaryLanguage (repository item) else None)
                     (cr_description (repository item)))
                (commitContributionsByRepository cd)))
  | None =>
      map (fun repo =>
             mkRepoStat (name repo) (full_name repo) (html_url repo)
                        (stargazers_count repo) 0
                        (language repo) (description repo))
        (slice0 6
           (js_sort
              (fun a b =>
                 scoreDiff h (stargazers_count a) (pushed_at a)
                             (stargazers_count b) (pushed_at b))
              (List.filter (fun r => negb (fork r)) repos)))
  end.

(** *** calculateActivityPatterns *)

Record ActivityPatterns := mkActivityPatterns {
  ap_mostProductiveDay : string;
  ap_mostProductiveHour : Z;
  ap_peakHourRange : string;
  ap_activityByDay : list (string * Z);
  ap_activityByHour : list Z;
  ap_monthlyActivity : list MonthlyActivity;
}.

(** The loop [for (const [key, count] of Object.entries(table))] that keeps
    the first key of the greatest count above 0; the pair is
    [(maxCount, mostProductive)]. *)
Definition argmax (table : list Z) : Z * Z :=
  fold_left
    (fun '(maxCount, best) '(key, cnt) =>
       if cnt >? maxCount then (cnt, key) else (maxCount, best))
    (imap (fun i c => (Z.of_nat i, c)) table)
    (0, 0).

Definition formatHour (h : Z) : string :=
  if h =? 0 then "12 AM"
  else if h =? 12 then "12 PM"
  else if h >? 12 then pretty (h - 12) +:+ " PM"
  else pretty h +:+ " AM".

Definition calculateActivityPatterns (tz : Z) (events : list GitHubEvent)
    (calendar : option ContributionCalendar) (year : Z) : ActivityPatterns :=
  let dayActivity := replicate 7 0 in
  let hourActivity := replicate 24 0 in
  let monthlyContributions := replicate 12 0 in
  (* hour activity comes from the events *)
  let hourActivity :=
    fold_left
      (fun hours event =>
         add_at (Date.getHours tz (event_created_at event)) 1 hours)
      events hourActivity in
  let '(dayActivity, monthlyContributions) :=
    match calendar with
    | Some calendar =>
        fold_left
          (fun acc week =>
             fold_left
               (fun '(days, months) day =>
                  let date := Date.parse (date day) in
                  if (Date.getFullYear tz date =? year)
                     && (contributionCount day >? 0)
                  then (add_at (Date.getDay tz date) (contributionCount day) days,
                        add_at (Date.getMonth tz date) (contributionCount day) months)
                  else (days, months))
               (contributionDays week) acc)
          (weeks calendar) (dayActivity, monthlyContributions)
    | None =>
        fold_left
          (fun '(days, months) event =>
             let date := event_created_at event in
             (add_at (Date.getDay tz date) 1 days,
              add_at (Date.getMonth tz date) 1 months))
          events (dayActivity, monthlyContributions)
    end in
  let mostProductiveDay := snd (argmax dayActivity) in
  let mostProductiveHour := snd (argmax hourActivity) in
  let peakStart := Z.max 0 (mostProductiveHour - 1) in
  let peakEnd := Z.min 23 (mostProductiveHour + 1) in
  let peakHourRange := formatHour peakStart +:+ " - " +:+ formatHour peakEnd in
  let activityByDay :=
    imap (fun dayNum cnt => (at_index DAYS (Z.of_nat dayNum), cnt)) dayActivity in
  let monthlyActivity :=
    imap (fun index month =>
            mkMonthlyActivity month year
              (num_or (get_at monthlyContributions (Z.of_nat index)) 0))
         MONTHS in
  mkActivityPatterns (at_index DAYS mostProductiveDay) mostProductiveHour
                     peakHourRange activityByDay hourActivity monthlyActivity.

(** *** calculateStreaks *)

Record Streaks := mkStreaks {
  s_longestStreak : Z;
  s_currentStreak : Z;
  s_totalActiveDays : Z;
}.

(** The four variables of the scan. *)
Record StreakState := mkStreakState {
  longest : Z;
  current : Z;
  temp : Z;
  active : Z;
}.

(** [Math.floor((today - dayDate) / (1000 * 60 * 60 * 24))] *)
Definition diffDays (tz today : Z) (day : ContributionDay) : Z :=
  let dayDate := Date.setHours0 tz (Date.parse (date day)) in
  (today - dayDate) / (1000 * 60 * 60 * 24).

Definition streakStep (tz today : Z) (s : StreakState) (day : ContributionDay)
  : StreakState :=
  if contributionCount day >? 0 then
    let totalActiveDays := active s + 1 in
    let tempStreak := temp s + 1 in
    mkStreakState (longest s)
                  (if diffDays tz today day <=? 1 then tempStreak else current s)
                  tempStreak totalActiveDays
  else
    mkStreakState (Z.max (longest s) (temp s)) (current s) 0 (active s).

(** The days of all weeks, in chronological order. *)
Definition allDays (calendar : ContributionCalendar) : list ContributionDay :=
  js_sort (fun a b => Date.parse (date a) - Date.parse (date b))
          (flat_map contributionDays (weeks calendar)).

(** [now] is the instant [new Date()] reads from the clock. *)
Definition calculateStreaks (tz now : Z) (calendar : option ContributionCalendar)
  : Streaks :=
  match calendar with
  | None => mkStreaks 0 0 0
  | Some calendar =>
      let today := Date.setHours0 tz now in
      let s := fold_left (streakStep tz today) (allDays calendar)
                         (mkStreakState 0 0 0 0) in
      mkStreaks (Z.max (longest s) (temp s)) (current s) (active s)
  end.

(** *** calculateScores *)

Record Scores := mkScores {
  soloScore : Z;
  sc_bugSlayerScore : Z;
}.

Definition calculateScores (h : JsHost) (events : list GitHubEvent)
    (repos : list GitHubRepo) : Scores :=
  let ownRepos := List.filter (fun r => negb (fork r)) repos in
  let forkedRepos := List.filter (fun r => fork r) repos in
  let soloScore :=
    roundPercent h (len ownRepos) (Z.max 1 (len ownRepos + len forkedRepos)) in
  let '(issues, prs) :=
    fold_left
      (fun '(issues, prs) event =>
         let issues :=
           if String.eqb (type event) "IssuesEvent" then issues + 1 else issues in
         let prs :=
           if String.eqb (type event) "PullRequestEvent" then prs + 1 else prs in
         (issues, prs))
      events (0, 0) in
  let bugSlayerScore :=
    if issues + prs >? 0 then roundPercent h issues (issues + prs) else 50 in
  mkScores soloScore bugSlayerScore.

(** *** calculatePersonality *)

(** [new Set(repos.map((r) => r.language).filter(Boolean))] *)
Definition personalityLanguages (repos : list GitHubRepo) : gset string :=
  list_to_set (omap id (List.filter truthy (map language repos))).

Definition isNightOwl (mostProductiveHour : Z) : bool :=
  (mostProductiveHour >=? 20) || (mostProductiveHour <? 6).
Definition isEarlyBird (mostProductiveHour : Z) : bool :=
  (mostProductiveHour >=? 5) && (mostProductiveHour <? 10).
Definition isPolyglot (repos : list GitHubRepo) : bool :=
  Z.of_nat (size (personalityLanguages repos)) >=? 5.

(** [activityByDay[day] || 0] *)
Definition activityOn (activityByDay : list (string * Z)) (day : string) : Z :=
  num_or (default 0 (assoc day activityByDay)) 0.

(** [weekendActivity > weekdayActivity * 0.4].  The product is a double;
    against an integer it compares as the exact [2/5] does (the double of
    0.4 exceeds 0.4 by less than one part in 10^16). *)
Definition isWeekendWarrior (activityByDay : list (string * Z)) : bool :=
  let weekendActivity :=
    activityOn activityByDay "Saturday" + activityOn activityByDay "Sunday" in
  let weekdayActivity :=
    activityOn activityByDay "Monday" + activityOn activityByDay "Tuesday" +
    activityOn activityByDay "Wednesday" + activityOn activityByDay "Thursday" +
    activityOn activityByDay "Friday" in
  2 * weekdayActivity <? 5 * weekendActivity.

Definition isSolo (scores : Scores) : bool := soloScore scores >? 70.

Definition calculatePersonality (events : list GitHubEvent)
    (repos : list GitHubRepo) (mostProductiveHour : Z)
    (activityByDay : list (string * Z)) (scores : Scores)
  : DeveloperPersonality :=
  let isNightOwl := isNightOwl mostProductiveHour in
  let isEarlyBird := isEarlyBird mostProductiveHour in
  let timeTrait :=
    mkPersonalityTrait
      (if isNightOwl then "Night Owl"
       else if isEarlyBird then "Early Bird" else "Daytime Coder")
      (if isNightOwl then 85 else if isEarlyBird then 15 else 50)
      (if isNightOwl then "🦉 Codes when the moon is out"
       else if isEarlyBird then "🐦 Catches the morning commits"
       else "☀️ Peak performance during sunlight") in
  let languages := personalityLanguages repos in
  let isPolyglot := isPolyglot repos in
  let focusTrait :=
    mkPersonalityTrait
      (if isPolyglot then "Polyglot" else "Specialist")
      (Z.min 100 (Z.of_nat (size languages) * 15))
      (if isPolyglot then "🌍 Master of many languages"
       else "🎯 Deep expertise in few") in
  let isWeekendWarrior := isWeekendWarrior activityByDay in
  let workTrait :=
    mkPersonalityTrait
      (if isWeekendWarrior then "Weekend Warrior" else "Weekday Wonder")
      (if isWeekendWarrior then 80 else 30)
      (if isWeekendWarrior then "💪 Codes through weekends"
       else "📅 Balanced work schedule") in
  let isSolo := isSolo scores in
  let collaborationTrait :=
    mkPersonalityTrait
      (if isSolo then "Solo Coder" else "Team Player")
      (soloScore scores)
      (if isSolo then "🏴‍☠️ Independent creator"
       else "🤝 Collaborative spirit") in
  let traits := [timeTrait; focusTrait; workTrait; collaborationTrait] in
  if isNightOwl && isPolyglot then
    mkDeveloperPersonality "Nocturnal Polyglot" "🦉"
      "A versatile night owl who masters multiple languages under the moonlight."
      traits
  else if isEarlyBird && isSolo then
    mkDeveloperPersonality "Dawn Pioneer" "🌅"
      "An independent creator who catches bugs before anyone else wakes up."
      traits
  else if isWeekendWarrior && (sc_bugSlayerScore scores >? 60) then
    mkDeveloperPersonality "Weekend Bug Hunter" "🐛"
      "A dedicated problem solver who squashes bugs even on their days off."
      traits
  else if isPolyglot && negb isSolo then
    mkDeveloperPersonality "Open Source Champion" "🏆"
      "A collaborative polyglot who contributes across the ecosystem."
      traits
  else if isSolo && (Z.of_nat (size languages) <=? 2) then
    mkDeveloperPersonality "Deep Specialist" "🎯"
      "A focused expert who has mastered their chosen technology stack."
      traits
  else if isNightOwl && isWeekendWarrior then
    mkDeveloperPersonality "Code Ninja" "🥷"
      "Strikes when least expected, codes through nights and weekends."
      traits
  else
    mkDeveloperPersonality "Code Crafter" "👨‍💻"
      "A balanced developer with diverse skills."
      traits.

(** *** createEmptyCalendar *)

(** The [while (currentDate <= endDate)] loop; its variables are [weeks],
    the days of [currentWeek], and [currentDate].  [None]: cut short. *)
Fixpoint createEmptyCalendar_loop (fuel : nat) (tz endDate : Z)
    (weeks : list ContributionWeek) (currentWeek : list ContributionDay)
    (currentDate : Z) : option (list ContributionWeek * list ContributionDay) :=
  if currentDate <=? endDate then
    match fuel with
    | O => None
    | S fuel' =>
        let '(weeks, currentWeek) :=
          if (Date.getDay tz currentDate =? 0) && (len currentWeek >? 0)
          then (weeks ++ [mkContributionWeek currentWeek], [])
          else (weeks, currentWeek) in
        let currentWeek :=
          currentWeek ++ [mkContributionDay (Date.toISODate currentDate) 0 NONE] in
        createEmptyCalendar_loop fuel' tz endDate weeks currentWeek
          (Date.setDate tz currentDate (Date.getDate tz currentDate + 1))
    end
  else Some (weeks, currentWeek).

(** A year has at most 366 days; the loop leaves within that many rounds
    ([createEmptyCalendar_loop_exits]). *)
Definition createEmptyCalendar (tz year : Z) : ContributionCalendar :=
  let startDate := Date.make tz year 0 1 in
  let endDate := Date.make tz year 11 31 in
  match createEmptyCalendar_loop 366 tz endDate [] [] startDate with
  | Some (weeks, currentWeek) =>
      mkContributionCalendar 0
        (if len currentWeek >? 0
         then weeks ++ [mkContributionWeek currentWeek] else weeks)
  | None => mkContributionCalendar 0 []
  end.

(** *** calculateInsights *)

(** [h] is the host the page runs in, [now] the instant read by
    [calculateStreaks] from the system clock. *)
Definition calculateInsights (h : JsHost) (now : Z) (data : AllGitHubData)
    (year : Z) : WrappedInsights :=
  let tz := tzOffset h in
  let repos := repos data in
  let contributionData := contributionData data in
  let contributionCalendar := data_contributionCalendar data in
  let yearEvents :=
    List.filter
      (fun event => Date.getFullYear tz (event_created_at event) =? year)
      (events data) in
  let yearRepos :=
    List.filter (fun repo => Date.getFullYear tz (created_at repo) =? year)
                repos in
  let basicStats :=
    calculateBasicStats yearEvents contributionData contributionCalendar in
  let languageStats := calculateLanguageStats h repos in
  let topRepos := calculateTopRepos h repos contributionData in
  let activityPatterns :=
    calculateActivityPatterns tz yearEvents contributionCalendar year in
  let streaks := calculateStreaks tz now contributionCalendar in
  let scores := calculateScores h yearEvents repos in
  let personality :=
    calculatePersonality yearEvents repos
      (ap_mostProductiveHour activityPatterns)
      (ap_activityByDay activityPatterns) scores in
  let calendar :=
    match contributionCalendar with
    | Some calendar => calendar
    | None => createEmptyCalendar tz year
    end in
  mkWrappedInsights
    (opt_num_or contributionData
       (fun cd => totalContributions (cd_contributionCalendar cd))
       (opt_num_or contributionCalendar totalContributions
          (bs_totalContributions basicStats)))
    (opt_num_or contributionData totalCommitContributions (bs_commits basicStats))
    (opt_num_or contributionData totalPullRequestContributions (bs_prs basicStats))
    (opt_num_or contributionData totalIssueContributions (bs_issues basicStats))
    (opt_num_or contributionData totalPullRequestReviewContributions
       (bs_reviews basicStats))
    (opt_num_or contributionData totalRepositoriesWithContributedCommits
       (bs_reposContributedTo basicStats))
    (len yearRepos)
    topRepos
    (ls_topLanguages languageStats)
    (ls_totalLanguages languageStats)
    (ap_mostProductiveDay activityPatterns)
    (ap_mostProductiveHour activityPatterns)
    (ap_peakHourRange activityPatterns)
    (ap_activityByDay activityPatterns)
    (ap_activityByHour activityPatterns)
    (ap_monthlyActivity activityPatterns)
    (s_longestStreak streaks)
    (s_currentStreak streaks)
    (s_totalActiveDays streaks)
    (soloScore scores)
    (sc_bugSlayerScore scores)
    calendar
    personality.

(* ================================================================== *)
(** ** The vocabulary of the properties                                *)
(* ================================================================== *)

Section Answers.
Context {T : Type} (net : Network T).

(** The URL a relative endpoint is fetched from. *)
Definition urlOf (endpoint : string) : string :=
  if String.prefix "http" endpoint then endpoint
  else GITHUB_API_BASE +:+ endpoint.

(** What [fetchGitHub] returns or throws, read off the response. *)
Definition answer (endpoint : string) (w : World) : Thrown + T :=
  match net (urlOf endpoint) with
  | Rejected => inl FetchRejected
  | Responded r =>
      if ok r then inr (json r)
      else if status r =? 404 then
        inl (GitHubApiError "User not found" 404 (Some "NOT_FOUND"))
      else if status r =? 403 then
        inl (GitHubApiError
               (rateLimitMessage
                  (resetTime <$>
                   rateLimitInfo (snd (updateRateLimit (headers r) w))))
               403 (Some "RATE_LIMITED"))
      else
        inl (GitHubApiError ("GitHub API error: " +:+ statusText r)
                            (status r) None)
  end.
End Answers.

(** A request fails when [fetch] rejects or the response is not [ok]. *)
Definition fails {T : Type} (net : Network T) (endpoint : string) : Prop :=
  match net (urlOf endpoint) with
  | Rejected => True
  | Responded r => ok r = false
  end.

Definition sumZ (l : list Z) : Z := foldr Z.add 0 l.

(** The events of the selected year, as [calculateInsights] filters them. *)
Definition eventsOfYear (tz year : Z) (events : list GitHubEvent)
  : list GitHubEvent :=
  List.filter (fun event => Date.getFullYear tz (event_created_at event) =? year)
              events.

(** The tallies of the specification, each written on its own. *)
Definition eventCount (kind : string) (events : list GitHubEvent) : Z :=
  len (List.filter (fun e => String.eqb (type e) kind) events).

Definition eventCommits (events : list GitHubEvent) : Z :=
  sumZ (map pushedCommits
            (List.filter (fun e => String.eqb (type e) "PushEvent") events)).

Definition isCounted (e : GitHubEvent) : bool :=
  String.eqb (type e) "PushEvent" || String.eqb (type e) "PullRequestEvent"
  || String.eqb (type e) "IssuesEvent"
  || String.eqb (type e) "PullRequestReviewEvent".

Definition eventRepos (events : list GitHubEvent) : gset string :=
  list_to_set (map (fun e => event_repo_name (repo e))
                   (List.filter isCounted events)).

(** The sum of all day counts of a calendar. *)
Definition dayCountSum (calendar : ContributionCalendar) : Z :=
  sumZ (map contributionCount (flat_map contributionDays (weeks calendar))).

(** The repositories that enter the language counts. *)
Definition isCountedRepo (r : GitHubRepo) : bool :=
  truthy (language r) && negb (fork r).

(** The traits the rules are stated over. *)
Record TraitValuation := mkTraitValuation {
  nightOwl : bool;
  earlyBird : bool;
  polyglot : bool;
  weekendWarrior : bool;
  solo : bool;
  bugSlayer : Z;
  distinctLanguages : Z;
}.

Definition traitsOf (repos : list GitHubRepo) (mostProductiveHour : Z)
    (activityByDay : list (string * Z)) (scores : Scores) : TraitValuation :=
  mkTraitValuation (isNightOwl mostProductiveHour) (isEarlyBird mostProductiveHour)
    (isPolyglot repos) (isWeekendWarrior activityByDay) (isSolo scores)
    (sc_bugSlayerScore scores) (Z.of_nat (size (personalityLanguages repos))).

(** The rule table of the specification: (predicate, title) pairs in the
    listed order. *)
Definition personalityRules (v : TraitValuation) : list (bool * string) :=
  [ (nightOwl v && polyglot v, "Nocturnal Polyglot");
    (earlyBird v && solo v, "Dawn Pioneer");
    (weekendWarrior v && (bugSlayer v >? 60), "Weekend Bug Hunter");
    (polyglot v && negb (solo v), "Open Source Champion");
    (solo v && (distinctLanguages v <=? 2), "Deep Specialist");
    (nightOwl v && weekendWarrior v, "Code Ninja") ].

(** First match wins; the default applies when no rule matches. *)
Fixpoint firstMatch (rules : list (bool * string)) (default : string) : string :=
  match rules with
  | [] => default
  | (holds, title) :: rules' => if holds then title else firstMatch rules' default
  end.

(** The languages of the repositories that are counted by
    [calculateLanguageStats]: not a fork, with a language. *)
Definition countedLanguages (repos : list GitHubRepo) : gset string :=
  list_to_set
    (omap (fun r => if isCountedRepo r then language r else None) repos).

(** The day number (days since 1970-01-01) of the date of a calendar day,
    and of the local date of an instant. *)
Definition dayNumber (d : ContributionDay) : Z :=
  Date.days_from_civil (dyear (date d)) (dmonth (date d)) (dday (date d)).
Definition localDay (tz t : Z) : Z := Date.Day (Date.LocalTime tz t).

(** The latest day of the calendar with a count above 0, if there is one. *)
Definition mostRecentActiveDay (calendar : ContributionCalendar) : option Z :=
  match
    map dayNumber
      (List.filter (fun d => contributionCount d >? 0)
                   (flat_map contributionDays (weeks calendar)))
  with
  | [] => None
  | n :: ns => Some (foldr Z.max n ns)
  end.

(** The result with the one field that follows the clock set aside. *)
Definition withoutCurrentStreak (w : WrappedInsights) : WrappedInsights :=
  mkWrappedInsights
    (wi_totalContributions w) (totalCommits w) (totalPRs w) (totalIssues w)
    (totalReviews w) (repositoriesContributedTo w) (newRepositoriesCreated w)
    (topRepositories w) (topLanguages w) (totalLanguages w)
    (mostProductiveDay w) (mostProductiveHour w) (peakHourRange w)
    (activityByDay w) (activityByHour w) (monthlyActivity w)
    (longestStreak w) 0 (totalActiveDays w)
    (soloVsTeamScore w) (bugSlayerScore w) (contributionCalendar w)
    (personality w).

Definition allZero (days : list ContributionDay) : Prop :=
  Forall (fun d => contributionCount d = 0 /\ contributionLevel d = NONE) days.

(** The day [createEmptyCalendar] writes for the instant [t]. *)
Definition emptyDay (t : Z) : ContributionDay :=
  mkContributionDay (Date.toISODate t) 0 NONE.

(** The days from [t] on, one every 24 hours. *)
Definition emptyDaysFrom (t : Z) (n : nat) : list ContributionDay :=
  map (fun k => emptyDay (t + Z.of_nat k * Date.msPerDay)) (seq 0 n).

(** The year that [new Date(year, ...)] means. *)
Definition fullYear (year : Z) : Z :=
  if (0 <=? year) && (year <=? 99) then 1900 + year else year.

(* ================================================================== *)
(** ** Data for the examples                                           *)
(* ================================================================== *)

(** Pages for the examples: items are numbered, headers carry no quota. *)
Definition okPage {Item : Type} (items : list Item) : Fetched (list Item) :=
  Responded (mkResponse 200 "OK" (mkHeaders None None None) items).
Definition errorPage {Item : Type} (st : Z) (text : string)
  : Fetched (list Item) :=
  Responded (mkResponse st text (mkHeaders None None None) []).

(** A user with a long history: a full first page of events. *)
Definition busyUser : Network (list nat) :=
  fun url =>
    if String.eqb url (urlOf (eventsEndpoint "ada" 1)) then okPage (seq 0 100)
    else okPage [].

(** A user with 30 events in all. *)
Definition quietUser : Network (list nat) :=
  fun url =>
    if String.eqb url (urlOf (eventsEndpoint "ada" 1)) then okPage (seq 0 30)
    else okPage [].

(** A login that does not exist: every page answers 404. *)
Definition noSuchUser : Network (list nat) :=
  fun _ => errorPage 404 "Not Found".

(** A user whose second page of repositories or events is refused. *)
Definition secondPageDenied : Network (list nat) :=
  fun url =>
    if String.eqb url (urlOf (reposEndpoint "ada" 1)) then okPage (seq 0 100)
    else if String.eqb url (urlOf (eventsEndpoint "ada" 1)) then okPage (seq 0 100)
    else errorPage 403 "Forbidden".

(** Data for the examples. *)
Definition ada : GitHubUser :=
  mkGitHubUser "ada" 1 "https://avatars.githubusercontent.com/u/1"
    "https://github.com/ada" None None None None None None None 3 0 0 0
    1262304000000.

Definition anEvent (kind repoName : string) (pushed : option (list unit))
    (at_ : Z) : GitHubEvent :=
  mkGitHubEvent "1" kind (mkEventActor 1 "ada" "")
    (mkEventRepo 1 repoName ("https://api.github.com/repos/" +:+ repoName))
    (mkEventPayload pushed) true at_.

Definition aRepo (nm : string) (lang : option string) (isFork : bool)
  : GitHubRepo :=
  mkGitHubRepo 1 nm ("ada/" +:+ nm) ("https://github.com/ada/" +:+ nm) None
    isFork 1262304000000 1262304000000 1262304000000 None 0 0 0 lang 0 0
    "main" [].

Definition aDay (y m d c : Z) : ContributionDay :=
  mkContributionDay (mkIsoDate y m d) c
    (if c =? 0 then NONE else if c <=? 3 then FIRST_QUARTILE
     else if c <=? 6 then SECOND_QUARTILE
     else if c <=? 9 then THIRD_QUARTILE else FOURTH_QUARTILE).

(** 2024-03-05T12:00:00Z *)
Definition noon_2024_03_05 : Z := 1709640000000.

(** No summary, a calendar that reports nothing for the year, and one push
    seen by the events API. *)
Definition quietCalendarData : AllGitHubData :=
  mkAllGitHubData ada []
    [anEvent "PushEvent" "ada/engine" (Some [tt]) noon_2024_03_05]
    None
    (Some (mkContributionCalendar 0 [mkContributionWeek [aDay 2024 3 5 0]])).

(** Ten repositories, one language each but for two in Go, nine languages
    in all; and a single fork. *)
Definition nineLanguages : list GitHubRepo :=
  [aRepo "a" (Some "Go") false; aRepo "b" (Some "Go") false;
   aRepo "c" (Some "Rust") false; aRepo "d" (Some "C") false;
   aRepo "e" (Some "Java") false; aRepo "f" (Some "Lua") false;
   aRepo "g" (Some "Perl") false; aRepo "h" (Some "Ruby") false;
   aRepo "i" (Some "Dart") false; aRepo "j" (Some "Vue") false].
Definition oneFork : list GitHubRepo := [aRepo "upstream" (Some "Go") true].

(** Five repositories in five languages, three of them forks. *)
Definition fiveLanguages : list GitHubRepo :=
  [aRepo "a" (Some "Go") false; aRepo "b" (Some "Rust") false;
   aRepo "c" (Some "C") true; aRepo "d" (Some "Java") true;
   aRepo "e" (Some "Lua") true].

(** One week with a single active day, 2024-03-05. *)
Definition oneActiveDay : ContributionCalendar :=
  mkContributionCalendar 5
    [mkContributionWeek
       [aDay 2024 3 3 0; aDay 2024 3 4 0; aDay 2024 3 5 5; aDay 2024 3 6 0;
        aDay 2024 3 7 0; aDay 2024 3 8 0; aDay 2024 3 9 0]].

(** A bundle whose calendar has one active day, 2024-03-05. *)
Definition oneActiveDayData : AllGitHubData :=
  mkAllGitHubData ada [] [] None (Some oneActiveDay).

(** A bundle without contribution data of either kind. *)
Definition noCalendarData : AllGitHubData := mkAllGitHubData ada [] [] None None.

(** UTC+05:30, in milliseconds. *)
Definition IST : Z := 19800000.

(* ================================================================== *)
(** ** The service layer, continued                                    *)
(* ================================================================== *)

(** *** fetchContributionData *)

Definition GITHUB_GRAPHQL_URL : string := "https://api.github.com/graphql".

(** The request posted to the GraphQL API, by what varies in it: the
    credential and the variables of the query ([from] and [to] are the
    instants their ISO strings denote). *)
Record GraphQLRequest := mkGraphQLRequest {
  authorization : string;
  q_username : string;
  q_from : Z;
  q_to : Z;
}.

(** The body of its response, by what is read of it: whether [data.errors]
    is there, and [data.data?.user?.contributionsCollection], absent when a
    link of the chain is. *)
Record GraphQLBody := mkGraphQLBody {
  gql_errors : bool;
  gql_contributionsCollection : option ContributionData;
}.

Definition GraphQLNetwork := GraphQLRequest -> Fetched GraphQLBody.

(** [await fetch(url, { method: 'POST', ... })] *)
Definition fetchPost {T : Type} (net : GraphQLRequest -> Fetched T) (url : string)
    (request : GraphQLRequest) : M (Response T) :=
  fun w =>
    let w' := mkWorld (rateLimitInfo w) (requested w ++ [url]) in
    match net request with
    | Rejected => (inl FetchRejected, w')
    | Responded r => (inr r, w')
    end.

(** [new Date(year, 11, 31, 23, 59, 59)] *)
Definition endOfYear (tz year : Z) : Z :=
  Date.make tz year 11 31 + ((23 * 60 + 59) * 60 + 59) * 1000.

(** [token] is [None] when the argument is left out.  [tz] is the zone of
    the host.  The year is one that [Date] can hold. *)
Definition fetchContributionData (tz : Z) (net : GraphQLNetwork)
    (username : string) (year : Z) (token : option string)
  : M (option ContributionData) :=
  match token with
  | Some tok =>
      if negb (truthy token) then ret None
      else
        let from := Date.make tz year 0 1 in
        let to := endOfYear tz year in
        try_catch
          (let* response :=
             fetchPost net GITHUB_GRAPHQL_URL
               (mkGraphQLRequest ("Bearer " +:+ tok) username from to) in
           if negb (ok response) then ret None
           else
             let data := json response in
             if gql_errors data then ret None
             else ret (gql_contributionsCollection data))
          (fun _ => ret None)
  | None => ret None
  end.

(** *** fetchContributionCalendarFallback *)

(** The body of the contributions API, by what is read of it: the totals
    by year, when [data.total] is there, and the days, when
    [data.contributions] is an array. *)
Record FallbackContribution := mkFallbackContribution {
  fc_date : IsoDate;
  fc_count : option Z;
}.

Record FallbackBody := mkFallbackBody {
  fb_total : option (gmap Z Z);
  fb_contributions : option (list FallbackContribution);
}.

Definition fallbackUrl (username : string) (year : Z) : string :=
  "https://github-contributions-api.jogruber.de/v4/" +:+ username +:+
  "?y=" +:+ pretty year.

Definition levelOfCount (count : Z) : ContributionLevel :=
  if count =? 0 then NONE
  else if count <=? 3 then FIRST_QUARTILE
  else if count <=? 6 then SECOND_QUARTILE
  else if count <=? 9 then THIRD_QUARTILE
  else FOURTH_QUARTILE.

(** [contrib.count || 0] *)
Definition countOfContribution (contrib : FallbackContribution) : Z :=
  match fc_count contrib with
  | Some c => num_or c 0
  | None => 0
  end.

(** The variables of the loop over the days: [weeks], the days of
    [currentWeek], and [totalContributions]. *)
Record Grouping := mkGrouping {
  g_weeks : list ContributionWeek;
  g_currentWeek : list ContributionDay;
  g_totalContributions : Z;
}.

Definition groupStep (tz : Z) (g : Grouping) (contrib : FallbackContribution)
  : Grouping :=
  let date := Date.parse (fc_date contrib) in
  let dayOfWeek := Date.getDay tz date in
  let '(weeks, currentWeek) :=
    if (dayOfWeek =? 0) && (len (g_currentWeek g) >? 0)
    then (g_weeks g ++ [mkContributionWeek (g_currentWeek g)], [])
    else (g_weeks g, g_currentWeek g) in
  let count := countOfContribution contrib in
  mkGrouping weeks
    (currentWeek ++ [mkContributionDay (fc_date contrib) count (levelOfCount count)])
    (g_totalContributions g + count).

(** The transformation of the body into a calendar. *)
Definition calendarOfBody (tz : Z) (data : FallbackBody) (year : Z)
  : ContributionCalendar :=
  let g :=
    match fb_contributions data with
    | Some contributions =>
        let g := fold_left (groupStep tz) contributions (mkGrouping [] [] 0) in
        mkGrouping
          (if len (g_currentWeek g) >? 0
           then g_weeks g ++ [mkContributionWeek (g_currentWeek g)]
           else g_weeks g)
          [] (g_totalContributions g)
    | None => mkGrouping [] [] 0
    end in
  mkContributionCalendar
    (match fb_total data with
     | Some total =>
         match total !! year with
         | Some t => num_or t (g_totalContributions g)
         | None => g_totalContributions g
         end
     | None => g_totalContributions g
     end)
    (g_weeks g).

Definition fetchContributionCalendarFallback (tz : Z) (net : Network FallbackBody)
    (username : string) (year : Z) : M (option ContributionCalendar) :=
  try_catch
    (let* response := fetch net (fallbackUrl username year) in
     if negb (ok response) then ret None
     else ret (Some (calendarOfBody tz (json response) year)))
    (fun _ => ret None).

(** *** The cache of fetchAllGitHubData *)

(** [cache]: the bundle and the instant it was stored at, by key. *)
Definition Cache : Type := gmap string (AllGitHubData * Z).

Definition CACHE_TTL : Z := 5 * 60 * 1000.

(** [now] is the instant [Date.now()] gives. *)
Definition getCached (now : Z) (key : string) (cache : Cache)
  : option AllGitHubData * Cache :=
  match cache !! key with
  | Some (data, timestamp) =>
      if now - timestamp <? CACHE_TTL then (Some data, cache)
      else (None, delete key cache)
  | None => (None, delete key cache)
  end.

Definition setCache (now : Z) (key : string) (data : AllGitHubData) (cache : Cache)
  : Cache :=
  <[key := (data, now)]> cache.

Definition cacheKey (username : string) (year : Z) (token : option string) : string :=
  username +:+ "-" +:+ pretty year +:+ "-" +:+
  (if truthy token then "auth" else "noauth").

(* ================================================================== *)
(** ** The heat map of the contribution calendar                       *)
(* ================================================================== *)

(** [getContributionLevel] of the heat map component. *)
Definition getContributionLevel (count : Z) : string :=
  if count =? 0 then "none"
  else if count <=? 3 then "low"
  else if count <=? 6 then "medium"
  else if count <=? 9 then "high"
  else "max".

(** The labels of the months over the weeks of the heat map. *)
Record MonthLabel := mkMonthLabel {
  ml_month : string;
  weekIndex : Z;
}.

(** The inner loop of [monthLabels]: the first day of the week that is in
    the year and in another month than [currentMonth], if there is one. *)
Fixpoint firstNewMonth (tz year currentMonth : Z) (days : list ContributionDay)
  : option Z :=
  match days with
  | [] => None
  | day :: days' =>
      let date := Date.parse (date day) in
      if (Date.getFullYear tz date =? year)
         && negb (Date.getMonth tz date =? currentMonth)
      then Some (Date.getMonth tz date)
      else firstNewMonth tz year currentMonth days'
  end.

Definition monthLabels (tz : Z) (calendar : ContributionCalendar) (year : Z)
  : list MonthLabel :=
  fst
    (fold_left
       (fun '(labels, currentMonth) '(weekIndex, week) =>
          match firstNewMonth tz year currentMonth (contributionDays week) with
          | Some m => (labels ++ [mkMonthLabel (at_index MONTHS m) weekIndex], m)
          | None => (labels, currentMonth)
          end)
       (imap (fun i week => (Z.of_nat i, week)) (weeks calendar))
       ([], -1)).

(* ================================================================== *)
(** ** The fetchers side by side: fetchAllGitHubData                   *)
(* ================================================================== *)

(** [Promise.all] runs the five fetchers together.  JavaScript runs the
    code between two awaits without a break, so the fetchers interleave at
    their awaits only: at [await fetch(...)], until the response is there,
    and at [response.json()], until the body is read.  What follows an
    await of something that has settled in the same stretch (the caller
    that awaits [fetchGitHub], the rejection that [Promise.all] passes on)
    runs in that stretch.  An async function under way is a [Task]: what
    it has yet to do to the module state, a request that leaves or
    [updateRateLimit], cut at these awaits.  What a task does next does not
    depend on the module state, as the responses come from the network;
    only the message of a 403 quotes it. *)
Inductive Task (A : Type) : Type :=
  | Return (a : A)
  | Throw (err : World -> Thrown)
  | Request (url : string) (next : Task A)
  | RateLimit (hs : Headers) (next : Task A)
  | Await (next : Task A).
Arguments Return {A}.
Arguments Throw {A}.
Arguments Request {A}.
Arguments RateLimit {A}.
Arguments Await {A}.

Fixpoint bindT {A B : Type} (t : Task A) (k : A -> Task B) : Task B :=
  match t with
  | Return a => k a
  | Throw err => Throw err
  | Request url next => Request url (bindT next k)
  | RateLimit hs next => RateLimit hs (bindT next k)
  | Await next => Await (bindT next k)
  end.

(** [const x = await t; k] *)
Notation "'do' x := t 'in' k" := (bindT t (fun x => k))
  (at level 10, x pattern, t at level 100, k at level 200).

(** [try { t } catch (error) { handler }], for a handler that does not look
    at the error, as those of this layer. *)
Fixpoint catchT {A : Type} (t : Task A) (handler : Task A) : Task A :=
  match t with
  | Return a => Return a
  | Throw _ => handler
  | Request url next => Request url (catchT next handler)
  | RateLimit hs next => RateLimit hs (catchT next handler)
  | Await next => Await (catchT next handler)
  end.

(** A task runs to its next await, or to its end; an error is made where
    it is thrown. *)
Fixpoint run {A : Type} (t : Task A) (w : World) : Task A * World :=
  match t with
  | Return a => (Return a, w)
  | Throw err => (Throw (fun _ => err w), w)
  | Request url next => run next (mkWorld (rateLimitInfo w) (requested w ++ [url]))
  | RateLimit hs next => run next (snd (updateRateLimit hs w))
  | Await next => (Await next, w)
  end.

(** What it awaited has settled: the task goes on. *)
Definition resume {A : Type} (t : Task A) (w : World) : Task A * World :=
  match t with
  | Await next => run next w
  | _ => (t, w)
  end.

(** [throw] of an error that quotes the module state. *)
Definition throw_with {A : Type} (err : World -> Thrown) : M A :=
  fun w => (inl (err w), w).

(** A task on its own, nothing else running while it awaits. *)
Fixpoint alone {A : Type} (t : Task A) : M A :=
  match t with
  | Return a => ret a
  | Throw err => throw_with err
  | Request url next =>
      fun w => alone next (mkWorld (rateLimitInfo w) (requested w ++ [url]))
  | RateLimit hs next => fun w => alone next (snd (updateRateLimit hs w))
  | Await next => alone next
  end.

(** [await fetch(url, ...)]: the request leaves at the call. *)
Definition fetchT {T : Type} (net : Network T) (url : string) : Task (Response T) :=
  Request url
    (Await
       match net url with
       | Rejected => Throw (fun _ => FetchRejected)
       | Responded r => Return r
       end).

(** [await response.json()] *)
Definition jsonT {T : Type} (response : Response T) : Task T :=
  Await (Return (json response)).

(** The fetchers of the service layer again, as tasks; on its own each
    is the function above ([alone_fetchGitHubT] and the lemmas after
    it). *)
Definition fetchGitHubT {T : Type} (net : Network T) (endpoint : string) : Task T :=
  let url :=
    if String.prefix "http" endpoint then endpoint
    else GITHUB_API_BASE +:+ endpoint in
  do response := fetchT net url in
  RateLimit (headers response)
    (if negb (ok response) then
       if status response =? 404 then
         Throw (fun _ => GitHubApiError "User not found" 404 (Some "NOT_FOUND"))
       else if status response =? 403 then
         Throw (fun w =>
                  GitHubApiError (rateLimitMessage (resetTime <$> rateLimitInfo w))
                                 403 (Some "RATE_LIMITED"))
       else
         Throw (fun _ => GitHubApiError ("GitHub API error: " +:+ statusText response)
                                        (status response) None)
     else jsonT response).

Definition fetchUserProfileT (net : Network GitHubUser) (username : string)
  : Task GitHubUser :=
  fetchGitHubT net ("/users/" +:+ username).

Section FetchersT.

Context {Item : Type} (net : Network (list Item)) (username : string).

Fixpoint fetchUserReposT_loop (fuel : nat) (maxRepos : Z)
    (repos : list Item) (page : Z) : Task (list Item) :=
  if len repos <? maxRepos then
    match fuel with
    | O => Throw (fun _ => OutOfFuel)
    | S fuel' =>
        do pageRepos := fetchGitHubT net (reposEndpoint username page) in
        if len pageRepos =? 0 then Return repos
        else
          let repos := repos ++ pageRepos in
          let page := page + 1 in
          if len pageRepos <? perPage then Return repos
          else fetchUserReposT_loop fuel' maxRepos repos page
    end
  else Return repos.

Definition fetchUserReposT (maxRepos : Z) : Task (list Item) :=
  do repos := fetchUserReposT_loop (Z.to_nat maxRepos) maxRepos [] 1 in
  Return (slice0 (Z.to_nat maxRepos) repos).

Fixpoint fetchUserEventsT_loop (fuel : nat) (maxEvents : Z)
    (events : list Item) (page : Z) : Task (list Item) :=
  if (len events <? maxEvents) && (page <=? 3) then
    match fuel with
    | O => Throw (fun _ => OutOfFuel)
    | S fuel' =>
        do (events, page, broke) :=
          catchT
            (do pageEvents := fetchGitHubT net (eventsEndpoint username page) in
             if len pageEvents =? 0 then Return (events, page, true)
             else Return (events ++ pageEvents, page + 1, false))
            (Return (events, page, true)) in
        if broke : bool then Return events
        else fetchUserEventsT_loop fuel' maxEvents events page
    end
  else Return events.

Definition fetchUserEventsT (maxEvents : Z) : Task (list Item) :=
  fetchUserEventsT_loop 3 maxEvents [] 1.

End FetchersT.

(** [await fetch(url, { method: 'POST', ... })] *)
Definition fetchPostT {T : Type} (net : GraphQLRequest -> Fetched T) (url : string)
    (request : GraphQLRequest) : Task (Response T) :=
  Request url
    (Await
       match net request with
       | Rejected => Throw (fun _ => FetchRejected)
       | Responded r => Return r
       end).

Definition fetchContributionDataT (tz : Z) (net : GraphQLNetwork)
    (username : string) (year : Z) (token : option string)
  : Task (option ContributionData) :=
  match token with
  | Some tok =>
      if negb (truthy token) then Return None
      else
        let from := Date.make tz year 0 1 in
        let to := endOfYear tz year in
        catchT
          (do response :=
             fetchPostT net GITHUB_GRAPHQL_URL
               (mkGraphQLRequest ("Bearer " +:+ tok) username from to) in
           if negb (ok response) then Return None
           else
             do data := jsonT response in
             if gql_errors data then Return None
             else Return (gql_contributionsCollection data))
          (Return None)
  | None => Return None
  end.

Definition fetchContributionCalendarFallbackT (tz : Z) (net : Network FallbackBody)
    (username : string) (year : Z) : Task (option ContributionCalendar) :=
  catchT
    (do response := fetchT net (fallbackUrl username year) in
     if negb (ok response) then Return None
     else
       do data := jsonT response in
       Return (Some (calendarOfBody tz data year)))
    (Return None).

(** The network, by the five services asked. *)
Record Networks := mkNetworks {
  profiles : Network GitHubUser;
  repositories : Network (list GitHubRepo);
  activity : Network (list GitHubEvent);
  graphql : GraphQLNetwork;
  contributionsApi : Network FallbackBody;
}.

(** The five elements of the array given to [Promise.all]. *)
Inductive Slot := UserSlot | ReposSlot | EventsSlot | DataSlot | CalendarSlot.

(** The five elements, each as far as it has come. *)
Record Pending := mkPending {
  p_user : Task GitHubUser;
  p_repos : Task (list GitHubRepo);
  p_events : Task (list GitHubEvent);
  p_contributionData : Task (option ContributionData);
  p_contributionCalendar : Task (option ContributionCalendar);
}.

(** What the task of a slot awaited has settled. *)
Definition resumeSlot (s : Slot) (p : Pending) (w : World) : Pending * World :=
  match s with
  | UserSlot =>
      let '(t, w') := resume (p_user p) w in
      (mkPending t (p_repos p) (p_events p) (p_contributionData p)
                 (p_contributionCalendar p), w')
  | ReposSlot =>
      let '(t, w') := resume (p_repos p) w in
      (mkPending (p_user p) t (p_events p) (p_contributionData p)
                 (p_contributionCalendar p), w')
  | EventsSlot =>
      let '(t, w') := resume (p_events p) w in
      (mkPending (p_user p) (p_repos p) t (p_contributionData p)
                 (p_contributionCalendar p), w')
  | DataSlot =>
      let '(t, w') := resume (p_contributionData p) w in
      (mkPending (p_user p) (p_repos p) (p_events p) t
                 (p_contributionCalendar p), w')
  | CalendarSlot =>
      let '(t, w') := resume (p_contributionCalendar p) w in
      (mkPending (p_user p) (p_repos p) (p_events p) (p_contributionData p) t, w')
  end.

(** The error of a task that has thrown. *)
Definition rejection {A : Type} (t : Task A) (w : World) : option Thrown :=
  match t with
  | Throw err => Some (err w)
  | _ => None
  end.

(** The value of a task that has returned. *)
Definition fulfilled {A : Type} (t : Task A) : option A :=
  match t with
  | Return a => Some a
  | _ => None
  end.

(** [Promise.all]: rejected with the error of the first element that is
    rejected, fulfilled with the five values once all are there. *)
Definition settled (p : Pending) (w : World) : option (Thrown + AllGitHubData) :=
  match
    rejection (p_user p) w, rejection (p_repos p) w, rejection (p_events p) w,
    rejection (p_contributionData p) w, rejection (p_contributionCalendar p) w
  with
  | Some e, _, _, _, _
  | None, Some e, _, _, _
  | None, None, Some e, _, _
  | None, None, None, Some e, _
  | None, None, None, None, Some e => Some (inl e)
  | None, None, None, None, None =>
      match
        fulfilled (p_user p), fulfilled (p_repos p), fulfilled (p_events p),
        fulfilled (p_contributionData p), fulfilled (p_contributionCalendar p)
      with
      | Some user, Some repos, Some events, Some contributionData,
        Some contributionCalendar =>
          Some (inr (mkAllGitHubData user repos events contributionData
                                     contributionCalendar))
      | _, _, _, _, _ => None
      end
  end.

(** The elements go on in the order in which what they await settles: the
    [schedule], which the host decides.  [None]: not settled when the
    schedule ends.  The state is the one in which [Promise.all] settles: a
    fetcher still under way then goes on, and nobody waits for it. *)
Fixpoint promiseAll (schedule : list Slot) (p : Pending) (w : World)
  : option (Thrown + AllGitHubData) * World :=
  match settled p w with
  | Some outcome => (Some outcome, w)
  | None =>
      match schedule with
      | [] => (None, w)
      | s :: schedule' =>
          let '(p', w') := resumeSlot s p w in
          promiseAll schedule' p' w'
      end
  end.

(** The elements of the array, in its order. *)
Definition elements (tz : Z) (nets : Networks) (username : string) (year : Z)
    (token : option string) : Pending :=
  mkPending
    (fetchUserProfileT (profiles nets) username)
    (fetchUserReposT (repositories nets) username 100)
    (fetchUserEventsT (activity nets) username 300)
    (if truthy token
     then fetchContributionDataT tz (graphql nets) username year token
     else Return None)
    (fetchContributionCalendarFallbackT tz (contributionsApi nets) username year).

(** The array is built: each call runs to its first await before the next
    is made. *)
Definition startAll (p : Pending) (w : World) : Pending * World :=
  let '(user, w) := run (p_user p) w in
  let '(repos, w) := run (p_repos p) w in
  let '(events, w) := run (p_events p) w in
  let '(contributionData, w) := run (p_contributionData p) w in
  let '(contributionCalendar, w) := run (p_contributionCalendar p) w in
  (mkPending user repos events contributionData contributionCalendar, w).

(** The module state of the service layer, with its cache. *)
Record Service := mkService {
  world : World;
  cache : Cache;
}.

(** [asked] and [stored] are the instants [Date.now()] gives in
    [getCached] and in [setCache]. *)
Definition fetchAllGitHubData (tz : Z) (nets : Networks) (schedule : list Slot)
    (asked stored : Z) (username : string) (year : Z) (token : option string)
    (s : Service) : option (Thrown + AllGitHubData) * Service :=
  let cacheKey := cacheKey username year token in
  let '(cached, cache) := getCached asked cacheKey (cache s) in
  match cached with
  | Some data => (Some (inr data), mkService (world s) cache)
  | None =>
      let '(pending, w) :=
        startAll (elements tz nets username year token) (world s) in
      match promiseAll schedule pending w with
      | (Some (inr result), w) =>
          (Some (inr result), mkService w (setCache stored cacheKey result cache))
      | (Some (inl err), w) => (Some (inl err), mkService w cache)
      | (None, w) => (None, mkService w cache)
      end
  end.

(* ================================================================== *)
(** ** The search of the application                                   *)
(* ================================================================== *)

(** A text between double quotes (the character of code 34). *)
Definition quoted (s : string) : string :=
  let quote := Ascii.Ascii false true false false false true false false in
  String quote "" +:+ s +:+ String quote "".

(** The message [handleSearch] shows for what [fetchAllGitHubData] threw
    ([FetchRejected] stands for an error that is not a [GitHubApiError]). *)
Definition errorMessage (username : string) (err : Thrown) : string :=
  match err with
  | GitHubApiError message _ code =>
      if bool_decide (code = Some "NOT_FOUND") then
        "User " +:+ quoted username +:+
        " not found. Please check the username and try again."
      else if bool_decide (code = Some "RATE_LIMITED") then message
      else "Failed to fetch GitHub data. Please try again later."
  | _ => "An unexpected error occurred. Please try again."
  end.

(** ['idle' | 'loading' | 'success' | 'error'], the last as [failure]. *)
Inductive LoadingState := idle | loading | success | failure.

(** The state of the [App] component. *)
Record AppState := mkAppState {
  app_user : option GitHubUser;
  app_insights : option WrappedInsights;
  app_year : Z;
  app_loadingState : LoadingState;
  app_error : option string;
}.

(** [handleSearch], by the state it leaves the component in (the address
    bar is left out).  [now] is the instant [calculateInsights] reads from
    the clock.  While [fetchAllGitHubData] is not settled the component
    stays in the state the three first updates give it. *)
Definition handleSearch (h : JsHost) (nets : Networks) (schedule : list Slot)
    (asked stored now : Z) (username : string) (selectedYear : Z)
    (app : AppState) (s : Service) : AppState * Service :=
  let app :=
    mkAppState (app_user app) (app_insights app) selectedYear loading None in
  match
    fetchAllGitHubData (tzOffset h) nets schedule asked stored username
                       selectedYear None s
  with
  | (Some (inr data), s) =>
      let wrappedInsights := calculateInsights h now data selectedYear in
      (mkAppState (Some (user data)) (Some wrappedInsights) (app_year app)
                  success (app_error app), s)
  | (Some (inl err), s) =>
      (mkAppState (app_user app) (app_insights app) (app_year app) failure
                  (Some (errorMessage username err)), s)
  | (None, s) => (app, s)
  end.

(** What [App] renders: the wrapped page, or else the landing page. *)
Definition showsWrapped (app : AppState) : bool :=
  match app_loadingState app, app_user app, app_insights app with
  | success, Some _, Some _ => true
  | _, _, _ => false
  end.

(** A network on which ada has a profile, five repositories and no events,
    and the two contribution services do not answer. *)
Definition adaOnline : Networks :=
  mkNetworks
    (fun _ => Responded (mkResponse 200 "OK" (mkHeaders None None None) ada))
    (fun _ => okPage fiveLanguages)
    (fun _ => okPage [])
    (fun _ => Rejected)
    (fun _ => Rejected).

(** What [fetchAllGitHubData] makes of it. *)
Definition adaBundle : AllGitHubData := mkAllGitHubData ada fiveLanguages [] None None.

(** A network on which nobody is known: GitHub answers 404. *)
Definition nobodyOnline : Networks :=
  mkNetworks
    (fun _ => Responded (mkResponse 404 "Not Found" (mkHeaders None None None) ada))
    (fun _ => errorPage 404 "Not Found")
    (fun _ => errorPage 404 "Not Found")
    (fun _ => Rejected)
    (fun _ => Rejected).

(** The repositories answer first, then the others in turn. *)
Definition reposFirst : list Slot :=
  [ReposSlot; UserSlot; EventsSlot; DataSlot; CalendarSlot;
   CalendarSlot; DataSlot; EventsSlot; UserSlot; ReposSlot;
   EventsSlot; EventsSlot; EventsSlot; EventsSlot].

(** The page has just been loaded. *)
Definition freshService : Service := mkService initialWorld ∅.

(** The component before the first search. *)
Definition freshApp : AppState := mkAppState None None 2024 idle None.

(* ================================================================== *)
(** ** The streaks in a zone with daylight saving                      *)
(* ================================================================== *)

(** The offset of local time from UTC in milliseconds, ECMAScript's
    [LocalTZA(t, isUTC)]: at an instant ([utcOffset]) and at a local time
    ([localOffset]; a local time that a transition skips or repeats is
    read with the offset before the transition).  [Date.setHours0] and the
    functions above are for a zone that keeps one offset. *)
Record Zone := mkZone {
  utcOffset : Z -> Z;
  localOffset : Z -> Z;
}.

Definition fixedZone (tz : Z) : Zone := mkZone (fun _ => tz) (fun _ => tz).

(** [d.setHours(0, 0, 0, 0)]: the local time of the instant, cut to the
    start of its day, and taken back to UTC with the offset of that local
    time. *)
Definition setHours0In (z : Zone) (t : Z) : Z :=
  let local := t + utcOffset z t in
  let midnight := Date.Day local * Date.msPerDay in
  midnight - localOffset z midnight.

(** [Math.floor((today - dayDate) / (1000 * 60 * 60 * 24))] *)
Definition diffDaysIn (z : Zone) (today : Z) (day : ContributionDay) : Z :=
  let dayDate := setHours0In z (Date.parse (date day)) in
  (today - dayDate) / (1000 * 60 * 60 * 24).

Definition streakStepIn (z : Zone) (today : Z) (s : StreakState)
    (day : ContributionDay) : StreakState :=
  if contributionCount day >? 0 then
    let totalActiveDays := active s + 1 in
    let tempStreak := temp s + 1 in
    mkStreakState (longest s)
                  (if diffDaysIn z today day <=? 1 then tempStreak else current s)
                  tempStreak totalActiveDays
  else
    mkStreakState (Z.max (longest s) (temp s)) (current s) 0 (active s).

(** [calculateStreaks] in the zone [z]; [now] is the instant [new Date()]
    reads from the clock. *)
Definition calculateStreaksIn (z : Zone) (now : Z)
    (calendar : option ContributionCalendar) : Streaks :=
  match calendar with
  | None => mkStreaks 0 0 0
  | Some calendar =>
      let today := setHours0In z now in
      let s := fold_left (streakStepIn z today) (allDays calendar)
                         (mkStreakState 0 0 0 0) in
      mkStreaks (Z.max (longest s) (temp s)) (current s) (active s)
  end.

(** The local date of an instant in a zone. *)
Definition localDateIn (z : Zone) (t : Z) : IsoDate :=
  Date.civil_from_days (Date.Day (t + utcOffset z t)).

(** Europe/Berlin in 2024: an hour ahead of UTC, and two hours from
    2024-03-31T01:00Z to 2024-10-27T01:00Z.  The local times from 02:00 to
    03:00 of March 31 do not occur, those of October 27 occur twice. *)
Definition Berlin2024 : Zone :=
  let hour := Date.msPerHour in
  let spring := Date.parse (mkIsoDate 2024 3 31) + hour in
  let autumn := Date.parse (mkIsoDate 2024 10 27) + hour in
  mkZone
    (fun t => if (spring <=? t) && (t <? autumn) then 2 * hour else hour)
    (fun local =>
       if (spring + 2 * hour <=? local) && (local <? autumn + 2 * hour)
       then 2 * hour else hour).

(** 2024-04-01T10:00:00Z, noon in Berlin. *)
Definition noon_in_Berlin_2024_04_01 : Z :=
  Date.parse (mkIsoDate 2024 4 1) + 10 * Date.msPerHour.

(** Contributions on Saturday March 30, 2024, and none on the two days
    after it. *)
Definition activeOnMarch30 : ContributionCalendar :=
  mkContributionCalendar 5
    [mkContributionWeek [aDay 2024 3 30 5];
     mkContributionWeek [aDay 2024 3 31 0; aDay 2024 4 1 0]].

(* ================================================================== *)
(** ** Bodies that are not JSON                                        *)
(* ================================================================== *)

(** The fetchers above take the body of an ok response to be JSON.  Here
    it need not be: [readable url] tells whether the body of the response
    to [url] is JSON text.  When it is not, [response.json()] rejects once
    the body is read, with an error that is not a [GitHubApiError];
    [FetchRejected] stands for it, as it does for the rejection of
    [fetch].  A body that is JSON is still taken to be of the type the
    caller declares, [json response]. *)
Section Unreadable.

Context (readable : string -> bool).

(** [await response.json()] *)
Definition jsonR {T : Type} (url : string) (response : Response T) : Task T :=
  Await (if readable url then Return (json response)
         else Throw (fun _ => FetchRejected)).

Definition fetchGitHubR {T : Type} (net : Network T) (endpoint : string) : Task T :=
  let url :=
    if String.prefix "http" endpoint then endpoint
    else GITHUB_API_BASE +:+ endpoint in
  do response := fetchT net url in
  RateLimit (headers response)
    (if negb (ok response) then
       if status response =? 404 then
         Throw (fun _ => GitHubApiError "User not found" 404 (Some "NOT_FOUND"))
       else if status response =? 403 then
         Throw (fun w =>
                  GitHubApiError (rateLimitMessage (resetTime <$> rateLimitInfo w))
                                 403 (Some "RATE_LIMITED"))
       else
         Throw (fun _ => GitHubApiError ("GitHub API error: " +:+ statusText response)
                                        (status response) None)
     else jsonR url response).

Definition fetchUserProfileR (net : Network GitHubUser) (username : string)
  : Task GitHubUser :=
  fetchGitHubR net ("/users/" +:+ username).

Fixpoint fetchUserReposR_loop {Item : Type} (net : Network (list Item))
    (username : string) (fuel : nat) (maxRepos : Z)
    (repos : list Item) (page : Z) : Task (list Item) :=
  if len repos <? maxRepos then
    match fuel with
    | O => Throw (fun _ => OutOfFuel)
    | S fuel' =>
        do pageRepos := fetchGitHubR net (reposEndpoint username page) in
        if len pageRepos =? 0 then Return repos
        else
          let repos := repos ++ pageRepos in
          let page := page + 1 in
          if len pageRepos <? perPage then Return repos
          else fetchUserReposR_loop net username fuel' maxRepos repos page
    end
  else Return repos.

Definition fetchUserReposR {Item : Type} (net : Network (list Item))
    (username : string) (maxRepos : Z) : Task (list Item) :=
  do repos := fetchUserReposR_loop net username (Z.to_nat maxRepos) maxRepos [] 1 in
  Return (slice0 (Z.to_nat maxRepos) repos).

Fixpoint fetchUserEventsR_loop {Item : Type} (net : Network (list Item))
    (username : string) (fuel : nat) (maxEvents : Z)
    (events : list Item) (page : Z) : Task (list Item) :=
  if (len events <? maxEvents) && (page <=? 3) then
    match fuel with
    | O => Throw (fun _ => OutOfFuel)
    | S fuel' =>
        do (events, page, broke) :=
          catchT
            (do pageEvents := fetchGitHubR net (eventsEndpoint username page) in
             if len pageEvents =? 0 then Return (events, page, true)
             else Return (events ++ pageEvents, page + 1, false))
            (Return (events, page, true)) in
        if broke : bool then Return events
        else fetchUserEventsR_loop net username fuel' maxEvents events page
    end
  else Return events.

Definition fetchUserEventsR {Item : Type} (net : Network (list Item))
    (username : string) (maxEvents : Z) : Task (list Item) :=
  fetchUserEventsR_loop net username 3 maxEvents [] 1.

Definition fetchContributionDataR (tz : Z) (net : GraphQLNetwork)
    (username : string) (year : Z) (token : option string)
  : Task (option ContributionData) :=
  match token with
  | Some tok =>
      if negb (truthy token) then Return None
      else
        let from := Date.make tz year 0 1 in
        let to := endOfYear tz year in
        catchT
          (do response :=
             fetchPostT net GITHUB_GRAPHQL_URL
               (mkGraphQLRequest ("Bearer " +:+ tok) username from to) in
           if negb (ok response) then Return None
           else
             do data := jsonR GITHUB_GRAPHQL_URL response in
             if gql_errors data then Return None
             else Return (gql_contributionsCollection data))
          (Return None)
  | None => Return None
  end.

Definition fetchContributionCalendarFallbackR (tz : Z) (net : Network FallbackBody)
    (username : string) (year : Z) : Task (option ContributionCalendar) :=
  catchT
    (do response := fetchT net (fallbackUrl username year) in
     if negb (ok response) then Return None
     else
       do data := jsonR (fallbackUrl username year) response in
       Return (Some (calendarOfBody tz data year)))
    (Return None).

(** The five elements of the array given to [Promise.all]. *)
Definition elementsR (tz : Z) (nets : Networks) (username : string) (year : Z)
    (token : option string) : Pending :=
  mkPending
    (fetchUserProfileR (profiles nets) username)
    (fetchUserReposR (repositories nets) username 100)
    (fetchUserEventsR (activity nets) username 300)
    (if truthy token
     then fetchContributionDataR tz (graphql nets) username year token
     else Return None)
    (fetchContributionCalendarFallbackR tz (contributionsApi nets) username year).

Definition fetchAllGitHubDataR (tz : Z) (nets : Networks) (schedule : list Slot)
    (asked stored : Z) (username : string) (year : Z) (token : option string)
    (s : Service) : option (Thrown + AllGitHubData) * Service :=
  let cacheKey := cacheKey username year token in
  let '(cached, cache) := getCached asked cacheKey (cache s) in
  match cached with
  | Some data => (Some (inr data), mkService (world s) cache)
  | None =>
      let '(pending, w) :=
        startAll (elementsR tz nets username year token) (world s) in
      match promiseAll schedule pending w with
      | (Some (inr result), w) =>
          (Some (inr result), mkService w (setCache stored cacheKey result cache))
      | (Some (inl err), w) => (Some (inl err), mkService w cache)
      | (None, w) => (None, mkService w cache)
      end
  end.

End Unreadable.

(** The response to the request of an endpoint is ok and its body is not
    JSON. *)
Definition unreadable {T : Type} (readable : string -> bool) (net : Network T)
    (endpoint : string) : Prop :=
  exists r, net (urlOf endpoint) = Responded r /\ ok r = true
            /\ readable (urlOf endpoint) = false.

(** Why [fetchGitHub] fails for an endpoint: with the error it makes of
    the response, or of the rejection of [fetch], in some state; or with
    the error of [response.json()]. *)
Definition failsWith {T : Type} (readable : string -> bool) (net : Network T)
    (endpoint : string) (e : Thrown) : Prop :=
  (exists w, answer net endpoint w = inl e)
  \/ (unreadable readable net endpoint /\ e = FetchRejected).

(** Every body is JSON but that of the profile of ada: a page of HTML,
    say, served with the status 200. *)
Definition profileOfAdaUnreadable (url : string) : bool :=
  negb (String.eqb url (urlOf "/users/ada")).

(* ================================================================== *)
(** ** The vocabulary of the further properties                        *)
(* ================================================================== *)

(** *** The activity patterns *)

(** The sum of [weight] over the items of a list whose [key] is [k]. *)
Definition weightOf {X : Type} (key weight : X -> Z) (k : Z) (xs : list X) : Z :=
  sumZ (map weight (List.filter (fun x => key x =? k) xs)).

(** The three tables of [calculateActivityPatterns], each on its own. *)
Definition hourTable (tz : Z) (events : list GitHubEvent) : list Z :=
  fold_left (fun t e => add_at (Date.getHours tz (event_created_at e)) 1 t)
            events (replicate 24 0).

Definition countedDay (tz year : Z) (d : ContributionDay) : bool :=
  (Date.getFullYear tz (Date.parse (date d)) =? year) && (contributionCount d >? 0).

Definition countedDays (tz year : Z) (calendar : ContributionCalendar)
  : list ContributionDay :=
  List.filter (countedDay tz year) (flat_map contributionDays (weeks calendar)).

Definition dayTable (tz year : Z) (events : list GitHubEvent)
    (calendar : option ContributionCalendar) : list Z :=
  match calendar with
  | Some cal =>
      fold_left (fun t d => add_at (Date.getDay tz (Date.parse (date d)))
                                   (contributionCount d) t)
                (countedDays tz year cal) (replicate 7 0)
  | None =>
      fold_left (fun t e => add_at (Date.getDay tz (event_created_at e)) 1 t)
                events (replicate 7 0)
  end.

Definition monthTable (tz year : Z) (events : list GitHubEvent)
    (calendar : option ContributionCalendar) : list Z :=
  match calendar with
  | Some cal =>
      fold_left (fun t d => add_at (Date.getMonth tz (Date.parse (date d)))
                                   (contributionCount d) t)
                (countedDays tz year cal) (replicate 12 0)
  | None =>
      fold_left (fun t e => add_at (Date.getMonth tz (event_created_at e)) 1 t)
                events (replicate 12 0)
  end.

(** The keys [0 .. n-1] of a table. *)
Definition upto (n : nat) : list Z := map Z.of_nat (seq 0 n).

(** The weight a key of the weekday or month table collects. *)
Definition activityOf (tz year : Z) (events : list GitHubEvent)
    (calendar : option ContributionCalendar) (ofDate : Z -> Z) (k : Z) : Z :=
  match calendar with
  | Some cal =>
      weightOf (fun d => ofDate (Date.parse (date d))) contributionCount k
               (countedDays tz year cal)
  | None => len (List.filter (fun e => ofDate (event_created_at e) =? k) events)
  end.

(** All that enters the two tables. *)
Definition activityTotal (tz year : Z) (events : list GitHubEvent)
    (calendar : option ContributionCalendar) : Z :=
  match calendar with
  | Some cal => sumZ (map contributionCount (countedDays tz year cal))
  | None => len events
  end.

(** The date a day of the calendar is taken for in the zone [tz]. *)
Definition seenDate (tz : Z) (d : ContributionDay) : IsoDate :=
  Date.civil_from_days (dayNumber d - (if tz <? 0 then 1 else 0)).

(** New York, in winter: UTC-05:00, in milliseconds. *)
Definition EST : Z := -18000000.

(** A calendar whose only contributions, 3 of them, are dated January 1. *)
Definition newYearsDay (year : Z) : ContributionCalendar :=
  mkContributionCalendar 3
    [mkContributionWeek
       [mkContributionDay (mkIsoDate year 1 1) 3 FIRST_QUARTILE;
        mkContributionDay (mkIsoDate year 1 2) 0 NONE]].

(** *** The streaks *)

(** The [n] entries of [l] from position [i] on all have a count above 0. *)
Definition activeRun (l : list ContributionDay) (i n : nat) : Prop :=
  forall j, (i <= j < i + n)%nat ->
    exists d, l !! j = Some d /\ contributionCount d > 0.

(** The number of days with a count above 0. *)
Definition activeDays (l : list ContributionDay) : Z :=
  len (List.filter (fun d => contributionCount d >? 0) l).

(** Contributions on March 4, 2024, and none on March 3 and 5. *)
Definition activeOnMarch4 : ContributionCalendar :=
  mkContributionCalendar 5
    [mkContributionWeek [aDay 2024 3 3 0; aDay 2024 3 4 5; aDay 2024 3 5 0]].

(** *** The scores and the personality *)

(** One issue event and three pull request events. *)
Definition oneIssueThreePRs : list GitHubEvent :=
  [anEvent "IssuesEvent" "ada/engine" None noon_2024_03_05;
   anEvent "PullRequestEvent" "ada/engine" None noon_2024_03_05;
   anEvent "PullRequestEvent" "ada/engine" None noon_2024_03_05;
   anEvent "PullRequestEvent" "ada/notes" None noon_2024_03_05].

(** The four traits, in the order they are pushed. *)
Definition traitList (repos : list GitHubRepo) (mostProductiveHour : Z)
    (activityByDay : list (string * Z)) (scores : Scores) : list PersonalityTrait :=
  let isNightOwl := isNightOwl mostProductiveHour in
  let isEarlyBird := isEarlyBird mostProductiveHour in
  let isPolyglot := isPolyglot repos in
  let isWeekendWarrior := isWeekendWarrior activityByDay in
  let isSolo := isSolo scores in
  [ mkPersonalityTrait
      (if isNightOwl then "Night Owl"
       else if isEarlyBird then "Early Bird" else "Daytime Coder")
      (if isNightOwl then 85 else if isEarlyBird then 15 else 50)
      (if isNightOwl then "🦉 Codes when the moon is out"
       else if isEarlyBird then "🐦 Catches the morning commits"
       else "☀️ Peak performance during sunlight");
    mkPersonalityTrait
      (if isPolyglot then "Polyglot" else "Specialist")
      (Z.min 100 (Z.of_nat (size (personalityLanguages repos)) * 15))
      (if isPolyglot then "🌍 Master of many languages"
       else "🎯 Deep expertise in few");
    mkPersonalityTrait
      (if isWeekendWarrior then "Weekend Warrior" else "Weekday Wonder")
      (if isWeekendWarrior then 80 else 30)
      (if isWeekendWarrior then "💪 Codes through weekends"
       else "📅 Balanced work schedule");
    mkPersonalityTrait
      (if isSolo then "Solo Coder" else "Team Player")
      (soloScore scores)
      (if isSolo then "🏴‍☠️ Independent creator"
       else "🤝 Collaborative spirit") ].

(** *** The languages *)

(** The repositories counted under a language: own, with that language. *)
Definition reposInLanguage (name : string) (repos : list GitHubRepo) : Z :=
  len (List.filter
         (fun r => isCountedRepo r
                   && match language r with
                      | Some l => String.eqb l name
                      | None => false
                      end)
         repos).

(** [counts[k]], 0 when the key is absent. *)
Definition countOf (k : string) (counts : list (string * Z)) : Z :=
  default 0 (assoc k counts).

(** *** The top repositories *)

(** The entry made of an item of the summary's per-repository list. *)
Definition repoStatOfItem (item : CommitContributions) : RepoStat :=
  mkRepoStat
    (cr_name (repository item))
    (nameWithOwner (repository item))
    (cr_url (repository item))
    (stargazerCount (repository item))
    (totalCount item)
    (if truthy (primaryLanguage (repository item))
     then primaryLanguage (repository item) else None)
    (cr_description (repository item)).

(** The entry made of a repository of the REST API. *)
Definition repoStatOfRepo (repo : GitHubRepo) : RepoStat :=
  mkRepoStat (name repo) (full_name repo) (html_url repo)
             (stargazers_count repo) 0 (language repo) (description repo).

(** A summary that lists no repository. *)
Definition emptySummary : ContributionData :=
  mkContributionData 12 3 1 0 2 (mkContributionCalendar 16 []) [].

(** The events of the example in another order, with one of 2023 more. *)
Definition shuffledEvents : list GitHubEvent :=
  anEvent "PushEvent" "ada/old" None 1680000000000 :: rev oneIssueThreePRs.

(** *** The pages of the fetchers *)

Section Pages.

Context {Item : Type} (net : Network (list Item)) (endpointOf : Z -> string).

(** The items of a page: those of the response when it is [ok], none when
    the request fails. *)
Definition pageItems (page : Z) : list Item :=
  match net (urlOf (endpointOf page)) with
  | Responded r => if ok r then json r else []
  | Rejected => []
  end.

(** The items of the pages [from], [from + 1], ..., [k] of them, in order,
    and the URLs of these pages. *)
Definition pagesFrom (from : Z) (k : nat) : list Item :=
  flat_map (fun i => pageItems (from + Z.of_nat i)) (seq 0 k).

Definition pageUrlsFrom (from : Z) (k : nat) : list string :=
  map (fun i => urlOf (endpointOf (from + Z.of_nat i))) (seq 0 k).

End Pages.

(** *** The state between two pages *)

(** The module state after the requests for the [k] pages from [page] on,
    one after the other. *)
Fixpoint stateAfter {Item : Type} (net : Network (list Item))
    (endpointOf : Z -> string) (page : Z) (k : nat) (w : World) : World :=
  match k with
  | O => w
  | S k' =>
      stateAfter net endpointOf (page + 1) k'
                 (snd (fetchGitHub net (endpointOf page) w))
  end.

(** *** The fallback calendar *)

(** The day made of an entry of the contributions API. *)
Definition dayOfContribution (contrib : FallbackContribution) : ContributionDay :=
  mkContributionDay (fc_date contrib) (countOfContribution contrib)
                    (levelOfCount (countOfContribution contrib)).

(** The weekday a date is taken for in the zone [tz]: that of midnight UTC
    of the date. *)
Definition seenWeekday (tz : Z) (d : ContributionDay) : Z :=
  Date.getDay tz (Date.parse (date d)).

(** A week of the grouping: it is not empty, and no day after its first is
    taken for a Sunday. *)
Definition wellFormedWeek (tz : Z) (week : ContributionWeek) : Prop :=
  contributionDays week <> []
  /\ Forall (fun d => seenWeekday tz d <> 0) (tail (contributionDays week)).

(** A week that starts on a day taken for a Sunday. *)
Definition startsOnSunday (tz : Z) (week : ContributionWeek) : Prop :=
  exists d, head (contributionDays week) = Some d /\ seenWeekday tz d = 0.

(** The instants that [Date] can hold: up to 100 000 000 days
    either side of the epoch. *)
Definition inDateRange (t : Z) : Prop := Z.abs t <= 8640000000000000.

(** The weekday of a date, 0 for Sunday: 1970-01-01 was a Thursday. *)
Definition weekdayOfDate (d : ContributionDay) : Z := (dayNumber d + 4) mod 7.

(** Saturday March 2, Sunday March 3 and Monday March 4 of 2024. *)
Definition threeDays : FallbackBody :=
  mkFallbackBody None
    (Some [mkFallbackContribution (mkIsoDate 2024 3 2) (Some 1);
           mkFallbackContribution (mkIsoDate 2024 3 3) (Some 4);
           mkFallbackContribution (mkIsoDate 2024 3 4) None]).

(** *** Tasks *)

(** The value a task returns, if it comes to return. *)
Fixpoint returns {A : Type} (t : Task A) : option A :=
  match t with
  | Return a => Some a
  | Throw _ => None
  | Request _ next | RateLimit _ next | Await next => returns next
  end.

(** The requests a task has yet to send, in order. *)
Fixpoint urls {A : Type} (t : Task A) : list string :=
  match t with
  | Return _ | Throw _ => []
  | Request url next => url :: urls next
  | RateLimit _ next | Await next => urls next
  end.

(** The awaits a task has yet to pass. *)
Fixpoint awaits {A : Type} (t : Task A) : nat :=
  match t with
  | Return _ | Throw _ => 0
  | Request _ next | RateLimit _ next => awaits next
  | Await next => S (awaits next)
  end.

(** A task that has run as far as it can. *)
Definition ready {A : Type} (t : Task A) : Prop :=
  match t with
  | Request _ _ | RateLimit _ _ => False
  | _ => True
  end.

(** Every error the task can throw is in [Q], when the stretch it is in
    starts in a state of [W]; what [updateRateLimit] has just written is
    known at a [throw] of the same stretch. *)
Fixpoint throwsOnly (Q : Thrown -> Prop) (W : World -> Prop) {A : Type}
    (t : Task A) : Prop :=
  match t with
  | Return _ => True
  | Throw err => forall w, W w -> Q (err w)
  | Request _ next => throwsOnly Q (fun _ => True) next
  | RateLimit hs next =>
      throwsOnly Q (fun w' => exists w, w' = snd (updateRateLimit hs w)) next
  | Await next => throwsOnly Q (fun _ => True) next
  end.

(** A task after some resumptions. *)
Inductive resumed {A : Type} (t : Task A) : Task A -> Prop :=
  | resumed_refl : resumed t t
  | resumed_step t' w : resumed t t' -> resumed t (fst (resume t' w)).

(** A relation between tasks, for the five elements. *)
Definition Each (R : forall A : Type, Task A -> Task A -> Prop) (p p' : Pending)
  : Prop :=
  R _ (p_user p) (p_user p') /\ R _ (p_repos p) (p_repos p')
  /\ R _ (p_events p) (p_events p')
  /\ R _ (p_contributionData p) (p_contributionData p')
  /\ R _ (p_contributionCalendar p) (p_contributionCalendar p').

#[global] Instance Slot_eq_dec : EqDecision Slot.
Proof. solve_decision. Defined.

(** The awaits the element of a slot has yet to pass. *)
Definition awaitsOf (s : Slot) (p : Pending) : nat :=
  match s with
  | UserSlot => awaits (p_user p)
  | ReposSlot => awaits (p_repos p)
  | EventsSlot => awaits (p_events p)
  | DataSlot => awaits (p_contributionData p)
  | CalendarSlot => awaits (p_contributionCalendar p)
  end.

(** A task after its first run and some resumptions. *)
Definition progressed {A : Type} (t t' : Task A) : Prop :=
  exists w, resumed (fst (run t w)) t'.

(** A task that begins with a request and awaits the response. *)
Definition starts {A : Type} (t : Task A) : Prop :=
  exists url next, t = Request url (Await next).

(** The element of a slot is resumed: the cases of [resumeSlot]. *)
Ltac slot_cases s Hs :=
  destruct s; cbn [resumeSlot] in Hs;
  match type of Hs with
  | context [resume ?t ?w] => destruct (resume t w) as [? ?] eqn:?Hr
  end;
  injection Hs as <- <-.

(** *** The month labels *)

(** One round of the loop of [monthLabels] over the weeks. *)
Definition labelStep (tz year : Z) (state : list MonthLabel * Z)
    (indexed : Z * ContributionWeek) : list MonthLabel * Z :=
  let '(labels, currentMonth) := state in
  let '(weekIndex, week) := indexed in
  match firstNewMonth tz year currentMonth (contributionDays week) with
  | Some m => (labels ++ [mkMonthLabel (at_index MONTHS m) weekIndex], m)
  | None => (labels, currentMonth)
  end.

(* ================================================================== *)
(** ** Properties of the fetchers                                      *)
(* ================================================================== *)

Section FetchFacts.
Context {T : Type} (net : Network T).

Lemma fetchGitHub_answer endpoint w :
  fst (fetchGitHub net endpoint w) = answer net endpoint w.
Proof.
  unfold fetchGitHub, answer, urlOf, bind, fetch.
  destruct (net _) as [|r]; [reflexivity|].
  unfold updateRateLimit, getRateLimitInfo, throw, ret. cbn.
  destruct (headers r) as [[?|] [?|] [?|]]; cbn;
    destruct (ok r); cbn; try reflexivity;
    destruct (status r =? 404); cbn; try reflexivity;
    destruct (status r =? 403); reflexivity.
Qed.

(** Every call issues exactly one request, whatever comes back. *)
Lemma fetchGitHub_requested endpoint w :
  requested (snd (fetchGitHub net endpoint w))
  = requested w ++ [urlOf endpoint].
Proof.
  unfold fetchGitHub, urlOf, bind, fetch.
  destruct (net _) as [|r]; [reflexivity|].
  unfold updateRateLimit, getRateLimitInfo, throw, ret. cbn.
  destruct (headers r) as [[?|] [?|] [?|]]; cbn;
    destruct (ok r); cbn; try reflexivity;
    destruct (status r =? 404); cbn; try reflexivity;
    destruct (status r =? 403); reflexivity.
Qed.

Lemma fetchGitHub_not_OutOfFuel endpoint w :
  fst (fetchGitHub net endpoint w) <> inl OutOfFuel.
Proof.
  rewrite fetchGitHub_answer. unfold answer.
  destruct (net _) as [|r]; [discriminate|].
  destruct (ok r); [discriminate|].
  destruct (status r =? 404); [discriminate|].
  destruct (status r =? 403); discriminate.
Qed.

(** The answer does not depend on the list of requests. *)
Lemma answer_404 endpoint w r :
  net (urlOf endpoint) = Responded r -> status r = 404 ->
  answer net endpoint w
  = inl (GitHubApiError "User not found" 404 (Some "NOT_FOUND")).
Proof.
  intros Hnet Hst. unfold answer, ok. rewrite Hnet, Hst. reflexivity.
Qed.

Lemma answer_ok endpoint w r :
  net (urlOf endpoint) = Responded r -> ok r = true ->
  answer net endpoint w = inr (json r).
Proof. intros Hnet Hok. unfold answer. rewrite Hnet, Hok. reflexivity. Qed.
End FetchFacts.

Lemma len_app {A : Type} (l1 l2 : list A) : len (l1 ++ l2) = len l1 + len l2.
Proof. unfold len. rewrite length_app. lia. Qed.

Lemma len_nil {A : Type} : len (@nil A) = 0.
Proof. reflexivity. Qed.

Lemma snd_bind_ret {A B : Type} (m : M A) (f : A -> B) (w : World) :
  snd (bind m (fun a => ret (f a)) w) = snd (m w).
Proof. unfold bind, ret. destruct (m w) as [[e|a] w']; reflexivity. Qed.

Section FetcherFacts.
Context {Item : Type} (net : Network (list Item)) (username : string).

(** One round of the repository loop. *)
Lemma fetchUserRepos_loop_round fuel maxRepos repos page w :
  fetchUserRepos_loop net username (S fuel) maxRepos repos page w
  = if len repos <? maxRepos then
      match fetchGitHub net (reposEndpoint username page) w with
      | (inl e, w') => (inl e, w')
      | (inr pageRepos, w') =>
          if len pageRepos =? 0 then (inr repos, w')
          else if len pageRepos <? perPage then (inr (repos ++ pageRepos), w')
          else fetchUserRepos_loop net username fuel maxRepos
                 (repos ++ pageRepos) (page + 1) w'
      end
    else (inr repos, w).
Proof.
  cbn [fetchUserRepos_loop]. destruct (len repos <? maxRepos); [|reflexivity].
  unfold bind. destruct (fetchGitHub _ _ w) as [[e|pageRepos] w']; [reflexivity|].
  destruct (len pageRepos =? 0); [reflexivity|].
  destruct (len pageRepos <? perPage); reflexivity.
Qed.

Lemma fetchUserRepos_loop_done fuel maxRepos repos page w :
  maxRepos <= len repos ->
  fetchUserRepos_loop net username fuel maxRepos repos page w = (inr repos, w).
Proof.
  intros Hle. destruct fuel; cbn [fetchUserRepos_loop];
    (destruct (Z.ltb_spec (len repos) maxRepos); [lia|reflexivity]).
Qed.

(** A round that goes on has added a full page, so [maxRepos] rounds are
    enough: the loop of the model is never cut short. *)
Lemma fetchUserRepos_loop_fuel fuel maxRepos repos page w :
  maxRepos <= Z.of_nat fuel + len repos ->
  fst (fetchUserRepos_loop net username fuel maxRepos repos page w)
  <> inl OutOfFuel.
Proof.
  revert repos page w.
  induction fuel as [|fuel IH]; intros repos page w Hfuel.
  - rewrite fetchUserRepos_loop_done by lia. discriminate.
  - rewrite fetchUserRepos_loop_round.
    destruct (len repos <? maxRepos); [|discriminate].
    pose proof (fetchGitHub_not_OutOfFuel net (reposEndpoint username page) w) as Hne.
    destruct (fetchGitHub _ _ w) as [[e|pageRepos] w']; [exact Hne|].
    destruct (len pageRepos =? 0); [discriminate|].
    destruct (Z.ltb_spec (len pageRepos) perPage); [discriminate|].
    apply IH. rewrite len_app. unfold perPage in *. lia.
Qed.

Theorem fetchUserRepos_terminates maxRepos w :
  fst (fetchUserRepos net username maxRepos w) <> inl OutOfFuel.
Proof.
  unfold fetchUserRepos, bind.
  pose proof (fetchUserRepos_loop_fuel (Z.to_nat maxRepos) maxRepos [] 1 w) as Hne.
  destruct (fetchUserRepos_loop _ _ _ _ _ _ w) as [[e|repos] w'].
  - apply Hne. rewrite len_nil. lia.
  - discriminate.
Qed.

(** The repository fetcher cuts its result to [maxRepos]. *)
Theorem fetchUserRepos_at_most_max maxRepos w result :
  fst (fetchUserRepos net username maxRepos w) = inr result ->
  len result <= Z.max 0 maxRepos.
Proof.
  unfold fetchUserRepos, bind.
  destruct (fetchUserRepos_loop _ _ _ _ _ _ w) as [[e|repos] w']; [discriminate|].
  cbn. intros [= <-]. unfold slice0, len. rewrite length_take. lia.
Qed.

(** With [maxRepos = 50] the repository fetcher asks for one page only. *)
Theorem fetchUserRepos_50_one_request w :
  requested (snd (fetchUserRepos net username 50 w))
  = requested w ++ [urlOf (reposEndpoint username 1)].
Proof.
  unfold fetchUserRepos. rewrite snd_bind_ret.
  change (Z.to_nat 50) with (S 49).
  rewrite fetchUserRepos_loop_round. rewrite len_nil.
  change (0 <? 50) with true. cbv iota.
  pose proof (fetchGitHub_requested net (reposEndpoint username 1) w) as Hreq.
  destruct (fetchGitHub _ _ w) as [[e|pageRepos] w']; [exact Hreq|].
  destruct (len pageRepos =? 0); [exact Hreq|].
  destruct (Z.ltb_spec (len pageRepos) perPage); [exact Hreq|].
  rewrite fetchUserRepos_loop_done; [exact Hreq|].
  rewrite len_app, len_nil. unfold perPage in *. lia.
Qed.

(** One round of the events loop. *)
Lemma fetchUserEvents_loop_round fuel maxEvents events page w :
  fetchUserEvents_loop net username (S fuel) maxEvents events page w
  = if (len events <? maxEvents) && (page <=? 3) then
      match fetchGitHub net (eventsEndpoint username page) w with
      | (inl e, w') => (inr events, w')
      | (inr pageEvents, w') =>
          if len pageEvents =? 0 then (inr events, w')
          else fetchUserEvents_loop net username fuel maxEvents
                 (events ++ pageEvents) (page + 1) w'
      end
    else (inr events, w).
Proof.
  cbn [fetchUserEvents_loop].
  destruct ((len events <? maxEvents) && (page <=? 3)); [|reflexivity].
  unfold bind, try_catch.
  pose proof (fetchGitHub_not_OutOfFuel net (eventsEndpoint username page) w) as Hne.
  destruct (fetchGitHub _ _ w) as [[e|pageEvents] w'].
  - destruct e; cbn; try reflexivity. now destruct Hne.
  - cbn. destruct (len pageEvents =? 0); reflexivity.
Qed.

Lemma fetchUserEvents_loop_done fuel maxEvents events page w :
  maxEvents <= len events \/ 3 < page ->
  fetchUserEvents_loop net username fuel maxEvents events page w
  = (inr events, w).
Proof.
  intros Hdone.
  assert ((len events <? maxEvents) && (page <=? 3) = false) as Hc.
  { apply andb_false_iff. destruct Hdone; [left|right]; lia. }
  destruct fuel; cbn [fetchUserEvents_loop]; rewrite Hc; reflexivity.
Qed.

(** The events fetcher returns a list whatever the network does, and the
    page counter bounds its rounds by 3. *)
Lemma fetchUserEvents_loop_returns fuel maxEvents events page w :
  4 <= Z.of_nat fuel + page ->
  exists result,
    fst (fetchUserEvents_loop net username fuel maxEvents events page w)
    = inr result.
Proof.
  revert events page w.
  induction fuel as [|fuel IH]; intros events page w Hfuel.
  - rewrite fetchUserEvents_loop_done by lia. eauto.
  - rewrite fetchUserEvents_loop_round.
    destruct ((len events <? maxEvents) && (page <=? 3)); [|eauto].
    destruct (fetchGitHub _ _ w) as [[e|pageEvents] w']; [eauto|].
    destruct (len pageEvents =? 0); [eauto|].
    apply IH. lia.
Qed.

(** X4.  The events fetcher never throws. *)
Theorem fetchUserEvents_returns maxEvents w :
  exists result, fst (fetchUserEvents net username maxEvents w) = inr result.
Proof. apply fetchUserEvents_loop_returns. lia. Qed.
End FetcherFacts.

Lemma answer_fails {T : Type} (net : Network T) endpoint w :
  fails net endpoint -> exists e, answer net endpoint w = inl e.
Proof.
  unfold fails, answer. destruct (net _) as [|r]; [eauto|].
  intros ->. destruct (status r =? 404); [eauto|].
  destruct (status r =? 403); eauto.
Qed.

(** C2 (the events fetcher against the claim).  Asked for at most 50 events
    of a user whose first page holds 100, [fetchUserEvents] returns all 100:
    unlike [fetchUserRepos] it does not cut its result to [maxEvents].  And
    for a user whose first page holds 30 events it asks for a second page:
    unlike [fetchUserRepos] it does not stop at a page shorter than
    [perPage]. *)
Theorem fetchUserEvents_exceeds_maxEvents :
  fst (fetchUserEvents busyUser "ada" 50 initialWorld) = inr (seq 0 100)
  /\ len (seq 0 100) = 100
  /\ requested (snd (fetchUserEvents quietUser "ada" 50 initialWorld))
     = [urlOf (eventsEndpoint "ada" 1); urlOf (eventsEndpoint "ada" 2)].
Proof. vm_compute. auto. Qed.

(** C3 (counterexample).  The first page of events answers 404 and
    [fetchUserEvents] returns the empty list instead of throwing. *)
Lemma fetchUserEvents_first_page_404_absorbed :
  noSuchUser (urlOf (eventsEndpoint "ghost" 1)) = errorPage 404 "Not Found"
  /\ fst (fetchUserEvents noSuchUser "ghost" 300 initialWorld) = inr [].
Proof. vm_compute. auto. Qed.

(** *** The repository fetcher, for comparison with the events fetcher *)

(** X1.  [fetchUserRepos] returns or throws (its loop is never cut short),
    what it returns holds at most [maxRepos] items, and for [maxRepos = 50]
    it sends one request, for the first page. *)
Theorem fetchUserRepos_bounded (Item : Type) (net : Network (list Item))
    (username : string) (maxRepos : Z) (w : World) :
  match fst (fetchUserRepos net username maxRepos w) with
  | inr result => len result <= Z.max 0 maxRepos
  | inl e => e <> OutOfFuel
  end
  /\ requested (snd (fetchUserRepos net username 50 w))
     = requested w ++ [urlOf (reposEndpoint username 1)].
Proof.
  split; [|apply fetchUserRepos_50_one_request].
  pose proof (fetchUserRepos_terminates net username maxRepos w) as Hterm.
  pose proof (fetchUserRepos_at_most_max net username maxRepos w) as Hmax.
  destruct (fst (fetchUserRepos net username maxRepos w)) as [e|result].
  - congruence.
  - now apply Hmax.
Qed.

(* ================================================================== *)
(** ** Properties of the insights engine                               *)
(* ================================================================== *)

(** *** Basic counters *)

Lemma num_or_same x : num_or x x = x.
Proof. unfold num_or. destruct (x =? 0); reflexivity. Qed.

Lemma fold_left_add_sumZ {A : Type} (f : A -> Z) (l : list A) (acc : Z) :
  fold_left (fun acc a => acc + f a) l acc = acc + sumZ (map f l).
Proof.
  unfold sumZ. revert acc. induction l as [|a l IH]; intros acc; cbn.
  - lia.
  - rewrite IH. lia.
Qed.

Lemma sumZ_app (l1 l2 : list Z) : sumZ (l1 ++ l2) = sumZ l1 + sumZ l2.
Proof.
  unfold sumZ. induction l1 as [|x l1 IH]; cbn; [reflexivity|]. rewrite IH. lia.
Qed.

Lemma sumCalendar_dayCountSum calendar : sumCalendar calendar = dayCountSum calendar.
Proof.
  unfold sumCalendar, dayCountSum.
  enough (forall ws acc,
    fold_left
      (fun acc week =>
         fold_left (fun acc day => acc + contributionCount day)
                   (contributionDays week) acc) ws acc
    = acc + sumZ (map contributionCount (flat_map contributionDays ws))) as H.
  { rewrite H. lia. }
  induction ws as [|wk ws IH]; intros acc; cbn.
  - lia.
  - rewrite IH, fold_left_add_sumZ, map_app, sumZ_app. lia.
Qed.

Lemma tallyEvents_from (events : list GitHubEvent) (t : EventTally) :
  let t' := fold_left tallyEvent events t in
  t_commits t' = t_commits t + eventCommits events
  /\ t_prs t' = t_prs t + eventCount "PullRequestEvent" events
  /\ t_issues t' = t_issues t + eventCount "IssuesEvent" events
  /\ t_reviews t' = t_reviews t + eventCount "PullRequestReviewEvent" events
  /\ t_reposSet t' = t_reposSet t ∪ eventRepos events.
Proof.
  revert t. induction events as [|e events IH]; intros t.
  - cbn. unfold eventCommits, eventCount, eventRepos, len. cbn.
    repeat split; try lia; set_solver.
  - cbn [fold_left]. specialize (IH (tallyEvent t e)).
    cbv zeta in IH |- *. destruct IH as (Hc & Hp & Hi & Hr & Hs).
    rewrite Hc, Hp, Hi, Hr, Hs. clear Hc Hp Hi Hr Hs.
    unfold tallyEvent, eventCommits, eventCount, eventRepos, isCounted, sumZ.
    cbn [List.filter].
    destruct (String.eqb_spec (type e) "PushEvent") as [Hk|Hk1];
      [try rewrite Hk; cbn; unfold len; cbn [length];
       repeat split; try lia; set_solver|].
    destruct (String.eqb_spec (type e) "PullRequestEvent") as [Hk|Hk2];
      [try rewrite Hk; cbn; unfold len; cbn [length];
       repeat split; try lia; set_solver|].
    destruct (String.eqb_spec (type e) "IssuesEvent") as [Hk|Hk3];
      [try rewrite Hk; cbn; unfold len; cbn [length];
       repeat split; try lia; set_solver|].
    destruct (String.eqb_spec (type e) "PullRequestReviewEvent") as [Hk|Hk4];
      [try rewrite Hk; cbn; unfold len; cbn [length];
       repeat split; try lia; set_solver|].
    cbn. repeat split; lia.
Qed.

Lemma tallyEvents_spec (events : list GitHubEvent) :
  t_commits (tallyEvents events) = eventCommits events
  /\ t_prs (tallyEvents events) = eventCount "PullRequestEvent" events
  /\ t_issues (tallyEvents events) = eventCount "IssuesEvent" events
  /\ t_reviews (tallyEvents events) = eventCount "PullRequestReviewEvent" events
  /\ t_reposSet (tallyEvents events) = eventRepos events.
Proof.
  pose proof (tallyEvents_from events (mkEventTally 0 0 0 0 ∅)) as H.
  cbv zeta in H. cbn in H. unfold tallyEvents.
  destruct H as (Hc & Hp & Hi & Hr & Hs).
  rewrite Hc, Hp, Hi, Hr, Hs. repeat split. set_solver.
Qed.

Lemma num_or_idem x y : num_or x (num_or x y) = num_or x y.
Proof. unfold num_or. destruct (x =? 0); reflexivity. Qed.

(** C1 (counterexample).  The summary is absent and the calendar is present
    with day counts that sum to 0; the commit count returned is the 1 that
    the events give, not that sum. *)
Lemma commits_not_calendar_sum_when_zero :
  contributionData quietCalendarData = None
  /\ (dayCountSum <$> data_contributionCalendar quietCalendarData) = Some 0
  /\ totalCommits (calculateInsights (Ieee.host 0) noon_2024_03_05
                                     quietCalendarData 2024) = 1.
Proof. vm_compute. auto. Qed.

(** C1 (as amended).  With the summary present, commits, pull requests,
    issues, reviews and repositories are its fields, and the total is its
    calendar's total, or the other calendar's when that total is 0.  With
    the summary absent, the commit count is the sum of the calendar's day
    counts when a calendar is present and the sum is positive, and the
    commits tallied from the year's events otherwise; pull requests, issues,
    reviews and repositories are tallied from the year's events; the total
    is the calendar's total when it is present and not 0, and
    commits + pull requests + issues + reviews otherwise.  With neither
    source, every counter is an event tally. *)
Theorem basic_counters_precedence (h : JsHost) (now : Z) (data : AllGitHubData)
    (year : Z) :
  let out := calculateInsights h now data year in
  let evs := eventsOfYear (tzOffset h) year (events data) in
  let prs := eventCount "PullRequestEvent" evs in
  let issues := eventCount "IssuesEvent" evs in
  let reviews := eventCount "PullRequestReviewEvent" evs in
  match contributionData data with
  | Some cd =>
      totalCommits out = totalCommitContributions cd
      /\ totalPRs out = totalPullRequestContributions cd
      /\ totalIssues out = totalIssueContributions cd
      /\ totalReviews out = totalPullRequestReviewContributions cd
      /\ repositoriesContributedTo out
         = totalRepositoriesWithContributedCommits cd
      /\ wi_totalContributions out
         = num_or (totalContributions (cd_contributionCalendar cd))
             (match data_contributionCalendar data with
              | Some calendar => totalContributions calendar
              | None => 0
              end)
  | None =>
      let commits :=
        match data_contributionCalendar data with
        | Some calendar =>
            if dayCountSum calendar >? 0 then dayCountSum calendar
            else eventCommits evs
        | None => eventCommits evs
        end in
      totalCommits out = commits
      /\ totalPRs out = prs
      /\ totalIssues out = issues
      /\ totalReviews out = reviews
      /\ repositoriesContributedTo out = Z.of_nat (size (eventRepos evs))
      /\ wi_totalContributions out
         = match data_contributionCalendar data with
           | Some calendar =>
               num_or (totalContributions calendar)
                      (commits + prs + issues + reviews)
           | None => commits + prs + issues + reviews
           end
  end.
Proof.
  cbv zeta. unfold calculateInsights.
  fold (eventsOfYear (tzOffset h) year (events data)).
  set (evs := eventsOfYear (tzOffset h) year (events data)).
  destruct (tallyEvents_spec evs) as (Hc & Hp & Hi & Hr & Hs).
  destruct (contributionData data) as [cd|].
  - cbn. rewrite !num_or_same. repeat split.
    destruct (data_contributionCalendar data) as [calendar|]; cbn.
    + unfold num_or.
      destruct (Z.eqb_spec (totalContributions (cd_contributionCalendar cd)) 0);
        [|reflexivity].
      destruct (Z.eqb_spec (totalContributions calendar) 0); lia.
    + unfold num_or.
      destruct (Z.eqb_spec (totalContributions (cd_contributionCalendar cd)) 0);
        lia.
  - destruct (data_contributionCalendar data) as [calendar|]; cbn.
    + rewrite sumCalendar_dayCountSum, Hc, Hp, Hi, Hr, Hs, num_or_idem.
      repeat split.
    + rewrite Hc, Hp, Hi, Hr, Hs. repeat split.
Qed.

(** *** Rounding *)

(** Rounding the exact quotient half up is a rounding to nearest. *)
Lemma Exact_rounds_to_nearest (tz : Z) : rounds_to_nearest (Exact.host tz).
Proof.
  intros a b Ha Hb. cbn. unfold Exact.roundPercent.
  assert (0 < 2 * b) as H2b by lia.
  pose proof (Z.div_mod (200 * a + b) (2 * b) ltac:(lia)) as Hdm.
  pose proof (Z.mod_pos_bound (200 * a + b) (2 * b) H2b) as Hm.
  set (q := (200 * a + b) / (2 * b)) in *.
  set (r := (200 * a + b) mod (2 * b)) in *.
  assert (2 * (q * b) = 200 * a + b - r) as Hq by lia.
  lia.
Qed.

(** A nearest integer to an integer is that integer. *)
Lemma rounds_to_nearest_exact (h : JsHost) (k b : Z) :
  rounds_to_nearest h -> 0 <= k <= 1 -> 0 < b < 2 ^ 32 ->
  roundPercent h (k * b) b = 100 * k.
Proof.
  intros Hh Hk Hb.
  pose proof (Hh (k * b) b ltac:(nia) Hb) as H.
  replace (roundPercent h (k * b) b * b - 100 * (k * b))
    with ((roundPercent h (k * b) b - 100 * k) * b) in H by ring.
  rewrite Z.abs_mul, (Z.abs_eq b) in H by lia.
  assert (Z.abs (roundPercent h (k * b) b - 100 * k) = 0) as H0 by nia.
  lia.
Qed.

(** *** Ratio scores *)

Lemma len_filter_fork (repos : list GitHubRepo) :
  len (List.filter (fun r => negb (fork r)) repos)
  + len (List.filter (fun r => fork r) repos) = len repos.
Proof.
  unfold len. induction repos as [|r repos IH]; cbn; [reflexivity|].
  destruct (fork r); cbn; lia.
Qed.

(** C4 (counterexample).  The empty list has no forked repository and its
    score is 0: [Math.max(1, 0)] makes the quotient 0 / 1. *)
Lemma soloScore_of_no_repos :
  List.filter (fun r => fork r) [] = []
  /\ soloScore (calculateScores (Ieee.host 0) [] []) = 0.
Proof. vm_compute. auto. Qed.

(** C4 (as amended).  For a list with at least one repository the score is
    the rounded share of own repositories, and it is 100 when none of them
    is a fork; for the empty list the score is 0. *)
Theorem soloScore_formula (h : JsHost) (events : list GitHubEvent)
    (repos : list GitHubRepo) :
  rounds_to_nearest h -> len repos < 2 ^ 32 ->
  let ownRepoCount := len (List.filter (fun r => negb (fork r)) repos) in
  let forkedRepoCount := len (List.filter (fun r => fork r) repos) in
  let score := soloScore (calculateScores h events repos) in
  (repos <> [] ->
   score = roundPercent h ownRepoCount (ownRepoCount + forkedRepoCount))
  /\ (repos <> [] -> forkedRepoCount = 0 -> score = 100)
  /\ (repos = [] -> score = 0).
Proof.
  intros Hh Hlen. cbv zeta.
  assert (forall l, soloScore (calculateScores h events l)
                    = roundPercent h (len (List.filter (fun r => negb (fork r)) l))
                        (Z.max 1 (len (List.filter (fun r => negb (fork r)) l)
                                  + len (List.filter (fun r => fork r) l)))) as Hscore.
  { intros l. unfold calculateScores.
    destruct (fold_left _ events (0, 0)) as [issues prs]. reflexivity. }
  rewrite Hscore. pose proof (len_filter_fork repos) as Hsum.
  assert (repos <> [] -> 1 <= len repos) as Hne.
  { destruct repos; [congruence|]. unfold len. cbn [length]. lia. }
  split; [|split].
  - intros Hrepos. rewrite Z.max_r by (specialize (Hne Hrepos); lia). reflexivity.
  - intros Hrepos Hfork. specialize (Hne Hrepos).
    rewrite Hfork, Z.add_0_r in *. rewrite Z.max_r by lia.
    rewrite <- (Z.mul_1_l (len (List.filter _ repos))) at 1.
    rewrite (rounds_to_nearest_exact h 1) by (auto; lia). reflexivity.
  - intros ->.
    exact (rounds_to_nearest_exact h 0 1 Hh ltac:(lia) ltac:(lia)).
Qed.

(** C4 (the amended statement at a list of two own repositories). *)
Lemma soloScore_formula_witness :
  soloScore (calculateScores (Exact.host 0) []
               [aRepo "engine" (Some "Go") false; aRepo "notes" None false])
  = 100.
Proof.
  refine (proj1 (proj2
    (soloScore_formula (Exact.host 0) []
       [aRepo "engine" (Some "Go") false; aRepo "notes" None false]
       (Exact_rounds_to_nearest 0) _)) _ _).
  - vm_compute. reflexivity.
  - discriminate.
  - reflexivity.
Defined.

(** *** Sorting *)

Section JsSortFacts.
Context {A : Type} (cmp : A -> A -> Z).

Lemma sort_insert_perm (x : A) (l : list A) : sort_insert cmp x l ≡ₚ x :: l.
Proof.
  induction l as [|y l IH]; cbn; [reflexivity|].
  destruct (cmp x y <=? 0); [reflexivity|].
  rewrite IH. apply Permutation_swap.
Qed.

Lemma js_sort_perm (l : list A) : js_sort cmp l ≡ₚ l.
Proof.
  induction l as [|x l IH]; cbn; [reflexivity|].
  rewrite sort_insert_perm. now rewrite IH.
Qed.

Lemma js_sort_length (l : list A) : length (js_sort cmp l) = length l.
Proof. apply Permutation_length, js_sort_perm. Qed.

(** For a comparator that orders by a number, ascending or descending,
    the result is in order. *)
Lemma js_sort_sorted (l : list A) :
  (forall x y, cmp x y <= 0 \/ cmp y x <= 0) ->
  (forall x y z, cmp x y <= 0 -> cmp y z <= 0 -> cmp x z <= 0) ->
  StronglySorted (fun x y => cmp x y <= 0) (js_sort cmp l).
Proof.
  intros Htotal Htrans.
  induction l as [|x l IH]; [constructor|].
  change (js_sort cmp (x :: l)) with (sort_insert cmp x (js_sort cmp l)).
  revert IH. generalize (js_sort cmp l) as s. clear l.
  induction s as [|y s IHs]; intros Hs; cbn.
  - repeat constructor.
  - destruct (Z.leb_spec (cmp x y) 0) as [Hle|Hgt].
    + constructor; [exact Hs|].
      constructor; [exact Hle|].
      apply StronglySorted_inv in Hs as [_ Hall].
      eapply Forall_impl; [exact Hall|]. intros z Hz. cbn in Hz. eauto.
    + apply StronglySorted_inv in Hs as [Hs Hall].
      constructor; [apply IHs, Hs|].
      rewrite sort_insert_perm. constructor; [|exact Hall].
      destruct (Htotal x y); lia.
Qed.
End JsSortFacts.

Lemma StronglySorted_take {A : Type} (R : A -> A -> Prop) (n : nat) (l : list A) :
  StronglySorted R l -> StronglySorted R (take n l).
Proof.
  intros H. revert n. induction H as [|x l Hl IH Hall]; intros [|n]; cbn;
    try constructor; [apply IH|].
  apply Forall_take. exact Hall.
Qed.

(** *** Language statistics *)

Lemma countKey_facts (k : string) (counts : list (string * Z)) :
  Forall (fun kv => 1 <= snd kv) counts ->
  Forall (fun kv => 1 <= snd kv) (countKey k counts)
  /\ sumZ (map snd (countKey k counts)) = sumZ (map snd counts) + 1.
Proof.
  unfold sumZ. induction counts as [|[k' v] counts IH]; intros Hall; cbn.
  - split; [repeat constructor; cbn; lia | lia].
  - apply Forall_cons in Hall as [Hv Hall]. cbn in Hv.
    destruct (String.eqb k k'); cbn.
    + split; [|unfold num_or; destruct (Z.eqb_spec v 0); lia].
      constructor; [|exact Hall]. cbn. unfold num_or.
      destruct (Z.eqb_spec v 0); lia.
    + destruct (IH Hall) as [IH1 IH2]. split; [|lia].
      constructor; [exact Hv|exact IH1].
Qed.

Lemma languageCounts_facts (repos : list GitHubRepo) :
  Forall (fun kv => 1 <= snd kv) (languageCounts repos)
  /\ sumZ (map snd (languageCounts repos)) = len (List.filter isCountedRepo repos).
Proof.
  unfold languageCounts.
  enough (forall acc,
    Forall (fun kv => 1 <= snd kv) acc ->
    let out := fold_left
      (fun counts repo =>
         match language repo with
         | Some l =>
             if truthy (language repo) && negb (fork repo) then countKey l counts
             else counts
         | None => counts
         end) repos acc in
    Forall (fun kv => 1 <= snd kv) out
    /\ sumZ (map snd out)
       = sumZ (map snd acc) + len (List.filter isCountedRepo repos)) as H.
  { destruct (H [] ltac:(constructor)) as [H1 H2]. split; [exact H1|].
    rewrite H2. cbn. lia. }
  induction repos as [|r repos IH]; intros acc Hacc; cbn [fold_left List.filter].
  - cbv zeta. split; [exact Hacc|]. unfold len. cbn. lia.
  - assert (isCountedRepo r = truthy (language r) && negb (fork r)) as ->
      by reflexivity.
    destruct (language r) as [l|] eqn:El.
    + destruct (truthy (Some l) && negb (fork r)).
      * destruct (countKey_facts l acc Hacc) as [Hk1 Hk2].
        destruct (IH _ Hk1) as [IH1 IH2]. split; [exact IH1|].
        rewrite IH2, Hk2. unfold len. cbn [length]. lia.
      * apply IH, Hacc.
    + cbn. apply IH, Hacc.
Qed.

Lemma sumZ_perm (l1 l2 : list Z) : l1 ≡ₚ l2 -> sumZ l1 = sumZ l2.
Proof.
  unfold sumZ. induction 1; cbn; lia.
Qed.

(** The sum of roundings to nearest of the shares of a total. *)
Lemma sum_of_percentages (h : JsHost) (total : Z) (cs : list Z) :
  rounds_to_nearest h -> 0 < total < 2 ^ 32 ->
  Forall (fun c => 0 <= c <= total) cs ->
  2 * Z.abs (total * sumZ (map (fun c => roundPercent h c total) cs)
             - 100 * sumZ cs)
  <= len cs * total.
Proof.
  intros Hh Htotal. unfold sumZ, len.
  induction 1 as [|c cs Hc Hcs IH]; cbn [map foldr length].
  - cbn. lia.
  - pose proof (Hh c total Hc Htotal) as Hround.
    rewrite Nat2Z.inj_succ.
    set (p := roundPercent h c total) in *.
    set (P := foldr Z.add 0 (map (fun c => roundPercent h c total) cs)) in *.
    set (S := foldr Z.add 0 cs) in *.
    replace (total * (p + P) - 100 * (c + S))
      with ((p * total - 100 * c) + (total * P - 100 * S)) by ring.
    lia.
Qed.

Lemma StronglySorted_impl {A : Type} (R R' : A -> A -> Prop) (l : list A) :
  (forall x y, R x y -> R' x y) -> StronglySorted R l -> StronglySorted R' l.
Proof.
  intros HR. induction 1 as [|x l Hl IH Hall]; constructor; [exact IH|].
  eapply Forall_impl; [exact Hall|]. intros y. apply HR.
Qed.

Lemma fold_left_add (l : list Z) : fold_left (fun a b => a + b) l 0 = sumZ l.
Proof.
  rewrite (fold_left_add_sumZ (fun b => b)). rewrite map_id. lia.
Qed.

Lemma each_at_most_sum (l : list Z) :
  Forall (fun c => 1 <= c) l -> Forall (fun c => 0 <= c <= sumZ l) l.
Proof.
  unfold sumZ. induction 1 as [|c l Hc Hl IH]; cbn; constructor.
  - assert (0 <= foldr Z.add 0 l).
    { clear IH. induction Hl; cbn; lia. }
    lia.
  - eapply Forall_impl; [exact IH|]. cbn. intros; lia.
Qed.

Lemma len_filter_le {A : Type} (f : A -> bool) (l : list A) :
  len (List.filter f l) <= len l.
Proof.
  unfold len. induction l as [|a l IH]; cbn; [lia|].
  destruct (f a); cbn [length]; lia.
Qed.

Lemma len_filter_pos {A : Type} (f : A -> bool) (l : list A) :
  existsb f l = true -> 0 < len (List.filter f l).
Proof.
  unfold len. induction l as [|a l IH]; cbn; [discriminate|].
  destruct (f a); cbn [length orb]; [lia|exact IH].
Qed.

Lemma languageEntries_percentages (h : JsHost) (repos : list GitHubRepo) :
  let cs := map snd (languageCounts repos) in
  sumZ (map percentage (languageEntries h repos))
  = sumZ (map (fun c => roundPercent h c (sumZ cs)) cs).
Proof.
  cbv zeta. unfold languageEntries.
  rewrite (sumZ_perm _ _ (Permutation_map percentage (js_sort_perm _ _))).
  rewrite fold_left_add. f_equal.
  rewrite !map_map. apply map_ext. intros [nm c]. reflexivity.
Qed.

Lemma languageEntries_len (h : JsHost) (repos : list GitHubRepo) :
  len (languageEntries h repos) = len (map snd (languageCounts repos)).
Proof.
  unfold languageEntries, len. now rewrite js_sort_length, !length_map.
Qed.

(** C8 (counterexample).  A list of one repository, a fork: no language is
    counted and the percentages sum to 0.  And with nine languages the
    eight entries kept sum to 90, the ninth share being cut off. *)
Lemma percentages_not_near_100 :
  len oneFork = 1
  /\ sumZ (map percentage
             (ls_topLanguages (calculateLanguageStats (Ieee.host 0) oneFork))) = 0
  /\ sumZ (map percentage
             (ls_topLanguages (calculateLanguageStats (Ieee.host 0) nineLanguages)))
     = 90.
Proof. vm_compute. auto. Qed.

(** C8 (as amended).  When some repository is counted (it is not a fork and
    has a language) and no more than 8 languages are found, the percentages
    of [topLanguages] sum to 100 within half a point for each language.
    For every list of repositories [topLanguages] is in non-increasing
    order of count. *)
Theorem topLanguages_percentages_and_order (h : JsHost)
    (repos : list GitHubRepo) :
  rounds_to_nearest h -> len repos < 2 ^ 32 ->
  let stats := calculateLanguageStats h repos in
  (existsb isCountedRepo repos = true -> ls_totalLanguages stats <= 8 ->
   2 * Z.abs (sumZ (map percentage (ls_topLanguages stats)) - 100)
   <= ls_totalLanguages stats)
  /\ StronglySorted (fun a b => count a >= count b) (ls_topLanguages stats).
Proof.
  intros Hh Hlen. cbv zeta. unfold calculateLanguageStats.
  cbn [ls_topLanguages ls_totalLanguages]. split.
  - intros Hsome Hfew.
    unfold slice0. rewrite take_ge by (unfold len in Hfew; lia).
    rewrite languageEntries_percentages, languageEntries_len. cbv zeta.
    destruct (languageCounts_facts repos) as [Hpos Hsum].
    set (cs := map snd (languageCounts repos)) in *.
    assert (Forall (fun c => 1 <= c) cs) as Hcs.
    { subst cs. rewrite Forall_map. exact Hpos. }
    pose proof (len_filter_pos isCountedRepo repos Hsome) as HT.
    pose proof (len_filter_le isCountedRepo repos) as HT'.
    pose proof (sum_of_percentages h (sumZ cs) cs Hh ltac:(lia)
                  (each_at_most_sum cs Hcs)) as Hbound.
    set (P := sumZ (map (fun c => roundPercent h c (sumZ cs)) cs)) in *.
    replace (sumZ cs * P - 100 * sumZ cs) with ((P - 100) * sumZ cs) in Hbound
      by ring.
    rewrite Z.abs_mul, (Z.abs_eq (sumZ cs)) in Hbound by lia.
    nia.
  - apply StronglySorted_take.
    eapply StronglySorted_impl;
      [|apply js_sort_sorted; [intros; lia | intros; lia]].
    cbn. intros; lia.
Qed.

(** C8 (the amended statement at the example of the specification: two
    repositories in Go and one in Rust). *)
Lemma topLanguages_percentages_and_order_witness :
  2 * Z.abs (sumZ (map percentage
       (ls_topLanguages
          (calculateLanguageStats (Exact.host 0)
             [aRepo "a" (Some "Go") false; aRepo "b" (Some "Go") false;
              aRepo "c" (Some "Rust") false]))) - 100)
  <= 2.
Proof.
  refine (proj1
    (topLanguages_percentages_and_order (Exact.host 0)
       [aRepo "a" (Some "Go") false; aRepo "b" (Some "Go") false;
        aRepo "c" (Some "Rust") false]
       (Exact_rounds_to_nearest 0) _) _ _).
  - vm_compute. reflexivity.
  - reflexivity.
  - vm_compute. discriminate.
Defined.

(** *** The personality classifier *)

Lemma calculatePersonality_title (events : list GitHubEvent)
    (repos : list GitHubRepo) (mostProductiveHour : Z)
    (activityByDay : list (string * Z)) (scores : Scores) :
  title (calculatePersonality events repos mostProductiveHour activityByDay scores)
  = firstMatch
      (personalityRules (traitsOf repos mostProductiveHour activityByDay scores))
      "Code Crafter".
Proof.
  unfold calculatePersonality, traitsOf, personalityRules.
  cbn [nightOwl earlyBird polyglot weekendWarrior solo bugSlayer
       distinctLanguages firstMatch].
  destruct (isNightOwl mostProductiveHour && isPolyglot repos); [reflexivity|].
  destruct (isEarlyBird mostProductiveHour && isSolo scores); [reflexivity|].
  destruct (isWeekendWarrior activityByDay && (sc_bugSlayerScore scores >? 60));
    [reflexivity|].
  destruct (isPolyglot repos && negb (isSolo scores)); [reflexivity|].
  destruct (isSolo scores
            && (Z.of_nat (size (personalityLanguages repos)) <=? 2));
    [reflexivity|].
  destruct (isNightOwl mostProductiveHour && isWeekendWarrior activityByDay);
    reflexivity.
Qed.

(** The second trait carries the breadth of languages. *)
Lemma calculatePersonality_focus_value (events : list GitHubEvent)
    (repos : list GitHubRepo) (mostProductiveHour : Z)
    (activityByDay : list (string * Z)) (scores : Scores) :
  value <$>
    traits (calculatePersonality events repos mostProductiveHour activityByDay
                                 scores) !! 1%nat
  = Some (Z.min 100 (Z.of_nat (size (personalityLanguages repos)) * 15)).
Proof.
  unfold calculatePersonality.
  destruct (isNightOwl mostProductiveHour && isPolyglot repos); [reflexivity|].
  destruct (isEarlyBird mostProductiveHour && isSolo scores); [reflexivity|].
  destruct (isWeekendWarrior activityByDay && (sc_bugSlayerScore scores >? 60));
    [reflexivity|].
  destruct (isPolyglot repos && negb (isSolo scores)); [reflexivity|].
  destruct (isSolo scores
            && (Z.of_nat (size (personalityLanguages repos)) <=? 2));
    [reflexivity|].
  destruct (isNightOwl mostProductiveHour && isWeekendWarrior activityByDay);
    reflexivity.
Qed.

(** C7.  The title is the one of the first rule of the table that holds,
    "Code Crafter" when none does; in particular when rule 1 (night owl and
    polyglot) and rule 4 (polyglot and not solo) both hold the title is
    rule 1's. *)
Theorem personality_first_match (events : list GitHubEvent)
    (repos : list GitHubRepo) (mostProductiveHour : Z)
    (activityByDay : list (string * Z)) (scores : Scores) :
  let v := traitsOf repos mostProductiveHour activityByDay scores in
  let p := calculatePersonality events repos mostProductiveHour activityByDay
                                scores in
  title p = firstMatch (personalityRules v) "Code Crafter"
  /\ (nightOwl v && polyglot v = true -> polyglot v && negb (solo v) = true ->
      title p = "Nocturnal Polyglot").
Proof.
  cbv zeta. rewrite calculatePersonality_title. split; [reflexivity|].
  intros Hrule1 _. unfold personalityRules. cbn [firstMatch].
  rewrite Hrule1. reflexivity.
Qed.

(** C7 (at a developer most active at 22h, with five languages and a solo
    score of 40). *)
Lemma personality_first_match_witness :
  title (calculatePersonality [] fiveLanguages 22 [] (mkScores 40 50))
  = "Nocturnal Polyglot".
Proof.
  refine (proj2 (personality_first_match [] fiveLanguages 22 [] (mkScores 40 50))
                _ _); vm_compute; reflexivity.
Defined.

(** *** Language breadth: the classifier against [totalLanguages] *)

Lemma countKey_keys (k : string) (counts : list (string * Z)) :
  NoDup (map fst counts) ->
  NoDup (map fst (countKey k counts))
  /\ (list_to_set (map fst (countKey k counts)) : gset string)
     = {[k]} ∪ list_to_set (map fst counts).
Proof.
  induction counts as [|[k' v] counts IH]; intros Hnd; cbn.
  - split; [apply NoDup_singleton | set_solver].
  - apply NoDup_cons in Hnd as [Hk' Hnd].
    destruct (String.eqb_spec k k') as [->|Hne]; cbn.
    + split; [apply NoDup_cons; auto | set_solver].
    + destruct (IH Hnd) as [IH1 IH2]. split.
      * apply NoDup_cons. split; [|exact IH1].
        intros Hin. apply (elem_of_list_to_set (C := gset string)) in Hin.
        rewrite IH2 in Hin.
        apply elem_of_union in Hin as [Hin|Hin].
        -- apply elem_of_singleton in Hin. congruence.
        -- apply elem_of_list_to_set in Hin. exact (Hk' Hin).
      * rewrite IH2. set_solver.
Qed.

Lemma isCountedRepo_eq (r : GitHubRepo) :
  isCountedRepo r = truthy (language r) && negb (fork r).
Proof. reflexivity. Qed.

Lemma languageCounts_keys (repos : list GitHubRepo) :
  NoDup (map fst (languageCounts repos))
  /\ (list_to_set (map fst (languageCounts repos)) : gset string)
     = countedLanguages repos.
Proof.
  unfold languageCounts, countedLanguages.
  enough (forall acc,
    NoDup (map fst acc) ->
    let out := fold_left
      (fun counts repo =>
         match language repo with
         | Some l =>
             if truthy (language repo) && negb (fork repo) then countKey l counts
             else counts
         | None => counts
         end) repos acc in
    NoDup (map fst out)
    /\ (list_to_set (map fst out) : gset string)
       = list_to_set (map fst acc)
         ∪ list_to_set
             (omap (fun r => if isCountedRepo r then language r else None)
                   repos)) as H.
  { destruct (H [] ltac:(constructor)) as [H1 H2]. split; [exact H1|].
    rewrite H2. change (map fst []) with (@nil string).
    rewrite list_to_set_nil. set_solver. }
  induction repos as [|r repos IH]; intros acc Hacc; cbn [fold_left omap].
  - cbv zeta. split; [exact Hacc|].
    change (list_omap _ _ _ []) with (@nil string).
    rewrite list_to_set_nil. set_solver.
  - cbn [list_omap]. rewrite isCountedRepo_eq.
    destruct (language r) as [l|] eqn:El.
    + destruct (truthy (Some l) && negb (fork r)); cbv beta iota.
      * destruct (countKey_keys l acc Hacc) as [Hk1 Hk2].
        destruct (IH _ Hk1) as [IH1 IH2]. split; [exact IH1|].
        rewrite IH2, Hk2, list_to_set_cons. set_solver.
      * apply IH, Hacc.
    + rewrite andb_false_l. cbv beta iota. apply IH, Hacc.
Qed.

Lemma totalLanguages_countedLanguages (h : JsHost) (repos : list GitHubRepo) :
  ls_totalLanguages (calculateLanguageStats h repos)
  = Z.of_nat (size (countedLanguages repos)).
Proof.
  unfold calculateLanguageStats. cbn [ls_totalLanguages].
  rewrite languageEntries_len. unfold len. rewrite length_map.
  destruct (languageCounts_keys repos) as [Hnd Hset].
  rewrite <- Hset, size_list_to_set by exact Hnd.
  now rewrite length_map.
Qed.

Lemma countedLanguages_subseteq (repos : list GitHubRepo) :
  countedLanguages repos ⊆ personalityLanguages repos.
Proof.
  unfold countedLanguages, personalityLanguages.
  induction repos as [|r repos IH]; [set_solver|].
  cbn [omap list_omap map List.filter]. rewrite isCountedRepo_eq.
  destruct (truthy (language r)) eqn:Et.
  - destruct (language r) as [l|]; [|discriminate].
    destruct (fork r); cbn [negb andb omap list_omap id]; cbv beta iota;
      rewrite ?list_to_set_cons; set_solver.
  - rewrite andb_false_l. cbv beta iota. exact IH.
Qed.

Lemma truthy_Some (l : string) : truthy (Some l) = true <-> l <> "".
Proof.
  cbn. destruct (String.eqb_spec l ""); cbn; split; congruence.
Qed.

Lemma elem_of_personalityLanguages (repos : list GitHubRepo) (x : string) :
  x ∈ personalityLanguages repos
  <-> exists r, r ∈ repos /\ language r = Some x /\ x <> "".
Proof.
  unfold personalityLanguages. rewrite elem_of_list_to_set, list_elem_of_omap.
  split.
  - intros (o & Ho & Hx). cbn in Hx. subst o.
    apply list_elem_of_In, filter_In in Ho as [Ho Ht].
    apply in_map_iff in Ho as (r & Hr & Hin).
    apply list_elem_of_In in Hin. apply truthy_Some in Ht. eauto.
  - intros (r & Hr & Hl & Hx). exists (Some x). split; [|reflexivity].
    apply list_elem_of_In, filter_In. split; [|now apply truthy_Some].
    apply in_map_iff. exists r. split; [exact Hl|]. now apply list_elem_of_In.
Qed.

Lemma elem_of_countedLanguages (repos : list GitHubRepo) (x : string) :
  x ∈ countedLanguages repos
  <-> exists r, r ∈ repos /\ fork r = false /\ language r = Some x /\ x <> "".
Proof.
  unfold countedLanguages. rewrite elem_of_list_to_set, list_elem_of_omap.
  split.
  - intros (r & Hr & Hx). exists r. split; [exact Hr|].
    rewrite isCountedRepo_eq in Hx.
    destruct (truthy (language r)) eqn:Et; [|discriminate].
    destruct (fork r); [discriminate|]. cbn in Hx.
    rewrite Hx in Et. apply truthy_Some in Et. auto.
  - intros (r & Hr & Hf & Hl & Hx). exists r. split; [exact Hr|].
    rewrite isCountedRepo_eq, Hf, Hl.
    apply truthy_Some in Hx. rewrite Hx. reflexivity.
Qed.

(** C10.  The breadth of languages the classifier uses (for the polyglot
    predicate, for rule 5 and for the value of the second trait) is the
    number of distinct non-empty languages over all repositories, forks
    included; [totalLanguages] is that number over the repositories that
    are not forks.  The latter never exceeds the former, and for the list
    [fiveLanguages] it is smaller: 2 against 5. *)
Theorem classifier_breadth_counts_forks :
  (forall (repos : list GitHubRepo) (x : string),
      x ∈ personalityLanguages repos
      <-> exists r, r ∈ repos /\ language r = Some x /\ x <> "")
  /\ (forall events repos mostProductiveHour activityByDay scores,
        let breadth := Z.of_nat (size (personalityLanguages repos)) in
        let p := calculatePersonality events repos mostProductiveHour
                                      activityByDay scores in
        title p
        = firstMatch
            (personalityRules
               (mkTraitValuation
                  (isNightOwl mostProductiveHour) (isEarlyBird mostProductiveHour)
                  (breadth >=? 5) (isWeekendWarrior activityByDay)
                  (isSolo scores) (sc_bugSlayerScore scores) breadth))
            "Code Crafter"
        /\ value <$> traits p !! 1%nat = Some (Z.min 100 (breadth * 15)))
  /\ (forall (repos : list GitHubRepo) (x : string),
        x ∈ countedLanguages repos
        <-> exists r, r ∈ repos /\ fork r = false /\ language r = Some x
                      /\ x <> "")
  /\ (forall h repos,
        ls_totalLanguages (calculateLanguageStats h repos)
        = Z.of_nat (size (countedLanguages repos)))
  /\ (forall h repos,
        ls_totalLanguages (calculateLanguageStats h repos)
        <= Z.of_nat (size (personalityLanguages repos)))
  /\ (forall h,
        ls_totalLanguages (calculateLanguageStats h fiveLanguages) = 2
        /\ Z.of_nat (size (personalityLanguages fiveLanguages)) = 5
        /\ isPolyglot fiveLanguages = true).
Proof.
  split; [exact elem_of_personalityLanguages|].
  split.
  { intros events repos hour byDay scores. cbv zeta. split.
    - apply calculatePersonality_title.
    - apply calculatePersonality_focus_value. }
  split; [exact elem_of_countedLanguages|].
  split; [exact totalLanguages_countedLanguages|].
  split.
  { intros h repos. rewrite totalLanguages_countedLanguages.
    apply Nat2Z.inj_le, subseteq_size, countedLanguages_subseteq. }
  intros h. rewrite totalLanguages_countedLanguages.
  vm_compute. auto.
Qed.

(** *** Streaks *)

Lemma fold_left_invariant {S X : Type} (f : S -> X -> S) (P : S -> Prop)
    (l : list X) (s : S) :
  P s -> (forall s x, x ∈ l -> P s -> P (f s x)) -> P (fold_left f l s).
Proof.
  revert s. induction l as [|x l IH]; intros s Hs Hstep; cbn; [exact Hs|].
  apply IH.
  - apply Hstep; [left|exact Hs].
  - intros s' x' Hx'. apply Hstep. now right.
Qed.

Lemma foldr_max_bound (n : Z) (ns : list Z) (x : Z) :
  x ∈ n :: ns -> x <= foldr Z.max n ns.
Proof.
  induction ns as [|m ns IH]; cbn; intros Hin.
  - apply list_elem_of_singleton in Hin. lia.
  - apply elem_of_cons in Hin as [->|Hin].
    + assert (n ∈ n :: ns) as H by left. specialize (IH H). lia.
    + apply elem_of_cons in Hin as [->|Hin]; [lia|].
      assert (x ∈ n :: ns) as H by now right. specialize (IH H). lia.
Qed.

Lemma mostRecentActiveDay_bound (calendar : ContributionCalendar)
    (d : ContributionDay) :
  d ∈ flat_map contributionDays (weeks calendar) -> contributionCount d > 0 ->
  exists b, mostRecentActiveDay calendar = Some b /\ dayNumber d <= b.
Proof.
  intros Hin Hpos. unfold mostRecentActiveDay.
  assert (dayNumber d ∈
            map dayNumber
              (List.filter (fun d => contributionCount d >? 0)
                 (flat_map contributionDays (weeks calendar)))) as Hd.
  { apply list_elem_of_In, in_map, filter_In. split.
    - now apply list_elem_of_In.
    - apply Z.gtb_lt. lia. }
  destruct (map dayNumber _) as [|n ns]; [inversion Hd|].
  eexists. split; [reflexivity|]. now apply foldr_max_bound.
Qed.

(** The day difference the scan computes, in day numbers: the local day of
    the evaluation instant less the local day of midnight UTC of the date. *)
Lemma diffDays_localDay (tz now : Z) (d : ContributionDay) :
  diffDays tz (Date.setHours0 tz now) d
  = localDay tz now - (dayNumber d * Date.msPerDay + tz) / Date.msPerDay.
Proof.
  unfold diffDays, Date.setHours0, Date.parse, Date.UTC, Date.LocalTime,
    Date.Day, localDay, Date.LocalTime, Date.Day.
  fold (dayNumber d).
  change (1000 * 60 * 60 * 24) with Date.msPerDay.
  set (L := (now + tz) / Date.msPerDay).
  set (D := (dayNumber d * Date.msPerDay + tz) / Date.msPerDay).
  replace (L * Date.msPerDay - tz - (D * Date.msPerDay - tz))
    with ((L - D) * Date.msPerDay) by ring.
  apply Z.div_mul. discriminate.
Qed.

Lemma diffDays_old (tz now : Z) (d : ContributionDay) :
  tz < Date.msPerDay -> dayNumber d + 1 < localDay tz now ->
  1 < diffDays tz (Date.setHours0 tz now) d.
Proof.
  intros Htz Hold. rewrite diffDays_localDay.
  assert ((dayNumber d * Date.msPerDay + tz) / Date.msPerDay <= dayNumber d).
  { apply Z.lt_succ_r, Z.div_lt_upper_bound; unfold Date.msPerDay in *; lia. }
  lia.
Qed.

(** The scan keeps [current] below the longest run seen or under way. *)
Lemma streak_scan_bound (tz today : Z) (l : list ContributionDay) :
  let s := fold_left (streakStep tz today) l (mkStreakState 0 0 0 0) in
  0 <= temp s /\ current s <= Z.max (longest s) (temp s).
Proof.
  cbv zeta. apply fold_left_invariant; [cbn; lia|].
  intros s d _ [Htemp Hcur]. unfold streakStep.
  destruct (contributionCount d >? 0); cbn.
  - destruct (diffDays tz today d <=? 1); lia.
  - lia.
Qed.

(** [current] stays 0 while no active day is within a day of [today]. *)
Lemma streak_scan_stale (tz today : Z) (l : list ContributionDay) :
  (forall d, d ∈ l -> contributionCount d > 0 -> 1 < diffDays tz today d) ->
  current (fold_left (streakStep tz today) l (mkStreakState 0 0 0 0)) = 0.
Proof.
  intros Hold. apply (fold_left_invariant _ (fun s => current s = 0));
    [reflexivity|].
  intros s d Hd Hcur. unfold streakStep.
  destruct (Z.gtb_spec (contributionCount d) 0) as [Hpos|_]; cbn; [|exact Hcur].
  specialize (Hold d Hd ltac:(lia)).
  destruct (Z.leb_spec (diffDays tz today d) 1); [lia|exact Hcur].
Qed.

(** In a zone that keeps one offset, less than a day ahead of UTC: the
    longest streak is at least the current streak; and the current streak
    is 0 when the most recent day with a count above 0 lies more than one
    day before the evaluation time, that is before yesterday (the
    specification counts a streak as current when it reaches today or
    yesterday).  Where the offset changes the second part fails, see the
    streaks and daylight saving below. *)
Theorem streaks_longest_and_current (tz now : Z)
    (calendar : option ContributionCalendar) :
  let s := calculateStreaks tz now calendar in
  s_currentStreak s <= s_longestStreak s
  /\ (tz < Date.msPerDay ->
      (forall c latest,
          calendar = Some c -> mostRecentActiveDay c = Some latest ->
          latest + 1 < localDay tz now) ->
      s_currentStreak s = 0).
Proof.
  cbv zeta. unfold calculateStreaks. destruct calendar as [c|]; cbn; [|auto with zarith].
  split.
  - pose proof (streak_scan_bound tz (Date.setHours0 tz now) (allDays c)) as H.
    cbv zeta in H. lia.
  - intros Htz Hlatest. apply streak_scan_stale. intros d Hd Hpos.
    unfold allDays in Hd. rewrite js_sort_perm in Hd.
    destruct (mostRecentActiveDay_bound c d Hd Hpos) as (b & Hb & Hle).
    specialize (Hlatest c b eq_refl Hb).
    apply diffDays_old; [exact Htz|lia].
Qed.

(** In UTC, four days after the only active day. *)
Lemma streaks_longest_and_current_witness :
  s_currentStreak
    (calculateStreaks 0 (noon_2024_03_05 + 4 * Date.msPerDay) (Some oneActiveDay))
  = 0.
Proof.
  refine (proj2 (streaks_longest_and_current 0
                   (noon_2024_03_05 + 4 * Date.msPerDay) (Some oneActiveDay))
                _ _).
  - reflexivity.
  - intros c latest [= <-]. vm_compute. intros [= <-]. reflexivity.
Defined.

(** *** calculateInsights as a function of its inputs *)

(** Runs, longest run and active days do not depend on [today]. *)
Lemma streak_scan_today (tz today1 today2 : Z) (l : list ContributionDay)
    (s1 s2 : StreakState) :
  longest s1 = longest s2 -> temp s1 = temp s2 -> active s1 = active s2 ->
  let r1 := fold_left (streakStep tz today1) l s1 in
  let r2 := fold_left (streakStep tz today2) l s2 in
  longest r1 = longest r2 /\ temp r1 = temp r2 /\ active r1 = active r2.
Proof.
  revert s1 s2. induction l as [|d l IH]; intros s1 s2 Hl Ht Ha; cbn [fold_left].
  - auto.
  - apply IH; unfold streakStep; destruct (contributionCount d >? 0); cbn;
      congruence.
Qed.

Lemma calculateStreaks_clock (tz now1 now2 : Z)
    (calendar : option ContributionCalendar) :
  s_longestStreak (calculateStreaks tz now1 calendar)
  = s_longestStreak (calculateStreaks tz now2 calendar)
  /\ s_totalActiveDays (calculateStreaks tz now1 calendar)
     = s_totalActiveDays (calculateStreaks tz now2 calendar).
Proof.
  unfold calculateStreaks. destruct calendar as [c|]; [|auto].
  cbn [s_longestStreak s_totalActiveDays].
  destruct (streak_scan_today tz (Date.setHours0 tz now1) (Date.setHours0 tz now2)
              (allDays c) (mkStreakState 0 0 0 0) (mkStreakState 0 0 0 0)
              eq_refl eq_refl eq_refl) as (Hl & Ht & Ha).
  cbv zeta in Hl, Ht, Ha. rewrite Hl, Ht, Ha. auto.
Qed.

Lemma calculateStreaks_same_day (tz now1 now2 : Z)
    (calendar : option ContributionCalendar) :
  localDay tz now1 = localDay tz now2 ->
  calculateStreaks tz now1 calendar = calculateStreaks tz now2 calendar.
Proof.
  intros Hday. unfold calculateStreaks, Date.setHours0.
  fold (localDay tz now1). fold (localDay tz now2). now rewrite Hday.
Qed.

(** C5 (counterexample).  The same bundle and year, computed on the active
    day and four days later: the current streak is 1, then 0. *)
Lemma currentStreak_follows_the_clock :
  currentStreak (calculateInsights (Ieee.host 0) noon_2024_03_05
                                   oneActiveDayData 2024) = 1
  /\ currentStreak (calculateInsights (Ieee.host 0)
                      (noon_2024_03_05 + 4 * Date.msPerDay)
                      oneActiveDayData 2024) = 0.
Proof. vm_compute. auto. Qed.

(** C5 (as amended).  In a given host, [calculateInsights] is a function of
    the bundle, the year and the local day on which it runs: two runs on
    the same bundle and year agree on every field when they run on the
    same local day, and on every field but [currentStreak] whenever they
    run. *)
Theorem calculateInsights_deterministic (h : JsHost) (data : AllGitHubData)
    (year now1 now2 : Z) :
  (localDay (tzOffset h) now1 = localDay (tzOffset h) now2 ->
   calculateInsights h now1 data year = calculateInsights h now2 data year)
  /\ withoutCurrentStreak (calculateInsights h now1 data year)
     = withoutCurrentStreak (calculateInsights h now2 data year).
Proof.
  split.
  - intros Hday. unfold calculateInsights.
    now rewrite (calculateStreaks_same_day _ now1 now2 _ Hday).
  - destruct (calculateStreaks_clock (tzOffset h) now1 now2
                (data_contributionCalendar data)) as [Hl Ha].
    unfold withoutCurrentStreak, calculateInsights.
    cbn [wi_totalContributions totalCommits totalPRs totalIssues totalReviews
         repositoriesContributedTo newRepositoriesCreated topRepositories
         topLanguages totalLanguages mostProductiveDay mostProductiveHour
         peakHourRange activityByDay activityByHour monthlyActivity
         longestStreak totalActiveDays soloVsTeamScore bugSlayerScore
         contributionCalendar personality].
    rewrite Hl, Ha. reflexivity.
Qed.

(** C5 (two runs in UTC on 2024-03-05, at noon and an hour later). *)
Lemma calculateInsights_deterministic_witness :
  calculateInsights (Ieee.host 0) noon_2024_03_05 oneActiveDayData 2024
  = calculateInsights (Ieee.host 0) (noon_2024_03_05 + Date.msPerHour)
                      oneActiveDayData 2024.
Proof.
  refine (proj1 (calculateInsights_deterministic (Ieee.host 0) oneActiveDayData
                   2024 noon_2024_03_05 (noon_2024_03_05 + Date.msPerHour)) _).
  reflexivity.
Defined.

(** *** The civil calendar *)

(** Within an era, the date of a day gives the day back. *)
Lemma civil_of_doe_inverse (doe : Z) :
  0 <= doe < 146097 ->
  let '(yoe, mp, d) := Date.civil_of_doe doe in
  0 <= yoe < 400 /\ 0 <= mp < 12 /\ Date.doe_of yoe mp d = doe.
Proof.
  intros H. unfold Date.civil_of_doe, Date.doe_of.
  Z.div_mod_to_equations. lia.
Qed.

Lemma days_from_civil_from_days (z : Z) :
  let c := Date.civil_from_days z in
  Date.days_from_civil (dyear c) (dmonth c) (dday c) = z
  /\ 1 <= dmonth c <= 12.
Proof.
  cbv zeta. unfold Date.civil_from_days.
  set (z' := z + 719468). set (era := z' / 146097).
  assert (0 <= z' - era * 146097 < 146097) as Hdoe.
  { subst era. pose proof (Z.mod_pos_bound z' 146097 ltac:(lia)) as H.
    rewrite Z.mod_eq in H by lia. lia. }
  pose proof (civil_of_doe_inverse _ Hdoe) as Hok.
  destruct (Date.civil_of_doe (z' - era * 146097)) as [[yoe mp] d].
  destruct Hok as (Hy & Hmp & Hd).
  cbn [dyear dmonth dday]. unfold Date.days_from_civil.
  destruct (Z.ltb_spec mp 10) as [Hlt|Hge].
  - destruct (Z.leb_spec (mp + 3) 2); [lia|].
    rewrite Z.add_0_r.
    replace ((yoe + era * 400) / 400) with era
      by (apply Z.div_unique with yoe; lia).
    replace (yoe + era * 400 - era * 400) with yoe by ring.
    replace ((mp + 3 + 9) mod 12) with mp
      by (apply Z.mod_unique with 1; lia).
    rewrite Hd. subst z'. lia.
  - destruct (Z.leb_spec (mp - 9) 2); [|lia].
    replace (yoe + era * 400 + 1 - 1) with (yoe + era * 400) by ring.
    replace ((yoe + era * 400) / 400) with era
      by (apply Z.div_unique with yoe; lia).
    replace (yoe + era * 400 - era * 400) with yoe by ring.
    replace ((mp - 9 + 9) mod 12) with mp
      by (apply Z.mod_unique with 0; lia).
    rewrite Hd. subst z'. lia.
Qed.

Lemma MakeDay_in_month (y m d : Z) :
  1 <= m <= 12 ->
  Date.MakeDay y (m - 1) d = Date.days_from_civil y m d.
Proof.
  intros Hm. unfold Date.MakeDay.
  replace ((m - 1) / 12) with 0 by (symmetry; apply Z.div_small; lia).
  replace ((m - 1) mod 12) with (m - 1) by (symmetry; apply Z.mod_small; lia).
  rewrite Z.add_0_r. replace (m - 1 + 1) with m by ring.
  unfold Date.days_from_civil, Date.doe_of. lia.
Qed.

(** [d.setDate(d.getDate() + 1)] moves a date one day on. *)
Lemma setDate_next (tz t : Z) :
  Date.setDate tz t (Date.getDate tz t + 1) = t + Date.msPerDay.
Proof.
  unfold Date.setDate, Date.getDate.
  set (l := Date.LocalTime tz t).
  destruct (days_from_civil_from_days (Date.Day l)) as [Hday Hm].
  cbv zeta in Hday, Hm.
  rewrite MakeDay_in_month by exact Hm.
  assert (forall y m d, Date.days_from_civil y m (d + 1)
                        = Date.days_from_civil y m d + 1) as Hnext.
  { intros. unfold Date.days_from_civil, Date.doe_of. lia. }
  rewrite Hnext, Hday.
  unfold Date.UTC, Date.Day, Date.TimeWithinDay.
  pose proof (Z.div_mod l Date.msPerDay ltac:(discriminate)) as Hl.
  subst l. unfold Date.LocalTime in *. lia.
Qed.

(** From January 1 to December 31 there are 364 or 365 days. *)
Lemma year_span (y : Z) :
  364 <= Date.MakeDay y 11 31 - Date.MakeDay y 0 1 <= 365.
Proof.
  change (Date.MakeDay y 11 31) with (Date.MakeDay y (12 - 1) 31).
  change (Date.MakeDay y 0 1) with (Date.MakeDay y (1 - 1) 1).
  rewrite (MakeDay_in_month y 12 31), (MakeDay_in_month y 1 1) by lia.
  unfold Date.days_from_civil, Date.doe_of.
  change (12 <=? 2) with false. change (1 <=? 2) with true. cbv iota.
  change ((12 + 9) mod 12) with 9. change ((1 + 9) mod 12) with 10.
  change ((153 * 9 + 2) / 5) with 275. change ((153 * 10 + 2) / 5) with 306.
  Z.div_mod_to_equations. lia.
Qed.

(** *** The empty calendar *)

Lemma createEmptyCalendar_loop_fuel (fuel : nat) (tz endDate : Z)
    (weeks : list ContributionWeek) (currentWeek : list ContributionDay)
    (currentDate : Z) :
  endDate - currentDate < Z.of_nat fuel * Date.msPerDay ->
  is_Some (createEmptyCalendar_loop fuel tz endDate weeks currentWeek currentDate).
Proof.
  revert weeks currentWeek currentDate.
  induction fuel as [|fuel IH]; intros weeks currentWeek currentDate Hfuel;
    cbn [createEmptyCalendar_loop].
  - destruct (Z.leb_spec currentDate endDate); [lia|eauto].
  - destruct (Z.leb_spec currentDate endDate); [|eauto].
    destruct ((Date.getDay tz currentDate =? 0) && (len currentWeek >? 0));
      rewrite setDate_next; apply IH; unfold Date.msPerDay in *; lia.
Qed.

(** The loop of [createEmptyCalendar] leaves within 366 rounds, for every
    year and zone. *)
Lemma createEmptyCalendar_loop_exits (tz year : Z) :
  is_Some (createEmptyCalendar_loop 366 tz (Date.make tz year 11 31) [] []
             (Date.make tz year 0 1)).
Proof.
  apply createEmptyCalendar_loop_fuel. unfold Date.make, Date.UTC.
  set (y := if (0 <=? year) && (year <=? 99) then 1900 + year else year).
  pose proof (year_span y). unfold Date.msPerDay. lia.
Qed.

Lemma createEmptyCalendar_loop_zero (fuel : nat) (tz endDate : Z)
    (weeks : list ContributionWeek) (currentWeek : list ContributionDay)
    (currentDate : Z) weeks' currentWeek' :
  allZero (flat_map contributionDays weeks) -> allZero currentWeek ->
  createEmptyCalendar_loop fuel tz endDate weeks currentWeek currentDate
  = Some (weeks', currentWeek') ->
  allZero (flat_map contributionDays weeks') /\ allZero currentWeek'.
Proof.
  unfold allZero. revert weeks currentWeek currentDate.
  induction fuel as [|fuel IH]; intros weeks currentWeek currentDate Hw Hc;
    cbn [createEmptyCalendar_loop].
  - destruct (currentDate <=? endDate); [discriminate|]. intros [= <- <-]. auto.
  - destruct (currentDate <=? endDate); [|intros [= <- <-]; auto].
    destruct ((Date.getDay tz currentDate =? 0) && (len currentWeek >? 0)).
    + apply IH.
      * rewrite flat_map_app. apply Forall_app. split; [exact Hw|].
        cbn. rewrite app_nil_r. exact Hc.
      * repeat constructor.
    + apply IH; [exact Hw|].
      apply Forall_app. split; [exact Hc|]. repeat constructor.
Qed.

(** X3.  The calendar made for a year without data is produced (the loop
    leaves within its 366 rounds) and reports nothing: its total is 0 and
    so is every day of it. *)
Theorem createEmptyCalendar_zero (tz year : Z) :
  is_Some (createEmptyCalendar_loop 366 tz (Date.make tz year 11 31) [] []
             (Date.make tz year 0 1))
  /\ totalContributions (createEmptyCalendar tz year) = 0
  /\ allZero (flat_map contributionDays (weeks (createEmptyCalendar tz year))).
Proof.
  split; [apply createEmptyCalendar_loop_exits|].
  unfold createEmptyCalendar.
  destruct (createEmptyCalendar_loop_exits tz year) as [[ws cw] Hloop].
  rewrite Hloop. cbn [totalContributions weeks]. split; [reflexivity|].
  destruct (createEmptyCalendar_loop_zero 366 tz _ [] [] _ ws cw
              (Forall_nil_2 _) (Forall_nil_2 _) Hloop) as [Hws Hcw].
  destruct (len cw >? 0); [|exact Hws].
  rewrite flat_map_app. apply Forall_app. split; [exact Hws|].
  cbn. rewrite app_nil_r. exact Hcw.
Qed.

(** The year of the era is found again from the day of the era, for the
    first day of January and the last days of December. *)
Lemma yoe_of_doe (yoe doy : Z) :
  0 <= yoe < 400 -> 304 <= doy <= 306 ->
  let doe := yoe * 365 + yoe / 4 - yoe / 100 + doy in
  (doe - doe / 1460 + doe / 36524 - doe / 146096) / 365 = yoe.
Proof.
  intros Hy Hdoy. cbv zeta.
  assert (doy = 304 \/ doy = 305 \/ doy = 306) as [->|[->| ->]] by lia.
  - Z.div_mod_to_equations. lia.
  - Z.div_mod_to_equations. lia.
  - Z.div_mod_to_equations. lia.
Qed.

Lemma doe_inverse (yoe mp d : Z) :
  0 <= yoe < 400 -> (mp = 10 /\ d = 1) \/ (mp = 9 /\ 30 <= d <= 31) ->
  Date.civil_of_doe (Date.doe_of yoe mp d) = (yoe, mp, d).
Proof.
  intros Hy Hc.
  assert ((mp = 10 /\ d = 1) \/ (mp = 9 /\ d = 30) \/ (mp = 9 /\ d = 31))
    as [[-> ->]|[[-> ->]|[-> ->]]] by lia;
    unfold Date.civil_of_doe, Date.doe_of.
  - change ((153 * 10 + 2) / 5 + 1 - 1) with 306.
    rewrite (yoe_of_doe yoe 306) by lia.
    replace (yoe * 365 + yoe / 4 - yoe / 100 + 306
             - (365 * yoe + yoe / 4 - yoe / 100)) with 306 by ring.
    reflexivity.
  - change ((153 * 9 + 2) / 5 + 30 - 1) with 304.
    rewrite (yoe_of_doe yoe 304) by lia.
    replace (yoe * 365 + yoe / 4 - yoe / 100 + 304
             - (365 * yoe + yoe / 4 - yoe / 100)) with 304 by ring.
    reflexivity.
  - change ((153 * 9 + 2) / 5 + 31 - 1) with 305.
    rewrite (yoe_of_doe yoe 305) by lia.
    replace (yoe * 365 + yoe / 4 - yoe / 100 + 305
             - (365 * yoe + yoe / 4 - yoe / 100)) with 305 by ring.
    reflexivity.
Qed.

Lemma civil_from_days_Jan1 (y : Z) :
  Date.civil_from_days (Date.days_from_civil y 1 1) = mkIsoDate y 1 1.
Proof.
  unfold Date.days_from_civil. change (1 <=? 2) with true. cbv iota.
  change ((1 + 9) mod 12) with 10.
  set (era := (y - 1) / 400). set (yoe := y - 1 - era * 400).
  assert (0 <= yoe < 400) as Hy.
  { subst yoe era. pose proof (Z.mod_pos_bound (y - 1) 400 ltac:(lia)) as H.
    rewrite Z.mod_eq in H by lia. lia. }
  unfold Date.civil_from_days.
  assert (0 <= Date.doe_of yoe 10 1 < 146097) as Hdoe.
  { unfold Date.doe_of. Z.div_mod_to_equations. lia. }
  replace (era * 146097 + Date.doe_of yoe 10 1 - 719468 + 719468)
    with (Date.doe_of yoe 10 1 + era * 146097) by ring.
  replace ((Date.doe_of yoe 10 1 + era * 146097) / 146097) with era
    by (apply Z.div_unique with (Date.doe_of yoe 10 1); lia).
  replace (Date.doe_of yoe 10 1 + era * 146097 - era * 146097)
    with (Date.doe_of yoe 10 1) by ring.
  rewrite doe_inverse by auto.
  change (10 <? 10) with false. cbv iota. change (10 - 9 <=? 2) with true.
  cbv iota. f_equal. subst yoe. lia.
Qed.

Lemma civil_from_days_Dec (y d : Z) :
  30 <= d <= 31 ->
  Date.civil_from_days (Date.days_from_civil y 12 d) = mkIsoDate y 12 d.
Proof.
  intros Hd. unfold Date.days_from_civil. change (12 <=? 2) with false. cbv iota.
  change ((12 + 9) mod 12) with 9.
  set (era := y / 400). set (yoe := y - era * 400).
  assert (0 <= yoe < 400) as Hy.
  { subst yoe era. pose proof (Z.mod_pos_bound y 400 ltac:(lia)) as H.
    rewrite Z.mod_eq in H by lia. lia. }
  unfold Date.civil_from_days.
  assert (0 <= Date.doe_of yoe 9 d < 146097) as Hdoe.
  { unfold Date.doe_of. Z.div_mod_to_equations. lia. }
  replace (era * 146097 + Date.doe_of yoe 9 d - 719468 + 719468)
    with (Date.doe_of yoe 9 d + era * 146097) by ring.
  replace ((Date.doe_of yoe 9 d + era * 146097) / 146097) with era
    by (apply Z.div_unique with (Date.doe_of yoe 9 d); lia).
  replace (Date.doe_of yoe 9 d + era * 146097 - era * 146097)
    with (Date.doe_of yoe 9 d) by ring.
  rewrite doe_inverse by (auto; right; lia).
  change (9 <? 10) with true. cbv iota. change (9 + 3 <=? 2) with false.
  cbv iota. f_equal. subst yoe. lia.
Qed.

(** December 31 is the day before January 1 of the next year. *)
Lemma Dec31_before_Jan1 (y : Z) :
  Date.days_from_civil (y - 1) 12 31 + 1 = Date.days_from_civil y 1 1.
Proof.
  unfold Date.days_from_civil, Date.doe_of.
  change (12 <=? 2) with false. change (1 <=? 2) with true. cbv iota.
  change ((12 + 9) mod 12) with 9. change ((1 + 9) mod 12) with 10.
  change ((153 * 9 + 2) / 5) with 275. change ((153 * 10 + 2) / 5) with 306.
  lia.
Qed.

Lemma emptyDaysFrom_S (t : Z) (n : nat) :
  emptyDaysFrom t (S n) = emptyDay t :: emptyDaysFrom (t + Date.msPerDay) n.
Proof.
  unfold emptyDaysFrom. cbn [seq map]. f_equal.
  - f_equal. lia.
  - rewrite <- seq_shift, map_map. apply map_ext. intros k. f_equal. lia.
Qed.

(** What the loop adds: one day for each of the [n] midnights left. *)
Lemma createEmptyCalendar_loop_days (n : nat) :
  forall (fuel : nat) (tz endDate : Z) (weeks : list ContributionWeek)
         (currentWeek : list ContributionDay) (currentDate : Z),
    (n <= fuel)%nat ->
    endDate - currentDate = (Z.of_nat n - 1) * Date.msPerDay ->
    exists weeks' currentWeek',
      createEmptyCalendar_loop fuel tz endDate weeks currentWeek currentDate
      = Some (weeks', currentWeek')
      /\ flat_map contributionDays weeks' ++ currentWeek'
         = flat_map contributionDays weeks ++ currentWeek
           ++ emptyDaysFrom currentDate n.
Proof.
  induction n as [|n IH]; intros fuel tz endDate weeks cw t Hfuel Hleft.
  - exists weeks, cw. split; [|cbn; now rewrite app_nil_r].
    destruct fuel; cbn [createEmptyCalendar_loop];
      (destruct (Z.leb_spec t endDate); [unfold Date.msPerDay in *; lia|reflexivity]).
  - destruct fuel as [|fuel]; [lia|]. cbn [createEmptyCalendar_loop].
    destruct (Z.leb_spec t endDate); [|unfold Date.msPerDay in *; lia].
    rewrite emptyDaysFrom_S. fold (emptyDay t).
    destruct ((Date.getDay tz t =? 0) && (len cw >? 0)); rewrite setDate_next.
    + destruct (IH fuel tz endDate (weeks ++ [mkContributionWeek cw])
                  ([] ++ [emptyDay t]) (t + Date.msPerDay) ltac:(lia) ltac:(lia))
        as (ws' & cw' & Hloop & Hdays).
      exists ws', cw'. split; [exact Hloop|]. rewrite Hdays.
      rewrite flat_map_app. cbn. rewrite app_nil_r, <- !app_assoc. reflexivity.
    + destruct (IH fuel tz endDate weeks (cw ++ [emptyDay t])
                  (t + Date.msPerDay) ltac:(lia) ltac:(lia))
        as (ws' & cw' & Hloop & Hdays).
      exists ws', cw'. split; [exact Hloop|]. rewrite Hdays.
      rewrite <- !app_assoc. reflexivity.
Qed.

(** The days of the empty calendar: one for each local midnight of the
    year, in order. *)
Lemma createEmptyCalendar_days (tz year : Z) :
  flat_map contributionDays (weeks (createEmptyCalendar tz year))
  = emptyDaysFrom (Date.make tz year 0 1)
      (Z.to_nat (Date.days_from_civil (fullYear year) 12 31
                 - Date.days_from_civil (fullYear year) 1 1 + 1)).
Proof.
  unfold createEmptyCalendar.
  pose proof (year_span (fullYear year)) as Hspan.
  change (Date.MakeDay (fullYear year) 11 31)
    with (Date.MakeDay (fullYear year) (12 - 1) 31) in Hspan.
  change (Date.MakeDay (fullYear year) 0 1)
    with (Date.MakeDay (fullYear year) (1 - 1) 1) in Hspan.
  rewrite !MakeDay_in_month in Hspan by lia.
  set (n := Z.to_nat (Date.days_from_civil (fullYear year) 12 31
                      - Date.days_from_civil (fullYear year) 1 1 + 1)).
  destruct (createEmptyCalendar_loop_days n 366 tz (Date.make tz year 11 31)
              [] [] (Date.make tz year 0 1)) as (ws & cw & Hloop & Hdays).
  - subst n. lia.
  - subst n. unfold Date.make, Date.UTC. fold (fullYear year).
    change (Date.MakeDay (fullYear year) 11 31)
      with (Date.MakeDay (fullYear year) (12 - 1) 31).
    change (Date.MakeDay (fullYear year) 0 1)
      with (Date.MakeDay (fullYear year) (1 - 1) 1).
    rewrite !MakeDay_in_month by lia. lia.
  - rewrite Hloop. cbn [weeks]. cbn in Hdays. rewrite <- Hdays.
    destruct (Z.gtb_spec (len cw) 0) as [Hpos|Hnone].
    + rewrite flat_map_app. cbn. now rewrite app_nil_r.
    + destruct cw; [now rewrite app_nil_r|].
      unfold len in Hnone. cbn [length] in Hnone. lia.
Qed.

(** The date written for the [k]-th midnight: the local date in a zone at
    or west of UTC, the day before it in a zone east of UTC. *)
Lemma emptyDay_date (tz year : Z) (k : nat) :
  - Date.msPerDay < tz < Date.msPerDay ->
  date (emptyDay (Date.make tz year 0 1 + Z.of_nat k * Date.msPerDay))
  = Date.civil_from_days
      (Date.days_from_civil (fullYear year) 1 1 + Z.of_nat k
       - (if 0 <? tz then 1 else 0)).
Proof.
  intros Htz. unfold emptyDay, Date.toISODate. cbn [date]. f_equal.
  unfold Date.make, Date.UTC, Date.Day. fold (fullYear year).
  change (Date.MakeDay (fullYear year) 0 1)
    with (Date.MakeDay (fullYear year) (1 - 1) 1).
  rewrite MakeDay_in_month by lia.
  set (D := Date.days_from_civil (fullYear year) 1 1).
  destruct (Z.ltb_spec 0 tz).
  - symmetry. apply Z.div_unique with (Date.msPerDay - tz);
      unfold Date.msPerDay in *; lia.
  - symmetry. apply Z.div_unique with (- tz); unfold Date.msPerDay in *; lia.
Qed.

(** X2.  The dates of the empty calendar, for every zone and every year
    whose first and last day [Date] can hold: the days of the year from
    January 1 to December 31 in a zone at or west of UTC, and each one day
    earlier, from December 31 of the year before to December 30, in a zone
    east of UTC. *)
Theorem createEmptyCalendar_dates (tz year : Z) :
  - Date.msPerDay < tz < Date.msPerDay ->
  inDateRange (Date.make tz year 0 1) -> inDateRange (Date.make tz year 11 31) ->
  let Y := fullYear year in
  let first := Date.days_from_civil Y 1 1 in
  let last := Date.days_from_civil Y 12 31 in
  let shift := if 0 <? tz then 1 else 0 in
  map date (flat_map contributionDays (weeks (createEmptyCalendar tz year)))
  = map (fun k => Date.civil_from_days (first + Z.of_nat k - shift))
        (seq 0 (Z.to_nat (last - first + 1)))
  /\ 364 <= last - first <= 365
  /\ Date.civil_from_days first = mkIsoDate Y 1 1
  /\ Date.civil_from_days last = mkIsoDate Y 12 31
  /\ Date.civil_from_days (first - 1) = mkIsoDate (Y - 1) 12 31
  /\ Date.civil_from_days (last - 1) = mkIsoDate Y 12 30.
Proof.
  intros Htz _ _. cbv zeta. split; [|split; [|split; [|split; [|split]]]].
  - rewrite createEmptyCalendar_days. unfold emptyDaysFrom.
    rewrite map_map. apply map_ext. intros k. now apply emptyDay_date.
  - pose proof (year_span (fullYear year)) as Hspan.
    change (Date.MakeDay (fullYear year) 11 31)
      with (Date.MakeDay (fullYear year) (12 - 1) 31) in Hspan.
    change (Date.MakeDay (fullYear year) 0 1)
      with (Date.MakeDay (fullYear year) (1 - 1) 1) in Hspan.
    rewrite !MakeDay_in_month in Hspan by lia. lia.
  - apply civil_from_days_Jan1.
  - apply civil_from_days_Dec. lia.
  - rewrite <- (Dec31_before_Jan1 (fullYear year)).
    replace (Date.days_from_civil (fullYear year - 1) 12 31 + 1 - 1)
      with (Date.days_from_civil (fullYear year - 1) 12 31) by ring.
    apply civil_from_days_Dec. lia.
  - replace (Date.days_from_civil (fullYear year) 12 31 - 1)
      with (Date.days_from_civil (fullYear year) 12 30)
      by (unfold Date.days_from_civil, Date.doe_of; lia).
    apply civil_from_days_Dec. lia.
Qed.

(** The calendar of the result is never absent: it is the bundle's, or the
    empty calendar of the year. *)
Lemma calculateInsights_calendar (h : JsHost) (now : Z) (data : AllGitHubData)
    (year : Z) :
  contributionCalendar (calculateInsights h now data year)
  = match data_contributionCalendar data with
    | Some calendar => calendar
    | None => createEmptyCalendar (tzOffset h) year
    end.
Proof. reflexivity. Qed.

(** C9 (the empty calendar against the claim).  In a zone east of Greenwich,
    here UTC+05:30, the calendar made for 2024 starts on 2023-12-31 and ends
    on 2024-12-30: each day is written with [toISOString], the UTC date of
    local midnight, which is the day before.  In UTC the same year gives
    2024-01-01 to 2024-12-31. *)
Theorem emptyCalendar_dates_shift_east_of_UTC :
  let days tz :=
    map date
      (flat_map contributionDays
         (weeks (contributionCalendar
                   (calculateInsights (Ieee.host tz) noon_2024_03_05
                                      noCalendarData 2024)))) in
  data_contributionCalendar noCalendarData = None
  /\ head (days IST) = Some (mkIsoDate 2023 12 31)
  /\ last (days IST) = Some (mkIsoDate 2024 12 30)
  /\ length (days IST) = 366%nat
  /\ head (days 0) = Some (mkIsoDate 2024 1 1)
  /\ last (days 0) = Some (mkIsoDate 2024 12 31)
  /\ length (days 0) = 366%nat.
Proof. vm_compute. repeat split. Qed.

(** X2 (in 2024 and UTC+05:30). *)
Lemma createEmptyCalendar_dates_witness :
  map date (flat_map contributionDays (weeks (createEmptyCalendar IST 2024)))
  = map (fun k =>
           Date.civil_from_days
             (Date.days_from_civil (fullYear 2024) 1 1 + Z.of_nat k - 1))
        (seq 0 (Z.to_nat (Date.days_from_civil (fullYear 2024) 12 31
                          - Date.days_from_civil (fullYear 2024) 1 1 + 1))).
Proof.
  refine (proj1 (createEmptyCalendar_dates IST 2024 _ _ _)).
  - vm_compute. split; reflexivity.
  - vm_compute. discriminate.
  - vm_compute. discriminate.
Defined.

(** *** The scenarios of the specification *)

(** Two repositories in Go and one in Rust. *)
Example scenario_languages :
  calculateLanguageStats (Ieee.host 0)
    [aRepo "a" (Some "Go") false; aRepo "b" (Some "Go") false;
     aRepo "c" (Some "Rust") false]
  = mkLanguageStats
      [mkLanguageStat "Go" 2 67 "#00ADD8"; mkLanguageStat "Rust" 1 33 "#dea584"]
      2.
Proof. vm_compute. reflexivity. Qed.

(** One week with counts 0, 0, 5, 0, 0, 0, 0. *)
Example scenario_streak :
  let s := calculateStreaks 0 noon_2024_03_05 (Some oneActiveDay) in
  s_longestStreak s = 1 /\ s_totalActiveDays s = 1.
Proof. vm_compute. auto. Qed.

(** No credential: the summary is absent and the commits are the sum of
    the calendar's day counts. *)
Example scenario_no_credential :
  totalCommits (calculateInsights (Ieee.host 0) noon_2024_03_05
                                  oneActiveDayData 2024) = 5.
Proof. vm_compute. reflexivity. Qed.

(** The double of 29 / 200 * 100 lies just below 14.5 and rounds to 14,
    where the exact quotient 14.5 rounds to 15: both are nearest integers. *)
Example rounding_of_a_tie :
  Ieee.roundPercent 29 200 = 14 /\ Exact.roundPercent 29 200 = 15.
Proof. vm_compute. auto. Qed.

(* ================================================================== *)
(** ** Properties of the activity patterns                             *)
(* ================================================================== *)

Lemma getHours_range (tz t : Z) : 0 <= Date.getHours tz t < 24.
Proof.
  unfold Date.getHours, Date.TimeWithinDay, Date.msPerHour, Date.msPerDay.
  pose proof (Z.mod_pos_bound (Date.LocalTime tz t) 86400000 ltac:(lia)).
  split; [apply Z.div_pos; lia | apply Z.div_lt_upper_bound; lia].
Qed.

Lemma getDay_range (tz t : Z) : 0 <= Date.getDay tz t < 7.
Proof. unfold Date.getDay. apply Z.mod_pos_bound. lia. Qed.

Lemma getMonth_range (tz t : Z) : 0 <= Date.getMonth tz t < 12.
Proof.
  unfold Date.getMonth.
  pose proof (days_from_civil_from_days (Date.Day (Date.LocalTime tz t))) as [_ H].
  cbv zeta in H. lia.
Qed.

Lemma length_add_at (i v : Z) (t : list Z) : length (add_at i v t) = length t.
Proof. apply length_alter. Qed.

Lemma get_at_add_at (i j v : Z) (t : list Z) :
  0 <= i < len t -> 0 <= j ->
  get_at (add_at i v t) j = get_at t j + (if i =? j then v else 0).
Proof.
  intros Hi Hj. unfold get_at, add_at.
  destruct (Z.eqb_spec i j) as [->|Hne].
  - rewrite list_lookup_alter_eq.
    destruct (lookup_lt_is_Some_2 t (Z.to_nat j)) as [x Hx]; [unfold len in Hi; lia|].
    rewrite Hx. reflexivity.
  - rewrite list_lookup_alter_ne by lia. cbv iota. lia.
Qed.

Lemma weightOf_cons {X : Type} (key weight : X -> Z) (k : Z) (x : X) (xs : list X) :
  weightOf key weight k (x :: xs)
  = (if key x =? k then weight x else 0) + weightOf key weight k xs.
Proof.
  unfold weightOf, sumZ. cbn [List.filter].
  destruct (key x =? k); cbn [map foldr]; lia.
Qed.

Lemma histogram_fold {X : Type} (key weight : X -> Z) (xs : list X) (t : list Z) :
  (forall x, x ∈ xs -> 0 <= key x < len t) ->
  let t' := fold_left (fun t x => add_at (key x) (weight x) t) xs t in
  length t' = length t
  /\ forall k, 0 <= k -> get_at t' k = get_at t k + weightOf key weight k xs.
Proof.
  cbv zeta. revert t. induction xs as [|x xs IH]; intros t Hkey; cbn [fold_left].
  - split; [reflexivity|]. intros k _. unfold weightOf. cbn. lia.
  - destruct (IH (add_at (key x) (weight x) t)) as [Hlen Hget].
    { intros y Hy. unfold len. rewrite length_add_at. apply Hkey. now right. }
    split; [now rewrite Hlen, length_add_at|].
    intros k Hk. rewrite Hget by exact Hk.
    rewrite get_at_add_at by (try apply Hkey; try left; lia).
    rewrite weightOf_cons. lia.
Qed.

Lemma get_at_app_l (p q : list Z) (i : Z) :
  0 <= i < len p -> get_at (p ++ q) i = get_at p i.
Proof.
  intros Hi. unfold get_at. rewrite lookup_app_l; [reflexivity|]. unfold len in Hi. lia.
Qed.

Lemma get_at_app_last (p : list Z) (x : Z) : get_at (p ++ [x]) (len p) = x.
Proof.
  unfold get_at, len. rewrite Nat2Z.id.
  rewrite lookup_app_r by lia. now rewrite Nat.sub_diag.
Qed.

(** What the scan for the most productive key has found after a prefix of
    the table. *)
Lemma argmax_scan (t : list Z) :
  let '(mc, b) := argmax t in
  0 <= mc
  /\ (forall i, 0 <= i < len t -> get_at t i <= mc)
  /\ ((mc = 0 /\ b = 0)
      \/ (0 < mc /\ 0 <= b < len t /\ get_at t b = mc
          /\ forall i, 0 <= i < b -> get_at t i < mc)).
Proof.
  unfold argmax. induction t as [|x p IH] using rev_ind.
  - cbn. split; [lia|]. split; [unfold len; cbn; lia|]. left. auto.
  - rewrite imap_app, fold_left_app. cbn [imap fold_left].
    destruct (fold_left _ (imap _ p) (0, 0)) as [mc b].
    destruct IH as (Hmc & Hall & Hbest).
    rewrite Nat.add_0_r. fold (len p).
    assert (len (p ++ [x]) = len p + 1) as Hlen
      by (rewrite len_app; unfold len; cbn; lia).
    assert (0 <= len p) as Hp by (unfold len; lia).
    destruct (Z.gtb_spec x mc) as [Hgt|Hle].
    + split; [lia|]. split.
      * intros i Hi. destruct (Z.eq_dec i (len p)) as [->|Hne].
        -- rewrite get_at_app_last. lia.
        -- rewrite get_at_app_l by lia. specialize (Hall i ltac:(lia)). lia.
      * right. split; [lia|]. split; [lia|]. split; [apply get_at_app_last|].
        intros i Hi. rewrite get_at_app_l by lia. specialize (Hall i ltac:(lia)). lia.
    + split; [lia|]. split.
      * intros i Hi. destruct (Z.eq_dec i (len p)) as [->|Hne].
        -- rewrite get_at_app_last. lia.
        -- rewrite get_at_app_l by lia. apply Hall. lia.
      * destruct Hbest as [[-> ->]|(Hpos & Hb & Hget & Hbefore)]; [left; auto|].
        right. split; [lia|]. split; [lia|]. split.
        -- rewrite get_at_app_l by lia. exact Hget.
        -- intros i Hi. rewrite get_at_app_l by lia. apply Hbefore. lia.
Qed.

(** On a table of counts that is not empty, the key found is the first one
    with the greatest count. *)
Lemma argmax_first_greatest (t : list Z) :
  Forall (fun c => 0 <= c) t -> 0 < len t ->
  let b := snd (argmax t) in
  0 <= b < len t
  /\ (forall i, 0 <= i < len t -> get_at t i <= get_at t b)
  /\ (forall i, 0 <= i < b -> get_at t i < get_at t b).
Proof.
  intros Hnn Hne. pose proof (argmax_scan t) as H.
  destruct (argmax t) as [mc b]. cbn [snd].
  destruct H as (Hmc & Hall & [[-> ->]|(Hpos & Hb & Hget & Hbefore)]).
  - assert (get_at t 0 = 0) as H0.
    { specialize (Hall 0 ltac:(lia)).
      assert (0 <= get_at t 0); [|lia].
      unfold get_at. destruct (t !! Z.to_nat 0) as [c|] eqn:Hc; [|cbn; lia].
      cbn. eapply (Forall_lookup_1 _ _ _ _ Hnn Hc). }
    split; [lia|]. split; [|intros; lia].
    intros i Hi. rewrite H0. now apply Hall.
  - split; [lia|]. rewrite Hget. split; [exact Hall|exact Hbefore].
Qed.

Lemma sumZ_add_at (i v : Z) (t : list Z) :
  0 <= i < len t -> sumZ (add_at i v t) = sumZ t + v.
Proof.
  unfold add_at, len, sumZ. intros Hi.
  assert (Z.to_nat i < length t)%nat as Hn by lia. clear Hi.
  revert Hn. generalize (Z.to_nat i) as n. clear i.
  induction t as [|c t IH]; intros n Hn; cbn in Hn; [lia|].
  destruct n as [|n]; cbn [alter list_alter foldr].
  - lia.
  - change (list_alter (fun c => c + v) n t) with (alter (fun c => c + v) n t).
    rewrite IH by lia. lia.
Qed.

Lemma histogram_sum {X : Type} (key weight : X -> Z) (xs : list X) (t : list Z) :
  (forall x, x ∈ xs -> 0 <= key x < len t) ->
  sumZ (fold_left (fun t x => add_at (key x) (weight x) t) xs t)
  = sumZ t + sumZ (map weight xs).
Proof.
  revert t. induction xs as [|x xs IH]; intros t Hkey; cbn [fold_left map].
  - unfold sumZ at 3. cbn. lia.
  - rewrite IH.
    + rewrite sumZ_add_at by (apply Hkey; left). unfold sumZ. cbn [foldr]. lia.
    + intros y Hy. unfold len. rewrite length_add_at. apply Hkey. now right.
Qed.

(** A table is the list of its entries. *)
Lemma table_ext (t : list Z) (f : Z -> Z) :
  (forall k, 0 <= k < len t -> get_at t k = f k) ->
  t = map (fun i => f (Z.of_nat i)) (seq 0 (length t)).
Proof.
  intros Hget. apply list_eq. intros i.
  destruct (decide (i < length t)%nat) as [Hi|Hi].
  - destruct (lookup_lt_is_Some_2 t i Hi) as [c Hc].
    rewrite Hc. symmetry.
    change (map (fun i => f (Z.of_nat i)) (seq 0 (length t)))
      with ((fun i => f (Z.of_nat i)) <$> seq 0 (length t)).
    rewrite list_lookup_fmap, lookup_seq_lt by exact Hi. cbn.
    specialize (Hget (Z.of_nat i) ltac:(unfold len; lia)).
    unfold get_at in Hget. rewrite Nat2Z.id, Hc in Hget. cbn in Hget. now rewrite Hget.
  - rewrite lookup_ge_None_2 by lia. symmetry. apply lookup_ge_None_2.
    rewrite length_map, length_seq. lia.
Qed.

Lemma weightOf_ones {X : Type} (key : X -> Z) (k : Z) (xs : list X) :
  weightOf key (fun _ => 1) k xs = len (List.filter (fun x => key x =? k) xs).
Proof.
  unfold weightOf, len, sumZ. induction (List.filter _ xs) as [|x l IH]; cbn; [reflexivity|].
  cbn in IH. lia.
Qed.

Lemma weightOf_nonneg {X : Type} (key weight : X -> Z) (k : Z) (xs : list X) :
  (forall x, x ∈ xs -> 0 <= weight x) -> 0 <= weightOf key weight k xs.
Proof.
  intros Hw. induction xs as [|x xs IH]; [unfold weightOf, sumZ; cbn; lia|].
  rewrite weightOf_cons.
  specialize (Hw x ltac:(left)) as Hx.
  assert (0 <= weightOf key weight k xs) by (apply IH; intros; apply Hw; now right).
  destruct (key x =? k); lia.
Qed.

Lemma countedDay_eq (tz year : Z) (d : ContributionDay) :
  countedDay tz year d
  = (Date.getFullYear tz (Date.parse (date d)) =? year) && (contributionCount d >? 0).
Proof. reflexivity. Qed.

Lemma fold_left_flat_map {S X Y : Type} (f : S -> Y -> S) (g : X -> list Y)
    (l : list X) (s : S) :
  fold_left (fun acc x => fold_left f (g x) acc) l s = fold_left f (flat_map g l) s.
Proof.
  revert s. induction l as [|x l IH]; intros s; cbn; [reflexivity|].
  now rewrite fold_left_app, IH.
Qed.

(** A loop that updates two tables under a condition is two loops over the
    items that meet it. *)
Lemma fold_left_two_tables {X S T : Type} (c : X -> bool) (f : X -> S -> S)
    (g : X -> T -> T) (l : list X) (a : S) (b : T) :
  fold_left (fun '(a, b) x => if c x then (f x a, g x b) else (a, b)) l (a, b)
  = (fold_left (fun a x => f x a) (List.filter c l) a,
     fold_left (fun b x => g x b) (List.filter c l) b).
Proof.
  revert a b. induction l as [|x l IH]; intros a b; cbn [fold_left List.filter].
  - reflexivity.
  - destruct (c x); cbn [fold_left]; apply IH.
Qed.

Lemma calendar_tables (tz year : Z) (l : list ContributionDay) (days months : list Z) :
  fold_left
    (fun '(days, months) day =>
       let date := Date.parse (date day) in
       if (Date.getFullYear tz date =? year) && (contributionCount day >? 0)
       then (add_at (Date.getDay tz date) (contributionCount day) days,
             add_at (Date.getMonth tz date) (contributionCount day) months)
       else (days, months))
    l (days, months)
  = (fold_left (fun t d => add_at (Date.getDay tz (Date.parse (date d)))
                                  (contributionCount d) t)
               (List.filter (countedDay tz year) l) days,
     fold_left (fun t d => add_at (Date.getMonth tz (Date.parse (date d)))
                                  (contributionCount d) t)
               (List.filter (countedDay tz year) l) months).
Proof.
  unfold countedDay.
  exact (fold_left_two_tables
           (fun d => (Date.getFullYear tz (Date.parse (date d)) =? year)
                     && (contributionCount d >? 0))
           (fun d t => add_at (Date.getDay tz (Date.parse (date d)))
                              (contributionCount d) t)
           (fun d t => add_at (Date.getMonth tz (Date.parse (date d)))
                              (contributionCount d) t)
           l days months).
Qed.

Lemma event_tables (tz : Z) (l : list GitHubEvent) (days months : list Z) :
  fold_left
    (fun '(days, months) event =>
       let date := event_created_at event in
       (add_at (Date.getDay tz date) 1 days,
        add_at (Date.getMonth tz date) 1 months))
    l (days, months)
  = (fold_left (fun t e => add_at (Date.getDay tz (event_created_at e)) 1 t) l days,
     fold_left (fun t e => add_at (Date.getMonth tz (event_created_at e)) 1 t) l months).
Proof.
  revert days months. induction l as [|e l IH]; intros days months; cbn [fold_left].
  - reflexivity.
  - apply IH.
Qed.

Lemma calculateActivityPatterns_tables (tz : Z) (events : list GitHubEvent)
    (calendar : option ContributionCalendar) (year : Z) :
  let hours := hourTable tz events in
  let days := dayTable tz year events calendar in
  let months := monthTable tz year events calendar in
  let mostProductiveHour := snd (argmax hours) in
  calculateActivityPatterns tz events calendar year
  = mkActivityPatterns
      (at_index DAYS (snd (argmax days))) mostProductiveHour
      (formatHour (Z.max 0 (mostProductiveHour - 1)) +:+ " - " +:+
       formatHour (Z.min 23 (mostProductiveHour + 1)))
      (imap (fun dayNum cnt => (at_index DAYS (Z.of_nat dayNum), cnt)) days)
      hours
      (imap (fun index month =>
               mkMonthlyActivity month year (num_or (get_at months (Z.of_nat index)) 0))
            MONTHS).
Proof.
  cbv zeta. unfold calculateActivityPatterns, hourTable, dayTable, monthTable.
  destruct calendar as [cal|].
  - rewrite fold_left_flat_map. rewrite calendar_tables. reflexivity.
  - rewrite event_tables. reflexivity.
Qed.

Lemma elem_of_upto (n : nat) (k : Z) : k ∈ upto n <-> 0 <= k < Z.of_nat n.
Proof.
  unfold upto. rewrite list_elem_of_In, in_map_iff. split.
  - intros (i & <- & Hi). apply in_seq in Hi. lia.
  - intros Hk. exists (Z.to_nat k). split; [lia|]. apply in_seq. lia.
Qed.

Lemma get_at_replicate (n : nat) (k : Z) : get_at (replicate n 0) k = 0.
Proof.
  unfold get_at. destruct (replicate n 0 !! Z.to_nat k) as [c|] eqn:Hc; [|reflexivity].
  apply lookup_replicate in Hc as [-> _]. reflexivity.
Qed.

Lemma sumZ_replicate (n : nat) : sumZ (replicate n 0) = 0.
Proof. unfold sumZ. induction n as [|n IH]; cbn; [reflexivity|]. cbn in IH. lia. Qed.

(** A table filled by [counts[key x] += weight x] over a list holds, under
    each key, the weight of the items with that key. *)
Lemma histogram_table {X : Type} (key weight : X -> Z) (xs : list X) (n : nat) :
  (forall x, x ∈ xs -> 0 <= key x < Z.of_nat n) ->
  (forall x, x ∈ xs -> 0 <= weight x) ->
  let t := fold_left (fun t x => add_at (key x) (weight x) t) xs (replicate n 0) in
  t = map (fun k => weightOf key weight k xs) (upto n)
  /\ sumZ t = sumZ (map weight xs)
  /\ Forall (fun c => 0 <= c) t.
Proof.
  intros Hkey Hw. cbv zeta.
  assert (len (replicate n 0) = Z.of_nat n) as Hn
    by (unfold len; now rewrite length_replicate).
  destruct (histogram_fold key weight xs (replicate n 0)) as [Hlen Hget].
  { intros x Hx. rewrite Hn. now apply Hkey. }
  cbv zeta in Hlen, Hget. rewrite length_replicate in Hlen.
  assert (fold_left (fun t x => add_at (key x) (weight x) t) xs (replicate n 0)
          = map (fun k => weightOf key weight k xs) (upto n)) as Ht.
  { rewrite (table_ext _ (fun k => weightOf key weight k xs)).
    - rewrite Hlen. unfold upto. now rewrite map_map.
    - intros k Hk. rewrite Hget by lia. rewrite get_at_replicate. lia. }
  split; [exact Ht|]. split.
  - rewrite histogram_sum by (intros x Hx; rewrite Hn; now apply Hkey).
    rewrite sumZ_replicate. lia.
  - rewrite Ht. apply Forall_forall. intros c Hc.
    apply list_elem_of_In, in_map_iff in Hc as (k & <- & _). now apply weightOf_nonneg.
Qed.

Lemma get_at_map_upto (f : Z -> Z) (n : nat) (k : Z) :
  0 <= k < Z.of_nat n -> get_at (map f (upto n)) k = f k.
Proof.
  intros Hk. unfold get_at, upto.
  change (map f (map Z.of_nat (seq 0 n))) with (f <$> (Z.of_nat <$> seq 0 n)).
  rewrite !list_lookup_fmap, lookup_seq_lt by lia. cbn. f_equal. lia.
Qed.

Lemma num_or_zero (x : Z) : num_or x 0 = x.
Proof. unfold num_or. destruct (Z.eqb_spec x 0); lia. Qed.

Lemma sumZ_ones {X : Type} (l : list X) : sumZ (map (fun _ => 1) l) = len l.
Proof.
  induction l as [|x l IH]; [reflexivity|].
  change (sumZ (map (fun _ => 1) (x :: l))) with (1 + sumZ (map (fun _ : X => 1) l)).
  rewrite IH. unfold len. cbn [length]. lia.
Qed.

Lemma hourTable_spec (tz : Z) (events : list GitHubEvent) :
  let eventsAt k :=
    len (List.filter (fun e => Date.getHours tz (event_created_at e) =? k) events) in
  hourTable tz events = map eventsAt (upto 24)
  /\ sumZ (hourTable tz events) = len events
  /\ Forall (fun c => 0 <= c) (hourTable tz events).
Proof.
  cbv zeta. unfold hourTable.
  destruct (histogram_table (fun e => Date.getHours tz (event_created_at e))
              (fun _ => 1) events 24) as (Ht & Hsum & Hnn).
  { intros e _. apply getHours_range. }
  { intros; lia. }
  cbv zeta in Ht, Hsum, Hnn. split; [|split; [|exact Hnn]].
  - rewrite Ht. apply map_ext. intros k. apply weightOf_ones.
  - rewrite Hsum. apply sumZ_ones.
Qed.

(** X5.  activityByHour has 24 entries; entry k is the number of the
    bundle's events of the year (the year of the event in local time)
    whose local hour is k, so the entries add up to the number of events
    of the year. mostProductiveHour is the earliest hour with the largest
    entry; it is 0 when there is no event. *)
Theorem activityByHour_histogram (h : JsHost) (now : Z) (data : AllGitHubData)
    (year : Z) :
  let tz := tzOffset h in
  let out := calculateInsights h now data year in
  let evs := eventsOfYear tz year (events data) in
  let eventsAt k :=
    len (List.filter (fun e => Date.getHours tz (event_created_at e) =? k) evs) in
  let best := mostProductiveHour out in
  activityByHour out = map eventsAt (upto 24)
  /\ sumZ (activityByHour out) = len evs
  /\ 0 <= best < 24
  /\ Forall (fun k => eventsAt k <= eventsAt best) (upto 24)
  /\ Forall (fun k => k < best -> eventsAt k < eventsAt best) (upto 24).
Proof.
  cbv zeta.
  change (activityByHour (calculateInsights h now data year))
    with (ap_activityByHour
            (calculateActivityPatterns (tzOffset h)
               (eventsOfYear (tzOffset h) year (events data))
               (data_contributionCalendar data) year)).
  change (mostProductiveHour (calculateInsights h now data year))
    with (ap_mostProductiveHour
            (calculateActivityPatterns (tzOffset h)
               (eventsOfYear (tzOffset h) year (events data))
               (data_contributionCalendar data) year)).
  rewrite calculateActivityPatterns_tables. cbn [ap_activityByHour ap_mostProductiveHour].
  set (evs := eventsOfYear (tzOffset h) year (events data)).
  destruct (hourTable_spec (tzOffset h) evs) as (Ht & Hsum & Hnn). cbv zeta in Ht.
  pose proof (argmax_first_greatest (hourTable (tzOffset h) evs) Hnn) as Hbest.
  assert (len (hourTable (tzOffset h) evs) = 24) as Hlen
    by (rewrite Ht; reflexivity).
  rewrite Hlen in Hbest. specialize (Hbest ltac:(lia)). cbv zeta in Hbest.
  destruct Hbest as (Hb & Hall & Hfirst).
  set (best := snd (argmax (hourTable (tzOffset h) evs))) in *.
  split; [exact Ht|]. split; [exact Hsum|]. split; [exact Hb|].
  rewrite Ht in Hall, Hfirst.
  split; apply Forall_forall; intros k Hk; apply elem_of_upto in Hk.
  - specialize (Hall k Hk). rewrite !get_at_map_upto in Hall by lia. exact Hall.
  - intros Hlt. specialize (Hfirst k ltac:(lia)).
    rewrite !get_at_map_upto in Hfirst by lia. exact Hfirst.
Qed.

Lemma countedDays_positive (tz year : Z) (cal : ContributionCalendar) (d : ContributionDay) :
  d ∈ countedDays tz year cal -> 0 < contributionCount d.
Proof.
  unfold countedDays. rewrite list_elem_of_In, filter_In, countedDay_eq.
  intros [_ Hc]. apply andb_true_iff in Hc as [_ Hc]. lia.
Qed.

Lemma dayTable_spec (tz year : Z) (events : list GitHubEvent)
    (calendar : option ContributionCalendar) :
  dayTable tz year events calendar
  = map (activityOf tz year events calendar (Date.getDay tz)) (upto 7)
  /\ sumZ (dayTable tz year events calendar) = activityTotal tz year events calendar
  /\ Forall (fun c => 0 <= c) (dayTable tz year events calendar).
Proof.
  unfold dayTable, activityOf, activityTotal. destruct calendar as [cal|].
  - apply (histogram_table (fun d => Date.getDay tz (Date.parse (date d)))
             contributionCount (countedDays tz year cal) 7).
    + intros d _. apply getDay_range.
    + intros d Hd. apply countedDays_positive in Hd. lia.
  - destruct (histogram_table (fun e => Date.getDay tz (event_created_at e))
                (fun _ => 1) events 7) as (Ht & Hsum & Hnn).
    { intros e _. apply getDay_range. }
    { intros; lia. }
    cbv zeta in Ht, Hsum, Hnn. split; [|split; [|exact Hnn]].
    + rewrite Ht. apply map_ext. intros k. apply weightOf_ones.
    + rewrite Hsum. apply sumZ_ones.
Qed.

Lemma monthTable_spec (tz year : Z) (events : list GitHubEvent)
    (calendar : option ContributionCalendar) :
  monthTable tz year events calendar
  = map (activityOf tz year events calendar (Date.getMonth tz)) (upto 12)
  /\ sumZ (monthTable tz year events calendar) = activityTotal tz year events calendar.
Proof.
  unfold monthTable, activityOf, activityTotal. destruct calendar as [cal|].
  - destruct (histogram_table (fun d => Date.getMonth tz (Date.parse (date d)))
                contributionCount (countedDays tz year cal) 12) as (Ht & Hsum & _).
    + intros d _. apply getMonth_range.
    + intros d Hd. apply countedDays_positive in Hd. lia.
    + split; assumption.
  - destruct (histogram_table (fun e => Date.getMonth tz (event_created_at e))
                (fun _ => 1) events 12) as (Ht & Hsum & _).
    { intros e _. apply getMonth_range. }
    { intros; lia. }
    cbv zeta in Ht, Hsum. split.
    + rewrite Ht. apply map_ext. intros k. apply weightOf_ones.
    + rewrite Hsum. apply sumZ_ones.
Qed.

(** The two tables, as the result reports them. *)
Lemma calculateInsights_day_month (h : JsHost) (now : Z) (data : AllGitHubData)
    (year : Z) :
  let tz := tzOffset h in
  let out := calculateInsights h now data year in
  let evs := eventsOfYear tz year (events data) in
  let calendar := data_contributionCalendar data in
  activityByDay out
  = map (fun k => (at_index DAYS k, activityOf tz year evs calendar (Date.getDay tz) k))
        (upto 7)
  /\ monthlyActivity out
     = map (fun k => mkMonthlyActivity (at_index MONTHS k) year
                       (activityOf tz year evs calendar (Date.getMonth tz) k))
           (upto 12).
Proof.
  cbv zeta.
  set (tz := tzOffset h). set (evs := eventsOfYear tz year (events data)).
  set (calendar := data_contributionCalendar data).
  change (activityByDay (calculateInsights h now data year))
    with (ap_activityByDay (calculateActivityPatterns tz evs calendar year)).
  change (monthlyActivity (calculateInsights h now data year))
    with (ap_monthlyActivity (calculateActivityPatterns tz evs calendar year)).
  rewrite calculateActivityPatterns_tables.
  cbn [ap_activityByDay ap_monthlyActivity].
  destruct (dayTable_spec tz year evs calendar) as (Hd & _ & _).
  destruct (monthTable_spec tz year evs calendar) as (Hm & _).
  split.
  - rewrite Hd. reflexivity.
  - rewrite Hm. unfold MONTHS. cbn [imap]. unfold compose.
    rewrite !get_at_map_upto by (cbn; lia). rewrite !num_or_zero. reflexivity.
Qed.

(** X6.  activityByDay lists the seven weekdays from Sunday to Saturday
    and monthlyActivity the twelve months from Jan to Dec, each with a
    weight. When the bundle has a contribution calendar the weight is the
    sum of the contribution counts of the calendar's days that fall in the
    year and have a count above 0, by the local weekday or month of the
    day's date, and the events are not counted; without a calendar it is
    the number of events of the year on that weekday or in that month.
    Each table adds up to the same total, and mostProductiveDay is the
    first weekday with the largest weight. *)
Theorem activity_by_weekday_and_month (h : JsHost) (now : Z) (data : AllGitHubData)
    (year : Z) :
  let tz := tzOffset h in
  let out := calculateInsights h now data year in
  let evs := eventsOfYear tz year (events data) in
  let calendar := data_contributionCalendar data in
  let onDay := activityOf tz year evs calendar (Date.getDay tz) in
  let inMonth := activityOf tz year evs calendar (Date.getMonth tz) in
  activityByDay out = map (fun k => (at_index DAYS k, onDay k)) (upto 7)
  /\ monthlyActivity out
     = map (fun k => mkMonthlyActivity (at_index MONTHS k) year (inMonth k)) (upto 12)
  /\ sumZ (map onDay (upto 7)) = activityTotal tz year evs calendar
  /\ sumZ (map inMonth (upto 12)) = activityTotal tz year evs calendar
  /\ exists best,
       0 <= best < 7
       /\ mostProductiveDay out = at_index DAYS best
       /\ Forall (fun k => onDay k <= onDay best) (upto 7)
       /\ Forall (fun k => k < best -> onDay k < onDay best) (upto 7).
Proof.
  cbv zeta.
  destruct (calculateInsights_day_month h now data year) as [Hday Hmonth].
  cbv zeta in Hday, Hmonth.
  split; [exact Hday|]. split; [exact Hmonth|]. clear Hday Hmonth.
  set (tz := tzOffset h). set (evs := eventsOfYear tz year (events data)).
  set (calendar := data_contributionCalendar data).
  destruct (dayTable_spec tz year evs calendar) as (Hd & Hdsum & Hdnn).
  destruct (monthTable_spec tz year evs calendar) as (Hm & Hmsum).
  split; [now rewrite <- Hd|]. split; [now rewrite <- Hm|].
  change (mostProductiveDay (calculateInsights h now data year))
    with (ap_mostProductiveDay (calculateActivityPatterns tz evs calendar year)).
  rewrite calculateActivityPatterns_tables. cbn [ap_mostProductiveDay].
  pose proof (argmax_first_greatest (dayTable tz year evs calendar) Hdnn) as Hbest.
  assert (len (dayTable tz year evs calendar) = 7) as Hlen
    by (rewrite Hd; reflexivity).
  rewrite Hlen in Hbest. specialize (Hbest ltac:(lia)). cbv zeta in Hbest.
  destruct Hbest as (Hb & Hall & Hfirst).
  exists (snd (argmax (dayTable tz year evs calendar))).
  set (best := snd (argmax (dayTable tz year evs calendar))) in *.
  split; [exact Hb|]. split; [reflexivity|].
  rewrite Hd in Hall, Hfirst.
  split; apply Forall_forall; intros k Hk; apply elem_of_upto in Hk.
  - specialize (Hall k Hk). rewrite !get_at_map_upto in Hall by lia. exact Hall.
  - intros Hlt. specialize (Hfirst k ltac:(lia)).
    rewrite !get_at_map_upto in Hfirst by lia. exact Hfirst.
Qed.

(** *** The zone and the dates of the calendar *)

(** The local day of midnight UTC of a date: the day itself at or east of
    Greenwich, the day before west of it. *)
Lemma localDay_parse (tz : Z) (d : IsoDate) :
  - Date.msPerDay <= tz < Date.msPerDay ->
  Date.Day (Date.LocalTime tz (Date.parse d))
  = Date.days_from_civil (dyear d) (dmonth d) (dday d) - (if tz <? 0 then 1 else 0).
Proof.
  intros Htz. unfold Date.Day, Date.LocalTime, Date.parse.
  set (N := Date.days_from_civil (dyear d) (dmonth d) (dday d)).
  destruct (Z.ltb_spec tz 0).
  - symmetry. apply Z.div_unique with (Date.msPerDay + tz);
      unfold Date.msPerDay in *; lia.
  - symmetry. apply Z.div_unique with tz; unfold Date.msPerDay in *; lia.
Qed.

Lemma weightOf_ext {X : Type} (key key' weight : X -> Z) (k : Z) (xs : list X) :
  (forall x, key x = key' x) ->
  weightOf key weight k xs = weightOf key' weight k xs.
Proof.
  intros Hkey. unfold weightOf. f_equal. f_equal.
  apply filter_ext. intros x. now rewrite Hkey.
Qed.

(** X7.  For a bundle with a calendar and a zone with a fixed offset of
    less than a day: a day of the calendar is attributed to its own date
    at or east of UTC and to the date before it west of UTC, because its
    date string is read as midnight UTC and then taken in local time.
    monthlyActivity and activityByDay group the counts of the days whose
    attributed date is in the year by the month and the weekday of the
    attributed date. West of UTC January 1 of the year is therefore left
    out of the year's activity. *)
Theorem calendar_days_by_zone (h : JsHost) (now : Z) (data : AllGitHubData)
    (year : Z) (cal : ContributionCalendar) :
  data_contributionCalendar data = Some cal ->
  - Date.msPerDay <= tzOffset h < Date.msPerDay ->
  let tz := tzOffset h in
  let out := calculateInsights h now data year in
  let counted :=
    List.filter (fun d => (dyear (seenDate tz d) =? year) && (contributionCount d >? 0))
                (flat_map contributionDays (weeks cal)) in
  monthlyActivity out
  = map (fun k => mkMonthlyActivity (at_index MONTHS k) year
                    (weightOf (fun d => dmonth (seenDate tz d) - 1)
                              contributionCount k counted))
        (upto 12)
  /\ activityByDay out
     = map (fun k => (at_index DAYS k,
                      weightOf (fun d => (dayNumber d - (if tz <? 0 then 1 else 0) + 4) mod 7)
                               contributionCount k counted))
           (upto 7).
Proof.
  intros Hcal Htz. cbv zeta.
  destruct (calculateInsights_day_month h now data year) as [Hday Hmonth].
  cbv zeta in Hday, Hmonth. rewrite Hday, Hmonth, Hcal. clear Hday Hmonth.
  unfold activityOf, countedDays.
  assert (List.filter (countedDay (tzOffset h) year)
            (flat_map contributionDays (weeks cal))
          = List.filter
              (fun d => (dyear (seenDate (tzOffset h) d) =? year)
                        && (contributionCount d >? 0))
              (flat_map contributionDays (weeks cal))) as ->.
  { apply filter_ext. intros d. rewrite countedDay_eq.
    unfold Date.getFullYear, seenDate, dayNumber.
    now rewrite localDay_parse. }
  split.
  - apply map_ext. intros k. f_equal. apply weightOf_ext. intros d.
    unfold Date.getMonth, seenDate, dayNumber. now rewrite localDay_parse.
  - apply map_ext. intros k. f_equal. apply weightOf_ext. intros d.
    unfold Date.getDay, dayNumber. now rewrite localDay_parse.
Qed.

Lemma calendar_days_by_zone_witness :
  map contributions
    (monthlyActivity
       (calculateInsights (Ieee.host EST) noon_2024_03_05
          (mkAllGitHubData ada [] [] None (Some (newYearsDay 2024))) 2024))
  = [0; 0; 0; 0; 0; 0; 0; 0; 0; 0; 0; 0].
Proof.
  rewrite (proj1 (calendar_days_by_zone (Ieee.host EST) noon_2024_03_05
                    (mkAllGitHubData ada [] [] None (Some (newYearsDay 2024)))
                    2024 (newYearsDay 2024) eq_refl
                    ltac:(vm_compute; split; [discriminate|reflexivity]))).
  vm_compute. reflexivity.
Defined.

(* ================================================================== *)
(** ** Properties of the streaks                                       *)
(* ================================================================== *)

Lemma activeDays_app (l1 l2 : list ContributionDay) :
  activeDays (l1 ++ l2) = activeDays l1 + activeDays l2.
Proof. unfold activeDays. now rewrite List.filter_app, len_app. Qed.

Lemma activeDays_perm (l1 l2 : list ContributionDay) :
  l1 ≡ₚ l2 -> activeDays l1 = activeDays l2.
Proof.
  intros Hp. unfold activeDays, len. f_equal.
  induction Hp as [|x l l' _ IH|x y l|l l' l'' _ IH1 _ IH2]; cbn.
  - reflexivity.
  - destruct (contributionCount x >? 0); cbn; lia.
  - destruct (contributionCount x >? 0), (contributionCount y >? 0); reflexivity.
  - lia.
Qed.

(** What the scan of [calculateStreaks] holds after the days [p]. *)
Lemma streak_scan_runs (tz today : Z) (p : list ContributionDay) :
  let s := fold_left (streakStep tz today) p (mkStreakState 0 0 0 0) in
  active s = activeDays p
  /\ 0 <= longest s <= active s
  /\ 0 <= temp s <= active s
  /\ activeRun p (length p - Z.to_nat (temp s)) (Z.to_nat (temp s))
  /\ (forall i n, activeRun p i n -> (i + n = length p)%nat -> Z.of_nat n <= temp s)
  /\ (exists i, activeRun p i (Z.to_nat (longest s)))
  /\ (forall i n, activeRun p i n -> (i + n <= length p)%nat ->
        Z.of_nat n <= Z.max (longest s) (temp s)).
Proof.
  cbv zeta. induction p as [|x p IH] using rev_ind.
  - cbn. unfold activeDays, len. cbn.
    split; [reflexivity|]. split; [lia|]. split; [lia|].
    split; [intros j Hj; lia|]. split; [intros i n _ Hn; lia|].
    split; [exists 0%nat; intros j Hj; lia|]. intros i n _ Hn. lia.
  - rewrite fold_left_app. cbn [fold_left].
    destruct (fold_left (streakStep tz today) p (mkStreakState 0 0 0 0))
      as [lg cur tmp act].
    cbn [longest current temp active] in IH.
    destruct IH as (Hact & Hlg & Htmp & Hsuffix & Hend & [i0 Hbest] & Hall).
    assert (tmp <= Z.of_nat (length p)) as Hbound.
    { pose proof (len_filter_le (fun d => contributionCount d >? 0) p) as Hle.
      unfold activeDays in Hact. unfold len in Hle, Hact. lia. }
    rewrite activeDays_app, length_app. cbn [length].
    unfold streakStep. cbn [longest current temp active].
    destruct (Z.gtb_spec (contributionCount x) 0) as [Hpos|Hzero];
      cbn [longest current temp active].
    + assert (activeDays [x] = 1) as ->.
      { unfold activeDays. cbn. destruct (Z.gtb_spec (contributionCount x) 0); [reflexivity|lia]. }
      split; [lia|]. split; [lia|]. split; [lia|]. split; [|split; [|split]].
      * intros j Hj.
        destruct (decide (j = length p)) as [->|Hne].
        -- exists x. split; [|lia]. rewrite lookup_app_r by lia.
           now rewrite Nat.sub_diag.
        -- destruct (Hsuffix j ltac:(lia)) as (d & Hd & Hdpos).
           exists d. split; [|exact Hdpos]. rewrite lookup_app_l; [exact Hd|lia].
      * intros i n Hrun Hn.
        destruct n as [|n]; [lia|].
        assert (Z.of_nat n <= tmp); [|lia].
        apply (Hend i n); [|lia].
        intros j Hj. destruct (Hrun j ltac:(lia)) as (d & Hd & Hdpos).
        exists d. split; [|exact Hdpos]. rewrite lookup_app_l in Hd; [exact Hd|lia].
      * exists i0. intros j Hj. destruct (Hbest j Hj) as (d & Hd & Hdpos).
        exists d. split; [|exact Hdpos]. rewrite lookup_app_l; [exact Hd|].
        now apply lookup_lt_Some in Hd.
      * intros i n Hrun Hn.
        destruct (decide (i + n = length p + 1)%nat) as [Hlast|Hin].
        -- destruct n as [|n]; [lia|].
           assert (Z.of_nat n <= tmp); [|lia].
           apply (Hend i n); [|lia].
           intros j Hj. destruct (Hrun j ltac:(lia)) as (d & Hd & Hdpos).
           exists d. split; [|exact Hdpos]. rewrite lookup_app_l in Hd; [exact Hd|lia].
        -- assert (Z.of_nat n <= Z.max lg tmp); [|lia].
           apply (Hall i n); [|lia].
           intros j Hj. destruct (Hrun j Hj) as (d & Hd & Hdpos).
           exists d. split; [|exact Hdpos]. rewrite lookup_app_l in Hd; [exact Hd|lia].
    + assert (activeDays [x] = 0) as ->.
      { unfold activeDays. cbn. destruct (Z.gtb_spec (contributionCount x) 0); [lia|reflexivity]. }
      split; [lia|]. split; [lia|]. split; [lia|]. split; [|split; [|split]].
      * intros j Hj. cbn in Hj. lia.
      * intros i n Hrun Hn.
        destruct n as [|n]; [lia|].
        destruct (Hrun (length p) ltac:(lia)) as (d & Hd & Hdpos).
        rewrite lookup_app_r, Nat.sub_diag in Hd by lia. cbn in Hd.
        injection Hd as <-. lia.
      * destruct (Z.max_spec lg tmp) as [[_ ->]|[_ ->]].
        -- exists (length p - Z.to_nat tmp)%nat. intros j Hj.
           destruct (Hsuffix j Hj) as (d & Hd & Hdpos).
           exists d. split; [|exact Hdpos]. rewrite lookup_app_l; [exact Hd|].
           now apply lookup_lt_Some in Hd.
        -- exists i0. intros j Hj. destruct (Hbest j Hj) as (d & Hd & Hdpos).
           exists d. split; [|exact Hdpos]. rewrite lookup_app_l; [exact Hd|].
           now apply lookup_lt_Some in Hd.
      * intros i n Hrun Hn.
        destruct (decide (i + n = length p + 1)%nat) as [Hlast|Hin].
        -- destruct n as [|n]; [lia|].
           destruct (Hrun (length p) ltac:(lia)) as (d & Hd & Hdpos).
           rewrite lookup_app_r, Nat.sub_diag in Hd by lia. cbn in Hd.
           injection Hd as <-. lia.
        -- assert (Z.of_nat n <= Z.max lg tmp); [|lia].
           apply (Hall i n); [|lia].
           intros j Hj. destruct (Hrun j Hj) as (d & Hd & Hdpos).
           exists d. split; [|exact Hdpos]. rewrite lookup_app_l in Hd; [exact Hd|lia].
Qed.

(** X8.  For a calendar, totalActiveDays is the number of its days with a
    count above 0, and longestStreak is the length of a longest run of
    consecutive entries with a count above 0 in the list of its days
    sorted by date (the entries are consecutive in the list; their dates
    are not compared), so 0 <= longestStreak <= totalActiveDays. Without a
    calendar the three streak numbers are 0. *)
Theorem streaks_count_runs (tz now : Z) (calendar : ContributionCalendar) :
  let s := calculateStreaks tz now (Some calendar) in
  let days := allDays calendar in
  s_totalActiveDays s = activeDays (flat_map contributionDays (weeks calendar))
  /\ 0 <= s_longestStreak s <= s_totalActiveDays s
  /\ (exists i, activeRun days i (Z.to_nat (s_longestStreak s)))
  /\ (forall i n, activeRun days i n -> Z.of_nat n <= s_longestStreak s)
  /\ calculateStreaks tz now None = mkStreaks 0 0 0.
Proof.
  cbv zeta. unfold calculateStreaks.
  pose proof (streak_scan_runs tz (Date.setHours0 tz now) (allDays calendar)) as H.
  cbv zeta in H.
  destruct (fold_left _ (allDays calendar) _) as [lg cur tmp act].
  cbn [longest current temp active s_longestStreak s_totalActiveDays] in *.
  destruct H as (Hact & Hlg & Htmp & Hsuffix & Hend & [i0 Hbest] & Hall).
  split; [|split; [|split; [|split]]].
  - rewrite Hact. apply activeDays_perm. unfold allDays. apply js_sort_perm.
  - lia.
  - destruct (Z.max_spec lg tmp) as [[_ ->]|[_ ->]]; eauto.
  - intros i n Hrun. destruct n as [|n]; [lia|].
    apply (Hall i (S n)); [exact Hrun|].
    destruct (Hrun (i + n)%nat ltac:(lia)) as (d & Hd & _).
    apply lookup_lt_Some in Hd. lia.
  - reflexivity.
Qed.

Lemma streaks_count_runs_witness :
  1 <= s_longestStreak (calculateStreaks 0 noon_2024_03_05 (Some oneActiveDay)).
Proof.
  refine (proj1 (proj2 (proj2 (proj2
            (streaks_count_runs 0 noon_2024_03_05 oneActiveDay)))) 2%nat 1%nat _).
  intros j Hj. assert (j = 2%nat) as -> by lia.
  vm_compute. eexists. split; reflexivity.
Defined.

(** *** The current streak and the zone *)

Lemma diffDays_by_zone (tz now : Z) (d : ContributionDay) :
  - Date.msPerDay <= tz < Date.msPerDay ->
  diffDays tz (Date.setHours0 tz now) d
  = localDay tz now - (dayNumber d - (if tz <? 0 then 1 else 0)).
Proof.
  intros Htz. rewrite diffDays_localDay. f_equal.
  destruct (Z.ltb_spec tz 0).
  - symmetry. apply Z.div_unique with (Date.msPerDay + tz);
      unfold Date.msPerDay in *; lia.
  - symmetry. apply Z.div_unique with tz; unfold Date.msPerDay in *; lia.
Qed.

(** Once an active day within a day of [today] has been scanned, the
    current streak is at least 1. *)
Lemma streak_scan_current (tz today : Z) (l : list ContributionDay) :
  let s := fold_left (streakStep tz today) l (mkStreakState 0 0 0 0) in
  0 <= temp s
  /\ (Exists (fun d => contributionCount d > 0 /\ diffDays tz today d <= 1) l ->
      1 <= current s).
Proof.
  cbv zeta. induction l as [|x p IH] using rev_ind.
  - cbn. split; [lia|]. intros H. inversion H.
  - rewrite fold_left_app. cbn [fold_left].
    destruct (fold_left (streakStep tz today) p (mkStreakState 0 0 0 0))
      as [lg cur tmp act].
    cbn [current temp] in IH. destruct IH as [Htmp Hcur].
    unfold streakStep. cbn [longest current temp active].
    destruct (Z.gtb_spec (contributionCount x) 0) as [Hpos|Hzero];
      cbn [current temp].
    + split; [lia|]. intros Hex.
      destruct (Z.leb_spec (diffDays tz today x) 1) as [Hnear|Hfar]; [lia|].
      apply Hcur. apply Exists_app in Hex as [Hex|Hex]; [exact Hex|].
      apply Exists_cons in Hex as [[_ Hx]|Hex]; [lia|inversion Hex].
    + split; [lia|]. intros Hex.
      apply Hcur. apply Exists_app in Hex as [Hex|Hex]; [exact Hex|].
      apply Exists_cons in Hex as [[Hx _]|Hex]; [lia|inversion Hex].
Qed.

(** X9.  For a zone with a fixed offset of less than a day, let since be
    yesterday's local date at or east of UTC and today's local date west
    of UTC. currentStreak is 0 when no day of the calendar with a count
    above 0 is dated on or after since, and at least 1 when one is: west
    of UTC a streak that ended yesterday no longer counts as current. *)
Theorem currentStreak_by_zone (tz now : Z) (calendar : ContributionCalendar) :
  - Date.msPerDay <= tz < Date.msPerDay ->
  let s := calculateStreaks tz now (Some calendar) in
  let days := flat_map contributionDays (weeks calendar) in
  let since := localDay tz now - (if tz <? 0 then 0 else 1) in
  (Forall (fun d => contributionCount d > 0 -> dayNumber d < since) days ->
   s_currentStreak s = 0)
  /\ (Exists (fun d => contributionCount d > 0 /\ since <= dayNumber d) days ->
      1 <= s_currentStreak s).
Proof.
  intros Htz. cbv zeta. unfold calculateStreaks. cbn [s_currentStreak]. split.
  - intros Hold. apply streak_scan_stale. intros d Hd Hpos.
    unfold allDays in Hd. rewrite js_sort_perm in Hd.
    rewrite Forall_forall in Hold. specialize (Hold d Hd Hpos).
    rewrite diffDays_by_zone by exact Htz.
    destruct (tz <? 0); lia.
  - intros Hex.
    apply (proj2 (streak_scan_current tz (Date.setHours0 tz now) (allDays calendar))).
    apply Exists_exists in Hex as (d & Hd & Hpos & Hnear).
    apply Exists_exists. exists d. split.
    + unfold allDays. now rewrite js_sort_perm.
    + split; [exact Hpos|]. rewrite diffDays_by_zone by exact Htz.
      destruct (tz <? 0); lia.
Qed.

(** At noon UTC of March 5, 2024 (7 in the morning in New York), the streak
    of March 4 is current in UTC and is not in New York. *)
Lemma currentStreak_by_zone_witness :
  s_currentStreak (calculateStreaks EST noon_2024_03_05 (Some activeOnMarch4)) = 0
  /\ 1 <= s_currentStreak (calculateStreaks 0 noon_2024_03_05 (Some activeOnMarch4)).
Proof.
  split.
  - refine (proj1 (currentStreak_by_zone EST noon_2024_03_05 activeOnMarch4 _) _).
    + vm_compute. split; [discriminate|reflexivity].
    + repeat constructor; vm_compute; intros H; try discriminate H; reflexivity.
  - refine (proj2 (currentStreak_by_zone 0 noon_2024_03_05 activeOnMarch4 _) _).
    + vm_compute. split; [discriminate|reflexivity].
    + right. left. vm_compute. split; [reflexivity|discriminate].
Defined.

(* ================================================================== *)
(** ** The streaks and daylight saving                                 *)
(* ================================================================== *)

(** In a zone that keeps one offset the two models agree. *)
Lemma setHours0In_fixedZone (tz t : Z) :
  setHours0In (fixedZone tz) t = Date.setHours0 tz t.
Proof. reflexivity. Qed.

Lemma calculateStreaksIn_fixedZone (tz now : Z)
    (calendar : option ContributionCalendar) :
  calculateStreaksIn (fixedZone tz) now calendar = calculateStreaks tz now calendar.
Proof. reflexivity. Qed.

(** In every zone the scan keeps [current] below the longest run seen or
    under way: the current streak is never above the longest. *)
Lemma streak_scan_bound_in (z : Zone) (today : Z) (l : list ContributionDay) :
  let s := fold_left (streakStepIn z today) l (mkStreakState 0 0 0 0) in
  0 <= temp s /\ current s <= Z.max (longest s) (temp s).
Proof.
  cbv zeta. apply fold_left_invariant; [cbn; lia|].
  intros s d _ [Htemp Hcur]. unfold streakStepIn.
  destruct (contributionCount d >? 0); cbn.
  - destruct (diffDaysIn z today d <=? 1); lia.
  - lia.
Qed.

Lemma currentStreak_le_longestStreak (z : Zone) (now : Z)
    (calendar : option ContributionCalendar) :
  let s := calculateStreaksIn z now calendar in
  s_currentStreak s <= s_longestStreak s.
Proof.
  cbv zeta. unfold calculateStreaksIn. destruct calendar as [c|]; cbn; [|lia].
  pose proof (streak_scan_bound_in z (setHours0In z now) (allDays c)) as H.
  cbv zeta in H. lia.
Qed.

(** C6 (the streaks against the claim).  In Berlin at noon of Monday April
    1, 2024, the day after the clocks went forward, the most recent active
    day of the calendar is Saturday March 30, two days earlier; the
    midnights of the two days are 47 hours apart, which [calculateStreaks]
    floors to one day, and the streak counts as current.  With the offset
    of the winter or of the summer alone it does not. *)
Theorem currentStreak_across_daylight_saving :
  let now := noon_in_Berlin_2024_04_01 in
  let today := setHours0In Berlin2024 now in
  let saturday := aDay 2024 3 30 5 in
  let s := calculateStreaksIn Berlin2024 now (Some activeOnMarch30) in
  localDateIn Berlin2024 now = mkIsoDate 2024 4 1
  /\ mostRecentActiveDay activeOnMarch30 = Some (dayNumber saturday)
  /\ date saturday = mkIsoDate 2024 3 30
  /\ Date.days_from_civil 2024 4 1 - dayNumber saturday = 2
  /\ today - setHours0In Berlin2024 (Date.parse (date saturday))
     = 47 * Date.msPerHour
  /\ diffDaysIn Berlin2024 today saturday = 1
  /\ s_currentStreak s = 1
  /\ s_longestStreak s = 1
  /\ s_currentStreak
       (calculateStreaksIn (fixedZone Date.msPerHour) now (Some activeOnMarch30))
     = 0
  /\ s_currentStreak
       (calculateStreaksIn (fixedZone (2 * Date.msPerHour)) now
                           (Some activeOnMarch30))
     = 0.
Proof. vm_compute. repeat split. Qed.

(* ================================================================== *)
(** ** Properties of the scores and of the personality                 *)
(* ================================================================== *)

Lemma eventCount_cons (kind : string) (e : GitHubEvent) (l : list GitHubEvent) :
  eventCount kind (e :: l)
  = (if String.eqb (type e) kind then 1 else 0) + eventCount kind l.
Proof.
  unfold eventCount, len. cbn [List.filter].
  destruct (String.eqb (type e) kind); cbn [length]; lia.
Qed.

Lemma eventCount_nonneg (kind : string) (l : list GitHubEvent) : 0 <= eventCount kind l.
Proof. unfold eventCount, len. lia. Qed.

(** The two counters of the loop of [calculateScores]. *)
Lemma scores_tally (events : list GitHubEvent) (issues prs : Z) :
  fold_left
    (fun '(issues, prs) event =>
       let issues :=
         if String.eqb (type event) "IssuesEvent" then issues + 1 else issues in
       let prs :=
         if String.eqb (type event) "PullRequestEvent" then prs + 1 else prs in
       (issues, prs))
    events (issues, prs)
  = (issues + eventCount "IssuesEvent" events,
     prs + eventCount "PullRequestEvent" events).
Proof.
  revert issues prs. induction events as [|e l IH]; intros issues prs.
  - cbn [fold_left]. unfold eventCount, len. cbn [List.filter length]. f_equal; lia.
  - cbn [fold_left]. rewrite !eventCount_cons.
    destruct (String.eqb (type e) "IssuesEvent"),
             (String.eqb (type e) "PullRequestEvent");
      rewrite IH; f_equal; lia.
Qed.

(** An event is of one type: the issue and pull request events together are
    no more than the events. *)
Lemma issues_and_prs_le (events : list GitHubEvent) :
  eventCount "IssuesEvent" events + eventCount "PullRequestEvent" events
  <= len events.
Proof.
  induction events as [|e l IH]; [unfold eventCount, len; cbn; lia|].
  rewrite !eventCount_cons.
  replace (len (e :: l)) with (1 + len l) by (unfold len; cbn [length]; lia).
  destruct (String.eqb_spec (type e) "IssuesEvent") as [Heq|_].
  - rewrite Heq. change (String.eqb "IssuesEvent" "PullRequestEvent") with false.
    cbv iota. lia.
  - destruct (String.eqb (type e) "PullRequestEvent"); lia.
Qed.

Lemma calculateScores_eq (h : JsHost) (events : list GitHubEvent)
    (repos : list GitHubRepo) :
  let own := len (List.filter (fun r => negb (fork r)) repos) in
  let forked := len (List.filter (fun r => fork r) repos) in
  let issues := eventCount "IssuesEvent" events in
  let prs := eventCount "PullRequestEvent" events in
  calculateScores h events repos
  = mkScores (roundPercent h own (Z.max 1 (own + forked)))
             (if issues + prs >? 0 then roundPercent h issues (issues + prs) else 50).
Proof.
  cbv zeta. unfold calculateScores. rewrite scores_tally. reflexivity.
Qed.

(** A nearest integer to a percentage lies between 0 and 100. *)
Lemma roundPercent_range (h : JsHost) (a b : Z) :
  rounds_to_nearest h -> 0 <= a <= b -> 0 < b < 2 ^ 32 ->
  0 <= roundPercent h a b <= 100.
Proof.
  intros Hh Ha Hb. pose proof (Hh a b Ha Hb) as H.
  set (s := roundPercent h a b) in *.
  destruct (Z.abs_spec (s * b - 100 * a)) as [[_ Habs]|[_ Habs]];
    rewrite Habs in H; nia.
Qed.

Lemma scores_range (h : JsHost) (events : list GitHubEvent) (repos : list GitHubRepo) :
  rounds_to_nearest h -> len repos < 2 ^ 32 -> len events < 2 ^ 32 ->
  0 <= soloScore (calculateScores h events repos) <= 100
  /\ 0 <= sc_bugSlayerScore (calculateScores h events repos) <= 100.
Proof.
  intros Hh Hrepos Hevents. rewrite calculateScores_eq. cbv zeta.
  cbn [soloScore sc_bugSlayerScore].
  pose proof (len_filter_fork repos) as Hsum.
  pose proof (issues_and_prs_le events) as Hle.
  pose proof (eventCount_nonneg "IssuesEvent" events).
  pose proof (eventCount_nonneg "PullRequestEvent" events).
  assert (0 <= len (List.filter (fun r => negb (fork r)) repos)) by (unfold len; lia).
  assert (0 <= len (List.filter (fun r => fork r) repos)) by (unfold len; lia).
  split.
  - apply roundPercent_range; [exact Hh|lia|lia].
  - destruct (Z.gtb_spec (eventCount "IssuesEvent" events
                          + eventCount "PullRequestEvent" events) 0); [|lia].
    apply roundPercent_range; [exact Hh|lia|lia].
Qed.

(** X10.  For a host that rounds to nearest and a bundle of fewer than
    2^32 events: bugSlayerScore is 50 when the events of the year hold
    neither an issue event nor a pull request event; otherwise it is the
    rounded percentage of issue events among the issue and pull request
    events, within half a point of 100 * issues / (issues + prs), so 100
    with issue events only and 0 with pull request events only. *)
Theorem bugSlayerScore_formula (h : JsHost) (now : Z) (data : AllGitHubData)
    (year : Z) :
  rounds_to_nearest h -> len (events data) < 2 ^ 32 ->
  let evs := eventsOfYear (tzOffset h) year (events data) in
  let issues := eventCount "IssuesEvent" evs in
  let prs := eventCount "PullRequestEvent" evs in
  let score := bugSlayerScore (calculateInsights h now data year) in
  (issues + prs = 0 -> score = 50)
  /\ (0 < issues + prs ->
      score = roundPercent h issues (issues + prs)
      /\ 2 * Z.abs (score * (issues + prs) - 100 * issues) <= issues + prs)
  /\ (0 < issues -> prs = 0 -> score = 100)
  /\ (0 < prs -> issues = 0 -> score = 0).
Proof.
  intros Hh Hevents. cbv zeta.
  set (evs := eventsOfYear (tzOffset h) year (events data)).
  change (bugSlayerScore (calculateInsights h now data year))
    with (sc_bugSlayerScore (calculateScores h evs (repos data))).
  rewrite calculateScores_eq. cbv zeta. cbn [sc_bugSlayerScore].
  pose proof (issues_and_prs_le evs) as Hle.
  pose proof (len_filter_le
                (fun event => Date.getFullYear (tzOffset h) (event_created_at event) =? year)
                (events data)) as Hfilter.
  fold (eventsOfYear (tzOffset h) year (events data)) in Hfilter. fold evs in Hfilter.
  pose proof (eventCount_nonneg "IssuesEvent" evs) as Hi.
  pose proof (eventCount_nonneg "PullRequestEvent" evs) as Hp.
  set (issues := eventCount "IssuesEvent" evs) in *.
  set (prs := eventCount "PullRequestEvent" evs) in *.
  split; [|split; [|split]].
  - intros Hnone. destruct (Z.gtb_spec (issues + prs) 0); [lia|reflexivity].
  - intros Hsome. destruct (Z.gtb_spec (issues + prs) 0); [|lia].
    split; [reflexivity|]. apply Hh; lia.
  - intros Hsome ->. destruct (Z.gtb_spec (issues + 0) 0); [|lia].
    rewrite Z.add_0_r. rewrite <- (Z.mul_1_l issues) at 1.
    rewrite (rounds_to_nearest_exact h 1) by (auto; lia). reflexivity.
  - intros Hsome ->. destruct (Z.gtb_spec (0 + prs) 0); [|lia].
    replace 0 with (0 * (0 + prs)) at 1 by ring.
    rewrite (rounds_to_nearest_exact h 0) by (auto; lia). reflexivity.
Qed.

Lemma bugSlayerScore_formula_witness :
  bugSlayerScore
    (calculateInsights (Exact.host 0) noon_2024_03_05
       (mkAllGitHubData ada [] oneIssueThreePRs None None) 2024)
  = 25.
Proof.
  refine (proj1 (proj1 (proj2
    (bugSlayerScore_formula (Exact.host 0) noon_2024_03_05
       (mkAllGitHubData ada [] oneIssueThreePRs None None) 2024
       (Exact_rounds_to_nearest 0) _)) _)).
  - vm_compute. reflexivity.
  - vm_compute. reflexivity.
Defined.

Lemma calculatePersonality_traits (events : list GitHubEvent)
    (repos : list GitHubRepo) (mostProductiveHour : Z)
    (activityByDay : list (string * Z)) (scores : Scores) :
  traits (calculatePersonality events repos mostProductiveHour activityByDay scores)
  = traitList repos mostProductiveHour activityByDay scores.
Proof.
  unfold calculatePersonality, traitList.
  destruct (isNightOwl mostProductiveHour && isPolyglot repos); [reflexivity|].
  destruct (isEarlyBird mostProductiveHour && isSolo scores); [reflexivity|].
  destruct (isWeekendWarrior activityByDay && (sc_bugSlayerScore scores >? 60));
    [reflexivity|].
  destruct (isPolyglot repos && negb (isSolo scores)); [reflexivity|].
  destruct (isSolo scores
            && (Z.of_nat (size (personalityLanguages repos)) <=? 2));
    [reflexivity|].
  destruct (isNightOwl mostProductiveHour && isWeekendWarrior activityByDay);
    reflexivity.
Qed.

(** The personality of the result, by its parts. *)
Lemma calculateInsights_personality (h : JsHost) (now : Z) (data : AllGitHubData)
    (year : Z) :
  let out := calculateInsights h now data year in
  personality out
  = calculatePersonality (eventsOfYear (tzOffset h) year (events data)) (repos data)
      (mostProductiveHour out) (activityByDay out)
      (mkScores (soloVsTeamScore out) (bugSlayerScore out)).
Proof.
  cbv zeta. unfold calculateInsights.
  cbn [personality mostProductiveHour activityByDay soloVsTeamScore bugSlayerScore].
  unfold eventsOfYear.
  destruct (calculateScores h _ (repos data)) as [solo bug]. reflexivity.
Qed.

(** X11.  For a host that rounds to nearest and a bundle of fewer than
    2^32 repositories and events: soloVsTeamScore and bugSlayerScore lie
    between 0 and 100, and the personality has exactly four traits, each
    with a value between 0 and 100. *)
Theorem scores_and_traits_in_range (h : JsHost) (now : Z) (data : AllGitHubData)
    (year : Z) :
  rounds_to_nearest h -> len (repos data) < 2 ^ 32 -> len (events data) < 2 ^ 32 ->
  let out := calculateInsights h now data year in
  0 <= soloVsTeamScore out <= 100
  /\ 0 <= bugSlayerScore out <= 100
  /\ length (traits (personality out)) = 4%nat
  /\ Forall (fun t => 0 <= value t <= 100) (traits (personality out)).
Proof.
  intros Hh Hrepos Hevents. cbv zeta.
  rewrite calculateInsights_personality. cbv zeta.
  rewrite calculatePersonality_traits.
  set (evs := eventsOfYear (tzOffset h) year (events data)).
  change (soloVsTeamScore (calculateInsights h now data year))
    with (soloScore (calculateScores h evs (repos data))).
  change (bugSlayerScore (calculateInsights h now data year))
    with (sc_bugSlayerScore (calculateScores h evs (repos data))).
  assert (len evs < 2 ^ 32) as Hevs.
  { pose proof (len_filter_le
                  (fun event => Date.getFullYear (tzOffset h) (event_created_at event) =? year)
                  (events data)) as Hle.
    fold (eventsOfYear (tzOffset h) year (events data)) in Hle. fold evs in Hle. lia. }
  destruct (scores_range h evs (repos data) Hh Hrepos Hevs) as [Hsolo Hbug].
  split; [exact Hsolo|]. split; [exact Hbug|]. split; [reflexivity|].
  unfold traitList. cbn [soloScore].
  repeat constructor; cbn [value]; try lia.
  - destruct (isNightOwl _); [lia|]. destruct (isEarlyBird _); lia.
  - destruct (isNightOwl _); [lia|]. destruct (isEarlyBird _); lia.
  - destruct (isWeekendWarrior _); lia.
  - destruct (isWeekendWarrior _); lia.
Qed.

Lemma scores_and_traits_in_range_witness :
  Forall (fun t => 0 <= value t <= 100)
    (traits (personality
       (calculateInsights (Exact.host 0) noon_2024_03_05
          (mkAllGitHubData ada fiveLanguages oneIssueThreePRs None None) 2024))).
Proof.
  refine (proj2 (proj2 (proj2
    (scores_and_traits_in_range (Exact.host 0) noon_2024_03_05
       (mkAllGitHubData ada fiveLanguages oneIssueThreePRs None None) 2024
       (Exact_rounds_to_nearest 0) _ _)))).
  - vm_compute. reflexivity.
  - vm_compute. reflexivity.
Defined.

(** X12.  When no event of the bundle falls in the year (the events API
    reaches back 90 days only), activityByHour is 24 zeros,
    mostProductiveHour is 0 and peakHourRange is 12 AM - 1 AM,
    bugSlayerScore is 50, the first trait is Night Owl with value 85, and
    the title is one of Nocturnal Polyglot, Deep Specialist, Code Ninja
    and Code Crafter: a developer without recorded events is presented as
    a night owl. *)
Theorem no_events_of_the_year (h : JsHost) (now : Z) (data : AllGitHubData)
    (year : Z) :
  eventsOfYear (tzOffset h) year (events data) = [] ->
  let out := calculateInsights h now data year in
  activityByHour out = replicate 24 0
  /\ mostProductiveHour out = 0
  /\ peakHourRange out = "12 AM - 1 AM"
  /\ bugSlayerScore out = 50
  /\ head (traits (personality out))
     = Some (mkPersonalityTrait "Night Owl" 85 "🦉 Codes when the moon is out")
  /\ title (personality out)
     ∈ ["Nocturnal Polyglot"; "Deep Specialist"; "Code Ninja"; "Code Crafter"].
Proof.
  intros Hnone. cbv zeta.
  assert (bugSlayerScore (calculateInsights h now data year) = 50) as Hbug.
  { change (bugSlayerScore (calculateInsights h now data year))
      with (sc_bugSlayerScore
              (calculateScores h (eventsOfYear (tzOffset h) year (events data))
                               (repos data))).
    rewrite Hnone, calculateScores_eq. reflexivity. }
  assert (mostProductiveHour (calculateInsights h now data year) = 0) as Hhour.
  { change (mostProductiveHour (calculateInsights h now data year))
      with (ap_mostProductiveHour
              (calculateActivityPatterns (tzOffset h)
                 (eventsOfYear (tzOffset h) year (events data))
                 (data_contributionCalendar data) year)).
    rewrite Hnone, calculateActivityPatterns_tables. reflexivity. }
  split; [|split; [exact Hhour|split; [|split; [exact Hbug|split]]]].
  - change (activityByHour (calculateInsights h now data year))
      with (ap_activityByHour
              (calculateActivityPatterns (tzOffset h)
                 (eventsOfYear (tzOffset h) year (events data))
                 (data_contributionCalendar data) year)).
    rewrite Hnone, calculateActivityPatterns_tables. reflexivity.
  - change (peakHourRange (calculateInsights h now data year))
      with (ap_peakHourRange
              (calculateActivityPatterns (tzOffset h)
                 (eventsOfYear (tzOffset h) year (events data))
                 (data_contributionCalendar data) year)).
    rewrite Hnone, calculateActivityPatterns_tables. reflexivity.
  - rewrite calculateInsights_personality. cbv zeta.
    rewrite calculatePersonality_traits, Hhour. reflexivity.
  - rewrite calculateInsights_personality. cbv zeta.
    rewrite calculatePersonality_title, Hhour, Hbug.
    unfold traitsOf, personalityRules.
    cbn [nightOwl earlyBird polyglot weekendWarrior solo bugSlayer
         distinctLanguages sc_bugSlayerScore firstMatch].
    change (isNightOwl 0) with true. change (isEarlyBird 0) with false.
    change (50 >? 60) with false.
    cbn [andb]. rewrite !andb_false_r.
    destruct (isPolyglot (repos data)); cbn [andb negb]; [set_solver|].
    destruct (isSolo _ && _); [set_solver|].
    destruct (isWeekendWarrior _); set_solver.
Qed.

Lemma no_events_of_the_year_witness :
  head (traits (personality
          (calculateInsights (Ieee.host 0) noon_2024_03_05 oneActiveDayData 2024)))
  = Some (mkPersonalityTrait "Night Owl" 85 "🦉 Codes when the moon is out").
Proof.
  refine (proj1 (proj2 (proj2 (proj2 (proj2
    (no_events_of_the_year (Ieee.host 0) noon_2024_03_05 oneActiveDayData 2024 _)))))).
  reflexivity.
Defined.

(* ================================================================== *)
(** ** Properties of the language statistics                           *)
(* ================================================================== *)

Lemma countOf_countKey (k k' : string) (counts : list (string * Z)) :
  countOf k (countKey k' counts)
  = countOf k counts + (if String.eqb k' k then 1 else 0).
Proof.
  unfold countOf. induction counts as [|[k'' v] counts IH]; cbn [countKey assoc].
  - rewrite (String.eqb_sym k k'). destruct (String.eqb k' k); reflexivity.
  - destruct (String.eqb_spec k' k'') as [->|Hne]; cbn [assoc].
    + rewrite (String.eqb_sym k'' k).
      destruct (String.eqb k k''); cbn [default]; cbv iota; unfold id;
        [rewrite num_or_zero|]; lia.
    + destruct (String.eqb_spec k k'') as [->|Hne'].
      * destruct (String.eqb_spec k' k''); [congruence|]. cbn [default]. cbv iota.
        unfold id. lia.
      * exact IH.
Qed.

Lemma reposInLanguage_cons (name : string) (r : GitHubRepo) (repos : list GitHubRepo) :
  reposInLanguage name (r :: repos)
  = (if isCountedRepo r
        && match language r with Some l => String.eqb l name | None => false end
     then 1 else 0) + reposInLanguage name repos.
Proof.
  unfold reposInLanguage, len. cbn [List.filter].
  destruct (isCountedRepo r && _); cbn [length]; lia.
Qed.

Lemma languageCounts_countOf (repos : list GitHubRepo) (k : string) :
  countOf k (languageCounts repos) = reposInLanguage k repos.
Proof.
  unfold languageCounts.
  enough (forall acc,
    countOf k
      (fold_left
         (fun counts repo =>
            match language repo with
            | Some l =>
                if truthy (language repo) && negb (fork repo) then countKey l counts
                else counts
            | None => counts
            end) repos acc)
    = countOf k acc + reposInLanguage k repos) as H.
  { rewrite H. unfold countOf at 1. cbn. lia. }
  induction repos as [|r repos IH]; intros acc; cbn [fold_left].
  - unfold reposInLanguage, len. cbn. lia.
  - rewrite IH, reposInLanguage_cons, isCountedRepo_eq.
    destruct (language r) as [l|].
    + destruct (truthy (Some l) && negb (fork r)); cbn [andb].
      * rewrite countOf_countKey. lia.
      * lia.
    + rewrite andb_false_r. lia.
Qed.

Lemma assoc_NoDup {V : Type} (k : string) (v : V) (l : list (string * V)) :
  NoDup (map fst l) -> (k, v) ∈ l -> assoc k l = Some v.
Proof.
  induction l as [|[k' v'] l IH]; intros Hnd Hin; [inversion Hin|].
  cbn [map fst] in Hnd. apply NoDup_cons in Hnd as [Hk' Hnd].
  cbn [assoc]. apply elem_of_cons in Hin as [Heq|Hin].
  - injection Heq as -> ->. now rewrite String.eqb_refl.
  - destruct (String.eqb_spec k k') as [->|_]; [|now apply IH].
    exfalso. apply Hk'. apply list_elem_of_In, in_map_iff.
    exists (k', v). split; [reflexivity|]. now apply list_elem_of_In.
Qed.

(** X13.  topLanguages has one entry per language, no language twice, for
    min(8, totalLanguages) languages. The count of an entry is the number
    of the user's own (non-fork) repositories in that language and is at
    least 1; its percentage is Math.round(count / n * 100) for the number
    n of own repositories that have a language; its colour is
    getLanguageColor of the name. totalLanguages is the number of distinct
    languages of the own repositories. *)
Theorem topLanguages_entries (h : JsHost) (repos : list GitHubRepo) :
  let stats := calculateLanguageStats h repos in
  let counted := len (List.filter isCountedRepo repos) in
  Forall (fun e => count e = reposInLanguage (lang_name e) repos
                   /\ 1 <= count e
                   /\ percentage e = roundPercent h (count e) counted
                   /\ color e = getLanguageColor (lang_name e))
         (ls_topLanguages stats)
  /\ NoDup (map lang_name (ls_topLanguages stats))
  /\ len (ls_topLanguages stats) = Z.min 8 (ls_totalLanguages stats)
  /\ ls_totalLanguages stats = Z.of_nat (size (countedLanguages repos)).
Proof.
  cbv zeta.
  split; [|split; [|split; [|apply totalLanguages_countedLanguages]]].
  - unfold calculateLanguageStats. cbn [ls_topLanguages].
    apply Forall_forall. intros e He.
    unfold slice0 in He. apply subseteq_take in He.
    unfold languageEntries in He. rewrite js_sort_perm in He.
    apply list_elem_of_In, in_map_iff in He as ([k v] & <- & Hkv).
    apply list_elem_of_In in Hkv.
    destruct (languageCounts_keys repos) as [Hnd _].
    destruct (languageCounts_facts repos) as [Hpos Hsum].
    pose proof (assoc_NoDup k v _ Hnd Hkv) as Hassoc.
    pose proof (languageCounts_countOf repos k) as Hcount.
    unfold countOf in Hcount. rewrite Hassoc in Hcount. cbn [default] in Hcount.
    cbn [count lang_name percentage color].
    split; [exact Hcount|]. split.
    + rewrite Forall_forall in Hpos. exact (Hpos (k, v) Hkv).
    + split; [|reflexivity]. now rewrite fold_left_add, Hsum.
  - unfold calculateLanguageStats. cbn [ls_topLanguages]. unfold slice0.
    rewrite <- firstn_map. eapply sublist_NoDup; [|apply sublist_take].
    unfold languageEntries.
    rewrite (Permutation_map lang_name (js_sort_perm _ _)), map_map.
    destruct (languageCounts_keys repos) as [Hnd _].
    erewrite map_ext; [exact Hnd|]. intros [k v]. reflexivity.
  - unfold calculateLanguageStats. cbn [ls_topLanguages ls_totalLanguages].
    unfold slice0, len. rewrite length_take. lia.
Qed.

(* ================================================================== *)
(** ** Properties of the top repositories and of the events            *)
(* ================================================================== *)

(** In a sorted list, the entries kept by [slice(0, n)] stand before all
    the entries left out. *)
Lemma sorted_take_drop {A : Type} (R : A -> A -> Prop) (n : nat) (l : list A) :
  StronglySorted R l ->
  Forall (fun x => Forall (fun y => R x y) (drop n l)) (take n l).
Proof.
  intros Hs. revert n. induction Hs as [|x l Hs IH Hx]; intros n.
  - rewrite take_nil. constructor.
  - destruct n as [|n]; cbn [take drop firstn skipn]; [constructor|].
    constructor; [|apply IH].
    apply Forall_forall. intros y Hy.
    rewrite Forall_forall in Hx. apply Hx.
    eapply (subseteq_drop n l), Hy.
Qed.

(** X14.  With the summary of the GraphQL API, topRepositories are min(6,
    n) of the n entries of its per-repository list, in descending order of
    commits, and no entry left out has more commits than one that is
    shown; the repositories of the REST API are not used. In particular an
    empty per-repository list gives no top repositories, whatever
    repositories the user has. *)
Theorem topRepositories_from_summary (h : JsHost) (now : Z) (data : AllGitHubData)
    (year : Z) (cd : ContributionData) :
  contributionData data = Some cd ->
  let top := topRepositories (calculateInsights h now data year) in
  let stats := map repoStatOfItem (commitContributionsByRepository cd) in
  len top = Z.min 6 (len stats)
  /\ StronglySorted (fun a b => rs_commits a >= rs_commits b) top
  /\ exists rest,
       top ++ rest ≡ₚ stats
       /\ Forall (fun t => Forall (fun r => rs_commits r <= rs_commits t) rest) top.
Proof.
  intros Hcd. cbv zeta.
  change (topRepositories (calculateInsights h now data year))
    with (calculateTopRepos h (repos data) (contributionData data)).
  rewrite Hcd. unfold calculateTopRepos, slice0.
  fold repoStatOfItem.
  set (stats := map repoStatOfItem (commitContributionsByRepository cd)).
  set (sorted := js_sort (fun a b => rs_commits b - rs_commits a) stats).
  assert (StronglySorted (fun a b => rs_commits b - rs_commits a <= 0) sorted)
    as Hsorted by (apply js_sort_sorted; intros; lia).
  split; [|split].
  - unfold len. rewrite length_take. subst sorted. rewrite js_sort_length. lia.
  - apply StronglySorted_take.
    eapply StronglySorted_impl; [|exact Hsorted]. cbn. intros; lia.
  - exists (drop 6 sorted). split.
    + rewrite take_drop. apply js_sort_perm.
    + eapply Forall_impl; [apply sorted_take_drop, Hsorted|].
      cbn. intros t Ht. eapply Forall_impl; [exact Ht|]. cbn. intros; lia.
Qed.

Lemma topRepositories_from_summary_witness :
  len (topRepositories
         (calculateInsights (Ieee.host 0) noon_2024_03_05
            (mkAllGitHubData ada fiveLanguages [] (Some emptySummary) None) 2024))
  = 0.
Proof.
  exact (proj1 (topRepositories_from_summary (Ieee.host 0) noon_2024_03_05
                  (mkAllGitHubData ada fiveLanguages [] (Some emptySummary) None)
                  2024 emptySummary eq_refl)).
Defined.

(** X15.  Without the summary of the GraphQL API, topRepositories are
    min(6, n) of the n non-fork repositories of the bundle, each shown
    with 0 commits; when there are at most six of them, all are shown. *)
Theorem topRepositories_fallback (h : JsHost) (now : Z) (data : AllGitHubData)
    (year : Z) :
  contributionData data = None ->
  let top := topRepositories (calculateInsights h now data year) in
  let own := List.filter (fun r => negb (fork r)) (repos data) in
  len top = Z.min 6 (len own)
  /\ Forall (fun t => rs_commits t = 0
                      /\ exists r, r ∈ repos data /\ fork r = false
                                   /\ t = repoStatOfRepo r) top
  /\ (len own <= 6 -> top ≡ₚ map repoStatOfRepo own).
Proof.
  intros Hcd. cbv zeta.
  change (topRepositories (calculateInsights h now data year))
    with (calculateTopRepos h (repos data) (contributionData data)).
  rewrite Hcd. unfold calculateTopRepos, slice0. fold repoStatOfRepo.
  set (own := List.filter (fun r => negb (fork r)) (repos data)).
  set (cmp := fun a b : GitHubRepo =>
                scoreDiff h (stargazers_count a) (pushed_at a)
                            (stargazers_count b) (pushed_at b)).
  split; [|split].
  - unfold len. rewrite length_map, length_take, js_sort_length. lia.
  - apply Forall_forall. intros t Ht.
    apply list_elem_of_In, in_map_iff in Ht as (r & <- & Hr).
    apply list_elem_of_In, subseteq_take in Hr. rewrite js_sort_perm in Hr.
    subst own. apply list_elem_of_In, filter_In in Hr as [Hr Hfork].
    split; [reflexivity|]. exists r. split; [now apply list_elem_of_In|].
    split; [|reflexivity]. now destruct (fork r).
  - intros Hfew. rewrite take_ge.
    + apply Permutation_map, js_sort_perm.
    + rewrite js_sort_length. unfold len in Hfew. lia.
Qed.

Lemma topRepositories_fallback_witness :
  len (topRepositories
         (calculateInsights (Ieee.host 0) noon_2024_03_05
            (mkAllGitHubData ada fiveLanguages [] None None) 2024))
  = Z.min 6 (len (List.filter (fun r => negb (fork r)) fiveLanguages)).
Proof.
  exact (proj1 (topRepositories_fallback (Ieee.host 0) noon_2024_03_05
                  (mkAllGitHubData ada fiveLanguages [] None None) 2024 eq_refl)).
Defined.

Lemma filter_perm {A : Type} (f : A -> bool) (l l' : list A) :
  l ≡ₚ l' -> List.filter f l ≡ₚ List.filter f l'.
Proof.
  intros Hp. induction Hp as [|x l l' _ IH|x y l|l l' l'' _ IH1 _ IH2]; cbn.
  - reflexivity.
  - destruct (f x); [now constructor|exact IH].
  - destruct (f x), (f y); try reflexivity. apply perm_swap.
  - now transitivity (List.filter f l').
Qed.

Lemma len_perm {A : Type} (l l' : list A) : l ≡ₚ l' -> len l = len l'.
Proof. intros Hp. unfold len. now rewrite (Permutation_length Hp). Qed.

Lemma eventCount_perm (kind : string) (l l' : list GitHubEvent) :
  l ≡ₚ l' -> eventCount kind l = eventCount kind l'.
Proof. intros Hp. unfold eventCount. now apply len_perm, filter_perm. Qed.

Lemma tallyEvents_perm (l l' : list GitHubEvent) :
  l ≡ₚ l' -> tallyEvents l = tallyEvents l'.
Proof.
  intros Hp.
  destruct (tallyEvents_spec l) as (H1 & H2 & H3 & H4 & H5).
  destruct (tallyEvents_spec l') as (H1' & H2' & H3' & H4' & H5').
  destruct (tallyEvents l) as [c p i r s], (tallyEvents l') as [c' p' i' r' s'].
  cbn [t_commits t_prs t_issues t_reviews t_reposSet] in *.
  subst. f_equal.
  - unfold eventCommits. apply sumZ_perm, Permutation_map, filter_perm, Hp.
  - now apply eventCount_perm.
  - now apply eventCount_perm.
  - now apply eventCount_perm.
  - unfold eventRepos. apply list_to_set_perm_L.
    apply Permutation_map, filter_perm, Hp.
Qed.

Lemma calculateScores_perm (h : JsHost) (l l' : list GitHubEvent)
    (repos : list GitHubRepo) :
  l ≡ₚ l' -> calculateScores h l repos = calculateScores h l' repos.
Proof.
  intros Hp. rewrite !calculateScores_eq. cbv zeta.
  now rewrite (eventCount_perm "IssuesEvent" l l' Hp),
              (eventCount_perm "PullRequestEvent" l l' Hp).
Qed.

Lemma calculateActivityPatterns_perm (tz : Z) (l l' : list GitHubEvent)
    (calendar : option ContributionCalendar) (year : Z) :
  l ≡ₚ l' ->
  calculateActivityPatterns tz l calendar year
  = calculateActivityPatterns tz l' calendar year.
Proof.
  intros Hp. rewrite !calculateActivityPatterns_tables. cbv zeta.
  assert (hourTable tz l = hourTable tz l') as ->.
  { destruct (hourTable_spec tz l) as (-> & _), (hourTable_spec tz l') as (-> & _).
    apply map_ext. intros k. now apply len_perm, filter_perm. }
  assert (dayTable tz year l calendar = dayTable tz year l' calendar) as ->.
  { destruct (dayTable_spec tz year l calendar) as (-> & _),
             (dayTable_spec tz year l' calendar) as (-> & _).
    apply map_ext. intros k. unfold activityOf. destruct calendar; [reflexivity|].
    now apply len_perm, filter_perm. }
  assert (monthTable tz year l calendar = monthTable tz year l' calendar) as ->.
  { destruct (monthTable_spec tz year l calendar) as (-> & _),
             (monthTable_spec tz year l' calendar) as (-> & _).
    apply map_ext. intros k. unfold activityOf. destruct calendar; [reflexivity|].
    now apply len_perm, filter_perm. }
  reflexivity.
Qed.

Lemma calculateBasicStats_perm (l l' : list GitHubEvent)
    (cd : option ContributionData) (calendar : option ContributionCalendar) :
  l ≡ₚ l' -> calculateBasicStats l cd calendar = calculateBasicStats l' cd calendar.
Proof.
  intros Hp. unfold calculateBasicStats. now rewrite (tallyEvents_perm l l' Hp).
Qed.

(** X16.  Two bundles with the same repositories, the same summary and the
    same calendar, whose events of the year are the same up to their
    order, give the same insights for the same host, clock and year: the
    events outside the year, the order of the events and the profile of
    the user do not enter the result. *)
Theorem calculateInsights_events_order (h : JsHost) (now : Z)
    (data data' : AllGitHubData) (year : Z) :
  repos data = repos data' ->
  contributionData data = contributionData data' ->
  data_contributionCalendar data = data_contributionCalendar data' ->
  eventsOfYear (tzOffset h) year (events data)
  ≡ₚ eventsOfYear (tzOffset h) year (events data') ->
  calculateInsights h now data year = calculateInsights h now data' year.
Proof.
  destruct data as [u rs es cd cal], data' as [u' rs' es' cd' cal'].
  cbn [repos contributionData data_contributionCalendar events].
  intros <- <- <- Hp. unfold eventsOfYear in Hp.
  unfold calculateInsights.
  cbn [repos contributionData data_contributionCalendar events].
  rewrite (calculateBasicStats_perm _ _ cd cal Hp).
  rewrite (calculateActivityPatterns_perm (tzOffset h) _ _ cal year Hp).
  rewrite (calculateScores_perm h _ _ rs Hp).
  reflexivity.
Qed.

Lemma calculateInsights_events_order_witness :
  calculateInsights (Ieee.host 0) noon_2024_03_05
    (mkAllGitHubData ada fiveLanguages oneIssueThreePRs None None) 2024
  = calculateInsights (Ieee.host 0) noon_2024_03_05
      (mkAllGitHubData ada fiveLanguages shuffledEvents None None) 2024.
Proof.
  apply calculateInsights_events_order; try reflexivity.
  vm_compute.
  apply (Permutation_rev
           [anEvent "IssuesEvent" "ada/engine" None noon_2024_03_05;
            anEvent "PullRequestEvent" "ada/engine" None noon_2024_03_05;
            anEvent "PullRequestEvent" "ada/engine" None noon_2024_03_05;
            anEvent "PullRequestEvent" "ada/notes" None noon_2024_03_05]).
Defined.

(* ================================================================== *)
(** ** The pages the fetchers ask for                                  *)
(* ================================================================== *)

Section PageFacts.

Context {Item : Type} (net : Network (list Item)) (endpointOf : Z -> string).

Lemma pagesFrom_S (from : Z) (k : nat) :
  pagesFrom net endpointOf from (S k)
  = pageItems net endpointOf from ++ pagesFrom net endpointOf (from + 1) k.
Proof.
  unfold pagesFrom. cbn [seq flat_map]. rewrite Z.add_0_r. f_equal.
  rewrite <- seq_shift, flat_map_concat_map, map_map, <- flat_map_concat_map.
  apply flat_map_ext. intros i. f_equal. lia.
Qed.

Lemma pageUrlsFrom_S (from : Z) (k : nat) :
  pageUrlsFrom endpointOf from (S k)
  = urlOf (endpointOf from) :: pageUrlsFrom endpointOf (from + 1) k.
Proof.
  unfold pageUrlsFrom. cbn [seq map]. rewrite Z.add_0_r. f_equal.
  rewrite <- seq_shift, map_map. apply map_ext. intros i. do 2 f_equal. lia.
Qed.

Lemma pagesFrom_snoc (from : Z) (k : nat) :
  pagesFrom net endpointOf from (S k)
  = pagesFrom net endpointOf from k ++ pageItems net endpointOf (from + Z.of_nat k).
Proof.
  unfold pagesFrom. rewrite seq_S, flat_map_app. cbn. now rewrite app_nil_r.
Qed.

Lemma pagesFrom_one (from : Z) :
  pagesFrom net endpointOf from 1 = pageItems net endpointOf from.
Proof. unfold pagesFrom. cbn. now rewrite Z.add_0_r, app_nil_r. Qed.

Lemma pageUrlsFrom_one (from : Z) :
  pageUrlsFrom endpointOf from 1 = [urlOf (endpointOf from)].
Proof. unfold pageUrlsFrom. cbn. now rewrite Z.add_0_r. Qed.

End PageFacts.

(** What a call of [fetchGitHub] for a page gives, in terms of the page. *)
Lemma fetchGitHub_page {Item : Type} (net : Network (list Item))
    (endpointOf : Z -> string) (page : Z) (w : World) :
  match fst (fetchGitHub net (endpointOf page) w) with
  | inr items => items = pageItems net endpointOf page
  | inl e => pageItems net endpointOf page = [] /\ e <> OutOfFuel
  end.
Proof.
  rewrite fetchGitHub_answer. unfold answer, pageItems.
  destruct (net _) as [|r]; [split; [reflexivity|discriminate]|].
  destruct (ok r); [reflexivity|].
  destruct (status r =? 404); [split; [reflexivity|discriminate]|].
  destruct (status r =? 403); split; try reflexivity; discriminate.
Qed.

Section RepoPages.

Context {Item : Type} (net : Network (list Item)) (username : string).

(** The loop of [fetchUserRepos] from any of its states: it asks for the
    pages that follow, in order, and holds their items. *)
Lemma fetchUserRepos_loop_pages (fuel : nat) (maxRepos : Z) (repos : list Item)
    (page : Z) (w : World) :
  maxRepos <= Z.of_nat fuel + len repos ->
  exists k : nat,
    requested (snd (fetchUserRepos_loop net username fuel maxRepos repos page w))
    = requested w ++ pageUrlsFrom (reposEndpoint username) page k
    /\ (maxRepos <= len repos -> k = 0%nat)
    /\ (len repos < maxRepos ->
        (1 <= k)%nat /\ len repos + perPage * (Z.of_nat k - 1) < maxRepos)
    /\ match fst (fetchUserRepos_loop net username fuel maxRepos repos page w) with
       | inr result =>
           result = repos ++ pagesFrom net (reposEndpoint username) page k
       | inl e => e <> OutOfFuel
       end.
Proof.
  revert repos page w. induction fuel as [|fuel IH]; intros repos page w Hfuel.
  - rewrite fetchUserRepos_loop_done by lia. exists 0%nat. cbn.
    rewrite !app_nil_r. split; [reflexivity|]. split; [reflexivity|].
    split; [lia|reflexivity].
  - rewrite fetchUserRepos_loop_round.
    destruct (Z.ltb_spec (len repos) maxRepos) as [Hlt|Hge].
    2:{ exists 0%nat. cbn. rewrite !app_nil_r. split; [reflexivity|].
        split; [reflexivity|]. split; [lia|reflexivity]. }
    pose proof (fetchGitHub_requested net (reposEndpoint username page) w) as Hreq.
    pose proof (fetchGitHub_page net (reposEndpoint username) page w) as Hpage.
    destruct (fetchGitHub net (reposEndpoint username page) w) as [[e|pageRepos] w'];
      cbn [fst snd] in *.
    + exists 1%nat. rewrite pageUrlsFrom_one.
      split; [exact Hreq|]. split; [lia|].
      split; [intros _; unfold perPage; lia|]. apply Hpage.
    + subst pageRepos.
      destruct (Z.eqb_spec (len (pageItems net (reposEndpoint username) page)) 0)
        as [Hempty|Hsome].
      * exists 1%nat. rewrite pageUrlsFrom_one, pagesFrom_one. cbn [fst snd].
        split; [exact Hreq|]. split; [lia|].
        split; [intros _; unfold perPage; lia|].
        destruct (pageItems net (reposEndpoint username) page);
          [now rewrite app_nil_r|].
        unfold len in Hempty. cbn in Hempty. lia.
      * destruct (Z.ltb_spec (len (pageItems net (reposEndpoint username) page)) perPage)
          as [Hshort|Hfull].
        -- exists 1%nat. rewrite pageUrlsFrom_one, pagesFrom_one. cbn [fst snd].
           split; [exact Hreq|]. split; [lia|].
           split; [intros _; unfold perPage; lia|]. reflexivity.
        -- destruct (IH (repos ++ pageItems net (reposEndpoint username) page)
                        (page + 1) w') as (k & Hk & Hk0 & Hk1 & Hres).
           { rewrite len_app. unfold perPage in *. lia. }
           exists (S k). rewrite Hk, Hreq, pageUrlsFrom_S, <- app_assoc.
           split; [reflexivity|]. split; [lia|]. split.
           ++ intros _. split; [lia|]. rewrite len_app in Hk0, Hk1.
              unfold perPage in *.
              destruct (Z.le_gt_cases maxRepos
                          (len repos + len (pageItems net (reposEndpoint username) page)))
                as [Hdone|Hmore].
              ** rewrite (Hk0 Hdone). lia.
              ** specialize (Hk1 ltac:(lia)). lia.
           ++ destruct (fst (fetchUserRepos_loop _ _ _ _ _ _ _)) as [e|result];
                [exact Hres|].
              rewrite Hres, pagesFrom_S, <- app_assoc. reflexivity.
Qed.

End RepoPages.

(** X17.  fetchUserRepos requests the repository pages 1, ..., k in this
    order and nothing else, with k = 0 when maxRepos <= 0 and otherwise k
    >= 1 and 100 * (k - 1) < maxRepos; when it returns, its result is the
    first maxRepos items of the pages 1..k put together. With the default
    maxRepos = 100 it sends exactly one request. *)
Theorem fetchUserRepos_pages (Item : Type) (net : Network (list Item))
    (username : string) (maxRepos : Z) (w : World) :
  exists k : nat,
    requested (snd (fetchUserRepos net username maxRepos w))
    = requested w ++ pageUrlsFrom (reposEndpoint username) 1 k
    /\ (if maxRepos <=? 0 then k = 0%nat
        else (1 <= k)%nat /\ perPage * (Z.of_nat k - 1) < maxRepos)
    /\ match fst (fetchUserRepos net username maxRepos w) with
       | inr result =>
           result = take (Z.to_nat maxRepos)
                         (pagesFrom net (reposEndpoint username) 1 k)
       | inl e => e <> OutOfFuel
       end.
Proof.
  destruct (fetchUserRepos_loop_pages net username (Z.to_nat maxRepos) maxRepos
              [] 1 w) as (k & Hreq & Hk0 & Hk1 & Hres).
  { rewrite len_nil. lia. }
  exists k. unfold fetchUserRepos. rewrite snd_bind_ret.
  split; [exact Hreq|]. rewrite len_nil in Hk0, Hk1. split.
  - destruct (Z.leb_spec maxRepos 0); [apply Hk0; lia|].
    destruct (Hk1 ltac:(lia)). split; [assumption|lia].
  - unfold bind.
    destruct (fetchUserRepos_loop net username (Z.to_nat maxRepos) maxRepos [] 1 w)
      as [[e|repos] w']; cbn [fst] in *; [exact Hres|].
    unfold ret, slice0. cbn. now rewrite Hres.
Qed.

Section EventPages.

Context {Item : Type} (net : Network (list Item)) (username : string).

Lemma fetchUserEvents_loop_pages (fuel : nat) (maxEvents : Z) (events : list Item)
    (page : Z) (w : World) :
  4 <= Z.of_nat fuel + page ->
  exists k : nat,
    fetchUserEvents_loop net username fuel maxEvents events page w
    = (inr (events ++ pagesFrom net (eventsEndpoint username) page k),
       mkWorld (rateLimitInfo
                  (snd (fetchUserEvents_loop net username fuel maxEvents events page w)))
               (requested w ++ pageUrlsFrom (eventsEndpoint username) page k))
    /\ (page <= 4 -> page + Z.of_nat k <= 4)
    /\ Forall (fun j => len (events ++ pagesFrom net (eventsEndpoint username) page j)
                        < maxEvents) (seq 0 k)
    /\ Forall (fun j => pageItems net (eventsEndpoint username) (page + Z.of_nat j) <> [])
              (seq 0 (k - 1))
    /\ (3 < page + Z.of_nat k
        \/ maxEvents <= len (events ++ pagesFrom net (eventsEndpoint username) page k)
        \/ ((1 <= k)%nat
            /\ pageItems net (eventsEndpoint username) (page + Z.of_nat k - 1) = [])).
Proof.
  revert events page w. induction fuel as [|fuel IH]; intros events page w Hfuel.
  - rewrite fetchUserEvents_loop_done by lia. exists 0%nat. cbn.
    rewrite !app_nil_r. split; [now destruct w|]. split; [lia|].
    split; [constructor|]. split; [constructor|]. left. lia.
  - rewrite fetchUserEvents_loop_round.
    destruct (Z.ltb_spec (len events) maxEvents) as [Hlt|Hge]; cbn [andb].
    2:{ exists 0%nat. cbn. rewrite !app_nil_r. split; [now destruct w|].
        split; [lia|]. split; [constructor|]. split; [constructor|]. right. left. lia. }
    destruct (Z.leb_spec page 3) as [Hpage3|Hpage3].
    2:{ exists 0%nat. cbn. rewrite !app_nil_r. split; [now destruct w|].
        split; [lia|]. split; [constructor|]. split; [constructor|]. left. lia. }
    pose proof (fetchGitHub_requested net (eventsEndpoint username page) w) as Hreq.
    pose proof (fetchGitHub_page net (eventsEndpoint username) page w) as Hitems.
    destruct (fetchGitHub net (eventsEndpoint username page) w) as [[e|pageEvents] w'];
      cbn [fst snd] in *.
    + destruct Hitems as [Hempty _].
      exists 1%nat. rewrite pageUrlsFrom_one, pagesFrom_one, Hempty, app_nil_r.
      cbn [snd]. rewrite <- Hreq.
      split; [now destruct w'|]. split; [lia|].
      split; [repeat constructor; cbn; rewrite app_nil_r; exact Hlt|].
      split; [constructor|]. right. right. split; [lia|].
      replace (page + Z.of_nat 1 - 1) with page by lia. exact Hempty.
    + subst pageEvents.
      destruct (Z.eqb_spec (len (pageItems net (eventsEndpoint username) page)) 0)
        as [Hempty|Hsome].
      * assert (pageItems net (eventsEndpoint username) page = []) as Hnil.
        { destruct (pageItems net (eventsEndpoint username) page); [reflexivity|].
          unfold len in Hempty. cbn in Hempty. lia. }
        exists 1%nat. rewrite pageUrlsFrom_one, pagesFrom_one, Hnil, app_nil_r.
        cbn [snd]. rewrite <- Hreq.
        split; [now destruct w'|]. split; [lia|].
        split; [repeat constructor; cbn; rewrite app_nil_r; exact Hlt|].
        split; [constructor|]. right. right. split; [lia|].
        replace (page + Z.of_nat 1 - 1) with page by lia. exact Hnil.
      * destruct (IH (events ++ pageItems net (eventsEndpoint username) page)
                    (page + 1) w') as (k & Hloop & Hlast & Hcond & Hfull & Hstop).
        { lia. }
        exists (S k). rewrite Hloop. cbn [snd].
        rewrite pagesFrom_S, pageUrlsFrom_S, Hreq, <- !app_assoc.
        split; [reflexivity|]. split; [lia|]. split; [|split].
        -- cbn [seq]. constructor; [cbn; rewrite app_nil_r; exact Hlt|].
           rewrite <- seq_shift. apply Forall_map.
           eapply Forall_impl; [exact Hcond|]. intros j Hj.
           unfold compose. cbv beta in *.
           now rewrite pagesFrom_S, app_assoc.
        -- destruct k as [|k]; [constructor|].
           cbn [Nat.sub seq] in *. rewrite Nat.sub_0_r in Hfull.
           constructor.
           ++ rewrite Z.add_0_r. intros Hnil. rewrite Hnil in Hsome.
              unfold len in Hsome. cbn in Hsome. lia.
           ++ rewrite <- seq_shift. apply Forall_map.
              eapply Forall_impl; [exact Hfull|]. intros j Hj.
              unfold compose. cbv beta in *.
              now replace (page + Z.of_nat (S j)) with (page + 1 + Z.of_nat j) by lia.
        -- destruct Hstop as [Hstop|[Hstop|[Hk Hstop]]].
           ++ left. lia.
           ++ right. left. now rewrite app_assoc.
           ++ right. right. split; [lia|].
              now replace (page + Z.of_nat (S k) - 1)
                with (page + 1 + Z.of_nat k - 1) by lia.
Qed.

End EventPages.

(** X18.  fetchUserEvents always returns. It requests the event pages 1,
    ..., k in this order for some k <= 3 and returns the items of these
    pages put together, a page that fails counting as empty. Before every
    request fewer than maxEvents items were held, every page but the last
    requested was not empty, and it stops because three pages were
    requested, or maxEvents items are held, or the last page was empty or
    failed. (The result is not cut to maxEvents.) *)
Theorem fetchUserEvents_pages (Item : Type) (net : Network (list Item))
    (username : string) (maxEvents : Z) (w : World) :
  let pages := pagesFrom net (eventsEndpoint username) 1 in
  exists k : nat,
    (k <= 3)%nat
    /\ fst (fetchUserEvents net username maxEvents w) = inr (pages k)
    /\ requested (snd (fetchUserEvents net username maxEvents w))
       = requested w ++ pageUrlsFrom (eventsEndpoint username) 1 k
    /\ Forall (fun j => len (pages j) < maxEvents) (seq 0 k)
    /\ Forall (fun j => pageItems net (eventsEndpoint username) (1 + Z.of_nat j) <> [])
              (seq 0 (k - 1))
    /\ (k = 3%nat \/ maxEvents <= len (pages k)
        \/ ((1 <= k)%nat
            /\ pageItems net (eventsEndpoint username) (Z.of_nat k) = [])).
Proof.
  cbv zeta.
  destruct (fetchUserEvents_loop_pages net username 3 maxEvents [] 1 w ltac:(lia))
    as (k & Hloop & Hlast & Hcond & Hfull & Hstop).
  specialize (Hlast ltac:(lia)).
  exists k. unfold fetchUserEvents. rewrite Hloop. cbn [fst snd requested].
  cbn [app] in Hcond, Hstop.
  split; [lia|]. split; [reflexivity|]. split; [reflexivity|].
  split; [exact Hcond|]. split; [exact Hfull|].
  destruct Hstop as [Hstop|[Hstop|[Hk Hstop]]].
  - left. lia.
  - right. now left.
  - right. right. split; [exact Hk|].
    now replace (1 + Z.of_nat k - 1) with (Z.of_nat k) in Hstop by lia.
Qed.

(* ================================================================== *)
(** ** A page that fails                                               *)
(* ================================================================== *)

Section PageFailures.

Context {Item : Type} (net : Network (list Item)) (username : string).

Lemma pageItems_fails (endpointOf : Z -> string) (page : Z) :
  fails net (endpointOf page) -> pageItems net endpointOf page = [].
Proof.
  unfold fails, pageItems. destruct (net _) as [|r]; [reflexivity|].
  intros ->. reflexivity.
Qed.

Lemma len_pagesFrom_full (endpointOf : Z -> string) (page : Z) (k : nat) :
  Forall (fun j => perPage <= len (pageItems net endpointOf (page + Z.of_nat j)))
         (seq 0 k) ->
  perPage * Z.of_nat k <= len (pagesFrom net endpointOf page k).
Proof.
  induction k as [|k IH]; intros Hfull.
  - cbn. unfold len. cbn. lia.
  - rewrite seq_S, Forall_app in Hfull. destruct Hfull as [Hk Hlast].
    apply Forall_inv in Hlast. cbn [Nat.add] in Hlast.
    rewrite pagesFrom_snoc, len_app. specialize (IH Hk). lia.
Qed.

Lemma Forall_seq_shift (P : Z -> Prop) (page : Z) (k : nat) :
  Forall (fun j => P (page + Z.of_nat j)) (seq 0 (S k)) ->
  P page /\ Forall (fun j => P (page + 1 + Z.of_nat j)) (seq 0 k).
Proof.
  intros H. cbn [seq] in H. apply Forall_cons in H as [H0 H].
  split; [now rewrite Z.add_0_r in H0|].
  rewrite <- seq_shift in H. rewrite Forall_forall in H |- *.
  intros j Hj. specialize (H (S j)).
  replace (page + 1 + Z.of_nat j) with (page + Z.of_nat (S j)) by lia.
  apply H. apply list_elem_of_In, in_map, list_elem_of_In. exact Hj.
Qed.

(** The repository loop from any of its states: when the [k] pages that
    follow are full and the one after them fails, the loop throws the
    error of that page, having asked for these [k + 1] pages. *)
Lemma fetchUserRepos_loop_failure (maxRepos : Z) (k : nat) :
  forall (fuel : nat) (repos : list Item) (page : Z) (w : World),
    (k < fuel)%nat ->
    Forall (fun j => perPage <= len (pageItems net (reposEndpoint username)
                                               (page + Z.of_nat j)))
           (seq 0 k) ->
    len (repos ++ pagesFrom net (reposEndpoint username) page k) < maxRepos ->
    fails net (reposEndpoint username (page + Z.of_nat k)) ->
    exists e,
      fst (fetchUserRepos_loop net username fuel maxRepos repos page w) = inl e
      /\ answer net (reposEndpoint username (page + Z.of_nat k))
                (stateAfter net (reposEndpoint username) page k w) = inl e
      /\ requested (snd (fetchUserRepos_loop net username fuel maxRepos repos page w))
         = requested w ++ pageUrlsFrom (reposEndpoint username) page (S k).
Proof.
  induction k as [|k IH]; intros fuel repos page w Hfuel Hfull Hlen Hfail;
    (destruct fuel as [|fuel]; [lia|]); rewrite fetchUserRepos_loop_round.
  - cbn [pagesFrom seq flat_map] in Hlen. rewrite app_nil_r in Hlen.
    destruct (Z.ltb_spec (len repos) maxRepos); [|lia].
    cbn [Z.of_nat] in Hfail |- *. rewrite Z.add_0_r in Hfail |- *.
    destruct (answer_fails net _ w Hfail) as [e He].
    pose proof (fetchGitHub_answer net (reposEndpoint username page) w) as Ha.
    pose proof (fetchGitHub_requested net (reposEndpoint username page) w) as Hr.
    rewrite He in Ha.
    destruct (fetchGitHub _ _ w) as [[e'|pageRepos] w1]; cbn [fst snd] in *;
      [|discriminate].
    injection Ha as ->. exists e. rewrite pageUrlsFrom_one. cbn [stateAfter]. auto.
  - apply (Forall_seq_shift
             (fun p => perPage <= len (pageItems net (reposEndpoint username) p)))
      in Hfull as [Hfirst Hrest].
    rewrite pagesFrom_S, app_assoc in Hlen.
    assert (Hacc : len (repos ++ pageItems net (reposEndpoint username) page)
                   < maxRepos).
    { rewrite len_app in Hlen. unfold len in *. lia. }
    assert (Hrepos : len repos < maxRepos).
    { rewrite len_app in Hacc. unfold len in *. lia. }
    destruct (Z.ltb_spec (len repos) maxRepos); [|lia].
    pose proof (fetchGitHub_page net (reposEndpoint username) page w) as Hpage.
    pose proof (fetchGitHub_requested net (reposEndpoint username page) w) as Hr.
    pose proof (eq_refl (snd (fetchGitHub net (reposEndpoint username page) w)))
      as Hw1.
    destruct (fetchGitHub _ _ w) as [[e'|pageRepos] w1] in Hpage, Hr, Hw1 at 2 |- *;
      cbn [fst snd] in *.
    { destruct Hpage as [Hempty _]. rewrite Hempty in Hfirst.
      unfold perPage, len in Hfirst. cbn in Hfirst. lia. }
    subst pageRepos.
    destruct (Z.eqb_spec (len (pageItems net (reposEndpoint username) page)) 0);
      [unfold perPage in *; lia|].
    destruct (Z.ltb_spec (len (pageItems net (reposEndpoint username) page)) perPage);
      [lia|].
    replace (page + Z.of_nat (S k)) with (page + 1 + Z.of_nat k) in Hfail |- * by lia.
    destruct (IH fuel (repos ++ pageItems net (reposEndpoint username) page)
                 (page + 1) w1 ltac:(lia) Hrest Hlen Hfail)
      as (e & He & Ha & Hreq).
    exists e. split; [exact He|]. cbn [stateAfter]. rewrite Hw1.
    split; [exact Ha|].
    rewrite Hreq, Hr, (pageUrlsFrom_S _ page (S k)), <- app_assoc. reflexivity.
Qed.

(** The events loop from any of its states: when the [k] pages that
    follow hold something and the one after them fails, the loop ends with
    the events it held and those of the [k] pages, having asked for these
    [k + 1] pages. *)
Lemma fetchUserEvents_loop_failure (maxEvents : Z) (k : nat) :
  forall (fuel : nat) (events : list Item) (page : Z) (w : World),
    (k < fuel)%nat -> page + Z.of_nat k <= 3 ->
    Forall (fun j => pageItems net (eventsEndpoint username) (page + Z.of_nat j)
                     <> [])
           (seq 0 k) ->
    len (events ++ pagesFrom net (eventsEndpoint username) page k) < maxEvents ->
    fails net (eventsEndpoint username (page + Z.of_nat k)) ->
    fst (fetchUserEvents_loop net username fuel maxEvents events page w)
    = inr (events ++ pagesFrom net (eventsEndpoint username) page k)
    /\ requested (snd (fetchUserEvents_loop net username fuel maxEvents events page w))
       = requested w ++ pageUrlsFrom (eventsEndpoint username) page (S k).
Proof.
  induction k as [|k IH]; intros fuel events page w Hfuel Hpage3 Hfull Hlen Hfail;
    (destruct fuel as [|fuel]; [lia|]); rewrite fetchUserEvents_loop_round.
  - cbn [pagesFrom seq flat_map] in Hlen |- *. rewrite app_nil_r in Hlen |- *.
    cbn [Z.of_nat] in Hfail, Hpage3. rewrite Z.add_0_r in Hfail, Hpage3.
    destruct (Z.ltb_spec (len events) maxEvents); [|lia].
    destruct (Z.leb_spec page 3); [|lia]. cbn [andb].
    destruct (answer_fails net _ w Hfail) as [e He].
    pose proof (fetchGitHub_answer net (eventsEndpoint username page) w) as Ha.
    pose proof (fetchGitHub_requested net (eventsEndpoint username page) w) as Hr.
    rewrite He in Ha.
    destruct (fetchGitHub _ _ w) as [[e'|pageEvents] w1]; cbn [fst snd] in *;
      [|discriminate].
    rewrite pageUrlsFrom_one. auto.
  - apply (Forall_seq_shift
             (fun p => pageItems net (eventsEndpoint username) p <> []))
      in Hfull as [Hfirst Hrest].
    rewrite pagesFrom_S, app_assoc in Hlen |- *.
    assert (Hacc : len (events ++ pageItems net (eventsEndpoint username) page)
                   < maxEvents).
    { rewrite len_app in Hlen. unfold len in *. lia. }
    assert (Hevents : len events < maxEvents).
    { rewrite len_app in Hacc. unfold len in *. lia. }
    destruct (Z.ltb_spec (len events) maxEvents); [|lia].
    destruct (Z.leb_spec page 3); [|lia]. cbn [andb].
    pose proof (fetchGitHub_page net (eventsEndpoint username) page w) as Hpage.
    pose proof (fetchGitHub_requested net (eventsEndpoint username page) w) as Hr.
    destruct (fetchGitHub _ _ w) as [[e'|pageEvents] w1]; cbn [fst snd] in *.
    { destruct Hpage as [Hempty _]. contradiction. }
    subst pageEvents.
    destruct (Z.eqb_spec (len (pageItems net (eventsEndpoint username) page)) 0)
      as [Hzero|_].
    { destruct (pageItems net (eventsEndpoint username) page); [contradiction|].
      unfold len in Hzero. cbn in Hzero. lia. }
    replace (page + Z.of_nat (S k)) with (page + 1 + Z.of_nat k) in Hfail by lia.
    destruct (IH fuel (events ++ pageItems net (eventsEndpoint username) page)
                 (page + 1) w1 ltac:(lia) ltac:(lia) Hrest Hlen Hfail)
      as (He & Hreq).
    split; [exact He|].
    rewrite Hreq, Hr, (pageUrlsFrom_S _ page (S k)), <- app_assoc. reflexivity.
Qed.

End PageFailures.

(** C3 (as amended).  Repositories: the failure of a page that is asked
    for, the first or a later one, is thrown to the caller, as the error
    [fetchGitHub] makes of that response in the state the pages before it
    have left; a 404 is thrown as the NOT_FOUND error; no page is asked for
    after it.  Events: the failure of a page, the first included, ends the
    loop and the events of the pages before it are returned (none when the
    first page fails); whatever the network does, the events fetcher
    returns.  A page is asked for when the pages before it are full
    (repositories) or hold something (events) and fewer items than the
    limit are held. *)
Theorem page_failure_policy (Item : Type) (net : Network (list Item))
    (username : string) (w : World) :
  let repoPages := pagesFrom net (reposEndpoint username) 1 in
  let eventPages := pagesFrom net (eventsEndpoint username) 1 in
  (forall maxRepos (k : nat),
      Forall (fun j => perPage <= len (pageItems net (reposEndpoint username)
                                                 (1 + Z.of_nat j)))
             (seq 0 k) ->
      len (repoPages k) < maxRepos ->
      fails net (reposEndpoint username (1 + Z.of_nat k)) ->
      exists e,
        fst (fetchUserRepos net username maxRepos w) = inl e
        /\ answer net (reposEndpoint username (1 + Z.of_nat k))
                  (stateAfter net (reposEndpoint username) 1 k w) = inl e
        /\ e <> OutOfFuel
        /\ (forall r,
               net (urlOf (reposEndpoint username (1 + Z.of_nat k))) = Responded r ->
               status r = 404 ->
               e = GitHubApiError "User not found" 404 (Some "NOT_FOUND"))
        /\ requested (snd (fetchUserRepos net username maxRepos w))
           = requested w ++ pageUrlsFrom (reposEndpoint username) 1 (S k))
  /\ (forall maxRepos r,
      0 < maxRepos ->
      net (urlOf (reposEndpoint username 1)) = Responded r -> status r = 404 ->
      fst (fetchUserRepos net username maxRepos w)
      = inl (GitHubApiError "User not found" 404 (Some "NOT_FOUND")))
  /\ (forall maxEvents (k : nat),
      (k < 3)%nat ->
      Forall (fun j => pageItems net (eventsEndpoint username) (1 + Z.of_nat j)
                       <> [])
             (seq 0 k) ->
      len (eventPages k) < maxEvents ->
      fails net (eventsEndpoint username (1 + Z.of_nat k)) ->
      fst (fetchUserEvents net username maxEvents w) = inr (eventPages k)
      /\ requested (snd (fetchUserEvents net username maxEvents w))
         = requested w ++ pageUrlsFrom (eventsEndpoint username) 1 (S k))
  /\ (forall maxEvents,
      exists result, fst (fetchUserEvents net username maxEvents w) = inr result).
Proof.
  cbv zeta.
  assert (Hrepos : forall maxRepos (k : nat),
      Forall (fun j => perPage <= len (pageItems net (reposEndpoint username)
                                                 (1 + Z.of_nat j)))
             (seq 0 k) ->
      len (pagesFrom net (reposEndpoint username) 1 k) < maxRepos ->
      fails net (reposEndpoint username (1 + Z.of_nat k)) ->
      exists e,
        fst (fetchUserRepos net username maxRepos w) = inl e
        /\ answer net (reposEndpoint username (1 + Z.of_nat k))
                  (stateAfter net (reposEndpoint username) 1 k w) = inl e
        /\ requested (snd (fetchUserRepos net username maxRepos w))
           = requested w ++ pageUrlsFrom (reposEndpoint username) 1 (S k)).
  { intros maxRepos k Hfull Hlen Hfail.
    pose proof (len_pagesFrom_full net (reposEndpoint username) 1 k Hfull) as Hk.
    destruct (fetchUserRepos_loop_failure net username maxRepos k
                (Z.to_nat maxRepos) [] 1 w) as (e & He & Ha & Hreq);
      try assumption.
    { unfold perPage in Hk. lia. }
    exists e. unfold fetchUserRepos, bind.
    destruct (fetchUserRepos_loop _ _ _ _ _ _ _) as [[e'|repos] w1];
      cbn [fst snd] in *; [|discriminate].
    auto. }
  split; [|split; [|split]].
  - intros maxRepos k Hfull Hlen Hfail.
    destruct (Hrepos maxRepos k Hfull Hlen Hfail) as (e & He & Ha & Hreq).
    exists e. split; [exact He|]. split; [exact Ha|].
    split; [|split; [|exact Hreq]].
    + pose proof (fetchGitHub_not_OutOfFuel net
                    (reposEndpoint username (1 + Z.of_nat k))
                    (stateAfter net (reposEndpoint username) 1 k w)) as Hne.
      rewrite fetchGitHub_answer, Ha in Hne. congruence.
    + intros r Hnet Hst. rewrite (answer_404 net _ _ r Hnet Hst) in Ha.
      congruence.
  - intros maxRepos r Hmax Hnet Hst.
    destruct (Hrepos maxRepos 0%nat) as (e & He & Ha & _).
    + constructor.
    + cbn. unfold len. cbn. lia.
    + unfold fails. cbn [Z.of_nat]. rewrite Z.add_0_r, Hnet.
      unfold ok. rewrite Hst. reflexivity.
    + cbn [Z.of_nat] in Ha. rewrite Z.add_0_r in Ha.
      rewrite (answer_404 net _ _ r Hnet Hst) in Ha. congruence.
  - intros maxEvents k Hk Hfull Hlen Hfail. unfold fetchUserEvents.
    destruct (fetchUserEvents_loop_failure net username maxEvents k 3%nat [] 1 w)
      as (He & Hreq); try assumption; try lia.
    split; [exact He|exact Hreq].
  - intros maxEvents. apply fetchUserEvents_loop_returns. lia.
Qed.

(** C3 (the amended statement at concrete networks): a login that does not
    exist, and a user whose second pages are refused. *)
Lemma page_failure_policy_witness :
  fst (fetchUserRepos noSuchUser "ghost" 100 initialWorld)
  = inl (GitHubApiError "User not found" 404 (Some "NOT_FOUND"))
  /\ fst (fetchUserRepos secondPageDenied "ada" 200 initialWorld)
     = inl (GitHubApiError "API rate limit exceeded. Try again at soon" 403
                           (Some "RATE_LIMITED"))
  /\ fst (fetchUserEvents noSuchUser "ghost" 300 initialWorld) = inr []
  /\ fst (fetchUserEvents secondPageDenied "ada" 300 initialWorld)
     = inr (seq 0 100).
Proof.
  destruct (page_failure_policy nat noSuchUser "ghost" initialWorld)
    as (_ & H1 & H3 & _).
  destruct (page_failure_policy nat secondPageDenied "ada" initialWorld)
    as (H2 & _ & H4 & _).
  split; [|split; [|split]].
  - apply (H1 100 (mkResponse 404 "Not Found" (mkHeaders None None None) []));
      [lia | reflexivity | reflexivity].
  - destruct (H2 200 1%nat) as (e & He & Ha & _).
    + repeat constructor. vm_compute. discriminate.
    + vm_compute. reflexivity.
    + vm_compute. reflexivity.
    + rewrite He. f_equal. vm_compute in Ha. congruence.
  - apply (H3 300 0%nat); [lia | constructor | reflexivity | vm_compute; reflexivity].
  - apply (H4 300 1%nat); [lia | | vm_compute; reflexivity | vm_compute; reflexivity].
    repeat constructor. vm_compute. discriminate.
Defined.

(* ================================================================== *)
(** ** Properties of the optional sources and of the cache             *)
(* ================================================================== *)

Lemma groupStep_eq (tz : Z) (g : Grouping) (contrib : FallbackContribution) :
  groupStep tz g contrib
  = if (seenWeekday tz (dayOfContribution contrib) =? 0) && (len (g_currentWeek g) >? 0)
    then mkGrouping (g_weeks g ++ [mkContributionWeek (g_currentWeek g)])
                    [dayOfContribution contrib]
                    (g_totalContributions g + countOfContribution contrib)
    else mkGrouping (g_weeks g) (g_currentWeek g ++ [dayOfContribution contrib])
                    (g_totalContributions g + countOfContribution contrib).
Proof.
  unfold groupStep, seenWeekday, dayOfContribution. cbn [date].
  destruct ((Date.getDay tz (Date.parse (fc_date contrib)) =? 0)
            && (len (g_currentWeek g) >? 0)); reflexivity.
Qed.

Lemma len_pos_iff {A : Type} (l : list A) : (len l >? 0) = true <-> l <> [].
Proof.
  unfold len. destruct l; cbn [length]; split; intros H; try congruence; try lia.
  - discriminate.
  - reflexivity.
Qed.

(** What the loop over the days holds after the entries [cs]. *)
Lemma grouping_scan (tz : Z) (cs : list FallbackContribution) :
  let g := fold_left (groupStep tz) cs (mkGrouping [] [] 0) in
  flat_map contributionDays (g_weeks g) ++ g_currentWeek g
  = map dayOfContribution cs
  /\ g_totalContributions g = sumZ (map countOfContribution cs)
  /\ Forall (wellFormedWeek tz) (g_weeks g)
  /\ Forall (startsOnSunday tz) (tail (g_weeks g))
  /\ Forall (fun d => seenWeekday tz d <> 0) (tail (g_currentWeek g))
  /\ (g_weeks g <> [] ->
      exists d, head (g_currentWeek g) = Some d /\ seenWeekday tz d = 0)
  /\ (cs <> [] -> g_currentWeek g <> []).
Proof.
  cbv zeta. induction cs as [|c cs IH] using rev_ind.
  - cbn. repeat split; try constructor; congruence.
  - rewrite fold_left_app. cbn [fold_left].
    destruct IH as (Hdays & Htotal & Hweeks & Hstarts & Hrest & Hfirst & Hne).
    rewrite groupStep_eq, !map_app, sumZ_app.
    set (g := fold_left (groupStep tz) cs (mkGrouping [] [] 0)) in *.
    cbn [map]. unfold sumZ at 2. cbn [foldr]. rewrite Z.add_0_r.
    destruct (Z.eqb_spec (seenWeekday tz (dayOfContribution c)) 0) as [Hsun|Hnot];
      cbn [andb].
    + destruct (len (g_currentWeek g) >? 0) eqn:Hcur;
        cbn [g_weeks g_currentWeek g_totalContributions].
      * apply len_pos_iff in Hcur.
        rewrite flat_map_app. cbn [flat_map contributionDays]. rewrite app_nil_r.
        split; [now rewrite <- Hdays|]. split; [lia|]. split; [|split; [|split; [|split]]].
        -- apply Forall_app. split; [exact Hweeks|]. repeat constructor; assumption.
        -- destruct (g_weeks g) as [|w0 ws] eqn:Hws; [constructor|].
           cbn [app tail] in *. apply Forall_app. split; [exact Hstarts|].
           repeat constructor. apply Hfirst. discriminate.
        -- constructor.
        -- intros _. exists (dayOfContribution c). split; [reflexivity|exact Hsun].
        -- discriminate.
      * assert (g_currentWeek g = []) as Hnil.
        { destruct (g_currentWeek g); [reflexivity|].
          unfold len in Hcur. cbn in Hcur. discriminate. }
        assert (cs = []) as -> by (destruct cs; [reflexivity|]; exfalso; now apply Hne).
        subst g. cbn. repeat split; try constructor; try discriminate.
        intros H; now contradict H.
    + cbn [g_weeks g_currentWeek g_totalContributions].
      split; [now rewrite app_assoc, Hdays|]. split; [lia|].
      split; [exact Hweeks|]. split; [exact Hstarts|]. split; [|split].
      * destruct (g_currentWeek g) as [|d0 ds]; [constructor|].
        cbn [app tail] in *. apply Forall_app. split; [exact Hrest|].
        repeat constructor. exact Hnot.
      * intros Hw. destruct (Hfirst Hw) as (d & Hd & Hsun).
        exists d. split; [|exact Hsun].
        destruct (g_currentWeek g); [discriminate|exact Hd].
      * intros _. destruct (g_currentWeek g); discriminate.
Qed.

(** The calendar made of the body of the contributions API. *)
Lemma calendarOfBody_days (tz : Z) (data : FallbackBody) (year : Z) :
  let calendar := calendarOfBody tz data year in
  let contributions := default [] (fb_contributions data) in
  let counted := sumZ (map countOfContribution contributions) in
  flat_map contributionDays (weeks calendar) = map dayOfContribution contributions
  /\ dayCountSum calendar = counted
  /\ totalContributions calendar
     = num_or (default 0 (fb_total data ≫= (fun total => total !! year))) counted
  /\ Forall (wellFormedWeek tz) (weeks calendar)
  /\ Forall (startsOnSunday tz) (tail (weeks calendar)).
Proof.
  cbv zeta. unfold calendarOfBody, dayCountSum.
  assert (forall total : Z,
            match fb_total data with
            | Some m => match m !! year with Some t => num_or t total | None => total end
            | None => total
            end
            = num_or (default 0 (fb_total data ≫= (fun m => m !! year))) total)
    as Htotal.
  { intros total. destruct (fb_total data) as [m|]; cbn; [|reflexivity].
    destruct (m !! year); reflexivity. }
  rewrite Htotal. cbn [weeks totalContributions].
  destruct (fb_contributions data) as [cs|]; cbn [default g_weeks g_totalContributions].
  2:{ cbn. repeat split; constructor. }
  destruct (grouping_scan tz cs) as (Hdays & Hsum & Hweeks & Hstarts & Hrest & Hfirst & Hne).
  cbv zeta in *.
  set (g := fold_left (groupStep tz) cs (mkGrouping [] [] 0)) in *.
  assert (flat_map contributionDays
            (if len (g_currentWeek g) >? 0
             then g_weeks g ++ [mkContributionWeek (g_currentWeek g)]
             else g_weeks g)
          = map dayOfContribution cs) as Hflat.
  { destruct (len (g_currentWeek g) >? 0) eqn:Hcur.
    - rewrite flat_map_app. cbn. now rewrite app_nil_r.
    - assert (g_currentWeek g = []) as Hnil.
      { destruct (g_currentWeek g); [reflexivity|].
        unfold len in Hcur. cbn in Hcur. discriminate. }
      rewrite Hnil, app_nil_r in Hdays. exact Hdays. }
  split; [exact Hflat|]. split.
  { rewrite Hflat, map_map. reflexivity. }
  split; [now rewrite Hsum|].
  destruct (len (g_currentWeek g) >? 0) eqn:Hcur; [|split; assumption].
  apply len_pos_iff in Hcur. split.
  - apply Forall_app. split; [exact Hweeks|]. repeat constructor; assumption.
  - destruct (g_weeks g) as [|w0 ws] eqn:Hws; [constructor|].
    cbn [app tail] in *. apply Forall_app. split; [exact Hstarts|].
    repeat constructor. apply Hfirst. discriminate.
Qed.

(** X19.  The calendar fetchContributionCalendarFallback makes of a
    response body keeps every listed day, in order, with the count
    contrib.count || 0 and the level of that count; the counts of its days
    add up to the sum of the listed counts; totalContributions is
    data.total[year] when that is there and not 0, and this sum otherwise.
    No week is empty, no day after the first of a week is taken for a
    Sunday in the local zone, and every week but the first starts with a
    day taken for a Sunday. *)
Theorem calendarOfBody_weeks (tz : Z) (data : FallbackBody) (year : Z) :
  let calendar := calendarOfBody tz data year in
  let contributions := default [] (fb_contributions data) in
  let counted := sumZ (map countOfContribution contributions) in
  flat_map contributionDays (weeks calendar) = map dayOfContribution contributions
  /\ dayCountSum calendar = counted
  /\ totalContributions calendar
     = num_or (default 0 (fb_total data ≫= (fun total => total !! year))) counted
  /\ Forall (wellFormedWeek tz) (weeks calendar)
  /\ Forall (startsOnSunday tz) (tail (weeks calendar)).
Proof.
  cbv zeta.
  destruct (calendarOfBody_days tz data year) as (Hdays & Hsum & Htotal & Hw & Hs).
  split; [exact Hdays|]. split; [exact Hsum|]. split; [exact Htotal|].
  split; [exact Hw|exact Hs].
Qed.

(** *** The weeks of the fallback calendar and the zone *)

Lemma seenWeekday_by_zone (tz : Z) (d : ContributionDay) :
  - Date.msPerDay <= tz < Date.msPerDay ->
  seenWeekday tz d = (dayNumber d - (if tz <? 0 then 1 else 0) + 4) mod 7.
Proof.
  intros Htz. unfold seenWeekday, Date.getDay, dayNumber.
  now rewrite localDay_parse.
Qed.

(** X20.  For a zone with a fixed offset of less than a day: in the
    calendar of fetchContributionCalendarFallback every week but the first
    begins on a date that is a Sunday when the zone is at or east of UTC
    and a Monday when it is west of UTC, and no later day of a week falls
    on that weekday. The date string is parsed as midnight UTC and its
    weekday is read in local time. *)
Theorem fallback_weeks_by_zone (tz : Z) (data : FallbackBody) (year : Z) :
  - Date.msPerDay <= tz < Date.msPerDay ->
  let calendar := calendarOfBody tz data year in
  let firstDay := if tz <? 0 then 1 else 0 in
  Forall (fun week =>
            exists d, head (contributionDays week) = Some d
                      /\ weekdayOfDate d = firstDay)
         (tail (weeks calendar))
  /\ Forall (fun week =>
               Forall (fun d => weekdayOfDate d <> firstDay)
                      (tail (contributionDays week)))
            (weeks calendar).
Proof.
  intros Htz. cbv zeta.
  destruct (calendarOfBody_days tz data year) as (_ & _ & _ & Hweeks & Hstarts).
  cbv zeta in Hweeks, Hstarts.
  assert (forall d, seenWeekday tz d = 0
                    <-> weekdayOfDate d = (if tz <? 0 then 1 else 0)) as Hday.
  { intros d. rewrite seenWeekday_by_zone by exact Htz. unfold weekdayOfDate.
    destruct (tz <? 0); [|rewrite Z.sub_0_r; reflexivity].
    split; intros H; Z.div_mod_to_equations; lia. }
  split.
  - eapply Forall_impl; [exact Hstarts|]. intros week (d & Hd & Hsun).
    exists d. split; [exact Hd|]. now apply Hday.
  - eapply Forall_impl; [exact Hweeks|]. intros week [_ Hrest].
    eapply Forall_impl; [exact Hrest|]. cbn. intros d Hd Hsun. apply Hd.
    now apply Hday.
Qed.

(** In New York the second week begins with the Monday. *)
Lemma fallback_weeks_by_zone_witness :
  exists d,
    (weeks (calendarOfBody EST threeDays 2024) !! 1%nat)
      ≫= (fun week => head (contributionDays week)) = Some d
    /\ date d = mkIsoDate 2024 3 4 /\ weekdayOfDate d = 1.
Proof.
  pose proof (proj1 (fallback_weeks_by_zone EST threeDays 2024
                       ltac:(vm_compute; split; [discriminate|reflexivity]))) as H.
  cbv zeta in H.
  assert (exists week rest, tail (weeks (calendarOfBody EST threeDays 2024))
                            = week :: rest
                            /\ weeks (calendarOfBody EST threeDays 2024) !! 1%nat
                               = Some week) as (week & rest & Htail & Hweek).
  { vm_compute. eauto. }
  rewrite Htail in H. apply Forall_cons in H as [(d & Hd & Hmon) _].
  exists d. rewrite Hweek. cbn [mbind option_bind]. split; [exact Hd|].
  split; [|exact Hmon].
  revert Hd. injection Hweek as <-. vm_compute. now intros [= <-].
Defined.

(** *** Without a credential *)

(** X21.  For a bundle without summary whose calendar was made by
    fetchContributionCalendarFallback from a body whose listed counts add
    up to more than 0: totalCommits of the insights is the sum of the
    listed counts (every contribution is shown as a commit), and
    totalContributions is the total the API names for the year when it
    names one other than 0, and that sum otherwise. *)
Theorem commits_of_the_fallback_calendar (h : JsHost) (now : Z)
    (data : AllGitHubData) (year : Z) (body : FallbackBody) (tz' year' : Z) :
  contributionData data = None ->
  data_contributionCalendar data = Some (calendarOfBody tz' body year') ->
  let listed :=
    sumZ (map countOfContribution (default [] (fb_contributions body))) in
  let named := default 0 (fb_total body ≫= (fun total => total !! year')) in
  0 < listed ->
  let out := calculateInsights h now data year in
  totalCommits out = listed /\ wi_totalContributions out = num_or named listed.
Proof.
  intros Hcd Hcal. cbv zeta. intros Hpos.
  destruct (calendarOfBody_days tz' body year') as (_ & Hsum & Htotal & _).
  cbv zeta in Hsum, Htotal.
  unfold calculateInsights. cbn [totalCommits wi_totalContributions].
  rewrite Hcd, Hcal. cbn [opt_num_or]. unfold calculateBasicStats.
  cbn [bs_commits]. rewrite sumCalendar_dayCountSum, Hsum, Htotal.
  split.
  - destruct (Z.gtb_spec (sumZ (map countOfContribution
                                  (default [] (fb_contributions body)))) 0);
      [reflexivity|lia].
  - set (listed := sumZ (map countOfContribution
                               (default [] (fb_contributions body)))) in *.
    set (named := default 0 (fb_total body ≫= (fun total => total !! year'))) in *.
    assert (num_or named listed <> 0) as Hne.
    { unfold num_or. destruct (Z.eqb_spec named 0); lia. }
    set (t := num_or named listed) in *. unfold num_or at 1.
    destruct (Z.eqb_spec t 0); [contradiction|reflexivity].
Qed.

Lemma commits_of_the_fallback_calendar_witness :
  totalCommits
    (calculateInsights (Ieee.host 0) noon_2024_03_05
       (mkAllGitHubData ada [] oneIssueThreePRs None
          (Some (calendarOfBody 0 threeDays 2024))) 2024)
  = 5.
Proof.
  refine (proj1 (commits_of_the_fallback_calendar (Ieee.host 0) noon_2024_03_05
                   (mkAllGitHubData ada [] oneIssueThreePRs None
                      (Some (calendarOfBody 0 threeDays 2024)))
                   2024 threeDays 0 2024 eq_refl eq_refl _)).
  vm_compute. reflexivity.
Defined.

(** *** The two optional sources *)

(** X22.  For a year whose first and last instant a Date can hold:
    fetchContributionData never throws; without a token (or with an empty
    one) it returns null and sends nothing, with a token it sends one
    request to the GraphQL URL and returns the contributionsCollection of
    a response that is ok and reports no errors, and null otherwise.
    fetchContributionCalendarFallback never throws, sends one request, and
    returns the calendar made of a response that is ok, and null
    otherwise. *)
Theorem optional_sources_never_throw (tz : Z) (gql : GraphQLNetwork)
    (net : Network FallbackBody) (username : string) (year : Z)
    (token : option string) (w : World) :
  inDateRange (Date.make tz year 0 1) -> inDateRange (endOfYear tz year) ->
  let request :=
    mkGraphQLRequest ("Bearer " +:+ default "" token) username
                     (Date.make tz year 0 1) (endOfYear tz year) in
  fetchContributionData tz gql username year token w
  = (if truthy token
     then (inr (match gql request with
                | Responded r =>
                    if ok r && negb (gql_errors (json r))
                    then gql_contributionsCollection (json r) else None
                | Rejected => None
                end),
           mkWorld (rateLimitInfo w) (requested w ++ [GITHUB_GRAPHQL_URL]))
     else (inr None, w))
  /\ fetchContributionCalendarFallback tz net username year w
     = (inr (match net (fallbackUrl username year) with
             | Responded r =>
                 if ok r then Some (calendarOfBody tz (json r) year) else None
             | Rejected => None
             end),
        mkWorld (rateLimitInfo w) (requested w ++ [fallbackUrl username year])).
Proof.
  intros _ _. cbv zeta. split.
  - unfold fetchContributionData. destruct token as [tok|]; [|reflexivity].
    destruct (truthy (Some tok)); [|reflexivity].
    cbn [negb default]. unfold try_catch, bind, fetchPost, ret.
    destruct (gql _) as [|r]; [reflexivity|].
    destruct (ok r); [|reflexivity]. cbn [negb andb].
    destruct (gql_errors (json r)); reflexivity.
  - unfold fetchContributionCalendarFallback, try_catch, bind, fetch, ret.
    destruct (net _) as [|r]; [reflexivity|].
    destruct (ok r); reflexivity.
Qed.

Lemma optional_sources_never_throw_witness :
  fetchContributionData 0 (fun _ => Rejected) "ada" 2024 (Some "") initialWorld
  = (inr None, initialWorld).
Proof.
  refine (proj1 (optional_sources_never_throw 0 (fun _ => Rejected)
                   (fun _ => Rejected) "ada" 2024 (Some "") initialWorld _ _)).
  - vm_compute. discriminate.
  - vm_compute. discriminate.
Defined.

(** *** The cache *)

(** X23.  What setCache stores under a key getCached gives back as long as
    less than 5 minutes (300000 ms) have passed on the clock since it was
    stored; from then on getCached returns null and deletes the entry.
    Asking for another key leaves the entry as it is, so an entry that is
    out of date stays in the cache until its own key is asked for; asking
    for a key that has no entry changes nothing. *)
Theorem cache_round_trip (stored asked : Z) (key key' : string)
    (data : AllGitHubData) (cache : Cache) :
  let cache' := setCache stored key data cache in
  (asked - stored < CACHE_TTL -> getCached asked key cache' = (Some data, cache'))
  /\ (CACHE_TTL <= asked - stored ->
      getCached asked key cache' = (None, delete key cache))
  /\ (key' <> key ->
      fst (getCached asked key' cache') = fst (getCached asked key' cache)
      /\ snd (getCached asked key' cache') !! key = Some (data, stored))
  /\ (cache !! key = None -> getCached asked key cache = (None, cache)).
Proof.
  cbv zeta. unfold getCached, setCache, Cache in *. split; [|split; [|split]].
  - intros Hfresh. rewrite lookup_insert_eq.
    destruct (Z.ltb_spec (asked - stored) CACHE_TTL); [reflexivity|lia].
  - intros Hstale. rewrite lookup_insert_eq.
    destruct (Z.ltb_spec (asked - stored) CACHE_TTL); [lia|].
    now rewrite delete_insert_eq.
  - intros Hne. rewrite lookup_insert_ne by congruence.
    destruct (cache !! key') as [[d t]|] eqn:Hk.
    + destruct (asked - t <? CACHE_TTL); cbn [fst snd].
      * split; [reflexivity|]. apply lookup_insert_eq.
      * split; [reflexivity|]. rewrite lookup_delete_ne by congruence.
        apply lookup_insert_eq.
    + cbn [fst snd]. split; [reflexivity|]. rewrite lookup_delete_ne by congruence.
      apply lookup_insert_eq.
  - intros Hnone. rewrite Hnone. now rewrite delete_id.
Qed.

Lemma cache_round_trip_witness :
  getCached (noon_2024_03_05 + 299999) "ada-2024-noauth"
            (setCache noon_2024_03_05 "ada-2024-noauth" noCalendarData ∅)
  = (Some noCalendarData, setCache noon_2024_03_05 "ada-2024-noauth" noCalendarData ∅)
  /\ getCached (noon_2024_03_05 + 300000) "ada-2024-noauth"
               (setCache noon_2024_03_05 "ada-2024-noauth" noCalendarData ∅)
     = (None, delete "ada-2024-noauth" ∅).
Proof.
  destruct (cache_round_trip noon_2024_03_05 (noon_2024_03_05 + 299999)
              "ada-2024-noauth" "" noCalendarData ∅) as (Hfresh & _).
  destruct (cache_round_trip noon_2024_03_05 (noon_2024_03_05 + 300000)
              "ada-2024-noauth" "" noCalendarData ∅) as (_ & Hstale & _).
  split; [apply Hfresh|apply Hstale]; vm_compute; [reflexivity|discriminate].
Defined.

(* ================================================================== *)
(** ** Properties of fetchAllGitHubData and of the search              *)
(* ================================================================== *)

Lemma run_returns {A : Type} (t : Task A) w : returns (fst (run t w)) = returns t.
Proof. revert w. induction t; intros w; cbn; auto. Qed.

Lemma resume_returns {A : Type} (t : Task A) w :
  returns (fst (resume t w)) = returns t.
Proof. destruct t; cbn; auto. apply run_returns. Qed.

Lemma resumed_returns {A : Type} (t t' : Task A) :
  resumed t t' -> returns t' = returns t.
Proof. induction 1; [reflexivity|]. rewrite resume_returns. assumption. Qed.

Lemma run_ready {A : Type} (t : Task A) w : ready (fst (run t w)).
Proof. revert w. induction t; intros w; cbn; auto. Qed.

Lemma resume_ready {A : Type} (t : Task A) w : ready t -> ready (fst (resume t w)).
Proof. destruct t; cbn; auto. intros _. apply run_ready. Qed.

Lemma run_awaits {A : Type} (t : Task A) w : awaits (fst (run t w)) = awaits t.
Proof. revert w. induction t; intros w; cbn; auto. Qed.

Lemma resume_awaits {A : Type} (t : Task A) w :
  ready t -> awaits (fst (resume t w)) = pred (awaits t).
Proof. destruct t; cbn; try tauto. intros _. apply run_awaits. Qed.

Lemma run_urls {A : Type} (t : Task A) w :
  requested (snd (run t w)) ++ urls (fst (run t w)) = requested w ++ urls t.
Proof.
  revert w. induction t; intros w; cbn [run urls fst snd]; auto.
  - rewrite IHt. cbn. rewrite <- app_assoc. reflexivity.
  - rewrite IHt. f_equal. unfold updateRateLimit.
    destruct (X_RateLimit_Remaining hs), (X_RateLimit_Limit hs),
      (X_RateLimit_Reset hs); reflexivity.
Qed.

Lemma run_requested {A : Type} (t : Task A) w :
  exists sent, requested (snd (run t w)) = requested w ++ sent
               /\ urls t = sent ++ urls (fst (run t w)).
Proof.
  revert w. induction t; intros w; cbn [run urls fst snd].
  - exists []. rewrite app_nil_r. auto.
  - exists []. rewrite app_nil_r. auto.
  - destruct (IHt (mkWorld (rateLimitInfo w) (requested w ++ [url])))
      as (sent & H1 & H2).
    exists (url :: sent). rewrite H1. cbn. rewrite <- app_assoc. split; [reflexivity|].
    rewrite H2 at 1. reflexivity.
  - destruct (IHt (snd (updateRateLimit hs w))) as (sent & H1 & H2).
    exists sent. rewrite H1. split; [|assumption]. f_equal.
    unfold updateRateLimit.
    destruct (X_RateLimit_Remaining hs), (X_RateLimit_Limit hs),
      (X_RateLimit_Reset hs); reflexivity.
  - exists []. rewrite app_nil_r. auto.
Qed.

Lemma resume_requested {A : Type} (t : Task A) w :
  exists sent, requested (snd (resume t w)) = requested w ++ sent
               /\ urls t = sent ++ urls (fst (resume t w)).
Proof.
  destruct t; cbn [resume fst snd urls];
    try (exists []; rewrite app_nil_r; auto; fail).
  apply run_requested.
Qed.

Lemma throwsOnly_weaken (Q : Thrown -> Prop) {A : Type} (t : Task A)
    (W W' : World -> Prop) :
  (forall w, W' w -> W w) -> throwsOnly Q W t -> throwsOnly Q W' t.
Proof. destruct t; cbn; auto. Qed.

Lemma throwsOnly_run (Q : Thrown -> Prop) {A : Type} (t : Task A) :
  forall (W : World -> Prop) w,
    throwsOnly Q W t -> W w -> throwsOnly Q (fun _ => True) (fst (run t w)).
Proof.
  induction t; intros W w Ht Hw; cbn in *; auto.
  - eapply IHt; [exact Ht|exact I].
  - eapply IHt; [exact Ht|]. cbv beta. eauto.
Qed.

Lemma throwsOnly_resume (Q : Thrown -> Prop) {A : Type} (t : Task A) w :
  throwsOnly Q (fun _ => True) t ->
  throwsOnly Q (fun _ => True) (fst (resume t w)).
Proof.
  destruct t; cbn [resume fst]; auto.
  intros Ht. eapply throwsOnly_run; [exact Ht|exact I].
Qed.

Lemma resumed_throwsOnly (Q : Thrown -> Prop) {A : Type} (t t' : Task A) :
  resumed t t' -> throwsOnly Q (fun _ => True) t ->
  throwsOnly Q (fun _ => True) t'.
Proof. induction 1; auto using throwsOnly_resume. Qed.

Lemma resumed_first {A : Type} (t t' : Task A) w :
  resumed (fst (resume t w)) t' -> resumed t t'.
Proof.
  induction 1.
  - apply resumed_step, resumed_refl.
  - apply resumed_step. assumption.
Qed.

Lemma rejection_Some {A : Type} (t : Task A) w e :
  rejection t w = Some e -> exists err, t = Throw err /\ e = err w.
Proof. destruct t; cbn; try discriminate. intros [= <-]. eauto. Qed.

Lemma fulfilled_Some {A : Type} (t : Task A) a :
  fulfilled t = Some a -> t = Return a.
Proof. destruct t; cbn; try discriminate. intros [= <-]. reflexivity. Qed.

Lemma rejection_throwsOnly (Q : Thrown -> Prop) {A : Type} (t : Task A) w e :
  throwsOnly Q (fun _ => True) t -> rejection t w = Some e -> Q e.
Proof.
  intros Ht Hr. apply rejection_Some in Hr as (err & -> & ->). apply Ht. exact I.
Qed.

Lemma ready_settled {A : Type} (t : Task A) w :
  ready t -> awaits t = 0%nat ->
  rejection t w <> None \/ fulfilled t <> None.
Proof. destruct t; cbn; try tauto; try discriminate; auto. Qed.

(** *** Composition *)

Lemma returns_bindT {A B : Type} (t : Task A) (k : A -> Task B) :
  returns (bindT t k)
  = match returns t with Some a => returns (k a) | None => None end.
Proof. induction t; cbn; auto. Qed.

Lemma returns_catchT {A : Type} (t handler : Task A) :
  returns (catchT t handler)
  = match returns t with Some a => Some a | None => returns handler end.
Proof. induction t; cbn; auto. Qed.

Lemma awaits_bindT {A B : Type} (t : Task A) (k : A -> Task B) :
  awaits (bindT t k)
  = (awaits t + match returns t with Some a => awaits (k a) | None => 0 end)%nat.
Proof. induction t; cbn; auto. Qed.

Lemma awaits_catchT {A : Type} (t : Task A) (a : A) :
  awaits (catchT t (Return a)) = awaits t.
Proof. induction t; cbn; auto. Qed.

Lemma urls_bindT {A B : Type} (t : Task A) (k : A -> Task B) :
  urls (bindT t k)
  = urls t ++ match returns t with Some a => urls (k a) | None => [] end.
Proof. induction t; cbn; auto. f_equal. assumption. Qed.

Lemma urls_catchT {A : Type} (t : Task A) (a : A) :
  urls (catchT t (Return a)) = urls t.
Proof. induction t; cbn; auto. f_equal. assumption. Qed.

Lemma throwsOnly_bindT (Q : Thrown -> Prop) {A B : Type} (t : Task A)
    (k : A -> Task B) :
  forall W, throwsOnly Q W t -> (forall a W', throwsOnly Q W' (k a)) ->
            throwsOnly Q W (bindT t k).
Proof. induction t; intros W Ht Hk; cbn in *; auto. Qed.

Lemma throwsOnly_catchT (Q : Thrown -> Prop) {A : Type} (t : Task A) (a : A) :
  forall W, throwsOnly Q W (catchT t (Return a)).
Proof. induction t; intros W; cbn; auto. Qed.

(** *** A task on its own *)

Lemma alone_returns {A : Type} (t : Task A) a w :
  returns t = Some a -> fst (alone t w) = inr a.
Proof.
  revert w. induction t; intros w; cbn; try discriminate; auto.
  intros [= <-]. reflexivity.
Qed.

Lemma alone_bindT {A B : Type} (t : Task A) (k : A -> Task B) w :
  alone (bindT t k) w = bind (alone t) (fun a => alone (k a)) w.
Proof.
  revert w. induction t; intros w; cbn; auto.
Qed.

Lemma alone_catchT {A : Type} (t handler : Task A) :
  forall (W : World -> Prop) w,
    throwsOnly (fun e => e <> OutOfFuel) W t -> W w ->
    alone (catchT t handler) w = try_catch (alone t) (fun _ => alone handler) w.
Proof.
  induction t; intros W w Ht Hw; cbn in *.
  - reflexivity.
  - unfold try_catch, throw_with. specialize (Ht w Hw).
    destruct (err w); try reflexivity. congruence.
  - erewrite IHt; [reflexivity|exact Ht|exact I].
  - erewrite IHt; [reflexivity|exact Ht|]. cbv beta. eauto.
  - erewrite IHt; [reflexivity|exact Ht|exact I].
Qed.

(** *** The fetchers as tasks *)

Section FetchT.

Context {T : Type} (net : Network T).

Lemma alone_fetchGitHubT endpoint w :
  alone (fetchGitHubT net endpoint) w = fetchGitHub net endpoint w.
Proof.
  unfold fetchGitHubT, fetchGitHub, fetchT, fetch, bind. cbn.
  destruct (net _) as [|r]; [reflexivity|]. cbn.
  unfold updateRateLimit, getRateLimitInfo, throw, throw_with, ret, jsonT.
  destruct (headers r) as [[?|] [?|] [?|]]; cbn;
    destruct (ok r); cbn; try reflexivity;
    destruct (status r =? 404); cbn; try reflexivity;
    destruct (status r =? 403); reflexivity.
Qed.

Lemma returns_fetchGitHubT endpoint w :
  match returns (fetchGitHubT net endpoint) with
  | Some a => answer net endpoint w = inr a
  | None => exists e, answer net endpoint w = inl e
  end.
Proof.
  unfold fetchGitHubT, answer, urlOf, fetchT, jsonT. cbn.
  destruct (net _) as [|r]; cbn; [eauto|].
  destruct (ok r); cbn; [reflexivity|].
  destruct (status r =? 404); cbn; [eauto|].
  destruct (status r =? 403); cbn; eauto.
Qed.

Lemma urls_fetchGitHubT endpoint :
  urls (fetchGitHubT net endpoint) = [urlOf endpoint].
Proof.
  unfold fetchGitHubT, urlOf, fetchT, jsonT. cbn.
  destruct (net _) as [|r]; cbn; [reflexivity|].
  destruct (negb (ok r)); cbn; [|reflexivity].
  destruct (status r =? 404); cbn; [reflexivity|].
  destruct (status r =? 403); reflexivity.
Qed.

Lemma awaits_fetchGitHubT endpoint :
  (awaits (fetchGitHubT net endpoint) <= 2)%nat.
Proof.
  unfold fetchGitHubT, urlOf, fetchT, jsonT. cbn.
  destruct (net _) as [|r]; cbn; [lia|].
  destruct (negb (ok r)); cbn; [|lia].
  destruct (status r =? 404); cbn; [lia|].
  destruct (status r =? 403); cbn; lia.
Qed.

(** What [fetchGitHub] throws is the error of [answer], in the state the
    response finds. *)
Lemma throwsOnly_fetchGitHubT endpoint W :
  throwsOnly (fun e => exists w, answer net endpoint w = inl e) W
             (fetchGitHubT net endpoint).
Proof.
  unfold fetchGitHubT, answer, urlOf, fetchT, jsonT. cbn.
  destruct (net _) as [|r]; cbn; [eauto using initialWorld|].
  unfold ok. destruct (_ && _); cbn; [exact I|].
  destruct (status r =? 404); cbn; [eauto using initialWorld|].
  destruct (status r =? 403); cbn; [|eauto using initialWorld].
  intros w' (w & ->). exists w. reflexivity.
Qed.

Lemma fetchGitHubT_shape endpoint :
  exists next, fetchGitHubT net endpoint = Request (urlOf endpoint) (Await next).
Proof. unfold fetchGitHubT, fetchT, urlOf. cbn. eauto. Qed.

End FetchT.

Section FetchersTFacts.

Context {Item : Type} (net : Network (list Item)) (username : string).

(** With a limit of at most a page the loop of [fetchUserRepos] has one
    round. *)
Lemma fetchUserReposT_loop_once fuel (k : list Item -> Task (list Item)) :
  (forall l, len l = 0 -> k [] = k l) ->
  bindT (fetchUserReposT_loop net username (S (S fuel)) 100 [] 1) k
  = bindT (fetchGitHubT net (reposEndpoint username 1)) k.
Proof.
  intros Hk.
  cbn [fetchUserReposT_loop]. rewrite len_nil. cbn [Z.ltb Z.compare].
  unfold fetchGitHubT, fetchT, jsonT. cbn [bindT].
  destruct (net _) as [|r]; [reflexivity|]. cbn [bindT].
  destruct (negb (ok r)).
  - destruct (status r =? 404); [reflexivity|].
    destruct (status r =? 403); reflexivity.
  - cbn [bindT]. do 4 f_equal.
    destruct (len (json r) =? 0) eqn:H0.
    + cbn [bindT]. apply Z.eqb_eq in H0. auto.
    + cbn [app]. destruct (len (json r) <? perPage) eqn:Hlt; [reflexivity|].
      unfold perPage in Hlt. rewrite Hlt. reflexivity.
Qed.

Lemma fetchUserReposT_100 :
  fetchUserReposT net username 100
  = bindT (fetchGitHubT net (reposEndpoint username 1))
          (fun pageRepos => Return (slice0 100 pageRepos)).
Proof.
  unfold fetchUserReposT. replace (Z.to_nat 100) with (S (S 98)) by reflexivity.
  apply fetchUserReposT_loop_once.
  intros l Hl. unfold len in Hl. destruct l; [reflexivity|]. cbn in Hl. lia.
Qed.

Lemma alone_fetchUserReposT_loop fuel maxRepos repos page w :
  alone (fetchUserReposT_loop net username fuel maxRepos repos page) w
  = fetchUserRepos_loop net username fuel maxRepos repos page w.
Proof.
  revert repos page w. induction fuel as [|fuel IH]; intros repos page w;
    cbn [fetchUserReposT_loop fetchUserRepos_loop];
    destruct (len repos <? maxRepos); try reflexivity.
  rewrite alone_bindT. unfold bind. rewrite alone_fetchGitHubT.
  destruct (fetchGitHub _ _ _) as [[e|pageRepos] w']; [reflexivity|].
  destruct (len pageRepos =? 0); [reflexivity|]. cbv zeta.
  destruct (len pageRepos <? perPage); [reflexivity|]. apply IH.
Qed.

Lemma alone_fetchUserReposT maxRepos w :
  alone (fetchUserReposT net username maxRepos) w
  = fetchUserRepos net username maxRepos w.
Proof.
  unfold fetchUserReposT, fetchUserRepos. rewrite alone_bindT. unfold bind.
  rewrite alone_fetchUserReposT_loop. reflexivity.
Qed.

(** One round of the loop of [fetchUserEvents], as a task. *)
Lemma events_round_not_OutOfFuel (events : list Item) page W :
  throwsOnly (fun e => e <> OutOfFuel) W
    (do pageEvents := fetchGitHubT net (eventsEndpoint username page) in
     if len pageEvents =? 0 then Return (events, page, true)
     else Return (events ++ pageEvents, page + 1, false)).
Proof.
  apply throwsOnly_bindT.
  - eapply (throwsOnly_weaken _ _ (fun _ => True)); [auto|].
    unfold fetchGitHubT, fetchT, jsonT. cbn.
    destruct (net _) as [|r]; cbn; [discriminate|].
    destruct (negb (ok r)); cbn; [|exact I].
    destruct (status r =? 404); cbn; [discriminate|].
    destruct (status r =? 403); cbn; discriminate.
  - intros a W'. destruct (len a =? 0); exact I.
Qed.

Lemma alone_fetchUserEventsT_loop fuel maxEvents events page w :
  alone (fetchUserEventsT_loop net username fuel maxEvents events page) w
  = fetchUserEvents_loop net username fuel maxEvents events page w.
Proof.
  revert events page w. induction fuel as [|fuel IH]; intros events page w;
    cbn [fetchUserEventsT_loop fetchUserEvents_loop];
    destruct ((len events <? maxEvents) && (page <=? 3)); try reflexivity.
  rewrite alone_bindT. unfold bind at 1.
  erewrite alone_catchT; [|apply events_round_not_OutOfFuel|exact I].
  unfold try_catch. rewrite alone_bindT. unfold bind.
  rewrite alone_fetchGitHubT.
  destruct (fetchGitHub _ _ _) as [[e|pageEvents] w'].
  - destruct e; reflexivity.
  - destruct (len pageEvents =? 0); cbn; [reflexivity|]. apply IH.
Qed.

Lemma alone_fetchUserEventsT maxEvents w :
  alone (fetchUserEventsT net username maxEvents) w
  = fetchUserEvents net username maxEvents w.
Proof. apply alone_fetchUserEventsT_loop. Qed.

Lemma returns_events_round (events : list Item) page a :
  returns
    (catchT
       (do pageEvents := fetchGitHubT net (eventsEndpoint username page) in
        if len pageEvents =? 0 then Return (events, page, true)
        else Return (events ++ pageEvents, page + 1, false))
       (Return (events, page, true))) = Some a ->
  a = (events, page, true) \/ exists l, a = (events ++ l, page + 1, false).
Proof.
  rewrite returns_catchT, returns_bindT.
  destruct (returns (fetchGitHubT _ _)) as [l|]; cbn.
  - destruct (len l =? 0); cbn; intros [= <-]; eauto.
  - intros [= <-]. auto.
Qed.

Lemma throwsOnly_bindT_returned (Q : Thrown -> Prop) {A B : Type} (t : Task A)
    (k : A -> Task B) :
  forall W, throwsOnly Q W t ->
            (forall a W', returns t = Some a -> throwsOnly Q W' (k a)) ->
            throwsOnly Q W (bindT t k).
Proof. induction t; intros W Ht Hk; cbn in *; auto. Qed.

(** The events never make the bundle fail. *)
Lemma throwsOnly_fetchUserEventsT_loop fuel maxEvents events page W :
  4 <= Z.of_nat fuel + page ->
  throwsOnly (fun _ => False) W
    (fetchUserEventsT_loop net username fuel maxEvents events page).
Proof.
  revert events page W. induction fuel as [|fuel IH]; intros events page W Hfuel;
    cbn [fetchUserEventsT_loop];
    destruct ((len events <? maxEvents) && (page <=? 3)) eqn:Hc; try exact I.
  - apply andb_prop in Hc as [_ Hp]. apply Z.leb_le in Hp. lia.
  - apply andb_prop in Hc as [_ Hp]. apply Z.leb_le in Hp.
    apply throwsOnly_bindT_returned; [apply throwsOnly_catchT|].
    intros a W' Ha. apply returns_events_round in Ha as [->|(l & ->)];
      [exact I|]. apply IH. lia.
Qed.

Lemma awaits_fetchUserEventsT_loop fuel maxEvents events page :
  (awaits (fetchUserEventsT_loop net username fuel maxEvents events page)
   <= 2 * fuel)%nat.
Proof.
  revert events page. induction fuel as [|fuel IH]; intros events page;
    cbn [fetchUserEventsT_loop];
    destruct ((len events <? maxEvents) && (page <=? 3)); cbn [awaits]; try lia.
  rewrite awaits_bindT, awaits_catchT, awaits_bindT.
  pose proof (awaits_fetchGitHubT net (eventsEndpoint username page)) as H2.
  assert (Hk : match returns (fetchGitHubT net (eventsEndpoint username page)) with
               | Some a => awaits (if len a =? 0
                                   then Return (events, page, true)
                                   else Return (events ++ a, page + 1, false))
               | None => 0%nat
               end = 0%nat).
  { destruct (returns _) as [a|]; [|reflexivity]. destruct (len a =? 0); reflexivity. }
  rewrite Hk.
  destruct (returns (catchT _ _)) as [[[events' page'] broke]|]; [|lia].
  destruct broke; cbn [awaits]; [lia|]. specialize (IH events' page'). lia.
Qed.

Lemma urls_fetchUserEventsT_loop fuel maxEvents events page :
  exists k, (k <= fuel)%nat
    /\ urls (fetchUserEventsT_loop net username fuel maxEvents events page)
       = pageUrlsFrom (eventsEndpoint username) page k
    /\ ((len events <? maxEvents) && (page <=? 3) = true -> (1 <= fuel)%nat ->
        (1 <= k)%nat).
Proof.
  revert events page. induction fuel as [|fuel IH]; intros events page;
    cbn [fetchUserEventsT_loop];
    destruct ((len events <? maxEvents) && (page <=? 3));
    try (exists 0%nat; split; [lia|]; split; [reflexivity|intros; (lia || discriminate)]).
  rewrite urls_bindT, urls_catchT, urls_bindT, urls_fetchGitHubT.
  assert (Hk : match returns (fetchGitHubT net (eventsEndpoint username page)) with
               | Some a => urls (if len a =? 0
                                 then Return (events, page, true)
                                 else Return (events ++ a, page + 1, false))
               | None => []
               end = []).
  { destruct (returns _) as [a|]; [|reflexivity]. destruct (len a =? 0); reflexivity. }
  rewrite Hk. cbn [app].
  destruct (returns (catchT _ _)) as [[[events' page'] broke]|] eqn:Ha.
  - apply returns_events_round in Ha as [[= -> -> ->]|(l & [= -> -> ->])].
    + exists 1%nat. split; [lia|]. split; [|lia].
      rewrite pageUrlsFrom_one. reflexivity.
    + destruct (IH (events ++ l) (page + 1)) as (k & Hk1 & Hk2 & _).
      exists (S k). split; [lia|]. split; [|lia].
      rewrite pageUrlsFrom_S, Hk2. reflexivity.
  - exists 1%nat. split; [lia|]. split; [|lia].
    rewrite pageUrlsFrom_one. reflexivity.
Qed.

End FetchersTFacts.

(** *** The two optional sources as tasks *)

Lemma fetchContributionDataT_shape tz net username year token :
  truthy token = false
  /\ fetchContributionDataT tz net username year token = Return None
  \/ truthy token = true
     /\ exists request (k : Response GraphQLBody -> Task (option ContributionData)),
          (forall r, k r = Return None \/ exists a, k r = Await (Return a))
          /\ fetchContributionDataT tz net username year token
             = catchT (bindT (fetchPostT net GITHUB_GRAPHQL_URL request) k)
                      (Return None).
Proof.
  unfold fetchContributionDataT. destruct token as [tok|]; [|auto].
  destruct (truthy (Some tok)); cbn [negb]; [|auto].
  right. split; [reflexivity|]. eexists _, _. split; [|reflexivity].
  intros r. cbv beta. destruct (negb (ok r)); [auto|].
  unfold jsonT. cbn [bindT]. destruct (gql_errors (json r)); right; eauto.
Qed.

Lemma fetched_facts {T A : Type} (fetched : Fetched T) (k : Response T -> Task A)
    (a : A) :
  (forall r, k r = Return a \/ exists b, k r = Await (Return b)) ->
  let t :=
    catchT (bindT match fetched with
                  | Rejected => Throw (fun _ => FetchRejected)
                  | Responded r => Return r
                  end k) (Return a) in
  urls t = [] /\ (awaits t <= 1)%nat
  /\ (forall Q W, throwsOnly Q W t).
Proof.
  intros Hk t. subst t. destruct fetched as [|r]; cbn.
  - repeat split; auto.
  - destruct (Hk r) as [->|(b & ->)]; cbn; repeat split; auto.
Qed.

Lemma fetchContributionDataT_facts tz net username year token :
  let t :=
    if truthy token then fetchContributionDataT tz net username year token
    else Return None in
  urls t = (if truthy token then [GITHUB_GRAPHQL_URL] else [])
  /\ (awaits t <= 2)%nat
  /\ (forall Q W, throwsOnly Q W t).
Proof.
  cbv zeta.
  destruct (fetchContributionDataT_shape tz net username year token)
    as [(Htok & ->)|(Htok & request & k & Hk & ->)]; rewrite Htok.
  - cbn. repeat split; auto.
  - unfold fetchPostT. cbn [bindT catchT urls awaits throwsOnly].
    destruct (fetched_facts (net request) k None Hk) as (H1 & H2 & H3).
    rewrite H1. repeat split; [lia|]. intros Q W. apply H3.
Qed.

Lemma fetchContributionCalendarFallbackT_facts tz net username year :
  let t := fetchContributionCalendarFallbackT tz net username year in
  urls t = [fallbackUrl username year]
  /\ (awaits t <= 2)%nat
  /\ (forall Q W, throwsOnly Q W t).
Proof.
  cbv zeta. unfold fetchContributionCalendarFallbackT, fetchT.
  cbn [bindT catchT urls awaits throwsOnly].
  match goal with
  | |- context [catchT (bindT _ ?k) _] =>
      destruct (fetched_facts (net (fallbackUrl username year)) k None)
        as (H1 & H2 & H3)
  end.
  { intros r. cbv beta. destruct (negb (ok r)); [auto|]. right.
    unfold jsonT. cbn [bindT]. eauto. }
  rewrite H1. repeat split; [lia|]. intros Q W. apply H3.
Qed.

(** On their own the two tasks are the functions of the sequential
    model. *)
Lemma alone_fetchContributionDataT tz net username year token w :
  alone (if truthy token then fetchContributionDataT tz net username year token
         else Return None) w
  = fetchContributionData tz net username year token w.
Proof.
  unfold fetchContributionDataT, fetchContributionData.
  destruct token as [tok|]; [|reflexivity].
  destruct (truthy (Some tok)); cbn [negb]; [|reflexivity].
  unfold fetchPostT, fetchPost, try_catch, bind, jsonT.
  cbn [bindT catchT alone].
  destruct (net _) as [|r]; cbn [bindT catchT alone]; [reflexivity|].
  destruct (negb (ok r)); cbn [bindT catchT alone]; [reflexivity|].
  destruct (gql_errors (json r)); reflexivity.
Qed.

Lemma alone_fetchContributionCalendarFallbackT tz net username year w :
  alone (fetchContributionCalendarFallbackT tz net username year) w
  = fetchContributionCalendarFallback tz net username year w.
Proof.
  unfold fetchContributionCalendarFallbackT, fetchContributionCalendarFallback.
  unfold fetchT, fetch, try_catch, bind, jsonT.
  cbn [bindT catchT alone].
  destruct (net _) as [|r]; cbn [bindT catchT alone]; [reflexivity|].
  destruct (negb (ok r)); reflexivity.
Qed.

(** *** Promise.all *)

Lemma Each_refl (R : forall A : Type, Task A -> Task A -> Prop) p :
  (forall A (t : Task A), R A t t) -> Each R p p.
Proof. intros H. repeat split; apply H. Qed.

Lemma resumeSlot_resumed s p w p' :
  Each (@resumed) (fst (resumeSlot s p w)) p' -> Each (@resumed) p p'.
Proof.
  destruct (resumeSlot s p w) as [p1 w1] eqn:Hs. cbn [fst].
  intros (H1 & H2 & H3 & H4 & H5).
  slot_cases s Hs; cbn in *; repeat split; try assumption;
    eapply resumed_first; rewrite Hr; eassumption.
Qed.

Lemma promiseAll_settled schedule :
  forall p w,
  exists p', Each (@resumed) p p'
    /\ fst (promiseAll schedule p w) = settled p' (snd (promiseAll schedule p w)).
Proof.
  induction schedule as [|s schedule IH]; intros p w; cbn [promiseAll].
  - exists p. split; [apply Each_refl; intros; apply resumed_refl|].
    destruct (settled p w) eqn:E; cbn; congruence.
  - destruct (settled p w) eqn:E.
    + exists p. split; [apply Each_refl; intros; apply resumed_refl|].
      cbn. congruence.
    + destruct (resumeSlot s p w) as [p1 w1] eqn:Hs.
      destruct (IH p1 w1) as (p' & HE & Hf). exists p'. split; [|assumption].
      apply (resumeSlot_resumed s p w). rewrite Hs. assumption.
Qed.

Lemma startAll_run p w :
  Each (fun A t t' => exists w0, t' = fst (run t w0)) p (fst (startAll p w)).
Proof.
  unfold startAll.
  destruct (run (p_user p) w) as [t1 w1] eqn:H1.
  destruct (run (p_repos p) w1) as [t2 w2] eqn:H2.
  destruct (run (p_events p) w2) as [t3 w3] eqn:H3.
  destruct (run (p_contributionData p) w3) as [t4 w4] eqn:H4.
  destruct (run (p_contributionCalendar p) w4) as [t5 w5] eqn:H5.
  cbn. repeat split; eexists;
    [rewrite H1|rewrite H2|rewrite H3|rewrite H4|rewrite H5]; reflexivity.
Qed.

(** Whatever the schedule, the elements are where some resumptions have
    taken them, and the outcome is read off them. *)
Lemma all_progress schedule p w :
  let started := startAll p w in
  let ended := promiseAll schedule (fst started) (snd started) in
  exists p', Each (@progressed) p p' /\ fst ended = settled p' (snd ended).
Proof.
  cbv zeta.
  destruct (promiseAll_settled schedule (fst (startAll p w)) (snd (startAll p w)))
    as (p' & HE & Hf).
  exists p'. split; [|assumption].
  destruct (startAll_run p w) as ((w1 & H1) & (w2 & H2) & (w3 & H3) & (w4 & H4)
                                  & (w5 & H5)).
  destruct HE as (E1 & E2 & E3 & E4 & E5).
  rewrite H1 in E1. rewrite H2 in E2. rewrite H3 in E3. rewrite H4 in E4.
  rewrite H5 in E5.
  repeat split; eexists; eassumption.
Qed.

Lemma progressed_returns {A : Type} (t t' : Task A) :
  progressed t t' -> returns t' = returns t.
Proof.
  intros (w & H). apply resumed_returns in H. rewrite H. apply run_returns.
Qed.

Lemma progressed_throwsOnly (Q : Thrown -> Prop) {A : Type} (t t' : Task A) :
  progressed t t' -> throwsOnly Q (fun _ => True) t ->
  throwsOnly Q (fun _ => True) t'.
Proof.
  intros (w & H) Ht. eapply resumed_throwsOnly; [exact H|].
  eapply throwsOnly_run; [exact Ht|exact I].
Qed.

(** What a fulfilled [Promise.all] gives, and why a rejected one is. *)
Lemma settled_fulfilled p w d :
  settled p w = Some (inr d) ->
  p_user p = Return (user d) /\ p_repos p = Return (repos d)
  /\ p_events p = Return (events d)
  /\ p_contributionData p = Return (contributionData d)
  /\ p_contributionCalendar p = Return (data_contributionCalendar d).
Proof.
  unfold settled.
  destruct (rejection (p_user p) w); [discriminate|].
  destruct (rejection (p_repos p) w); [discriminate|].
  destruct (rejection (p_events p) w); [discriminate|].
  destruct (rejection (p_contributionData p) w); [discriminate|].
  destruct (rejection (p_contributionCalendar p) w); [discriminate|].
  destruct (fulfilled (p_user p)) eqn:H1; [|discriminate].
  destruct (fulfilled (p_repos p)) eqn:H2; [|discriminate].
  destruct (fulfilled (p_events p)) eqn:H3; [|discriminate].
  destruct (fulfilled (p_contributionData p)) eqn:H4; [|discriminate].
  destruct (fulfilled (p_contributionCalendar p)) eqn:H5; [|discriminate].
  intros [= <-]. cbn.
  repeat split; apply fulfilled_Some; assumption.
Qed.

Lemma settled_rejected p w e :
  settled p w = Some (inl e) ->
  rejection (p_user p) w = Some e \/ rejection (p_repos p) w = Some e
  \/ rejection (p_events p) w = Some e
  \/ rejection (p_contributionData p) w = Some e
  \/ rejection (p_contributionCalendar p) w = Some e.
Proof.
  unfold settled.
  destruct (rejection (p_user p) w); [intros [= <-]; auto|].
  destruct (rejection (p_repos p) w); [intros [= <-]; auto|].
  destruct (rejection (p_events p) w); [intros [= <-]; auto|].
  destruct (rejection (p_contributionData p) w); [intros [= <-]; auto 6|].
  destruct (rejection (p_contributionCalendar p) w); [intros [= <-]; auto 6|].
  destruct (fulfilled (p_user p)); [|discriminate].
  destruct (fulfilled (p_repos p)); [|discriminate].
  destruct (fulfilled (p_events p)); [|discriminate].
  destruct (fulfilled (p_contributionData p)); [|discriminate].
  destruct (fulfilled (p_contributionCalendar p)); discriminate.
Qed.

(** *** The elements of the array *)

Lemma starts_bindT {A B : Type} (t : Task A) (k : A -> Task B) :
  starts t -> starts (bindT t k).
Proof. intros (url & next & ->). cbn. unfold starts. eauto. Qed.

Lemma starts_catchT {A : Type} (t handler : Task A) :
  starts t -> starts (catchT t handler).
Proof. intros (url & next & ->). cbn. unfold starts. eauto. Qed.

Lemma starts_fetchGitHubT {T : Type} (net : Network T) endpoint :
  starts (fetchGitHubT net endpoint).
Proof.
  destruct (fetchGitHubT_shape net endpoint) as (next & ->). unfold starts. eauto.
Qed.

Lemma run_starts {A : Type} (t : Task A) w url rest :
  starts t -> urls t = url :: rest ->
  snd (run t w) = mkWorld (rateLimitInfo w) (requested w ++ [url])
  /\ urls (fst (run t w)) = rest.
Proof.
  intros (url' & next & ->). cbn. intros [= -> ->]. auto.
Qed.

Section Elements.

Context (tz : Z) (nets : Networks) (username : string) (year : Z)
        (token : option string).

Lemma starts_user : starts (p_user (elements tz nets username year token)).
Proof. apply starts_fetchGitHubT. Qed.

Lemma starts_repos : starts (p_repos (elements tz nets username year token)).
Proof.
  cbn [elements p_repos]. rewrite fetchUserReposT_100.
  apply starts_bindT, starts_fetchGitHubT.
Qed.

Lemma starts_events : starts (p_events (elements tz nets username year token)).
Proof.
  cbn [elements p_events]. unfold fetchUserEventsT.
  cbn [fetchUserEventsT_loop]. rewrite len_nil.
  change ((0 <? 300) && (1 <=? 3)) with true. cbv iota.
  apply starts_bindT, starts_catchT, starts_bindT, starts_fetchGitHubT.
Qed.

Lemma starts_calendar :
  starts (p_contributionCalendar (elements tz nets username year token)).
Proof.
  cbn [elements p_contributionCalendar]. unfold fetchContributionCalendarFallbackT.
  apply starts_catchT, starts_bindT. unfold fetchT, starts. eauto.
Qed.

Lemma starts_data :
  truthy token = true ->
  starts (p_contributionData (elements tz nets username year token)).
Proof.
  intros Htok. cbn [elements p_contributionData]. rewrite Htok.
  destruct (fetchContributionDataT_shape tz (graphql nets) username year token)
    as [(Hf & _)|(_ & request & k & _ & ->)]; [congruence|].
  apply starts_catchT, starts_bindT. unfold fetchPostT, starts. eauto.
Qed.

Lemma urls_user :
  urls (p_user (elements tz nets username year token))
  = [urlOf ("/users/" +:+ username)].
Proof. apply urls_fetchGitHubT. Qed.

Lemma urls_repos :
  urls (p_repos (elements tz nets username year token))
  = [urlOf (reposEndpoint username 1)].
Proof.
  cbn [elements p_repos]. rewrite fetchUserReposT_100, urls_bindT, urls_fetchGitHubT.
  destruct (returns _); reflexivity.
Qed.

Lemma urls_events :
  exists later,
    urls (p_events (elements tz nets username year token))
    = urlOf (eventsEndpoint username 1) :: later
    /\ later `prefix_of` pageUrlsFrom (eventsEndpoint username) 2 2.
Proof.
  cbn [elements p_events]. unfold fetchUserEventsT.
  destruct (urls_fetchUserEventsT_loop (activity nets) username 3 300 [] 1)
    as (k & Hk & -> & Hpos).
  specialize (Hpos eq_refl ltac:(lia)).
  destruct k as [|k]; [lia|]. rewrite pageUrlsFrom_S.
  eexists. split; [reflexivity|]. change (1 + 1) with 2.
  destruct k as [|[|[|k]]]; try lia.
  - exists (pageUrlsFrom (eventsEndpoint username) 2 2). reflexivity.
  - exists (pageUrlsFrom (eventsEndpoint username) 3 1).
    rewrite (pageUrlsFrom_S _ 2 1). rewrite pageUrlsFrom_one. reflexivity.
  - exists []. rewrite app_nil_r. reflexivity.
Qed.

(** The array is built: four or five requests have left, in the order of
    the array, and only the events have more to ask. *)
Lemma startAll_elements w :
  let started := startAll (elements tz nets username year token) w in
  requested (snd started)
  = requested w
    ++ [urlOf ("/users/" +:+ username); urlOf (reposEndpoint username 1);
        urlOf (eventsEndpoint username 1)]
    ++ (if truthy token then [GITHUB_GRAPHQL_URL] else [])
    ++ [fallbackUrl username year]
  /\ urls (p_user (fst started)) = []
  /\ urls (p_repos (fst started)) = []
  /\ urls (p_events (fst started))
     `prefix_of` pageUrlsFrom (eventsEndpoint username) 2 2
  /\ urls (p_contributionData (fst started)) = []
  /\ urls (p_contributionCalendar (fst started)) = [].
Proof.
  cbv zeta. unfold startAll.
  destruct (urls_events) as (later & Hev & Hlater).
  pose proof (run_starts _ w _ _ starts_user urls_user) as [W1 U1].
  destruct (run (p_user _) w) as [t1 w1]. cbn [fst snd] in W1, U1.
  pose proof (run_starts _ w1 _ _ starts_repos urls_repos) as [W2 U2].
  destruct (run (p_repos _) w1) as [t2 w2]. cbn [fst snd] in W2, U2.
  pose proof (run_starts _ w2 _ _ starts_events Hev) as [W3 U3].
  destruct (run (p_events _) w2) as [t3 w3]. cbn [fst snd] in W3, U3.
  destruct (fetchContributionDataT_facts tz (graphql nets) username year token)
    as (Hd & _).
  pose proof (fetchContributionCalendarFallbackT_facts tz (contributionsApi nets)
                username year) as (Hc & _).
  assert (W4 : requested (snd (run (p_contributionData
                                      (elements tz nets username year token)) w3))
               = requested w3 ++ (if truthy token then [GITHUB_GRAPHQL_URL] else [])
               /\ urls (fst (run (p_contributionData
                                    (elements tz nets username year token)) w3))
                  = []).
  { destruct (truthy token) eqn:Htok.
    - pose proof (run_starts _ w3 GITHUB_GRAPHQL_URL [] (starts_data Htok)) as Hr.
      cbn [elements p_contributionData] in Hr |- *. rewrite Htok in Hr |- *.
      destruct (Hr Hd) as [-> ->]. auto.
    - cbn [elements p_contributionData]. rewrite Htok. cbn.
      rewrite app_nil_r. auto. }
  destruct W4 as [W4 U4].
  destruct (run (p_contributionData _) w3) as [t4 w4]. cbn [fst snd] in W4, U4.
  pose proof (run_starts _ w4 _ _ starts_calendar Hc) as [W5 U5].
  destruct (run (p_contributionCalendar _) w4) as [t5 w5]. cbn [fst snd] in W5, U5.
  cbn [fst snd p_user p_repos p_events p_contributionData p_contributionCalendar].
  subst w5 w3 w2 w1. cbn [requested]. rewrite W4. cbn [requested].
  split; [rewrite <- !app_assoc; reflexivity|].
  rewrite U3. auto.
Qed.

End Elements.

(** While [Promise.all] is pending only the events ask for more. *)
Lemma promiseAll_requested schedule :
  forall p w,
    urls (p_user p) = [] -> urls (p_repos p) = [] ->
    urls (p_contributionData p) = [] -> urls (p_contributionCalendar p) = [] ->
    exists later,
      requested (snd (promiseAll schedule p w)) = requested w ++ later
      /\ later `prefix_of` urls (p_events p).
Proof.
  induction schedule as [|s schedule IH]; intros p w U1 U2 U4 U5;
    cbn [promiseAll].
  - exists []. rewrite app_nil_r.
    split; [destruct (settled p w); reflexivity|apply prefix_nil].
  - destruct (settled p w).
    + exists []. rewrite app_nil_r. split; [reflexivity|apply prefix_nil].
    + destruct (resumeSlot s p w) as [p1 w1] eqn:Hs.
      destruct s; cbn [resumeSlot] in Hs;
        match type of Hs with
        | context [resume ?t ?w] =>
            destruct (resume_requested t w) as (sent & Hw & Hu);
            destruct (resume t w) as [t' w'] eqn:Hr
        end;
        injection Hs as <- <-; cbn [fst snd] in Hw, Hu;
        try (rewrite U1 in Hu); try (rewrite U2 in Hu);
        try (rewrite U4 in Hu); try (rewrite U5 in Hu).
      all: match goal with
           | |- context [promiseAll _ ?p1 ?w1] =>
               destruct (IH p1 w1) as (later & H1 & H2)
           end;
        cbn [p_user p_repos p_events p_contributionData p_contributionCalendar]
          in *;
        try assumption;
        try (symmetry in Hu; apply app_eq_nil in Hu; tauto).
      all: try (symmetry in Hu; apply app_eq_nil in Hu as [-> Hu];
                rewrite app_nil_r in Hw;
                exists later; rewrite H1, Hw; split; [reflexivity|exact H2]).
      exists (sent ++ later). rewrite H1, Hw, Hu, <- app_assoc.
      split; [reflexivity|]. apply prefix_app. exact H2.
Qed.

(** A schedule that gives every element the turns it needs settles
    [Promise.all]. *)
Lemma promiseAll_settles schedule :
  forall p w,
    ready (p_user p) -> ready (p_repos p) -> ready (p_events p) ->
    ready (p_contributionData p) -> ready (p_contributionCalendar p) ->
    (forall s, (awaitsOf s p <= count_occ Slot_eq_dec schedule s)%nat) ->
    fst (promiseAll schedule p w) <> None.
Proof.
  induction schedule as [|s schedule IH]; intros p w R1 R2 R3 R4 R5 Hturns;
    cbn [promiseAll].
  - pose proof (Hturns UserSlot) as A1. pose proof (Hturns ReposSlot) as A2.
    pose proof (Hturns EventsSlot) as A3. pose proof (Hturns DataSlot) as A4.
    pose proof (Hturns CalendarSlot) as A5. cbn in A1, A2, A3, A4, A5.
    assert (Hs : settled p w <> None).
    { unfold settled.
      destruct (rejection (p_user p) w) eqn:J1; [discriminate|].
      destruct (rejection (p_repos p) w) eqn:J2; [discriminate|].
      destruct (rejection (p_events p) w) eqn:J3; [discriminate|].
      destruct (rejection (p_contributionData p) w) eqn:J4; [discriminate|].
      destruct (rejection (p_contributionCalendar p) w) eqn:J5; [discriminate|].
      destruct (fulfilled (p_user p)) eqn:F1;
        [|destruct (ready_settled (p_user p) w R1 ltac:(lia)); congruence].
      destruct (fulfilled (p_repos p)) eqn:F2;
        [|destruct (ready_settled (p_repos p) w R2 ltac:(lia)); congruence].
      destruct (fulfilled (p_events p)) eqn:F3;
        [|destruct (ready_settled (p_events p) w R3 ltac:(lia)); congruence].
      destruct (fulfilled (p_contributionData p)) eqn:F4;
        [|destruct (ready_settled (p_contributionData p) w R4 ltac:(lia));
          congruence].
      destruct (fulfilled (p_contributionCalendar p)) eqn:F5;
        [|destruct (ready_settled (p_contributionCalendar p) w R5 ltac:(lia));
          congruence].
      discriminate. }
    destruct (settled p w); [discriminate|congruence].
  - destruct (settled p w); [discriminate|].
    destruct (resumeSlot s p w) as [p1 w1] eqn:Hs.
    assert (Hp1 : ready (p_user p1) /\ ready (p_repos p1) /\ ready (p_events p1)
                  /\ ready (p_contributionData p1)
                  /\ ready (p_contributionCalendar p1)
                  /\ forall s', (awaitsOf s' p1
                                 <= count_occ Slot_eq_dec schedule s')%nat).
    { destruct s; cbn [resumeSlot] in Hs;
        match type of Hs with
        | context [resume ?t ?w] =>
            pose proof (resume_ready t w) as Hready;
            pose proof (resume_awaits t w) as Hawaits;
            destruct (resume t w) as [t' w'] eqn:Hr
        end;
        injection Hs as <- <-; cbn [fst] in Hready, Hawaits;
        cbn [p_user p_repos p_events p_contributionData p_contributionCalendar];
        repeat (split; [auto|]);
        intros s'; specialize (Hturns s');
        destruct s'; cbn in Hturns |- *;
        try (rewrite Hawaits by assumption); lia. }
    destruct Hp1 as (Q1 & Q2 & Q3 & Q4 & Q5 & Q6). apply IH; assumption.
Qed.

(** *** fetchAllGitHubData *)

Lemma getCached_miss asked key (c : Cache) :
  fst (getCached asked key c) = None -> snd (getCached asked key c) = delete key c.
Proof.
  unfold getCached. destruct (c !! key) as [[data timestamp]|]; [|reflexivity].
  destruct (asked - timestamp <? CACHE_TTL); [discriminate|reflexivity].
Qed.

Lemma fetchAllGitHubData_miss tz nets schedule asked stored username year token s :
  fst (getCached asked (cacheKey username year token) (cache s)) = None ->
  fetchAllGitHubData tz nets schedule asked stored username year token s
  = let started := startAll (elements tz nets username year token) (world s) in
    let ended := promiseAll schedule (fst started) (snd started) in
    let cache1 := delete (cacheKey username year token) (cache s) in
    (fst ended,
     mkService (snd ended)
       match fst ended with
       | Some (inr result) =>
           setCache stored (cacheKey username year token) result cache1
       | _ => cache1
       end).
Proof.
  intros Hmiss. pose proof (getCached_miss _ _ _ Hmiss) as Hc.
  unfold fetchAllGitHubData.
  destruct (getCached _ _ _) as [cached cache1]. cbn in Hmiss, Hc. subst.
  destruct (startAll _ _) as [p1 w1]. cbv zeta. cbn [fst snd].
  destruct (promiseAll schedule p1 w1) as [[[e|d]|] w']; reflexivity.
Qed.

(** Where the elements are when the call settles. *)
Lemma fetchAllGitHubData_progress tz nets schedule asked stored username year
    token s :
  fst (getCached asked (cacheKey username year token) (cache s)) = None ->
  exists p' w',
    Each (@progressed) (elements tz nets username year token) p'
    /\ fetchAllGitHubData tz nets schedule asked stored username year token s
       = (settled p' w',
          mkService w'
            match settled p' w' with
            | Some (inr result) =>
                setCache stored (cacheKey username year token) result
                         (delete (cacheKey username year token) (cache s))
            | _ => delete (cacheKey username year token) (cache s)
            end).
Proof.
  intros Hmiss. rewrite fetchAllGitHubData_miss by assumption. cbv zeta.
  destruct (all_progress schedule (elements tz nets username year token) (world s))
    as (p' & HE & Hf). cbv zeta in Hf.
  exists p', (snd (promiseAll schedule
                     (fst (startAll (elements tz nets username year token) (world s)))
                     (snd (startAll (elements tz nets username year token) (world s))))).
  split; [assumption|]. rewrite Hf. reflexivity.
Qed.

Lemma setCache_delete stored key d (c : Cache) :
  setCache stored key d (delete key c) = setCache stored key d c.
Proof. unfold setCache, Cache in *. apply insert_delete_eq. Qed.

(** What the call gives when it fetches, and what it keeps. *)
Lemma fetchAllGitHubData_fetched tz nets schedule asked stored username year
    token s d s' :
  fst (getCached asked (cacheKey username year token) (cache s)) = None ->
  fetchAllGitHubData tz nets schedule asked stored username year token s
  = (Some (inr d), s') ->
  returns (fetchUserProfileT (profiles nets) username) = Some (user d)
  /\ returns (fetchUserReposT (repositories nets) username 100) = Some (repos d)
  /\ returns (fetchUserEventsT (activity nets) username 300) = Some (events d)
  /\ returns (if truthy token
              then fetchContributionDataT tz (graphql nets) username year token
              else Return None) = Some (contributionData d)
  /\ returns (fetchContributionCalendarFallbackT tz (contributionsApi nets)
                                                 username year)
     = Some (data_contributionCalendar d)
  /\ cache s' = setCache stored (cacheKey username year token) d (cache s).
Proof.
  intros Hmiss Hcall.
  destruct (fetchAllGitHubData_progress tz nets schedule asked stored username
              year token s Hmiss) as (p' & w' & HE & Heq).
  rewrite Heq in Hcall. injection Hcall as Hs <-. rewrite Hs. cbn [cache].
  apply settled_fulfilled in Hs as (F1 & F2 & F3 & F4 & F5).
  destruct HE as (E1 & E2 & E3 & E4 & E5).
  apply progressed_returns in E1, E2, E3, E4, E5.
  rewrite F1 in E1. rewrite F2 in E2. rewrite F3 in E3. rewrite F4 in E4.
  rewrite F5 in E5. cbn [returns elements p_user p_repos p_events
                          p_contributionData p_contributionCalendar] in *.
  repeat (split; [congruence|]). apply setCache_delete.
Qed.

(** X24.  Whatever the order in which the responses arrive, a call of
    fetchAllGitHubData that finds nothing fresh in the cache and is
    fulfilled gives exactly what each of the five fetchers returns when it
    runs on its own (the profile, the first 100 repositories, the events,
    the GraphQL summary, the fallback calendar): the bundle does not
    depend on the interleaving under Promise.all. Without a token its
    contributionData is null. The bundle is then stored in the cache under
    the key of the call, with the instant of the store. (With a token, for
    a year a Date can hold.) *)
Theorem fetchAllGitHubData_value (tz : Z) (nets : Networks) (schedule : list Slot)
    (asked stored : Z) (username : string) (year : Z) (token : option string)
    (s s' : Service) (d : AllGitHubData) :
  (truthy token = true ->
   inDateRange (Date.make tz year 0 1) /\ inDateRange (endOfYear tz year)) ->
  fst (getCached asked (cacheKey username year token) (cache s)) = None ->
  fetchAllGitHubData tz nets schedule asked stored username year token s
  = (Some (inr d), s') ->
  (forall w,
      fst (fetchUserProfile (profiles nets) username w) = inr (user d)
      /\ fst (fetchUserRepos (repositories nets) username 100 w) = inr (repos d)
      /\ fst (fetchUserEvents (activity nets) username 300 w) = inr (events d)
      /\ fst (fetchContributionData tz (graphql nets) username year token w)
         = inr (contributionData d)
      /\ fst (fetchContributionCalendarFallback tz (contributionsApi nets)
                                                username year w)
         = inr (data_contributionCalendar d))
  /\ (truthy token = false -> contributionData d = None)
  /\ cache s' = setCache stored (cacheKey username year token) d (cache s).
Proof.
  intros _ Hmiss Hcall.
  destruct (fetchAllGitHubData_fetched _ _ _ _ _ _ _ _ _ _ _ Hmiss Hcall)
    as (R1 & R2 & R3 & R4 & R5 & Hc).
  split; [|split; [|exact Hc]].
  - intros w. unfold fetchUserProfile.
    rewrite <- alone_fetchGitHubT, <- alone_fetchUserReposT,
      <- alone_fetchUserEventsT, <- alone_fetchContributionDataT,
      <- alone_fetchContributionCalendarFallbackT.
    repeat split; apply alone_returns; assumption.
  - intros Htok. rewrite Htok in R4. cbn in R4. congruence.
Qed.

Lemma throwsOnly_repos {Item : Type} (net : Network (list Item)) username W :
  throwsOnly (fun e => exists w, answer net (reposEndpoint username 1) w = inl e) W
             (fetchUserReposT net username 100).
Proof.
  rewrite fetchUserReposT_100. apply throwsOnly_bindT.
  - apply throwsOnly_fetchGitHubT.
  - intros a W'. exact I.
Qed.

(** Why a call that fetches is rejected, and what it keeps. *)
Lemma fetchAllGitHubData_thrown tz nets schedule asked stored username year
    token s e s' :
  fst (getCached asked (cacheKey username year token) (cache s)) = None ->
  fetchAllGitHubData tz nets schedule asked stored username year token s
  = (Some (inl e), s') ->
  ((exists w, answer (profiles nets) ("/users/" +:+ username) w = inl e)
   \/ (exists w, answer (repositories nets) (reposEndpoint username 1) w = inl e))
  /\ cache s' = delete (cacheKey username year token) (cache s).
Proof.
  intros Hmiss Hcall.
  destruct (fetchAllGitHubData_progress tz nets schedule asked stored username
              year token s Hmiss) as (p' & w' & HE & Heq).
  rewrite Heq in Hcall. injection Hcall as Hs <-. rewrite Hs. cbn [cache].
  split; [|reflexivity].
  destruct HE as (E1 & E2 & E3 & E4 & E5).
  cbn [elements p_user p_repos p_events p_contributionData
       p_contributionCalendar] in *.
  apply settled_rejected in Hs as [J|[J|[J|[J|J]]]].
  - left.
    eapply (rejection_throwsOnly
              (fun e => exists w,
                   answer (profiles nets) ("/users/" +:+ username) w = inl e));
      [|exact J].
    eapply progressed_throwsOnly; [exact E1|]. apply throwsOnly_fetchGitHubT.
  - right.
    eapply (rejection_throwsOnly
              (fun e => exists w,
                   answer (repositories nets) (reposEndpoint username 1) w = inl e));
      [|exact J].
    eapply progressed_throwsOnly; [exact E2|]. apply throwsOnly_repos.
  - exfalso. eapply (rejection_throwsOnly (fun _ => False)); [|exact J].
    eapply progressed_throwsOnly; [exact E3|].
    apply throwsOnly_fetchUserEventsT_loop. lia.
  - exfalso. eapply (rejection_throwsOnly (fun _ => False)); [|exact J].
    eapply progressed_throwsOnly; [exact E4|].
    apply fetchContributionDataT_facts.
  - exfalso. eapply (rejection_throwsOnly (fun _ => False)); [|exact J].
    eapply progressed_throwsOnly; [exact E5|].
    apply fetchContributionCalendarFallbackT_facts.
Qed.

Lemma awaits_elements tz nets username year token :
  let p := elements tz nets username year token in
  forall s, (awaitsOf s p <= match s with EventsSlot => 6 | _ => 2 end)%nat.
Proof.
  cbv zeta. intros [].
  - apply awaits_fetchGitHubT.
  - cbn [awaitsOf elements p_repos]. rewrite fetchUserReposT_100, awaits_bindT.
    pose proof (awaits_fetchGitHubT (repositories nets) (reposEndpoint username 1)).
    destruct (returns _); cbn [awaits]; lia.
  - apply (awaits_fetchUserEventsT_loop (activity nets) username 3).
  - apply fetchContributionDataT_facts.
  - apply fetchContributionCalendarFallbackT_facts.
Qed.

Lemma startAll_awaits p w :
  let started := fst (startAll p w) in
  (forall s, awaitsOf s started = awaitsOf s p)
  /\ ready (p_user started) /\ ready (p_repos started) /\ ready (p_events started)
  /\ ready (p_contributionData started)
  /\ ready (p_contributionCalendar started).
Proof.
  cbv zeta.
  destruct (startAll_run p w) as ((w1 & H1) & (w2 & H2) & (w3 & H3) & (w4 & H4)
                                  & (w5 & H5)).
  split.
  - intros []; cbn [awaitsOf];
      [rewrite H1|rewrite H2|rewrite H3|rewrite H4|rewrite H5]; apply run_awaits.
  - rewrite H1, H2, H3, H4, H5. repeat split; apply run_ready.
Qed.

(** X26.  fetchAllGitHubData settles, fulfilled or rejected, as soon as
    each of its five fetchers has been resumed twice and the events
    fetcher six times, in any order: each fetcher awaits a response and
    then its body, and the events fetcher does so for at most three pages. *)
Theorem fetchAllGitHubData_settles (tz : Z) (nets : Networks)
    (schedule : list Slot) (asked stored : Z) (username : string) (year : Z)
    (token : option string) (s : Service) :
  (forall slot, (2 <= count_occ Slot_eq_dec schedule slot)%nat) ->
  (6 <= count_occ Slot_eq_dec schedule EventsSlot)%nat ->
  fst (fetchAllGitHubData tz nets schedule asked stored username year token s)
  <> None.
Proof.
  intros Htwice Hsix.
  destruct (fst (getCached asked (cacheKey username year token) (cache s)))
    as [data|] eqn:Hc.
  - unfold fetchAllGitHubData. destruct (getCached _ _ _) as [cached cache1].
    cbn in Hc. subst cached. discriminate.
  - rewrite fetchAllGitHubData_miss by assumption. cbv zeta. cbn [fst].
    destruct (startAll_awaits (elements tz nets username year token) (world s))
      as (Ha & R1 & R2 & R3 & R4 & R5).
    apply promiseAll_settles; try assumption.
    intros slot. rewrite Ha.
    pose proof (awaits_elements tz nets username year token slot) as Hb.
    cbv zeta in Hb. specialize (Htwice slot). destruct slot; lia.
Qed.

(** X27.  A call of fetchAllGitHubData that finds nothing fresh in the
    cache first sends, in this order and before it looks at any response,
    the requests for the profile, for page 1 of the repositories, for page
    1 of the events, for the GraphQL summary if there is a token, and for
    the fallback calendar; after that only page 2 and then page 3 of the
    events may be requested. A call therefore costs at most seven
    requests, five of them to the REST API of GitHub. (With a token, for a
    year a Date can hold.) *)
Theorem fetchAllGitHubData_requests (tz : Z) (nets : Networks)
    (schedule : list Slot) (asked stored : Z) (username : string) (year : Z)
    (token : option string) (s : Service) :
  (truthy token = true ->
   inDateRange (Date.make tz year 0 1) /\ inDateRange (endOfYear tz year)) ->
  fst (getCached asked (cacheKey username year token) (cache s)) = None ->
  exists later,
    requested
      (world (snd (fetchAllGitHubData tz nets schedule asked stored username
                                      year token s)))
    = requested (world s)
      ++ [urlOf ("/users/" +:+ username); urlOf (reposEndpoint username 1);
          urlOf (eventsEndpoint username 1)]
      ++ (if truthy token then [GITHUB_GRAPHQL_URL] else [])
      ++ [fallbackUrl username year]
      ++ later
    /\ later `prefix_of` pageUrlsFrom (eventsEndpoint username) 2 2.
Proof.
  intros _ Hmiss. rewrite fetchAllGitHubData_miss by assumption. cbv zeta.
  cbn [snd world].
  destruct (startAll_elements tz nets username year token (world s))
    as (Hw & U1 & U2 & U3 & U4 & U5). cbv zeta in *.
  destruct (promiseAll_requested schedule _ (snd (startAll
              (elements tz nets username year token) (world s))) U1 U2 U4 U5)
    as (later & Hl & Hp).
  exists later. split.
  - rewrite Hl, Hw. rewrite <- !app_assoc. reflexivity.
  - destruct Hp as (k1 & Hk1). destruct U3 as (k2 & Hk2).
    exists (k1 ++ k2). rewrite Hk2, Hk1, <- app_assoc. reflexivity.
Qed.

(** X28.  When a call of fetchAllGitHubData is fulfilled its bundle is in
    the cache under the key of the call (stored by this call, or found
    fresh by it), and until that entry is 5 minutes old every call for the
    same user and year, with a token if and only if the first had one,
    returns the same bundle without sending a request and without changing
    the state, whatever the network would answer now and whichever token
    it is. *)
Theorem fetchAllGitHubData_again (tz : Z) (nets : Networks) (schedule : list Slot)
    (asked stored : Z) (username : string) (year : Z) (token : option string)
    (s s' : Service) (d : AllGitHubData) :
  fetchAllGitHubData tz nets schedule asked stored username year token s
  = (Some (inr d), s') ->
  exists timestamp,
    cache s' !! cacheKey username year token = Some (d, timestamp)
    /\ (timestamp = stored
        \/ cache s !! cacheKey username year token = Some (d, timestamp)
           /\ asked - timestamp < CACHE_TTL)
    /\ forall tz' nets' schedule' asked' stored' token',
        truthy token' = truthy token ->
        asked' - timestamp < CACHE_TTL ->
        fetchAllGitHubData tz' nets' schedule' asked' stored' username year
                           token' s'
        = (Some (inr d), s').
Proof.
  intros Hcall.
  assert (Hagain : forall timestamp,
             cache s' !! cacheKey username year token = Some (d, timestamp) ->
             forall tz' nets' schedule' asked' stored' token',
               truthy token' = truthy token ->
               asked' - timestamp < CACHE_TTL ->
               fetchAllGitHubData tz' nets' schedule' asked' stored' username
                                  year token' s'
               = (Some (inr d), s')).
  { intros timestamp Hin tz' nets' schedule' asked' stored' token' Htok Hfresh.
    unfold fetchAllGitHubData, getCached, cacheKey. rewrite Htok.
    unfold cacheKey in Hin. rewrite Hin.
    apply Z.ltb_lt in Hfresh. rewrite Hfresh. destruct s'; reflexivity. }
  destruct (fst (getCached asked (cacheKey username year token) (cache s)))
    as [data|] eqn:Hc.
  - unfold fetchAllGitHubData in Hcall. unfold getCached in Hc, Hcall.
    destruct (cache s !! cacheKey username year token) as [[data' timestamp]|]
      eqn:Hin; [|discriminate].
    destruct (asked - timestamp <? CACHE_TTL) eqn:Hfresh; [|discriminate].
    cbn in Hc. injection Hc as ->. injection Hcall as -> <-.
    exists timestamp. cbn [cache]. split; [assumption|].
    split; [right; split; [reflexivity|apply Z.ltb_lt; assumption]|].
    apply Hagain. assumption.
  - destruct (fetchAllGitHubData_fetched _ _ _ _ _ _ _ _ _ _ _ Hc Hcall)
      as (_ & _ & _ & _ & _ & Hs').
    assert (Hin : cache s' !! cacheKey username year token = Some (d, stored)).
    { rewrite Hs'. unfold setCache, Cache in *. apply lookup_insert_eq. }
    exists stored. split; [assumption|]. split; [left; reflexivity|].
    apply Hagain. assumption.
Qed.

(** *** handleSearch *)

Lemma getCached_absent asked key (c : Cache) :
  c !! key = None -> fst (getCached asked key c) = None.
Proof. unfold getCached. intros ->. reflexivity. Qed.

Lemma fetchAllGitHubData_settles_with tz nets schedule asked stored username
    year token s :
  (forall slot, (2 <= count_occ Slot_eq_dec schedule slot)%nat) ->
  (6 <= count_occ Slot_eq_dec schedule EventsSlot)%nat ->
  fst (getCached asked (cacheKey username year token) (cache s)) = None ->
  fst (fetchAllGitHubData tz nets schedule asked stored username year token s)
  <> None.
Proof.
  intros Htwice Hsix Hc.
  rewrite fetchAllGitHubData_miss by assumption. cbv zeta. cbn [fst].
  destruct (startAll_awaits (elements tz nets username year token) (world s))
    as (Ha & R1 & R2 & R3 & R4 & R5).
  apply promiseAll_settles; try assumption.
  intros slot. rewrite Ha.
  pose proof (awaits_elements tz nets username year token slot) as Hb.
  cbv zeta in Hb. specialize (Htwice slot). destruct slot; lia.
Qed.

(** X29.  A search for a login that GitHub does not know (404 for the
    profile and for the repositories) with nothing in the cache for it: in
    whatever order the responses arrive, the page stays in the loading
    state until the rejection and then shows the landing page with the
    message User <login> not found. Please check the username and try
    again.; the user and insights kept from an earlier search are
    untouched, nothing is cached, and the message is there once each
    fetcher has been resumed twice and the events fetcher six times. *)
Theorem handleSearch_unknown_user (h : JsHost) (nets : Networks)
    (schedule : list Slot) (asked stored now : Z) (username : string)
    (selectedYear : Z) (app : AppState) (s : Service)
    (r : Response GitHubUser) (r' : Response (list GitHubRepo)) :
  cache s !! cacheKey username selectedYear None = None ->
  profiles nets (urlOf ("/users/" +:+ username)) = Responded r ->
  status r = 404 ->
  repositories nets (urlOf (reposEndpoint username 1)) = Responded r' ->
  status r' = 404 ->
  let after :=
    handleSearch h nets schedule asked stored now username selectedYear app s in
  let notFound :=
    "User " +:+ quoted username +:+
    " not found. Please check the username and try again." in
  (fst after = mkAppState (app_user app) (app_insights app) selectedYear loading None
   \/ fst after = mkAppState (app_user app) (app_insights app) selectedYear failure
                             (Some notFound))
  /\ showsWrapped (fst after) = false
  /\ cache (snd after) !! cacheKey username selectedYear None = None
  /\ ((forall slot, (2 <= count_occ Slot_eq_dec schedule slot)%nat) ->
      (6 <= count_occ Slot_eq_dec schedule EventsSlot)%nat ->
      app_error (fst after) = Some notFound).
Proof.
  intros Hcache Hprofile H404 Hrepos H404' after notFound. subst after notFound.
  pose proof (getCached_absent asked _ _ Hcache) as Hmiss.
  pose proof (fetchAllGitHubData_settles_with (tzOffset h) nets schedule asked
                stored username selectedYear None s) as Hsettles.
  unfold handleSearch.
  destruct (fetchAllGitHubData _ _ _ _ _ _ _ _ _) as [[[e|d]|] s1] eqn:Hcall.
  - destruct (fetchAllGitHubData_thrown _ _ _ _ _ _ _ _ _ _ _ Hmiss Hcall)
      as (He & Hc).
    assert (e = GitHubApiError "User not found" 404 (Some "NOT_FOUND")) as ->.
    { destruct He as [(w & He)|(w & He)].
      - rewrite (answer_404 _ _ _ _ Hprofile H404) in He. congruence.
      - rewrite (answer_404 _ _ _ _ Hrepos H404') in He. congruence. }
    cbn [fst snd app_user app_insights app_year app_error errorMessage].
    split; [right; reflexivity|]. split; [reflexivity|].
    split; [|reflexivity]. rewrite Hc. unfold Cache in *. apply lookup_delete_eq.
  - exfalso.
    destruct (fetchAllGitHubData_fetched _ _ _ _ _ _ _ _ _ _ _ Hmiss Hcall)
      as (R1 & _).
    pose proof (returns_fetchGitHubT (profiles nets) ("/users/" +:+ username)
                  initialWorld) as Ha.
    unfold fetchUserProfileT in R1. rewrite R1 in Ha.
    rewrite (answer_404 _ _ _ _ Hprofile H404) in Ha. discriminate.
  - cbn [fst snd]. split; [left; reflexivity|]. split; [reflexivity|].
    split.
    + assert (Hs1 := f_equal snd Hcall). assert (Hf := f_equal fst Hcall).
      rewrite fetchAllGitHubData_miss in Hs1, Hf by assumption.
      cbv zeta in Hs1, Hf. cbn [fst snd] in Hs1, Hf. rewrite Hf in Hs1.
      rewrite <- Hs1. cbn [cache]. unfold Cache in *. apply lookup_delete_eq.
    + intros Htwice Hsix. exfalso. apply (Hsettles Htwice Hsix Hmiss). reflexivity.
Qed.

Lemma fetchAllGitHubData_value_witness :
  fst (fetchUserRepos (repositories adaOnline) "ada" 100 initialWorld)
  = inr fiveLanguages
  /\ contributionData adaBundle = None.
Proof.
  destruct (fetchAllGitHubData_value 0 adaOnline reposFirst 0 1000 "ada" 2024 None
              freshService
              (snd (fetchAllGitHubData 0 adaOnline reposFirst 0 1000 "ada" 2024
                                       None freshService))
              adaBundle) as (Hvalues & Hnull & _).
  - discriminate.
  - vm_compute. reflexivity.
  - vm_compute. reflexivity.
  - split; [apply (Hvalues initialWorld)|apply Hnull; reflexivity].
Defined.

Lemma fetchAllGitHubData_settles_witness :
  fst (fetchAllGitHubData 0 adaOnline reposFirst 0 1000 "ada" 2024 None
                          freshService) <> None
  /\ count_occ Slot_eq_dec reposFirst EventsSlot = 6%nat.
Proof.
  split; [|reflexivity].
  apply (fetchAllGitHubData_settles 0 adaOnline reposFirst 0 1000 "ada" 2024 None
           freshService).
  - intros []; vm_compute; lia.
  - vm_compute. lia.
Defined.

Lemma fetchAllGitHubData_requests_witness :
  exists later,
    requested
      (world (snd (fetchAllGitHubData 0 adaOnline reposFirst 0 1000 "ada" 2024
                                      (Some "secret") freshService)))
    = requested (world freshService)
      ++ [urlOf ("/users/" +:+ "ada"); urlOf (reposEndpoint "ada" 1);
          urlOf (eventsEndpoint "ada" 1)]
      ++ (if truthy (Some "secret") then [GITHUB_GRAPHQL_URL] else [])
      ++ [fallbackUrl "ada" 2024]
      ++ later
    /\ later `prefix_of` pageUrlsFrom (eventsEndpoint "ada") 2 2.
Proof.
  apply (fetchAllGitHubData_requests 0 adaOnline reposFirst 0 1000 "ada" 2024
           (Some "secret") freshService).
  - intros _. vm_compute. split; discriminate.
  - vm_compute. reflexivity.
Defined.

Lemma fetchAllGitHubData_again_witness :
  let s' :=
    snd (fetchAllGitHubData 0 adaOnline reposFirst 0 1000 "ada" 2024 None
                            freshService) in
  fetchAllGitHubData 0 nobodyOnline [] 300999 301000 "ada" 2024 (Some "") s'
  = (Some (inr adaBundle), s').
Proof.
  cbv zeta.
  destruct (fetchAllGitHubData_again 0 adaOnline reposFirst 0 1000 "ada" 2024 None
              freshService
              (snd (fetchAllGitHubData 0 adaOnline reposFirst 0 1000 "ada" 2024
                                       None freshService))
              adaBundle)
    as (timestamp & _ & [->|[Habsurd _]] & Hagain).
  - vm_compute. reflexivity.
  - apply Hagain; [reflexivity|]. vm_compute. reflexivity.
  - vm_compute in Habsurd. discriminate.
Defined.

Lemma handleSearch_unknown_user_witness :
  app_error
    (fst (handleSearch (Exact.host 0) nobodyOnline reposFirst 0 1000
                       noon_2024_03_05 "nobody" 2024 freshApp freshService))
  = Some ("User " +:+ quoted "nobody" +:+
          " not found. Please check the username and try again.").
Proof.
  refine (proj2 (proj2 (proj2
            (handleSearch_unknown_user (Exact.host 0) nobodyOnline reposFirst 0
               1000 noon_2024_03_05 "nobody" 2024 freshApp freshService
               (mkResponse 404 "Not Found" (mkHeaders None None None) ada)
               (mkResponse 404 "Not Found" (mkHeaders None None None) [])
               _ _ _ _ _))) _ _).
  - vm_compute. reflexivity.
  - reflexivity.
  - reflexivity.
  - reflexivity.
  - reflexivity.
  - intros []; vm_compute; lia.
  - vm_compute. lia.
Defined.

(* ================================================================== *)
(** ** Bodies that are not JSON                                        *)
(* ================================================================== *)

Lemma bindT_ext {A B : Type} (t : Task A) (k k' : A -> Task B) :
  (forall a, k a = k' a) -> bindT t k = bindT t k'.
Proof. intros H. induction t; cbn; auto; f_equal; assumption. Qed.

(** When every body is JSON the fetchers are those above. *)
Lemma fetchGitHubR_readable {T : Type} (net : Network T) endpoint :
  fetchGitHubR (fun _ => true) net endpoint = fetchGitHubT net endpoint.
Proof. reflexivity. Qed.

Lemma fetchUserReposR_loop_readable {Item : Type} (net : Network (list Item))
    username fuel maxRepos repos page :
  fetchUserReposR_loop (fun _ => true) net username fuel maxRepos repos page
  = fetchUserReposT_loop net username fuel maxRepos repos page.
Proof.
  revert repos page. induction fuel as [|fuel IH]; intros repos page;
    cbn [fetchUserReposR_loop fetchUserReposT_loop];
    destruct (len repos <? maxRepos); try reflexivity.
  rewrite fetchGitHubR_readable. apply bindT_ext. intros pageRepos.
  destruct (len pageRepos =? 0); [reflexivity|]. cbv zeta.
  destruct (len pageRepos <? perPage); [reflexivity|]. apply IH.
Qed.

Lemma fetchUserEventsR_loop_readable {Item : Type} (net : Network (list Item))
    username fuel maxEvents events page :
  fetchUserEventsR_loop (fun _ => true) net username fuel maxEvents events page
  = fetchUserEventsT_loop net username fuel maxEvents events page.
Proof.
  revert events page. induction fuel as [|fuel IH]; intros events page;
    cbn [fetchUserEventsR_loop fetchUserEventsT_loop];
    destruct ((len events <? maxEvents) && (page <=? 3)); try reflexivity.
  rewrite fetchGitHubR_readable. apply bindT_ext. intros [[events' page'] broke].
  destruct broke; [reflexivity|]. apply IH.
Qed.

Lemma elementsR_readable tz nets username year token :
  elementsR (fun _ => true) tz nets username year token
  = elements tz nets username year token.
Proof.
  unfold elementsR, elements, fetchUserReposR, fetchUserReposT,
    fetchUserEventsR, fetchUserEventsT.
  rewrite fetchUserReposR_loop_readable, fetchUserEventsR_loop_readable.
  reflexivity.
Qed.

Lemma fetchAllGitHubDataR_readable tz nets schedule asked stored username year
    token s :
  fetchAllGitHubDataR (fun _ => true) tz nets schedule asked stored username year
                      token s
  = fetchAllGitHubData tz nets schedule asked stored username year token s.
Proof.
  unfold fetchAllGitHubDataR, fetchAllGitHubData.
  rewrite elementsR_readable. reflexivity.
Qed.

Section FetchR.

Context (readable : string -> bool) {T : Type} (net : Network T).

(** What [fetchGitHub] throws. *)
Lemma throwsOnly_fetchGitHubR endpoint W :
  throwsOnly (failsWith readable net endpoint) W
             (fetchGitHubR readable net endpoint).
Proof.
  unfold failsWith, unreadable, fetchGitHubR, answer, urlOf, fetchT, jsonR.
  cbn.
  destruct (net _) as [|r] eqn:Hnet; cbn; [eauto using initialWorld|].
  destruct (ok r) eqn:Hok; cbn.
  - destruct (readable _) eqn:Hread; cbn; [exact I|].
    intros w _. right. eauto.
  - destruct (status r =? 404); cbn; [eauto using initialWorld|].
    destruct (status r =? 403); cbn; [|eauto using initialWorld].
    intros w' (w & ->). left. exists w. reflexivity.
Qed.

End FetchR.

Section FetchersRFacts.

Context (readable : string -> bool) {Item : Type} (net : Network (list Item))
        (username : string).

(** With a limit of at most a page the loop of [fetchUserRepos] has one
    round. *)
Lemma fetchUserReposR_loop_once fuel (k : list Item -> Task (list Item)) :
  (forall l, len l = 0 -> k [] = k l) ->
  bindT (fetchUserReposR_loop readable net username (S (S fuel)) 100 [] 1) k
  = bindT (fetchGitHubR readable net (reposEndpoint username 1)) k.
Proof.
  intros Hk.
  cbn [fetchUserReposR_loop]. rewrite len_nil. cbn [Z.ltb Z.compare].
  unfold fetchGitHubR, fetchT, jsonR. cbn [bindT].
  destruct (net _) as [|r]; [reflexivity|]. cbn [bindT].
  destruct (negb (ok r)).
  - destruct (status r =? 404); [reflexivity|].
    destruct (status r =? 403); reflexivity.
  - cbn [bindT]. destruct (readable _); [|reflexivity]. cbn [bindT].
    do 4 f_equal.
    destruct (len (json r) =? 0) eqn:H0.
    + cbn [bindT]. apply Z.eqb_eq in H0. auto.
    + cbn [app]. destruct (len (json r) <? perPage) eqn:Hlt; [reflexivity|].
      unfold perPage in Hlt. rewrite Hlt. reflexivity.
Qed.

Lemma fetchUserReposR_100 :
  fetchUserReposR readable net username 100
  = bindT (fetchGitHubR readable net (reposEndpoint username 1))
          (fun pageRepos => Return (slice0 100 pageRepos)).
Proof.
  unfold fetchUserReposR. replace (Z.to_nat 100) with (S (S 98)) by reflexivity.
  apply fetchUserReposR_loop_once.
  intros l Hl. unfold len in Hl. destruct l; [reflexivity|]. cbn in Hl. lia.
Qed.

Lemma throwsOnly_reposR W :
  throwsOnly (failsWith readable net (reposEndpoint username 1)) W
             (fetchUserReposR readable net username 100).
Proof.
  rewrite fetchUserReposR_100. apply throwsOnly_bindT.
  - apply throwsOnly_fetchGitHubR.
  - intros a W'. exact I.
Qed.

Lemma returns_events_roundR (events : list Item) page a :
  returns
    (catchT
       (do pageEvents := fetchGitHubR readable net (eventsEndpoint username page) in
        if len pageEvents =? 0 then Return (events, page, true)
        else Return (events ++ pageEvents, page + 1, false))
       (Return (events, page, true))) = Some a ->
  a = (events, page, true) \/ exists l, a = (events ++ l, page + 1, false).
Proof.
  rewrite returns_catchT, returns_bindT.
  destruct (returns (fetchGitHubR _ _ _)) as [l|]; cbn.
  - destruct (len l =? 0); cbn; intros [= <-]; eauto.
  - intros [= <-]. auto.
Qed.

(** The events never make the bundle fail, whatever their bodies. *)
Lemma throwsOnly_fetchUserEventsR_loop fuel maxEvents events page W :
  4 <= Z.of_nat fuel + page ->
  throwsOnly (fun _ => False) W
    (fetchUserEventsR_loop readable net username fuel maxEvents events page).
Proof.
  revert events page W. induction fuel as [|fuel IH]; intros events page W Hfuel;
    cbn [fetchUserEventsR_loop];
    destruct ((len events <? maxEvents) && (page <=? 3)) eqn:Hc; try exact I.
  - apply andb_prop in Hc as [_ Hp]. apply Z.leb_le in Hp. lia.
  - apply andb_prop in Hc as [_ Hp]. apply Z.leb_le in Hp.
    apply throwsOnly_bindT_returned; [apply throwsOnly_catchT|].
    intros a W' Ha. apply returns_events_roundR in Ha as [->|(l & ->)];
      [exact I|]. apply IH. lia.
Qed.

End FetchersRFacts.

(** Nor do the two optional sources. *)
Lemma throwsOnly_fetchContributionDataR readable tz net username year token Q W :
  throwsOnly Q W
    (if truthy token
     then fetchContributionDataR readable tz net username year token
     else Return None).
Proof.
  destruct (truthy token) eqn:Htok; [|exact I].
  unfold fetchContributionDataR. destruct token as [tok|]; [|exact I].
  rewrite Htok. cbn [negb]. apply throwsOnly_catchT.
Qed.

Lemma throwsOnly_fetchContributionCalendarFallbackR readable tz net username year
    Q W :
  throwsOnly Q W (fetchContributionCalendarFallbackR readable tz net username year).
Proof. apply throwsOnly_catchT. Qed.

Lemma fetchAllGitHubDataR_progress readable tz nets schedule asked stored username
    year token s :
  fst (getCached asked (cacheKey username year token) (cache s)) = None ->
  exists p' w',
    Each (@progressed) (elementsR readable tz nets username year token) p'
    /\ fetchAllGitHubDataR readable tz nets schedule asked stored username year
                           token s
       = (settled p' w',
          mkService w'
            match settled p' w' with
            | Some (inr result) =>
                setCache stored (cacheKey username year token) result
                         (delete (cacheKey username year token) (cache s))
            | _ => delete (cacheKey username year token) (cache s)
            end).
Proof.
  intros Hmiss. pose proof (getCached_miss _ _ _ Hmiss) as Hc.
  destruct (all_progress schedule (elementsR readable tz nets username year token)
              (world s)) as (p' & HE & Hf). cbv zeta in Hf.
  exists p'. eexists. split; [exact HE|]. rewrite <- Hf.
  unfold fetchAllGitHubDataR.
  destruct (getCached _ _ _) as [cached cache1]. cbn in Hmiss, Hc. subst.
  destruct (startAll _ _) as [p1 w1]. cbn [fst snd].
  destruct (promiseAll schedule p1 w1) as [[[e|d]|] w']; reflexivity.
Qed.

(** A body of the profile or of the first page of the repositories that
    is not JSON: the call is not fulfilled. *)
Lemma fetchAllGitHubDataR_unreadable readable tz nets schedule asked stored
    username year token s d :
  fst (getCached asked (cacheKey username year token) (cache s)) = None ->
  unreadable readable (profiles nets) ("/users/" +:+ username)
  \/ unreadable readable (repositories nets) (reposEndpoint username 1) ->
  fst (fetchAllGitHubDataR readable tz nets schedule asked stored username year
                           token s) <> Some (inr d).
Proof.
  intros Hmiss Hun Hcall.
  destruct (fetchAllGitHubDataR_progress readable tz nets schedule asked stored
              username year token s Hmiss) as (p' & w' & HE & Heq).
  rewrite Heq in Hcall. cbn [fst] in Hcall.
  apply settled_fulfilled in Hcall as (H1 & H2 & _).
  destruct HE as (E1 & E2 & _).
  apply progressed_returns in E1, E2. rewrite H1 in E1. rewrite H2 in E2.
  cbn [elementsR p_user p_repos returns] in E1, E2.
  destruct Hun as [(r & Hnet & Hok & Hread)|(r & Hnet & Hok & Hread)].
  - unfold fetchUserProfileR, fetchGitHubR, fetchT, jsonR, urlOf in *.
    cbn in E1. rewrite Hnet in E1. cbn in E1. rewrite Hok, Hread in E1.
    discriminate.
  - rewrite fetchUserReposR_100 in E2. rewrite returns_bindT in E2.
    unfold fetchGitHubR, fetchT, jsonR, urlOf in *.
    cbn in E2. rewrite Hnet in E2. cbn in E2. rewrite Hok, Hread in E2.
    discriminate.
Qed.

(** X25.  A call of fetchAllGitHubData that finds nothing fresh in the
    cache is rejected only because of the profile request or of the first
    page of the repositories: with the error fetchGitHub makes of that
    response (or the rejection of fetch), or, when that response is ok,
    with the error of response.json() for a body that is not JSON (an
    error that is not a GitHubApiError). The events, the GraphQL summary
    and the fallback calendar never reject it, whatever their responses
    and whether or not their bodies are JSON. Nothing is stored in the
    cache then, and an out-of-date entry of the key is gone. (With a
    token, for a year a Date can hold; a body that is JSON is taken to be
    of the type the code declares.) *)
Theorem fetchAllGitHubData_rejected (readable : string -> bool) (tz : Z)
    (nets : Networks) (schedule : list Slot) (asked stored : Z)
    (username : string) (year : Z) (token : option string) (s s' : Service)
    (e : Thrown) :
  (truthy token = true ->
   inDateRange (Date.make tz year 0 1) /\ inDateRange (endOfYear tz year)) ->
  fst (getCached asked (cacheKey username year token) (cache s)) = None ->
  fetchAllGitHubDataR readable tz nets schedule asked stored username year token s
  = (Some (inl e), s') ->
  (failsWith readable (profiles nets) ("/users/" +:+ username) e
   \/ failsWith readable (repositories nets) (reposEndpoint username 1) e)
  /\ cache s' = delete (cacheKey username year token) (cache s)
  /\ cache s' !! cacheKey username year token = None.
Proof.
  intros _ Hmiss Hcall.
  destruct (fetchAllGitHubDataR_progress readable tz nets schedule asked stored
              username year token s Hmiss) as (p' & w' & HE & Heq).
  rewrite Heq in Hcall.
  assert (Hs : settled p' w' = Some (inl e)) by exact (f_equal fst Hcall).
  assert (Hc : cache s' = delete (cacheKey username year token) (cache s)).
  { apply (f_equal snd) in Hcall. cbn [snd] in Hcall. subst s'.
    rewrite Hs. reflexivity. }
  split; [|split; [exact Hc|rewrite Hc; unfold Cache in *; apply lookup_delete_eq]].
  destruct HE as (E1 & E2 & E3 & E4 & E5).
  cbn [elementsR p_user p_repos p_events p_contributionData
       p_contributionCalendar] in *.
  apply settled_rejected in Hs as [J|[J|[J|[J|J]]]].
  - left.
    eapply (rejection_throwsOnly
              (failsWith readable (profiles nets) ("/users/" +:+ username)));
      [|exact J].
    eapply progressed_throwsOnly; [exact E1|]. apply throwsOnly_fetchGitHubR.
  - right.
    eapply (rejection_throwsOnly
              (failsWith readable (repositories nets) (reposEndpoint username 1)));
      [|exact J].
    eapply progressed_throwsOnly; [exact E2|]. apply throwsOnly_reposR.
  - exfalso. eapply (rejection_throwsOnly (fun _ => False)); [|exact J].
    eapply progressed_throwsOnly; [exact E3|].
    apply throwsOnly_fetchUserEventsR_loop. lia.
  - exfalso. eapply (rejection_throwsOnly (fun _ => False)); [|exact J].
    eapply progressed_throwsOnly; [exact E4|].
    apply throwsOnly_fetchContributionDataR.
  - exfalso. eapply (rejection_throwsOnly (fun _ => False)); [|exact J].
    eapply progressed_throwsOnly; [exact E5|].
    apply throwsOnly_fetchContributionCalendarFallbackR.
Qed.

Lemma fetchAllGitHubData_rejected_witness :
  (failsWith profileOfAdaUnreadable (profiles adaOnline) "/users/ada" FetchRejected
   \/ failsWith profileOfAdaUnreadable (repositories adaOnline)
                (reposEndpoint "ada" 1) FetchRejected)
  /\ cache (snd (fetchAllGitHubDataR profileOfAdaUnreadable 0 adaOnline reposFirst
                                     0 1000 "ada" 2024 None freshService))
     !! cacheKey "ada" 2024 None = None.
Proof.
  pose proof (fetchAllGitHubData_rejected profileOfAdaUnreadable 0 adaOnline
                reposFirst 0 1000 "ada" 2024 None freshService
                (snd (fetchAllGitHubDataR profileOfAdaUnreadable 0 adaOnline
                        reposFirst 0 1000 "ada" 2024 None freshService))
                FetchRejected) as H.
  destruct H as (H1 & _ & H3).
  - discriminate.
  - vm_compute. reflexivity.
  - vm_compute. reflexivity.
  - split; assumption.
Defined.

(* ================================================================== *)
(** ** Properties of the heat map                                      *)
(* ================================================================== *)

Lemma firstNewMonth_Some tz year currentMonth days m :
  firstNewMonth tz year currentMonth days = Some m ->
  0 <= m < 12 /\ m <> currentMonth.
Proof.
  induction days as [|day days IH]; cbn [firstNewMonth]; [discriminate|].
  cbv zeta.
  destruct ((Date.getFullYear tz (Date.parse (date day)) =? year)
            && negb (Date.getMonth tz (Date.parse (date day)) =? currentMonth))
    eqn:Hc; [|exact IH].
  intros [= <-]. apply andb_prop in Hc as [_ Hc].
  apply negb_true_iff, Z.eqb_neq in Hc.
  split; [apply getMonth_range|exact Hc].
Qed.

Lemma at_index_MONTHS_inj m m' :
  0 <= m < 12 -> 0 <= m' < 12 ->
  at_index MONTHS m = at_index MONTHS m' -> m = m'.
Proof.
  intros Hm Hm' Heq.
  assert (Hcases : forall k, 0 <= k < 12 ->
            k = 0 \/ k = 1 \/ k = 2 \/ k = 3 \/ k = 4 \/ k = 5 \/ k = 6 \/ k = 7
            \/ k = 8 \/ k = 9 \/ k = 10 \/ k = 11) by (intros; lia).
  destruct (Hcases m Hm) as [->|[->|[->|[->|[->|[->|[->|[->|[->|[->|[->| ->]]]]]]]]]]];
    destruct (Hcases m' Hm') as [->|[->|[->|[->|[->|[->|[->|[->|[->|[->|[->| ->]]]]]]]]]]];
    first [reflexivity | vm_compute in Heq; discriminate Heq].
Qed.

Lemma at_index_MONTHS_In m : 0 <= m < 12 -> In (at_index MONTHS m) MONTHS.
Proof.
  intros Hm.
  assert (Hcases : m = 0 \/ m = 1 \/ m = 2 \/ m = 3 \/ m = 4 \/ m = 5 \/ m = 6
                   \/ m = 7 \/ m = 8 \/ m = 9 \/ m = 10 \/ m = 11) by lia.
  destruct Hcases as [->|[->|[->|[->|[->|[->|[->|[->|[->|[->|[->| ->]]]]]]]]]]];
    vm_compute; tauto.
Qed.

Lemma fold_left_pointwise {A B : Type} (f g : A -> B -> A) (l : list B) :
  (forall a b, f a b = g a b) ->
  forall a, fold_left f l a = fold_left g l a.
Proof.
  intros Hfg. induction l as [|b l IH]; intros a; cbn; [reflexivity|].
  rewrite Hfg. apply IH.
Qed.

Lemma monthLabels_eq tz calendar year :
  monthLabels tz calendar year
  = fst (fold_left (labelStep tz year)
           (imap (fun i week => (Z.of_nat i, week)) (weeks calendar)) ([], -1)).
Proof.
  unfold monthLabels. f_equal. apply fold_left_pointwise.
  intros [labels currentMonth] [weekIndex week]. reflexivity.
Qed.

(** The state of the loop after the first [n] weeks. *)
Lemma monthLabels_scan tz year (ws : list ContributionWeek) :
  let state :=
    fold_left (labelStep tz year) (imap (fun i week => (Z.of_nat i, week)) ws)
              ([], -1) in
  Forall (fun label => 0 <= weekIndex label < len ws
                       /\ In (ml_month label) MONTHS) (fst state)
  /\ StronglySorted Z.lt (map weekIndex (fst state))
  /\ (forall i a b, fst state !! i = Some a -> fst state !! S i = Some b ->
                    ml_month a <> ml_month b)
  /\ match last (fst state) with
     | Some label => 0 <= snd state < 12
                     /\ ml_month label = at_index MONTHS (snd state)
     | None => snd state = -1
     end.
Proof.
  cbv zeta. induction ws as [|week ws IH] using rev_ind.
  - cbn. repeat split; auto; try constructor;
      try (intros i a b H; destruct i; discriminate).
  - rewrite imap_app, fold_left_app. cbn [imap fold_left].
    destruct (fold_left _ _ _) as [labels currentMonth].
    cbn [fst snd] in IH. destruct IH as (Hall & Hsorted & Hadj & Hlast).
    rewrite Nat.add_0_r. unfold labelStep.
    assert (Hlen : len (ws ++ [week]) = len ws + 1).
    { unfold len. rewrite length_app. cbn. lia. }
    rewrite Hlen. clear Hlen.
    destruct (firstNewMonth _ _ _ _) as [m|] eqn:Hm; cbn [fst snd].
    + apply firstNewMonth_Some in Hm as [Hm Hne].
      split; [|split; [|split]].
      * apply Forall_app. split.
        -- eapply Forall_impl; [exact Hall|]. cbv beta. intros label [H1 H2].
           split; [lia|exact H2].
        -- constructor; [|constructor]. cbn. split; [unfold len; lia|].
           apply at_index_MONTHS_In. exact Hm.
      * rewrite List.map_app. cbn [map].
        clear Hadj Hlast. induction labels as [|label labels IHl]; cbn.
        -- constructor; constructor.
        -- inversion Hsorted as [|? ? Hs Hf]; subst.
           inversion Hall as [|? ? Hl Hr]; subst.
           constructor; [apply IHl; assumption|].
           apply Forall_app. split; [exact Hf|].
           constructor; [|constructor]. cbn. unfold len in Hl. lia.
      * intros i a b Ha Hb.
        destruct (Nat.lt_ge_cases (S i) (length labels)) as [Hlt|Hge].
        -- rewrite lookup_app_l in Ha, Hb by lia. eapply Hadj; eassumption.
        -- rewrite lookup_app_r in Hb by lia.
           destruct (S i - length labels)%nat as [|k] eqn:Hk;
             [|destruct k; discriminate].
           injection Hb as <-. cbn [ml_month].
           assert (Hi : i = (length labels - 1)%nat) by lia.
           rewrite lookup_app_l in Ha by lia.
           assert (Hl : last labels = Some a).
           { rewrite last_lookup. rewrite <- Ha. f_equal. lia. }
           rewrite Hl in Hlast. destruct Hlast as [Hc ->].
           intros Heq. apply at_index_MONTHS_inj in Heq; try assumption.
           congruence.
      * rewrite last_snoc. cbn. split; [exact Hm|reflexivity].
    + split; [|split; [|split]]; try assumption.
      eapply Forall_impl; [exact Hall|]. cbv beta. intros label [H1 H2].
      split; [lia|exact H2].
Qed.

(** X30.  The month labels of the contribution heat map: the week indices
    of the labels are indices of weeks of the calendar and strictly
    increase, so a week carries at most one label and the React keys
    month-weekIndex of the labels are distinct; every label is one of the
    twelve names Jan..Dec; and two neighbouring labels never name the same
    month. *)
Theorem monthLabels_in_order (tz : Z) (calendar : ContributionCalendar)
    (year : Z) :
  let labels := monthLabels tz calendar year in
  StronglySorted Z.lt (map weekIndex labels)
  /\ Forall (fun label => 0 <= weekIndex label < len (weeks calendar)
                          /\ In (ml_month label) MONTHS) labels
  /\ NoDup (map (fun label => (ml_month label, weekIndex label)) labels)
  /\ forall i a b, labels !! i = Some a -> labels !! S i = Some b ->
                   ml_month a <> ml_month b.
Proof.
  cbv zeta. rewrite monthLabels_eq.
  destruct (monthLabels_scan tz year (weeks calendar)) as (Hall & Hsorted & Hadj & _).
  cbv zeta in *.
  split; [exact Hsorted|]. split; [exact Hall|]. split; [|exact Hadj].
  revert Hsorted. generalize (fst (fold_left (labelStep tz year)
     (imap (fun i week => (Z.of_nat i, week)) (weeks calendar)) ([], -1))).
  intros labels. induction labels as [|label labels IH]; cbn; intros Hs.
  - constructor.
  - inversion Hs as [|? ? Hs' Hf]; subst. constructor; [|apply IH; exact Hs'].
    intros Hin. apply list_elem_of_In, in_map_iff in Hin as (label' & Heq & Hin').
    injection Heq as _ Hw.
    rewrite Forall_forall in Hf.
    assert (weekIndex label < weekIndex label').
    { apply Hf. apply list_elem_of_In, in_map_iff. exists label'.
      split; [reflexivity|exact Hin']. }
    lia.
Qed.
